(* ===== verification/_CoqProject ===== *)
-Q . S2P
Prelude.v
PyFloat.v
Config.v
Draw.v
GameMap.v
MapRender.v
MapGen.v
Entity.v
Tank.v
Structures.v
GameState.v
Lifecycle.v
Accounting.v
Controller.v
Cache.v
Render.v
Launcher.v
Enums.v
ConfigModule.v
BaseEntity.v
Lesson.v
LessonRender.v
