(* ===== verification/Prelude.v ===== *)
(** * bring-back-BOLO: a verified model of the game

    The repository is a top-down tank game.  Its engine
    ([src/src/bolo_engine.py]) keeps a tile map and a collection of
    entities (tanks, shells, mines, pillboxes, bases), advances them one
    frame at a time, and is driven by a controller that sets the game up,
    turns key events into actions and steers the enemy tanks.  Beside the
    engine the package holds its planned split into modules:
    [src/src/config.py] and [src/src/enums.py] restate the constants, the
    terrain table and the enumerations, and
    [src/src/entities/base_entity.py] is a dataclass variant of the entity
    base class; the engine imports none of them.
    [src/lesson/tank_game.py] is a smaller game of its own, and
    [src/main.py] launches the engine.  Both games draw every frame
    through pygame.

    ** Files of the development, in dependency order

    - [Prelude] (this file): the tactics and the hint database [bolo]
      shared by every file, Python's integer [min]/[max] chains, and the
      generic lemmas: two-dimensional lists ([grid_get], [grid_set],
      [rect], and [painted] for loops that fill a grid), loops that may
      raise ([foldlM] with its indexed invariant), loops with an early
      exit ([scan]), [range] and list indexing as Python does them
      ([py_range], [py_index]), the search for a best element
      ([argbest]), Python's stable [sorted] ([py_sorted], with the lemma
      that sorting by a key of layers is a sequence of filters), and the
      lemmas that move a function through a fold ([foldl_commute] and the
      like), which carry the non-interference proofs of [Cache].
    - [PyFloat]: Python's [float] as Rocq's primitive binary64 floats.
      Conversions from [int], [int(x)] and [int(x // d)] with their
      exceptions ([py_int], [py_int_floordiv]), [int / int]
      ([py_truediv]), [x % d], the two-argument
      [min] and [max], [math.radians], [math.degrees], the distance of the
      collision tests, and the order lemmas on float comparison.  The
      functions of the C math library ([math.cos], [math.sin],
      [math.atan2]) and the sequence of [random.random()] draws are the
      operations of the class [Platform]: the code is modelled for every
      platform, and the witnesses run on instances of it.
    - [Config]: the class [Config], [TileType], [Team], [TerrainInfo] and
      the tables [TERRAIN_DATA] and [TEAM_COLORS] of the engine, as
      finite maps.
    - [Draw]: the calls the programs make on pygame, as data: a
      primitive drawn on a surface, a surface as the list of its
      primitives, a blit, the flip ([Prim], [Surface], [DrawCmd]), and
      which of them pygame accepts ([DrawCmd_ok]).
    - [GameMap]: the class [GameMap]: [get_tile], [set_tile],
      [damage_tile], the pixel dimensions, and [render] with
      [_rebuild_terrain_surface] and the cached surface.
    - [MapRender]: the theorems on [GameMap.render]: the picture it
      blits, and that the cache is transparent.
    - [MapGen]: [GameMap.generate_random], with the indexing of the grid
      as Python does it, so that the [IndexError] of a grid too small for
      the roads is a result of the model.
    - [Entity]: the fields every entity has ([EntityBase]: id, position,
      alive flag), [Resources], and the classes [Shell] and [Mine].
    - [Tank]: the class [Tank]: [update], movement with its terrain and
      bounds checks, rotation, [fire], [place_mine], [take_damage],
      [resupply].
    - [Structures]: the classes [Pillbox] (cooldown, aggression, target
      selection, damage, capture) and [Base] (regeneration, resupply of a
      tank, damage, capture).
    - [GameState]: the object store, the class [GameState] and its frame
      pipeline [GameState_update]: merge of the pending buffer, update of
      every entity, the four collision passes in their order, purge of
      dead entities, camera.
    - [Lifecycle]: the life cycle of an entity as the specification
      gives it, as a transition system on five stages ([Life],
      [life_frame]), the stage of an entity in a game state ([life]), and
      the proof that the frames of [GameState_update] are runs of the
      system.
    - [Accounting]: the totals of health and of live ammunition over
      the store ([map_sum], [total_health], [live_ammo]) and the
      invariant that the collision passes and whole frames take no more
      health than they consume ammunition.
    - [Controller]: the class [BoloGame]: [_setup_game], the event loop
      and [_handle_keydown], [_update] with the held keys,
      [_simple_enemy_ai], and [run] as the sequence of its turns.
    - [Cache]: the game up to the render cache of its map: the state
      without its cache as a normal form ([GameState_uncached]), the
      equivalence it induces as [Equiv] instances, one commutation lemma
      for each operation of the engine and of the controller, and the
      [Proper] instances that follow.
    - [Render]: the [draw] methods of the five entity classes,
      [BoloGame._render] with its sort by layer and [_render_ui], and
      [BoloGame_run_screen], the loop of [run] with the frame of every
      turn.
    - [Launcher]: [main] of [main.py] and of the engine, and the names
      the two [__init__.py] files export.
    - [Enums]: the six enumerations of [enums.py] as instances of the
      class [IntEnum], with the engine's two enumerations as instances
      too.
    - [ConfigModule]: the dataclasses of [config.py], their instances and
      the table [TERRAIN], with their agreement with the engine and the
      places where the engine does otherwise.
    - [BaseEntity]: the dataclass [Entity] of [base_entity.py], with
      equality by identifier as a setoid.
    - [Lesson]: the lesson game: its four classes, the two overlap tests
      and the loop of [main].
    - [LessonRender]: the [draw] methods of the lesson game, [draw_text]
      and the rendering part of the loop; [lesson_run_screen] is the
      loop with its frames.

    ** How state is modelled

    Python objects are mutable and shared: [GameState.player] is the same
    object as one element of [GameState.entities], and stays reachable
    after it has been purged from that list.  The model therefore keeps an
    object store [heap : gmap nat EntityObj] keyed by the entity id (ids
    come from the counter [Entity._next_id] of the class, the field
    [id_counter], and are never reused, so an id is an object identity);
    [entities], [pending_entities] and [player] hold ids.  The position in
    the sequence of random draws is the field [rng_pos].  A method that
    mutates [self] is a function that returns the new object; a method
    that also touches the map, the pending buffer or the counters takes
    and returns them.  A [for] loop over a list is a fold over it; a loop
    with [break] is [scan], which stops at the first hit; a loop whose
    body may raise is [foldlM], and an exception is the [None] of an
    [option].  In the lesson game, whose objects have no identifier, a
    bullet or an enemy is listed with the tag it got when it was
    constructed, which is what [in] and [list.remove] compare.

    The input of a controller is the list, frame by frame, of the events
    and of the held keys; [BoloGame_run] and [lesson_run] fold the turn of
    the loop over it, so a theorem about every list of inputs is a theorem
    about every run.

    Drawing is output: a [draw] method is a function from the object to
    the list of the calls it makes on pygame, in call order
    ([list DrawCmd]), and a frame is the concatenation of those lists.
    Where a method converts a coordinate with [int()], which raises on a
    NaN or an infinity, its result is an [option]; an exception ends the
    program before the frame is flipped, so the calls made before it are
    never shown and the model drops them.  The one thing rendering writes
    is the cached terrain surface of the map and its dirty flag; they are
    fields of [GameMap], and [BoloGame__render] returns the game with the
    cache it leaves.  [BoloGame_run] is the loop without rendering and
    [BoloGame_run_screen] the loop with it; the theorems of [Cache] and
    [Render] show that the first is the second with the frames forgotten,
    up to the cache, so that what is proved of [BoloGame_run] holds of
    the program.

    Python [int]s are [Z] (unbounded, so nothing wraps).  Python [float]s
    are primitive floats, so that arithmetic, [math.sqrt] and comparison
    evaluate bit for bit as in CPython; integers that meet floats are
    converted by [Z2F], exactly as CPython converts them while they are
    below [2^53] in absolute value, which holds for every constant of the
    code; [int(x // d)] is exact while the quotient is below [2^53].
    The specification (7) has the coordinates always numeric, and the
    model of the simulation is the code on numeric coordinates: in
    [tile_position], where Python raises on a position that is an
    infinity or not a number, the model reads tile 0
    ([tile_position_numeric] is the agreement on numbers), and
    [math.cos] and [math.sin], which raise on an infinite angle, are
    total functions of [Platform].  It takes a math library that returns
    a NaN or an infinity to leave the numbers.  In the drawing code the
    exceptions of [int()] are modelled.  No
    recursion in the model needs fuel: every loop runs over a finite list.
    The one unbounded recursion of the code, the restart of the lesson
    game by a call of [main] from inside [main], is modelled by the depth
    of the stack and a limit on it, beyond which the restart raises.

    ** What the theorems show

    - Terrain: the table covers every tile kind; out-of-bounds lookups
      read as wall; [set_tile] then [get_tile] round-trips and keeps the
      dimensions; [damage_tile] refines the transition table of the
      specification and reaches a fixed point within two hits.
    - Map generation: the generated map cell by cell, with the index of
      the draw each interior cell takes; the [IndexError] exactly when a
      road does not fit; walled borders from 3 by 3 tiles on.
    - Tank: every sequence of methods keeps the resources within their
      maxima and the angle in [[0, 360)], among the multiples of the
      rotation speed; [fire] and [place_mine] on their failure and success
      branches; a move either leaves the position unchanged or lands
      inside the pixel bounds on terrain the tank may enter; a tank
      holding a boat can enter deep water but cannot move once there.
    - Shell and Mine: a shell is destroyed within [lifetime] updates; a
      shell that meets a wall damages it and dies; detonation craters the
      mine's tile.  In a game that runs, every shell has left both lists
      after as many frames as it had left to live, and stays out
      ([shell_leaves_within_lifetime]).
    - Pillbox and Base: health, aggression and stock stay in range under
      every sequence of methods; the target chosen is the nearest hostile
      tank in range, the first one on ties; the resupply of a tank
      conserves stock and respects both caps; regeneration is a
      countdown.
    - Frame pipeline: well-formedness of the state (a rectangular map,
      every stored object under its id and within the invariant of its
      class, no dangling reference) is an invariant of any number of
      frames; a paused frame is the identity; after a frame every listed
      entity is alive; an object keeps its class and id and never comes
      back to life; a shell hits the first tank in contact and never its
      owner or its own team; the camera stays within the map.
    - Accounting: over the collision passes the armor of the tanks and
      the health of the pillboxes fall, in total, by no more than the
      damage of the shells and mines consumed, so a shell harms one
      target at most whatever the order of the entities
      ([process_collisions_damage_paid]); over any number of frames the
      same holds with one shell more for every object the frames
      constructed ([GameState_frames_damage_paid]).
    - Life cycle: a frame moves every entity by one transition of the
      abstract system (an object enters the store through the pending
      buffer only, is merged at the next running frame, is listed only
      while alive, and is purged for good), so what rule induction shows
      of every run of the system (the stage never goes back, a purged
      entity stays purged) holds of every run of the engine; the turns of
      the controller, without a restart, are runs of the system too.
    - Controller: the set-up always succeeds and puts the player on a
      road; no sequence of inputs makes the game raise or leave the
      well-formed states; pause, restart, a dead player and the enemy
      behaviour each on all their branches; the fire key acts at most
      once in a frame, the mine key as often as it is reported; a paused
      turn changes nothing but what the keys of the player change, which
      a pause does not stop ([BoloGame_paused_turn]).
    - Render cache: the game does not see it.  Games that differ in
      the cache only are run to games that differ in the cache only, and
      raise together ([BoloGame_run_cache_blind]); rendering with the
      cache and after discarding it give the same calls
      ([GameMap_render_cache_transparent]).
    - Rendering: the picture [GameMap.render] blits, cell by cell; the
      sort of [_render] is three passes over the entity list, tanks
      last; what each entity class draws, with the bounds of the health
      square and of the supply disc; the banners of the display on every
      branch; every call of a frame of a well-formed state is one pygame
      accepts; [_render] raises exactly on a map of negative size, a
      camera that is not a number, or a listed entity whose drawing
      raises; the loop with rendering refines the loop without.
    - Launcher: the banner is printed in every case, the construction of
      the game never raises, the farewell is printed exactly when the
      loop returns.
    - Package modules: the enumerations are read back from their values
      and agree with the engine's; the terrain table of [config.py]
      extends the engine's; the constants agree except those listed;
      entities built in a row have fresh identifiers, and equality by
      identifier is an equivalence that the hash respects.
    - Lesson game: the player and the enemies cannot leave the window,
      NaN included; the invariant of the loop over any inputs; the score,
      the bullets and the enemies after a playing turn; a finished game
      stands still; a restart nests a call and raises at the limit; a
      frame is well formed, and its rendering returns exactly when the
      bullets, the enemies and the tips of the cannons are at numbers,
      the body of the player never being the cause; the loop with its
      frames refines the loop without.

    ** What is not modelled

    What pygame does with the calls (rasterising, the fonts, the window)
    and the clock are outside the repository; the model stops at the
    calls.  That rendering does not raise on the states a game reaches is
    not proved: it needs every position to be a number, which depends on
    the rounding of [x + cos(a) * speed] and on a math library that
    returns numbers, and [Platform] assumes nothing of it; the theorems
    say instead exactly when a frame raises.  Of a frame that raises the
    calls made before the exception are dropped.  [__repr__] of
    [base_entity.py], which formats floats, and the abstract [update] and
    [draw] of that class are left out. *)

From Stdlib Require Export ZArith Lia.
From stdpp Require Export base tactics list option numbers.

#[global] Open Scope Z_scope.

(** ** Hint database and tactics *)

Create HintDb bolo discriminated.
Create Rewrite HintDb bolo.

(** [split_guards] splits on every decision, boolean decision and [match]
    left in the goal or in the hypotheses once a definition has been
    unfolded, and closes the arithmetic cases. *)
Ltac split_guard :=
  first
    [ case_decide
    | case_bool_decide
    | case_match ].

Ltac split_guards :=
  repeat (split_guard; simplify_eq/=); try done; try lia.

(** [bolo_auto] is the closing tactic of the development: simplification,
    the hint database, then linear arithmetic. *)
Ltac bolo_auto :=
  simplify_eq/=; autorewrite with bolo in *; eauto with bolo; try lia.

(** [bounds] closes a conjunction of integer bounds and copied facts from
    conjunctions of them in the hypotheses. *)
Ltac use_premises :=
  repeat match goal with
  | H : ?P → _, H' : ?P |- _ => specialize (H H')
  end.

Ltac bounds :=
  simpl in *; destruct_and?; split_and?; intros; use_premises;
  first [lia | done | by eauto with bolo].

(** [by_compute] proves a decidable proposition about concrete data by
    evaluating its decision procedure. *)
Ltac by_compute :=
  apply (bool_decide_unpack _); vm_compute; exact I.

(** [bind_inv H] inverts [H : m = Some v] where [m] is a chain of binds
    of the option monad, of pattern-matching lets and of conditionals:
    every step of the chain succeeded, with a result that is named. *)
Ltac bind_inv H :=
  repeat match type of H with
  | (?m ≫= _) = Some _ =>
      let E := fresh "E" in destruct m eqn:E; simpl in H; [|discriminate H]
  | (let '(_, _) := ?p in _) = Some _ => destruct p
  | (if ?b then _ else _) = Some _ => destruct b eqn:?
  | Some _ = Some _ => injection H as H
  end.

(** ** Python's [min] and [max] on integers *)

(** [min(a, b, c)] and [max(a, b)] on Python [int]s return a minimal
    (maximal) argument; on integers equal values are indistinguishable,
    so they are [Z.min] and [Z.max]. *)
Definition min3 (a b c : Z) : Z := Z.min a (Z.min b c).

Lemma min3_spec a b c :
  min3 a b c ≤ a ∧ min3 a b c ≤ b ∧ min3 a b c ≤ c ∧
  (min3 a b c = a ∨ min3 a b c = b ∨ min3 a b c = c).
Proof. unfold min3. lia. Qed.

Lemma min3_pos a b c : 0 < a → 0 < b → 0 < c → 0 < min3 a b c.
Proof. unfold min3. lia. Qed.

#[export] Hint Resolve min3_pos : bolo.

(** [sum(l)] of non-negative integers. *)
Lemma sum_nonneg (l : list Z) : Forall (λ a, 0 ≤ a) l → 0 ≤ foldr Z.add 0 l.
Proof. induction 1; simpl; lia. Qed.

(** ** Two-dimensional lists *)

(** The tile map is a list of rows ([tiles[y][x]]).  [grid_get] is the
    double indexing, [grid_set] the assignment [g[r][c] = v]; outside the
    list Python raises [IndexError], here [grid_get] is [None] and
    [grid_set] changes nothing, and [rect] is the shape under which that
    never happens within the bounds. *)
Section Grid.
Context {A : Type}.
Implicit Types (g : list (list A)) (row : list A) (r c : nat) (v : A).

Definition grid_get g r c : option A := g !! r ≫= (.!! c).

Definition grid_set g r c v : list (list A) := alter (<[c := v]>) r g.

Definition rect (w h : nat) g : Prop :=
  length g = h ∧ Forall (λ row, length row = w) g.

#[export] Instance rect_dec w h g : Decision (rect w h g).
Proof. unfold rect. apply _. Defined.

Lemma rect_replicate w h v : rect w h (replicate h (replicate w v)).
Proof.
  split; [apply length_replicate|].
  apply Forall_replicate, length_replicate.
Qed.

Lemma grid_get_is_Some w h g r c :
  rect w h g → (r < h)%nat → (c < w)%nat → is_Some (grid_get g r c).
Proof.
  intros [Hlen Hrows] Hr Hc. unfold grid_get.
  destruct (lookup_lt_is_Some_2 g r) as [row Hrow]; [lia|].
  rewrite Hrow; simpl. apply lookup_lt_is_Some_2.
  rewrite Forall_lookup in Hrows. rewrite (Hrows _ _ Hrow). done.
Qed.

Lemma grid_get_None_row g r c : (length g ≤ r)%nat → grid_get g r c = None.
Proof. intros H. unfold grid_get. by rewrite lookup_ge_None_2. Qed.

Lemma grid_set_rect w h g r c v : rect w h g → rect w h (grid_set g r c v).
Proof.
  intros [Hlen Hrows]. split; unfold grid_set.
  - by rewrite length_alter.
  - apply Forall_alter; [done|]. intros row _ Hrow.
    by rewrite length_insert.
Qed.

Lemma grid_get_set_eq g r c v :
  is_Some (grid_get g r c) → grid_get (grid_set g r c v) r c = Some v.
Proof.
  unfold grid_get, grid_set. intros [x Hx].
  rewrite list_lookup_alter_eq.
  destruct (g !! r) as [row|] eqn:Hrow; simplify_eq/=.
  apply list_lookup_insert_eq. by eapply lookup_lt_Some.
Qed.

Lemma grid_get_set_ne g r c r' c' v :
  (r, c) ≠ (r', c') → grid_get (grid_set g r c v) r' c' = grid_get g r' c'.
Proof.
  unfold grid_get, grid_set. intros Hne.
  destruct (decide (r = r')) as [->|Hr].
  - rewrite list_lookup_alter_eq.
    destruct (g !! r') as [row|]; simpl; [|done].
    apply list_lookup_insert_ne. congruence.
  - by rewrite list_lookup_alter_ne.
Qed.

Lemma grid_set_oob_row g r c v : (length g ≤ r)%nat → grid_set g r c v = g.
Proof.
  unfold grid_set. revert r.
  induction g as [|row g IH]; intros [|r] Hr; simpl in *; try done; try lia.
  f_equal. apply IH. lia.
Qed.
(** A grid painted over a region: within [w] by [h], the cells that [P]
    selects hold what [f] says and the others are as in [g0]. *)
Definition painted (w h : nat) (P : nat → nat → bool) (f : nat → nat → A)
    g0 g : Prop :=
  rect w h g ∧
  ∀ r c, (r < h)%nat → (c < w)%nat →
    grid_get g r c = if P r c then Some (f r c) else grid_get g0 r c.

Lemma painted_start w h f g : rect w h g → painted w h (λ _ _, false) f g g.
Proof. by split. Qed.

Lemma painted_ext w h P P' f g0 g :
  (∀ r c, (r < h)%nat → (c < w)%nat → P' r c = P r c) →
  painted w h P f g0 g → painted w h P' f g0 g.
Proof.
  intros HP [? Hg]. split; [done|]. intros r c ??. rewrite HP by done. auto.
Qed.

Lemma painted_step w h P P' f g0 g r0 c0 :
  painted w h P f g0 g → (r0 < h)%nat → (c0 < w)%nat →
  (∀ r c, P' r c = P r c || bool_decide ((r, c) = (r0, c0))) →
  painted w h P' f g0 (grid_set g r0 c0 (f r0 c0)).
Proof.
  intros [Hrect Hg] ?? HP. split; [by apply grid_set_rect|].
  intros r c ??. rewrite HP. case_bool_decide as Heq.
  - simplify_eq. rewrite orb_true_r. apply grid_get_set_eq.
    by eapply grid_get_is_Some.
  - rewrite orb_false_r, grid_get_set_ne by done. auto.
Qed.
End Grid.

#[export] Hint Resolve rect_replicate grid_set_rect : bolo.

(** ** Loops with an early exit *)

(** ** Loops that can fail *)

Section FoldM.
Context {St B : Type} (f : St → B → option St).

(** A [for] loop whose body may raise: the first failure ends it. *)
Fixpoint foldlM (s : St) (l : list B) : option St :=
  match l with
  | [] => Some s
  | b :: l' => f s b ≫= λ s', foldlM s' l'
  end.

(** The loop succeeds and establishes [I (length l)] when [I 0] holds at
    the start and every iteration succeeds and carries [I k] to
    [I (S k)]. *)
Lemma foldlM_inv (I : nat → St → Prop) s l :
  I 0%nat s →
  (∀ k s b, l !! k = Some b → I k s → ∃ s', f s b = Some s' ∧ I (S k) s') →
  ∃ s', foldlM s l = Some s' ∧ I (length l) s'.
Proof.
  revert I s. induction l as [|b l IH]; intros I s H0 Hstep; simpl; [eauto|].
  destruct (Hstep 0%nat s b eq_refl H0) as (s1 & -> & H1). simpl.
  apply (IH (λ k, I (S k))); [done|]. intros k s2 b2 Hk. by apply (Hstep (S k)).
Qed.

Lemma foldlM_fail s b l : f s b = None → foldlM s (b :: l) = None.
Proof. intros Hf. simpl. by rewrite Hf. Qed.
End FoldM.

(** Python's [range(a, b)]. *)
Definition py_range (a b : Z) : list Z := seqZ a (b - a).

(** The position a Python list of length [len] gives to the index [i]:
    negative indices count from the end, and an index out of range
    raises [IndexError]. *)
Definition py_index (len : nat) (i : Z) : option nat :=
  if decide (0 ≤ i < Z.of_nat len) then Some (Z.to_nat i)
  else if decide (- Z.of_nat len ≤ i < 0) then Some (Z.to_nat (i + Z.of_nat len))
  else None.

Lemma py_index_in len i : 0 ≤ i < Z.of_nat len → py_index len i = Some (Z.to_nat i).
Proof. intros ?. unfold py_index. by rewrite decide_True. Qed.

Lemma py_index_empty i : py_index 0 i = None.
Proof. unfold py_index. by rewrite !decide_False by lia. Qed.

Lemma lookup_py_range a b k x :
  py_range a b !! k = Some x ↔ x = a + Z.of_nat k ∧ a + Z.of_nat k < b.
Proof. unfold py_range. rewrite lookup_seqZ. split; intros [??]; split; lia. Qed.

Lemma length_py_range a b : length (py_range a b) = Z.to_nat (b - a).
Proof. apply length_seqZ. Qed.

Lemma elem_of_py_range a b x : x ∈ py_range a b ↔ a ≤ x < b.
Proof. unfold py_range. rewrite elem_of_seqZ. lia. Qed.

(** A loop that collects the results of its iterations succeeds with
    them when every iteration succeeds. *)
Lemma mapM_Some_fmap {A B} (f : A → option B) (g : A → B) l :
  Forall (λ x, f x = Some (g x)) l → mapM f l = Some (g <$> l).
Proof.
  induction 1 as [|x l Hx _ IH]; [done|]. simpl. by rewrite Hx, IH.
Qed.

(** What holds of every result of a loop that collects lists holds of
    their concatenation. *)
(** Two predicates that agree on the elements of a list that satisfy a
    third hold of all of them together. *)
Lemma Forall_iff_in {A} (P Q R : A → Prop) l :
  Forall R l → (∀ x, R x → P x ↔ Q x) → Forall P l ↔ Forall Q l.
Proof. rewrite !list.Forall_forall. naive_solver. Qed.

Lemma mapM_Forall_join {A B} (f : A → option (list B)) (P : B → Prop) l k :
  mapM f l = Some k → Forall (λ x, ∀ y, f x = Some y → Forall P y) l →
  Forall P (mjoin k).
Proof.
  intros Hm%mapM_Some_1 Hl. apply Forall_join.
  induction Hm as [|x y l k Hxy _ IH]; [done|].
  apply list.Forall_cons in Hl as [Hx Hl]. apply Forall_cons_2; auto.
Qed.

(** [scan f s l] is the loop
    [for x in l: if <hit>: <effect>; break]
    over a state [s]: [f s x] is [Some s'] when [x] is hit, with the state
    after the effect, and [None] when the loop goes on to the next
    element.  The result is [None] when no element is hit. *)
Section Scan.
Context {St B : Type} (f : St → B → option St).

Fixpoint scan (s : St) (l : list B) : option St :=
  match l with
  | [] => None
  | x :: l' => match f s x with
               | Some s' => Some s'
               | None => scan s l'
               end
  end.

Lemma scan_None s l : scan s l = None ↔ Forall (λ x, f s x = None) l.
Proof.
  induction l as [|x l IH]; simpl; [by split|].
  rewrite Forall_cons_iff, <- IH. destruct (f s x); [|tauto].
  split; [done|]. by intros [? _].
Qed.

(** A hit is the effect on the first element that qualifies. *)
Lemma scan_Some s l s' :
  scan s l = Some s' ↔
  ∃ l1 x l2, l = l1 ++ x :: l2 ∧ Forall (λ y, f s y = None) l1 ∧
             f s x = Some s'.
Proof.
  induction l as [|x l IH]; simpl.
  - split; [done|]. intros (l1 & y & l2 & Hl & _). by destruct l1.
  - destruct (f s x) as [s0|] eqn:Hx.
    + split.
      * intros [= ->]. by exists [], x, l.
      * intros ([|z l1] & y & l2 & Hl & Hno & Hy); simplify_eq/=; [done|].
        apply Forall_cons_iff in Hno as [Hz _]. congruence.
    + rewrite IH. split.
      * intros (l1 & y & l2 & -> & Hno & Hy).
        exists (x :: l1), y, l2. by rewrite Forall_cons_iff.
      * intros ([|z l1] & y & l2 & Hl & Hno & Hy); simplify_eq/=.
        apply Forall_cons_iff in Hno as [_ Hno]. by exists l1, y, l2.
Qed.

Lemma scan_app_None s l1 l2 :
  scan s l1 = None → scan s (l1 ++ l2) = scan s l2.
Proof.
  induction l1 as [|x l1 IH]; simpl; [done|].
  destruct (f s x); [done|]. apply IH.
Qed.
End Scan.

(** ** Scans that keep the best candidate *)

(** [argbest] is the loop
    [best, best_key = None, top
     for a in l: if ok(a) and key(a) < best_key: best, best_key = a, key(a)]
    over any strict comparison [lt].  Transitivity and irreflexivity of
    [lt] are all the proofs use, so they apply to float [<], for which a
    NaN compares false with everything. *)
Section ArgBest.
Context {A D : Type} (key : A → D) (lt : D → D → bool) (ok : A → bool).
Context (lt_trans : ∀ x y z, lt x y = true → lt y z = true → lt x z = true).
Context (lt_irrefl : ∀ x, lt x x = false).
Implicit Types (a c : A) (l : list A) (st : option A * D).

Definition argbest_step st a : option A * D :=
  if ok a && lt (key a) st.2 then (Some a, key a) else st.

Definition argbest (top : D) l : option A * D :=
  foldl argbest_step (None, top) l.

(** No candidate seen so far beats the best key. *)
Definition argbest_inv st l : Prop :=
  ∀ c, c ∈ l → ok c = true → lt (key c) st.2 = false.

Lemma argbest_step_inv st a l :
  argbest_inv st l → argbest_inv (argbest_step st a) (l ++ [a]).
Proof.
  intros Hinv c Hc Hok. unfold argbest_step.
  apply elem_of_app in Hc as [Hc|Hc%list_elem_of_singleton].
  - destruct (ok a && lt (key a) st.2) eqn:Hsel; simpl; [|by apply Hinv].
    apply andb_true_iff in Hsel as [_ Hlt].
    destruct (lt (key c) (key a)) eqn:Hca; [|done].
    pose proof (lt_trans _ _ _ Hca Hlt) as Hcb. by rewrite (Hinv c Hc Hok) in Hcb.
  - subst c. rewrite Hok. simpl.
    destruct (lt (key a) st.2) eqn:Hlt; simpl; [apply lt_irrefl|done].
Qed.

Lemma argbest_foldl_inv st l0 l :
  argbest_inv st l0 → argbest_inv (foldl argbest_step st l) (l0 ++ l).
Proof.
  revert st l0. induction l as [|a l IH]; intros st l0 Hinv; simpl.
  - by rewrite app_nil_r.
  - rewrite cons_middle, app_assoc. by apply IH, argbest_step_inv.
Qed.

Lemma argbest_step_cases st a :
  (ok a && lt (key a) st.2 = true ∧ argbest_step st a = (Some a, key a)) ∨
  (ok a && lt (key a) st.2 = false ∧ argbest_step st a = st).
Proof. unfold argbest_step. destruct (ok a && lt (key a) st.2); auto. Qed.

(** The best candidate was selected at some position, and nothing after
    it was. *)
Lemma argbest_foldl_key st l a :
  (foldl argbest_step st l).1 = Some a →
  (st.1 = Some a ∧ foldl argbest_step st l = st) ∨
  ∃ l1 l2, l = l1 ++ a :: l2 ∧ ok a = true ∧
    lt (key a) (foldl argbest_step st l1).2 = true ∧
    foldl argbest_step st l = (Some a, key a).
Proof.
  revert st a. induction l as [|b l IH] using rev_ind; intros st a Ha.
  - left. by simpl in *.
  - rewrite foldl_snoc in *.
    destruct (argbest_step_cases (foldl argbest_step st l) b)
      as [[Hsel Heq]|[Hsel Heq]]; rewrite Heq in *.
    + simpl in Ha. injection Ha as ->. right. exists l, [].
      apply andb_true_iff in Hsel as [? ?]. by split_and!.
    + destruct (IH _ _ Ha) as [[Hst Hl]|(l1 & l2 & -> & Hok & Hlt & Hl)].
      * left. by rewrite Hl.
      * right. exists l1, (l2 ++ [b]). by rewrite <- app_assoc.
Qed.

(** The best key never rises above [top]. *)
Lemma argbest_key_top top l :
  (argbest top l).2 = top ∨ lt (argbest top l).2 top = true.
Proof.
  unfold argbest. induction l as [|c l IH] using rev_ind; [by left|].
  rewrite foldl_snoc.
  destruct (argbest_step_cases (foldl argbest_step (None, top) l) c)
    as [[Hsel ->]|[_ ->]]; [|done].
  apply andb_true_iff in Hsel as [_ Hlt]. right. simpl.
  destruct IH as [<-|Hk]; [done|by eapply lt_trans].
Qed.

Lemma argbest_inv_nil st : argbest_inv st [].
Proof. by intros ? ?%elem_of_nil. Qed.

(** The candidate returned qualifies, nothing in the list beats it, and
    nothing before it in the list ties with it. *)
Lemma argbest_spec top l a :
  (argbest top l).1 = Some a →
  ∃ l1 l2, l = l1 ++ a :: l2 ∧ ok a = true ∧ lt (key a) top = true ∧
    (∀ c, c ∈ l → ok c = true → lt (key c) (key a) = false) ∧
    (∀ c, c ∈ l1 → ok c = true → key c ≠ key a).
Proof.
  intros Ha. unfold argbest in *.
  destruct (argbest_foldl_key _ _ _ Ha)
    as [[? _]|(l1 & l2 & -> & Hok & Hlt & Heq)]; [done|].
  exists l1, l2. split_and!; try done.
  - destruct (argbest_key_top top l1) as [Hk|Hk]; unfold argbest in Hk.
    + by rewrite Hk in Hlt.
    + by eapply lt_trans.
  - intros c Hc Hokc.
    pose proof (argbest_foldl_inv (None, top) [] (l1 ++ a :: l2)
                  (argbest_inv_nil _)) as Hinv.
    rewrite Heq in Hinv. by apply Hinv.
  - intros c Hc Hokc Hkey.
    pose proof (argbest_foldl_inv (None, top) [] l1 (argbest_inv_nil _)) as Hinv.
    rewrite <- Hkey, Hinv in Hlt; done.
Qed.

(** Nothing is returned exactly when no element qualifies against [top]. *)
Lemma argbest_None top l :
  (argbest top l).1 = None ↔ Forall (λ c, ok c && lt (key c) top = false) l.
Proof.
  unfold argbest.
  assert (Hkeep : ∀ l, (foldl argbest_step (None, top) l).1 = None →
                       foldl argbest_step (None, top) l = (None, top)).
  { clear l. induction l as [|d l IH] using rev_ind; [done|].
    rewrite foldl_snoc.
    destruct (argbest_step_cases (foldl argbest_step (None, top) l) d)
      as [[_ ->]|[_ ->]]; [done|apply IH]. }
  induction l as [|c l IH] using rev_ind; [done|].
  rewrite foldl_snoc, Forall_app, Forall_singleton.
  destruct (argbest_step_cases (foldl argbest_step (None, top) l) c)
    as [[Hsel ->]|[Hsel ->]]; simpl.
  - split; [done|]. intros [Hl Hc]. apply IH in Hl.
    rewrite (Hkeep _ Hl) in Hsel. simpl in Hsel. congruence.
  - rewrite IH. split; [|tauto]. intros Hl. split; [done|].
    apply IH in Hl. by rewrite (Hkeep _ Hl) in Hsel.
Qed.
End ArgBest.

(** ** Loops and a map on the state *)

(** A loop commutes with a function on its state when its body does. *)
Section Commute.
Context {St B : Type} (U : St → St).

Lemma foldl_commute (f : St → B → St) s l :
  (∀ s b, f (U s) b = U (f s b)) → foldl f (U s) l = U (foldl f s l).
Proof.
  intros Hf. revert s. induction l as [|b l IH]; intros s; simpl; [done|].
  by rewrite Hf, IH.
Qed.

Lemma scan_commute (f : St → B → option St) s l :
  (∀ s b, f (U s) b = U <$> f s b) → scan f (U s) l = U <$> scan f s l.
Proof.
  intros Hf. induction l as [|b l IH]; simpl; [done|].
  rewrite Hf. by destruct (f s b).
Qed.

Lemma foldlM_commute (f : St → B → option St) s l :
  (∀ s b, f (U s) b = U <$> f s b) → foldlM f (U s) l = U <$> foldlM f s l.
Proof.
  intros Hf. revert s. induction l as [|b l IH]; intros s; simpl; [done|].
  rewrite Hf. destruct (f s b); simpl; [apply IH|done].
Qed.
End Commute.

(** ** [sorted] *)

(** [sorted(l, key=key)] compares the keys with [<] only and is stable:
    elements whose keys are not ordered keep the order they have in [l].
    The insertion sort below computes that list: an element is put before
    the first element of the sorted rest that is not below it. *)
Section PySorted.
Context {A K : Type} (key : A → K) (lt : K → K → bool).
Implicit Types (x y : A) (l : list A).

Fixpoint sorted_insert x l : list A :=
  match l with
  | [] => [x]
  | y :: l' =>
      if lt (key y) (key x) then y :: sorted_insert x l' else x :: y :: l'
  end.

Definition py_sorted l : list A := foldr sorted_insert [] l.

Lemma sorted_insert_Permutation x l : sorted_insert x l ≡ₚ x :: l.
Proof.
  induction l as [|y l IH]; simpl; [done|].
  destruct (lt _ _); [|done]. by rewrite IH, Permutation_swap.
Qed.

(** The result has the elements of the list, each as often. *)
Lemma py_sorted_Permutation l : py_sorted l ≡ₚ l.
Proof.
  induction l as [|x l IH]; simpl; [done|].
  by rewrite sorted_insert_Permutation, IH.
Qed.

Lemma py_sorted_Forall (P : A → Prop) l : Forall P l → Forall P (py_sorted l).
Proof. intros ?. by rewrite py_sorted_Permutation. Qed.

(** An element goes to the front of a list none of whose elements is
    below it, and behind a list all of whose elements are. *)
Lemma sorted_insert_front x l :
  Forall (λ y, lt (key y) (key x) = false) l → sorted_insert x l = x :: l.
Proof. destruct 1 as [|y l Hy _]; simpl; [done|]. by rewrite Hy. Qed.

Lemma sorted_insert_app_r x l1 l2 :
  Forall (λ y, lt (key y) (key x) = true) l1 →
  sorted_insert x (l1 ++ l2) = l1 ++ sorted_insert x l2.
Proof. induction 1 as [|y l Hy _ IH]; simpl; [done|]. by rewrite Hy, IH. Qed.

Lemma sorted_insert_app_l x l1 l2 :
  Forall (λ y, lt (key y) (key x) = false) l2 →
  sorted_insert x (l1 ++ l2) = sorted_insert x l1 ++ l2.
Proof.
  intros Hl2. induction l1 as [|y l1 IH]; simpl.
  - by apply sorted_insert_front.
  - destruct (lt _ _); [by rewrite IH|done].
Qed.

(** A list no element of which is below another is left as it is. *)
Lemma py_sorted_unordered l :
  (∀ x y, x ∈ l → y ∈ l → lt (key y) (key x) = false) → py_sorted l = l.
Proof.
  induction l as [|x l IH]; intros Hl; simpl; [done|].
  rewrite IH by (intros; apply Hl; by right).
  apply sorted_insert_front, list.Forall_forall. intros y Hy.
  apply Hl; [by left|by right].
Qed.

(** When the elements that satisfy [p] are above those that do not, the
    sorted list is the sorted rest followed by the sorted [p]s. *)
Lemma py_sorted_partition (p : A → bool) l :
  (∀ x y, x ∈ l → y ∈ l → p x = false → p y = true →
          lt (key x) (key y) = true ∧ lt (key y) (key x) = false) →
  py_sorted l
  = py_sorted (filter (λ x, p x = false) l)
    ++ py_sorted (filter (λ x, p x = true) l).
Proof.
  induction l as [|x l IH]; intros Hl; [done|].
  assert (∀ y, y ∈ l → y ∈ x :: l) as Hin by (intros; by right).
  assert (x ∈ x :: l) as Hx by by left.
  simpl. rewrite IH by (intros; apply Hl; auto). clear IH.
  rewrite !filter_cons.
  destruct (p x) eqn:Hp; repeat case_decide; try done; simpl.
  - apply sorted_insert_app_r, py_sorted_Forall, list.Forall_forall.
    intros y [Hy Hpy]%list_elem_of_filter. by apply Hl; auto.
  - apply sorted_insert_app_l, py_sorted_Forall, list.Forall_forall.
    intros y [Hy Hpy]%list_elem_of_filter. by apply Hl; auto.
Qed.
End PySorted.
