(* ===== verification/PyFloat.v ===== *)
(** * PyFloat: Python's [float] and the platform the engine runs on

    A Python [float] is an IEEE 754 binary64 number, which is what Rocq's
    primitive [float] is: [+], [-], [*], [/], [sqrt] and the comparisons
    below evaluate exactly as in CPython.  This file adds what the engine
    uses on top of them (conversion from [int], [int(x // d)], [min] and
    [max], [math.radians] and [math.degrees], the distance between two
    points), the interface [Platform] for what the engine calls but does
    not define (the C math library and [random.random]), and the order
    lemmas on float comparison shared by the other files. *)

From Stdlib Require Export Floats.
From S2P Require Import Prelude.
Set Warnings "-inexact-float".  (* decimal literals denote the nearest double, as in Python *)

(** ** Conversions between [int] and [float] *)

(** [float(z)], the implicit conversion of an [int] operand that meets a
    [float].  Exact for [|z| < 2^53]. *)
Definition Z2F (z : Z) : float :=
  match z with
  | Z0 => 0%float
  | Zpos _ => PrimFloat.of_uint63 (Uint63.of_Z z)
  | Zneg p => PrimFloat.opp (PrimFloat.of_uint63 (Uint63.of_Z (Zpos p)))
  end.

(** The exact value of a finite float as a fraction [n / 2^k]. *)
Definition F2frac (x : float) : option (Z * Z) :=
  match Prim2SF x with
  | S754_zero _ => Some (0, 1)
  | S754_finite s m e =>
      let n := if s then Z.neg m else Z.pos m in
      Some (if decide (0 ≤ e) then (n * 2 ^ e, 1) else (n, 2 ^ (- e)))
  | S754_infinity _ | S754_nan => None
  end.

(** [int(x // d)] for a positive [int] divisor [d]: the floor of the exact
    quotient.  CPython computes [x // d] from [fmod], which is exact, so
    the float it returns is this floor whenever that is below [2^53];
    [int()] then raises on an infinity or a NaN, where the model
    returns [0]. *)
Definition floordiv (x : float) (d : Z) : Z :=
  match F2frac x with
  | Some (n, q) => n `div` (q * d)
  | None => 0
  end.

(** [int(x)]: the truncation of [x] towards zero.  On a NaN Python
    raises [ValueError], on an infinity [OverflowError]: the [None] of
    the result. *)
Definition py_int (x : float) : option Z :=
  '(n, q) ← F2frac x; Some (n `quot` q).

(** [int(x // d)] with its exceptions: [x // d] is a NaN exactly when [x]
    is a NaN or an infinity. *)
Definition py_int_floordiv (x : float) (d : Z) : option Z :=
  '(n, q) ← F2frac x; Some (n `div` (q * d)).

(** [float(z)] for an [int] of any size below [2^1024]: the nearest
    double, ties to even.  It is [Z2F z] for the small integers [Z2F] is
    used on. *)
Definition py_float (z : Z) : float :=
  SF2Prim (binary_normalize prec emax z 0 false).

(** [a / b] on two [int]s: the true quotient as a [float].  CPython
    divides the two operands as doubles when both are below [2^53] in
    magnitude, which every operand of the programs is; division by zero
    raises [ZeroDivisionError]. *)
Definition py_truediv (a b : Z) : option float :=
  if decide (b = 0) then None else Some (py_float a / py_float b)%float.

(** A float is a number when it is neither a NaN nor an infinity. *)
Definition is_number (x : float) : bool :=
  match F2frac x with Some _ => true | None => false end.

(** ** [min] and [max] *)

(** [min(a, b)] returns [a] unless [b < a]; [max(a, b)] returns [a]
    unless [b > a] (CPython's [min_max]: the first argument wins ties and
    NaN comparisons). *)
Definition py_min (a b : float) : float := if (b <? a)%float then b else a.
Definition py_max (a b : float) : float := if (a <? b)%float then b else a.

(** ** [math] functions defined in CPython itself *)

(** [math.radians(x)] is [x * (pi / 180.0)] and [math.degrees(x)] is
    [x * (180.0 / pi)], with [pi] the double nearest to the constant. *)
Definition math_pi : float := 0x1.921fb54442d18p+1%float.
Definition math_radians (x : float) : float := (x * (math_pi / 180))%float.
Definition math_degrees (x : float) : float := (x * (180 / math_pi))%float.

(** [math.sqrt((x1 - x2)**2 + (y1 - y2)**2)]: the distance every
    collision test and the pillbox scan compute.  [v**2] on a float is the
    correctly rounded square, [v * v]. *)
Definition distance (x1 y1 x2 y2 : float) : float :=
  PrimFloat.sqrt ((x1 - x2) * (x1 - x2) + (y1 - y2) * (y1 - y2))%float.

(** ** The platform *)

(** What the engine calls and does not define: the C math library behind
    [math.cos], [math.sin] and [math.atan2], and the generator behind
    [random.random], given as the sequence of the values it returns in
    call order.  The model is parametric in them, so the theorems hold for
    every math library and every random sequence. *)
Class Platform := {
  libm_cos : float → float;
  libm_sin : float → float;
  libm_atan2 : float → float → float;
  random_random : nat → float
}.

(** [math.cos(math.radians(a))] and [math.sin(math.radians(a))]. *)
Definition cos_deg `{Platform} (a : float) : float := libm_cos (math_radians a).
Definition sin_deg `{Platform} (a : float) : float := libm_sin (math_radians a).

(** [math.degrees(math.atan2(dy, dx))]. *)
Definition atan2_deg `{Platform} (dy dx : float) : float :=
  math_degrees (libm_atan2 dy dx).

(** A platform for running the model on concrete inputs: it agrees with
    the C library at angle [0] ([cos 0 = 1], [sin 0 = 0],
    [atan2 0 x = 0] for [x > 0]) and never draws below the thresholds the
    engine compares random numbers with. *)
Definition east_platform : Platform := {|
  libm_cos := λ _, 1%float;
  libm_sin := λ _, 0%float;
  libm_atan2 := λ _ _, 0%float;
  random_random := λ _, 0.5%float
|}.

(** ** Order lemmas *)

(** The comparisons are specified on [spec_float] by [SFcompare]; the
    lemmas below are proved there once and transported by [ltb_spec] and
    [leb_spec]. *)
(** Case analysis on every integer and mantissa comparison in sight. *)
Ltac cmp_cases :=
  repeat match goal with
  | H : context [Pos.compare_cont Eq ?a ?b] |- _ =>
      rewrite (Pos.compare_cont_spec a b) in H; simpl in H
  | |- context [Pos.compare_cont Eq ?a ?b] =>
      rewrite (Pos.compare_cont_spec a b); simpl
  | H : context [(?a ?= ?b)%Z] |- _ =>
      destruct (Z.compare_spec a b); simplify_eq/=
  | H : context [(?a ?= ?b)%positive] |- _ =>
      destruct (Pos.compare_spec a b); simplify_eq/=
  | |- context [(?a ?= ?b)%Z] =>
      destruct (Z.compare_spec a b); simplify_eq/=
  | |- context [(?a ?= ?b)%positive] =>
      destruct (Pos.compare_spec a b); simplify_eq/=
  end; try done; try lia.

Section SpecOrder.
Implicit Types a b c : spec_float.

Lemma SFcompare_Lt_trans a b c :
  SFcompare a b = Some Lt → SFcompare b c = Some Lt →
  SFcompare a c = Some Lt.
Proof.
  destruct a as [[]|[]| |[] ma ea], b as [[]|[]| |[] mb eb],
           c as [[]|[]| |[] mc ec]; simpl; try done;
    intros Hab Hbc; cmp_cases.
Qed.

Lemma SFcompare_Lt_irrefl a : SFcompare a a ≠ Some Lt.
Proof. destruct a as [[]|[]| |[] m e]; simpl; try done; cmp_cases. Qed.

Lemma SFcompare_Lt_Gt a b :
  SFcompare a b = Some Lt ↔ SFcompare b a = Some Gt.
Proof.
  destruct a as [[]|[]| |[] ma ea], b as [[]|[]| |[] mb eb];
    simpl; try done; split; intros ?; cmp_cases.
Qed.

Lemma SFcompare_refl a : a ≠ S754_nan → SFcompare a a = Some Eq.
Proof. destruct a as [[]|[]| |[] m e]; simpl; try done; intros _; cmp_cases. Qed.

(** Two numbers compare one way or the other. *)
Lemma SFcompare_total a b :
  a ≠ S754_nan → b ≠ S754_nan → is_Some (SFcompare a b).
Proof. destruct a as [[]|[]| |[] ? ?], b as [[]|[]| |[] ? ?]; simpl; eauto; done. Qed.

Lemma SFleb_refl_not_nan a : SFleb a a = true ↔ a ≠ S754_nan.
Proof.
  unfold SFleb. split.
  - by intros H ->.
  - intros H. by rewrite SFcompare_refl.
Qed.

Lemma SFleb_not_nan a b : SFleb a b = true → a ≠ S754_nan ∧ b ≠ S754_nan.
Proof. unfold SFleb. destruct a, b; simpl; done. Qed.
End SpecOrder.

Section FloatOrder.
Implicit Types x y z : float.
Local Open Scope float_scope.

Lemma ltb_compare x y :
  (x <? y) = true ↔ SFcompare (Prim2SF x) (Prim2SF y) = Some Lt.
Proof.
  rewrite ltb_spec. unfold SFltb.
  destruct (SFcompare _ _) as [[]|]; split; congruence.
Qed.

Lemma ltb_trans x y z : (x <? y) = true → (y <? z) = true → (x <? z) = true.
Proof. rewrite !ltb_compare. apply SFcompare_Lt_trans. Qed.

Lemma ltb_irrefl x : (x <? x) = false.
Proof.
  apply not_true_is_false. rewrite ltb_compare. apply SFcompare_Lt_irrefl.
Qed.

Lemma ltb_asym x y : (x <? y) = true → (y <? x) = false.
Proof.
  intros Hxy. apply not_true_is_false. intros Hyx.
  pose proof (ltb_trans _ _ _ Hxy Hyx) as H. by rewrite ltb_irrefl in H.
Qed.

Lemma ltb_leb x y : (x <? y) = true → (x <=? y) = true.
Proof.
  rewrite ltb_compare, leb_spec. unfold SFleb. by intros ->.
Qed.

(** A float is a number when it compares with itself. *)
Lemma leb_refl_iff x : (x <=? x) = true ↔ Prim2SF x ≠ S754_nan.
Proof. rewrite leb_spec. apply SFleb_refl_not_nan. Qed.

Lemma leb_number x y :
  (x <=? y) = true → (x <=? x) = true ∧ (y <=? y) = true.
Proof.
  rewrite !leb_spec, !SFleb_refl_not_nan. apply SFleb_not_nan.
Qed.

(** [x <= y] once [y < x] fails, for numbers: a NaN fails both. *)
Lemma leb_of_not_ltb x y :
  (y <? x) = false → (x <=? x) = true → (y <=? y) = true → (x <=? y) = true.
Proof.
  rewrite !leb_refl_iff, ltb_spec, leb_spec. unfold SFltb, SFleb.
  intros Hyx Hx Hy.
  destruct (SFcompare_total _ _ Hx Hy) as [c Hc]. rewrite Hc.
  destruct c; [done|done|].
  apply SFcompare_Lt_Gt in Hc. by rewrite Hc in Hyx.
Qed.
(** [x <= y] excludes [y < x]. *)
Lemma leb_not_ltb x y : (x <=? y) = true → (y <? x) = false.
Proof.
  intros Hxy. apply not_true_is_false. rewrite ltb_compare.
  intros Hyx%SFcompare_Lt_Gt. revert Hxy.
  rewrite leb_spec. unfold SFleb. by rewrite Hyx.
Qed.
End FloatOrder.

#[export] Hint Resolve ltb_leb ltb_trans leb_not_ltb : bolo.
#[export] Hint Rewrite ltb_irrefl : bolo.

(** ** [min] and [max] stay between their arguments *)

Section MinMax.
Implicit Types a b : float.
Local Open Scope float_scope.

Lemma py_min_cases a b :
  (py_min a b = b ∧ (b <? a) = true) ∨ (py_min a b = a ∧ (b <? a) = false).
Proof. unfold py_min. destruct (b <? a); auto. Qed.

Lemma py_max_cases a b :
  (py_max a b = b ∧ (a <? b) = true) ∨ (py_max a b = a ∧ (a <? b) = false).
Proof. unfold py_max. destruct (a <? b); auto. Qed.

(** [max(lo, min(hi, x))] is within [lo .. hi] whenever [lo <= hi],
    whatever [x] is, NaN included. *)
Lemma clamp_between lo hi x :
  (lo <=? hi) = true →
  (lo <=? py_max lo (py_min hi x)) = true ∧
  (py_max lo (py_min hi x) <=? hi) = true.
Proof.
  intros Hlh.
  destruct (leb_number _ _ Hlh) as [Hlo Hhi].
  destruct (py_max_cases lo (py_min hi x)) as [[-> Hlt]|[-> _]];
    [|by split].
  split; [by apply ltb_leb|].
  destruct (py_min_cases hi x) as [[-> Hxh]|[-> _]]; [by apply ltb_leb|done].
Qed.
End MinMax.

(** ** [x % d] *)

(** [x % d] for a float [x] and a positive [int] [d], as CPython's
    [float_rem] computes it: the exact C [fmod] (the remainder with the
    sign of [x]), to which [d] is added, in floating point, when it is
    negative; a zero remainder is [+0.0].  On an infinity or a NaN the
    result is NaN.  The remainder [r / q] has at most 53 bits over a power
    of two, so scaling the float of [r] by that power is exact. *)
Definition float_mod (x : float) (d : Z) : float :=
  match F2frac x with
  | Some (n, q) =>
      let r := Z.rem n (q * d) in
      if decide (r = 0) then 0%float
      else
        let md := Z.ldexp (Z2F r) (- Z.log2 q) in
        if decide (r < 0) then (md + Z2F d)%float else md
  | None => nan
  end.

Example float_mod_examples :
  float_mod (-4) 360 = 356%float ∧ float_mod 360 360 = 0%float ∧
  float_mod 364 360 = 4%float ∧ float_mod 2.5 360 = 2.5%float ∧
  float_mod (-0.5) 360 = 359.5%float ∧ float_mod 1e-300 360 = 1e-300%float ∧
  float_mod (-1e-300) 360 = 360%float.
Proof. by vm_compute. Qed.

(** [int()] is defined on the numbers, and so is [int(x // d)], which
    is then what [floordiv] computes. *)
Lemma py_int_is_Some x : is_Some (py_int x) ↔ is_number x = true.
Proof.
  unfold py_int, is_number. destruct (F2frac x) as [[n q]|]; simpl.
  - split; [done|by eexists].
  - split; [by intros []|done].
Qed.

Lemma py_int_floordiv_Some x d z :
  py_int_floordiv x d = Some z → is_number x = true ∧ floordiv x d = z.
Proof.
  unfold py_int_floordiv, floordiv, is_number.
  destruct (F2frac x) as [[n q]|]; simpl; [|done]. by intros [= <-].
Qed.

Lemma py_int_floordiv_is_Some x d :
  is_number x = true → is_Some (py_int_floordiv x d).
Proof.
  unfold py_int_floordiv, is_number.
  destruct (F2frac x) as [[n q]|]; [by eexists|done].
Qed.

Lemma py_int_floordiv_None x d :
  py_int_floordiv x d = None ↔ py_int x = None.
Proof.
  unfold py_int_floordiv, py_int. by destruct (F2frac x) as [[n q]|].
Qed.

(** What lies between two numbers is a number: a comparison with a NaN
    fails, and the infinities lie outside. *)
Lemma between_is_number a v b :
  (a <=? v)%float = true → (v <=? b)%float = true →
  is_number a = true → is_number b = true → is_number v = true.
Proof.
  rewrite !leb_spec. unfold is_number, F2frac.
  destruct (Prim2SF a) as [[]|[]| |[] ? ?], (Prim2SF v) as [[]|[]| |[] ? ?],
           (Prim2SF b) as [[]|[]| |[] ? ?]; done.
Qed.

Example py_int_examples :
  py_int 2.9 = Some 2 ∧ py_int (-2.9) = Some (-2) ∧ py_int (-0.5) = Some 0 ∧
  py_int nan = None ∧ py_int infinity = None ∧
  py_int 0x1p70 = Some (2 ^ 70) ∧
  py_int_floordiv (-0.5) 16 = Some (-1) ∧ py_int_floordiv nan 16 = None.
Proof. by vm_compute. Qed.

Example py_float_examples :
  Forall (λ z, py_float z = Z2F z) [0; 1; -1; 16; 767; -1024; 2 ^ 53 - 1] ∧
  py_float (2 ^ 53 + 1) = 0x1p53%float ∧
  py_int (py_float (2 ^ 70)) = Some (2 ^ 70).
Proof.
  split; [|by vm_compute].
  repeat first [apply Forall_nil_2 | apply Forall_cons_2]; by vm_compute.
Qed.

Example floordiv_examples :
  floordiv 33.5 16 = 2 ∧ floordiv (-0.5) 16 = -1 ∧ floordiv 1023.9999 16 = 63 ∧
  floordiv 1024 16 = 64 ∧ floordiv 0 16 = 0.
Proof. by vm_compute. Qed.
