(* ===== verification/Config.v ===== *)
(** * Config: constants, enumerations and the terrain table

    Section 1 of [src/src/bolo_engine.py]: the class [Config], the
    enumerations [TileType] and [Team], the record [TerrainInfo] and the
    lookup table [TERRAIN_DATA], with the lookup-with-default the engine
    uses on it. *)

From stdpp Require Import strings gmap.
Set Warnings "-inexact-float".  (* decimal literals denote the nearest double, as in Python *)
From S2P Require Import Prelude PyFloat.

(** ** [class Config] *)

Definition WINDOW_WIDTH : Z := 1024.
Definition WINDOW_HEIGHT : Z := 768.
Definition FPS : Z := 60.
Definition TILE_SIZE : Z := 16.
Definition MAP_WIDTH : Z := 64.
Definition MAP_HEIGHT : Z := 48.
Definition TANK_MAX_ARMOR : Z := 8.
Definition TANK_MAX_SHELLS : Z := 40.
Definition TANK_MAX_MINES : Z := 40.
Definition TANK_MAX_WOOD : Z := 40.
Definition TANK_BASE_SPEED : float := 2.0%float.
Definition TANK_ROTATION_SPEED : float := 4.0%float.
Definition TANK_SIZE : Z := 12.
Definition SHELL_DAMAGE : Z := 1.
Definition SHELL_SPEED : float := 6.0%float.
Definition SHELL_LIFETIME : Z := 90.
Definition MINE_DAMAGE : Z := 4.
Definition PILLBOX_MAX_HEALTH : Z := 16.
Definition PILLBOX_FIRE_RATE : Z := 30.
Definition PILLBOX_RANGE : float := 150.0%float.
Definition BASE_RESUPPLY_RATE : Z := 1200.
Definition LGM_SPEED : float := 1.5%float.
Definition LGM_RESPAWN_TIME : Z := 3600.
Definition ROAD_COST : Z := 2.
Definition WALL_COST : Z := 2.
Definition BOAT_COST : Z := 5.

(** [config_unfold] replaces the integer constants by their values, for
    [lia]. *)
Ltac config_unfold :=
  unfold WINDOW_WIDTH, WINDOW_HEIGHT, FPS, TILE_SIZE, MAP_WIDTH, MAP_HEIGHT,
    TANK_MAX_ARMOR, TANK_MAX_SHELLS, TANK_MAX_MINES, TANK_MAX_WOOD, TANK_SIZE,
    SHELL_DAMAGE, SHELL_LIFETIME, MINE_DAMAGE, PILLBOX_MAX_HEALTH,
    PILLBOX_FIRE_RATE, BASE_RESUPPLY_RATE, LGM_RESPAWN_TIME, ROAD_COST,
    WALL_COST, BOAT_COST in *.

(** ** [class TileType(IntEnum)] *)

Inductive TileType :=
  | DEEP_WATER | RIVER | SWAMP | CRATER | ROAD | FOREST
  | RUBBLE | GRASS | WALL | DAMAGED_WALL | BOAT.

#[export] Instance TileType_eq_dec : EqDecision TileType.
Proof. solve_decision. Defined.

(** The integer value of each member. *)
Definition TileType_value (t : TileType) : Z :=
  match t with
  | DEEP_WATER => 0 | RIVER => 1 | SWAMP => 2 | CRATER => 3 | ROAD => 4
  | FOREST => 5 | RUBBLE => 6 | GRASS => 7 | WALL => 8 | DAMAGED_WALL => 9
  | BOAT => 10
  end.

(** [TileType(n)]: the member with value [n], if any. *)
Definition TileType_of_value (n : Z) : option TileType :=
  match n with
  | 0 => Some DEEP_WATER | 1 => Some RIVER | 2 => Some SWAMP
  | 3 => Some CRATER | 4 => Some ROAD | 5 => Some FOREST | 6 => Some RUBBLE
  | 7 => Some GRASS | 8 => Some WALL | 9 => Some DAMAGED_WALL
  | 10 => Some BOAT | _ => None
  end.

Definition all_tile_types : list TileType :=
  [DEEP_WATER; RIVER; SWAMP; CRATER; ROAD; FOREST; RUBBLE; GRASS; WALL;
   DAMAGED_WALL; BOAT].

Lemma TileType_of_value_value t : TileType_of_value (TileType_value t) = Some t.
Proof. by destruct t. Qed.

#[export] Instance TileType_countable : Countable TileType.
Proof.
  apply (inj_countable TileType_value TileType_of_value).
  apply TileType_of_value_value.
Defined.

(** ** [class Team(IntEnum)] *)

Inductive Team := NEUTRAL | TEAM_1 | TEAM_2 | TEAM_3 | TEAM_4.

#[export] Instance Team_eq_dec : EqDecision Team.
Proof. solve_decision. Defined.

Definition Team_value (t : Team) : Z :=
  match t with
  | NEUTRAL => 0 | TEAM_1 => 1 | TEAM_2 => 2 | TEAM_3 => 3 | TEAM_4 => 4
  end.

Definition Team_of_value (n : Z) : option Team :=
  match n with
  | 0 => Some NEUTRAL | 1 => Some TEAM_1 | 2 => Some TEAM_2
  | 3 => Some TEAM_3 | 4 => Some TEAM_4 | _ => None
  end.

Lemma Team_of_value_value t : Team_of_value (Team_value t) = Some t.
Proof. by destruct t. Qed.

#[export] Instance Team_countable : Countable Team.
Proof.
  apply (inj_countable Team_value Team_of_value).
  apply Team_of_value_value.
Defined.

(** [TEAM_COLORS], the colour each team is drawn in. *)
Definition TEAM_COLORS : gmap Team (Z * Z * Z) :=
  list_to_map [
    (NEUTRAL, (128, 128, 128));
    (TEAM_1, (34, 139, 34));
    (TEAM_2, (178, 34, 34));
    (TEAM_3, (65, 105, 225));
    (TEAM_4, (218, 165, 32))
  ].

(** [TEAM_COLORS.get(team, (100, 100, 100))], the lookup of the [draw]
    methods. *)
Definition team_color (team : Team) : Z * Z * Z :=
  default (100, 100, 100) (TEAM_COLORS !! team).

(** ** [class TerrainInfo] and [TERRAIN_DATA] *)

Record TerrainInfo := mkTerrainInfo {
  name : string;
  speed_multiplier : float;
  passable : bool;
  blocks_shots : bool;
  destructible : bool;
  color : Z * Z * Z
}.

Definition TERRAIN_DATA : gmap TileType TerrainInfo :=
  list_to_map [
    (DEEP_WATER, mkTerrainInfo "Deep Water" 0.0 false false false (20, 60, 120));
    (RIVER, mkTerrainInfo "River" 0.3 true false false (40, 100, 160));
    (SWAMP, mkTerrainInfo "Swamp" 0.25 true false true (60, 80, 40));
    (CRATER, mkTerrainInfo "Crater" 0.5 true false false (80, 70, 50));
    (ROAD, mkTerrainInfo "Road" 1.2 true false false (60, 60, 60));
    (FOREST, mkTerrainInfo "Forest" 0.4 true false true (20, 80, 20));
    (RUBBLE, mkTerrainInfo "Rubble" 0.6 true false false (90, 85, 75));
    (GRASS, mkTerrainInfo "Grass" 0.8 true false false (50, 120, 50));
    (WALL, mkTerrainInfo "Wall" 0.0 false true true (100, 100, 100));
    (DAMAGED_WALL,
      mkTerrainInfo "Damaged Wall" 0.0 false true true (120, 110, 100));
    (BOAT, mkTerrainInfo "Boat" 0.8 true false true (120, 80, 40))
  ].

(** [TERRAIN_DATA[tile]]; a missing key raises [KeyError] in Python, and
    reads as the all-blocking record here.  [TERRAIN_DATA_total] shows the
    case does not arise. *)
Definition missing_terrain : TerrainInfo :=
  mkTerrainInfo "" 0.0 false true false (0, 0, 0).

Definition TERRAIN_DATA_item (tile : TileType) : TerrainInfo :=
  default missing_terrain (TERRAIN_DATA !! tile).

(** [TERRAIN_DATA.get(tile, TERRAIN_DATA[TileType.GRASS])], the lookup
    of [Tank._get_terrain_speed], [Tank._can_move_to] and
    [Shell.update]. *)
Definition terrain_of (tile : TileType) : TerrainInfo :=
  default (TERRAIN_DATA_item GRASS) (TERRAIN_DATA !! tile).

(** ** The table is total *)

Lemma TERRAIN_DATA_lookup tile :
  TERRAIN_DATA !! tile = Some (terrain_of tile).
Proof. destruct tile; vm_compute; reflexivity. Qed.

Lemma all_tile_types_complete t : t ∈ all_tile_types.
Proof. destruct t; unfold all_tile_types; set_solver. Qed.

(** ** Facts of the table *)

(** The record of each kind, read off the table once; the facts below
    are case analyses on it. *)
Lemma terrain_of_cases tile :
  terrain_of tile =
  match tile with
  | DEEP_WATER => mkTerrainInfo "Deep Water" 0.0 false false false (20, 60, 120)
  | RIVER => mkTerrainInfo "River" 0.3 true false false (40, 100, 160)
  | SWAMP => mkTerrainInfo "Swamp" 0.25 true false true (60, 80, 40)
  | CRATER => mkTerrainInfo "Crater" 0.5 true false false (80, 70, 50)
  | ROAD => mkTerrainInfo "Road" 1.2 true false false (60, 60, 60)
  | FOREST => mkTerrainInfo "Forest" 0.4 true false true (20, 80, 20)
  | RUBBLE => mkTerrainInfo "Rubble" 0.6 true false false (90, 85, 75)
  | GRASS => mkTerrainInfo "Grass" 0.8 true false false (50, 120, 50)
  | WALL => mkTerrainInfo "Wall" 0.0 false true true (100, 100, 100)
  | DAMAGED_WALL =>
      mkTerrainInfo "Damaged Wall" 0.0 false true true (120, 110, 100)
  | BOAT => mkTerrainInfo "Boat" 0.8 true false true (120, 80, 40)
  end.
Proof. destruct tile; vm_compute; reflexivity. Qed.

#[global] Opaque terrain_of.

Ltac terrain_cases tile :=
  rewrite ?(terrain_of_cases tile) in *; destruct tile; simpl in *.

Section TableFacts.
Local Open Scope float_scope.

(** No kind has a negative speed multiplier. *)
Lemma speed_multiplier_nonneg tile :
  (0 <=? speed_multiplier (terrain_of tile)) = true.
Proof. by terrain_cases tile. Qed.

(** A kind is impassable exactly when its speed multiplier is zero. *)
Lemma passable_iff_speed tile :
  passable (terrain_of tile) = (0 <? speed_multiplier (terrain_of tile)).
Proof. by terrain_cases tile. Qed.

(** What blocks shots blocks tanks, and is a wall that can be damaged. *)
Lemma blocks_shots_iff tile :
  blocks_shots (terrain_of tile) = true ↔ tile = WALL ∨ tile = DAMAGED_WALL.
Proof.
  terrain_cases tile; split; intros H; auto; destruct_or?; done.
Qed.

Lemma blocks_shots_impassable tile :
  blocks_shots (terrain_of tile) = true →
  passable (terrain_of tile) = false ∧ destructible (terrain_of tile) = true.
Proof. by terrain_cases tile. Qed.

(** Deep water is the one kind that stops tanks and lets shots pass. *)
Lemma impassable_not_blocking tile :
  passable (terrain_of tile) = false ∧ blocks_shots (terrain_of tile) = false
  ↔ tile = DEEP_WATER.
Proof.
  terrain_cases tile; split; intros H; auto; destruct_and?; done.
Qed.
End TableFacts.

(** The terrain table is sound: for every kind of tile the speed
    multiplier is not negative; a kind is passable exactly when its
    multiplier is positive; the kinds that block shots are [WALL] and
    [DAMAGED_WALL], which are impassable and destructible; and
    [DEEP_WATER] is the one kind that stops tanks and lets shots pass. *)
Theorem terrain_table_sound tile :
  (0 <=? speed_multiplier (terrain_of tile))%float = true ∧
  passable (terrain_of tile) = (0 <? speed_multiplier (terrain_of tile))%float ∧
  (blocks_shots (terrain_of tile) = true ↔ tile = WALL ∨ tile = DAMAGED_WALL) ∧
  (blocks_shots (terrain_of tile) = true →
   passable (terrain_of tile) = false ∧ destructible (terrain_of tile) = true) ∧
  (passable (terrain_of tile) = false ∧ blocks_shots (terrain_of tile) = false
   ↔ tile = DEEP_WATER).
Proof.
  split_and!; auto using speed_multiplier_nonneg, passable_iff_speed,
    blocks_shots_iff, blocks_shots_impassable, impassable_not_blocking.
Qed.
