(* ===== verification/Draw.v ===== *)
(** * Draw: what the programs ask pygame to draw

    The drawing code of [src/src/bolo_engine.py] and of
    [src/lesson/tank_game.py] calls [pygame.draw], [Surface.fill],
    [Surface.blit], [Font.render] and [pygame.display.flip].  This file
    gives those calls as data: a primitive drawn on a surface, a surface
    as the list of the primitives drawn on it, and a command on the
    screen.  A draw method of the model returns the list of its commands
    in call order; rendering a frame is then a function of the state, and
    what it computes (coordinates, sizes, colours, the order of the
    calls) can be stated and proved. *)

From stdpp Require Import strings.
From S2P Require Import Prelude PyFloat.

(** ** Colours, points, rectangles *)

(** A colour is a tuple [(r, g, b)] of [int]s. *)
Definition Color : Type := Z * Z * Z.

Definition Point : Type := Z * Z.

(** [pygame.Rect(left, top, width, height)] *)
Record Rect := mkRect {
  r_left : Z;
  r_top : Z;
  r_width : Z;
  r_height : Z
}.

#[export] Instance Rect_eq_dec : EqDecision Rect.
Proof. solve_decision. Defined.

(** ** Primitives *)

(** The calls that draw on a surface.  [width] is the last argument of
    the [pygame.draw] functions: 0, its default, fills the shape, a
    positive width draws the outline. *)
Inductive Prim :=
  | Fill (c : Color)
  | Circle (c : Color) (center : Point) (radius width : Z)
  | Line (c : Color) (start_pos end_pos : Point) (width : Z)
  | RectP (c : Color) (r : Rect) (width : Z)
  | Polygon (c : Color) (points : list Point) (width : Z).

#[export] Instance Prim_eq_dec : EqDecision Prim.
Proof. solve_decision. Defined.

(** A surface: its size, its alpha when [set_alpha] was called, and what
    was drawn on it, in order. *)
Record Surface := mkSurface {
  surf_size : Z * Z;
  surf_alpha : option Z;
  surf_prims : list Prim
}.

#[export] Instance Surface_eq_dec : EqDecision Surface.
Proof. solve_decision. Defined.

(** What is blitted: a surface, or the surface [Font.render] makes of a
    text, whose pixels and size are the font's. *)
Inductive Source :=
  | FromSurface (s : Surface)
  | Text (font_size : Z) (text : string) (c : Color).

#[export] Instance Source_eq_dec : EqDecision Source.
Proof. solve_decision. Defined.

(** Where it is blitted: by its top left corner, or by its centre
    ([get_rect(center=...)]). *)
Inductive Anchor := TopLeft (p : Point) | Center (p : Point).

#[export] Instance Anchor_eq_dec : EqDecision Anchor.
Proof. solve_decision. Defined.

(** The calls on the screen. *)
Inductive DrawCmd :=
  | Draw (p : Prim)
  | Blit (src : Source) (dest : Anchor) (area : option Rect)
  | Flip.

#[export] Instance DrawCmd_eq_dec : EqDecision DrawCmd.
Proof. solve_decision. Defined.

(** ** What pygame accepts *)

(** A colour pygame accepts: each component in [0 .. 255]. *)
Definition Color_ok (c : Color) : Prop :=
  let '(r, g, b) := c in
  (0 ≤ r ∧ r ≤ 255) ∧ (0 ≤ g ∧ g ≤ 255) ∧ (0 ≤ b ∧ b ≤ 255).

#[export] Instance Color_ok_dec c : Decision (Color_ok c).
Proof. destruct c as [[r g] b]. simpl. apply _. Defined.

(** A primitive that draws something sensible: a valid colour, a radius
    and a width that are not negative, a rectangle that is not inside
    out. *)
Definition Prim_ok (p : Prim) : Prop :=
  match p with
  | Fill c => Color_ok c
  | Circle c _ radius width => Color_ok c ∧ 0 ≤ radius ∧ 0 ≤ width
  | Line c _ _ width => Color_ok c ∧ 0 ≤ width
  | RectP c r width => Color_ok c ∧ 0 ≤ r_width r ∧ 0 ≤ r_height r ∧ 0 ≤ width
  | Polygon c points width => Color_ok c ∧ (3 ≤ length points)%nat ∧ 0 ≤ width
  end.

#[export] Instance Prim_ok_dec p : Decision (Prim_ok p).
Proof. destruct p; simpl; apply _. Defined.

Definition Surface_ok (s : Surface) : Prop :=
  (0 ≤ s.(surf_size).1 ∧ 0 ≤ s.(surf_size).2) ∧
  from_option (λ a, 0 ≤ a ∧ a ≤ 255) True (surf_alpha s) ∧
  Forall Prim_ok (surf_prims s).

#[export] Instance Surface_ok_dec s : Decision (Surface_ok s).
Proof. unfold Surface_ok. destruct (surf_alpha s); simpl; apply _. Defined.

Definition DrawCmd_ok (c : DrawCmd) : Prop :=
  match c with
  | Draw p => Prim_ok p
  | Blit (FromSurface s) _ _ => Surface_ok s
  | Blit (Text font_size _ c) _ _ => 0 < font_size ∧ Color_ok c
  | Flip => True
  end.

#[export] Instance DrawCmd_ok_dec c : Decision (DrawCmd_ok c).
Proof. destruct c as [|[]|]; simpl; apply _. Defined.

(** ** Lemmas *)

Lemma Color_ok_intro r g b :
  0 ≤ r ≤ 255 → 0 ≤ g ≤ 255 → 0 ≤ b ≤ 255 → Color_ok (r, g, b).
Proof. simpl. lia. Qed.

(** A colour whose components are all 10 or more can be darkened by 10,
    as the grid lines of the terrain are. *)
Lemma Color_ok_darker r g b :
  Color_ok (r, g, b) → 10 ≤ r → 10 ≤ g → 10 ≤ b →
  Color_ok (r - 10, g - 10, b - 10).
Proof. simpl. lia. Qed.

Lemma Forall_DrawCmd_ok_Draw (ps : list Prim) :
  Forall Prim_ok ps → Forall DrawCmd_ok (Draw <$> ps).
Proof. intros Hps. by apply Forall_fmap. Qed.

#[export] Hint Resolve Color_ok_intro Forall_DrawCmd_ok_Draw : bolo.
