(* ===== verification/GameMap.v ===== *)
(** * GameMap: the tile map

    Section 3 of [src/src/bolo_engine.py], the class [GameMap]: a grid of
    [TileType] cells stored as a list of rows, with bounds-checked lookup
    and assignment, the damage transitions of destructible terrain, and
    the rendering of the map from a cached surface that is rebuilt when
    the tiles have changed. *)

From stdpp Require Import strings gmap.
From S2P Require Import Prelude PyFloat Config Draw.

Record GameMap := mkGameMap {
  width : Z;
  height : Z;
  tiles : list (list TileType);
  _terrain_surface : option Surface;
  _dirty : bool
}.

(** [GameMap.__init__]: every cell is grass; [range] of a negative number
    is empty. *)
Definition GameMap_init (w h : Z) : GameMap :=
  {| width := w; height := h;
     tiles := replicate (Z.to_nat h) (replicate (Z.to_nat w) GRASS);
     _terrain_surface := None; _dirty := true |}.

Definition pixel_width (m : GameMap) : Z := width m * TILE_SIZE.
Definition pixel_height (m : GameMap) : Z := height m * TILE_SIZE.

(** [0 <= x < self.width and 0 <= y < self.height] *)
Definition in_bounds (m : GameMap) (x y : Z) : Prop :=
  (0 ≤ x ∧ x < width m) ∧ (0 ≤ y ∧ y < height m).

#[export] Instance in_bounds_dec m x y : Decision (in_bounds m x y).
Proof. unfold in_bounds. apply _. Defined.

(** [self.tiles[y][x]] for coordinates within the bounds. *)
Definition tiles_at (m : GameMap) (x y : Z) : option TileType :=
  grid_get (tiles m) (Z.to_nat y) (Z.to_nat x).

(** [GameMap.get_tile].  Within the bounds the indexing cannot fail on a
    well-formed map ([tiles_at_is_Some]); the model reads a failed
    indexing as wall. *)
Definition get_tile (m : GameMap) (x y : Z) : TileType :=
  if decide (in_bounds m x y) then default WALL (tiles_at m x y) else WALL.

(** [GameMap.set_tile] *)
Definition set_tile (m : GameMap) (x y : Z) (tile_type : TileType) : GameMap :=
  if decide (in_bounds m x y) then
    {| width := width m; height := height m;
       tiles := grid_set (tiles m) (Z.to_nat y) (Z.to_nat x) tile_type;
       _terrain_surface := _terrain_surface m; _dirty := true |}
  else m.

(** [GameMap.damage_tile] *)
Definition damage_tile (m : GameMap) (x y : Z) : GameMap :=
  match get_tile m x y with
  | WALL => set_tile m x y DAMAGED_WALL
  | DAMAGED_WALL => set_tile m x y RUBBLE
  | FOREST => set_tile m x y GRASS
  | SWAMP => set_tile m x y CRATER
  | _ => m
  end.

(** ** Rendering *)

(** The two rectangles [_rebuild_terrain_surface] draws for the cell
    [(x, y)]: the cell in the colour of its terrain, and its outline ten
    shades darker. *)
Definition tile_prims (x y : Z) (tile : TileType) : list Prim :=
  let terrain := terrain_of tile in
  let rect := mkRect (x * TILE_SIZE) (y * TILE_SIZE) TILE_SIZE TILE_SIZE in
  let '(r, g, b) := color terrain in
  [RectP (r, g, b) rect 0; RectP (r - 10, g - 10, b - 10) rect 1].

(** The inner loop of [_rebuild_terrain_surface] for the row [y]; the
    indexing [self.tiles[y][x]] raises on a row that is missing or
    short. *)
Definition row_prims (m : GameMap) (y : Z) : option (list Prim) :=
  mjoin <$> mapM (λ x, tile_prims x y <$> tiles_at m x y)
               (py_range 0 (width m)).

(** The surface [_rebuild_terrain_surface] makes.  [pygame.Surface]
    refuses a negative size. *)
Definition terrain_surface (m : GameMap) : option Surface :=
  if decide (0 ≤ pixel_width m ∧ 0 ≤ pixel_height m) then
    prims ← mapM (row_prims m) (py_range 0 (height m));
    Some (mkSurface (pixel_width m, pixel_height m) None (mjoin prims))
  else None.

(** [GameMap._rebuild_terrain_surface] *)
Definition GameMap__rebuild_terrain_surface (m : GameMap) : option GameMap :=
  s ← terrain_surface m;
  Some {| width := width m; height := height m; tiles := tiles m;
          _terrain_surface := Some s; _dirty := false |}.

(** [GameMap.render]: rebuild the cached surface when the tiles have
    changed since it was made, then blit the part of it the camera
    shows.  The visible tile range is computed and not used; its
    conversions to [int] raise when those of the source rectangle do. *)
Definition GameMap_render (m : GameMap) (camera_offset : float * float)
    (viewport_size : Z * Z) : option (GameMap * list DrawCmd) :=
  m ← (if _dirty m || bool_decide (_terrain_surface m = None)
       then GameMap__rebuild_terrain_surface m else Some m);
  start_x ← Z.max 0 <$> py_int_floordiv camera_offset.1 TILE_SIZE;
  start_y ← Z.max 0 <$> py_int_floordiv camera_offset.2 TILE_SIZE;
  let end_x :=
    Z.min (width m) (start_x + viewport_size.1 `div` TILE_SIZE + 2) in
  let end_y :=
    Z.min (height m) (start_y + viewport_size.2 `div` TILE_SIZE + 2) in
  src_x ← py_int camera_offset.1;
  src_y ← py_int camera_offset.2;
  let src_rect := mkRect src_x src_y viewport_size.1 viewport_size.2 in
  s ← _terrain_surface m;
  Some (m, [Blit (FromSurface s) (TopLeft (0, 0)) (Some src_rect)]).

(** ** Well-formed maps *)

(** The cached surface, when it is not marked dirty, is the surface of
    the tiles. *)
Definition cache_ok (m : GameMap) : Prop :=
  _dirty m = false →
  is_Some (_terrain_surface m) ∧ _terrain_surface m = terrain_surface m.

(** The invariant of the class: [height] rows of [width] cells, and a
    cache that is valid or marked dirty. *)
Definition wf_map (m : GameMap) : Prop :=
  rect (Z.to_nat (width m)) (Z.to_nat (height m)) (tiles m) ∧ cache_ok m.

#[export] Instance wf_map_dec m : Decision (wf_map m).
Proof. unfold wf_map, cache_ok. apply _. Defined.

(** ** The damage table as a specification *)

(** What one hit does to a cell of each kind (spec 4.1): wall, damaged
    wall, rubble; forest to grass; swamp to crater; the rest unchanged. *)
Definition damaged (t : TileType) : TileType :=
  match t with
  | WALL => DAMAGED_WALL
  | DAMAGED_WALL => RUBBLE
  | FOREST => GRASS
  | SWAMP => CRATER
  | t => t
  end.

(** ** Lemmas *)

Section GameMapLemmas.
Implicit Types (m : GameMap) (x y : Z) (t : TileType).

(** A map whose cache is marked dirty is well formed when its grid is. *)
Lemma wf_map_dirty m :
  rect (Z.to_nat (width m)) (Z.to_nat (height m)) (tiles m) →
  _dirty m = true → wf_map m.
Proof. intros ? Hd. split; [done|]. intros ?. congruence. Qed.

Lemma wf_map_rect m :
  wf_map m → rect (Z.to_nat (width m)) (Z.to_nat (height m)) (tiles m).
Proof. by intros [? _]. Qed.

Lemma GameMap_init_wf w h : wf_map (GameMap_init w h).
Proof. apply wf_map_dirty; [apply rect_replicate|done]. Qed.

Lemma tiles_at_is_Some m x y :
  wf_map m → in_bounds m x y → is_Some (tiles_at m x y).
Proof.
  intros [Hwf _] [[??] [??]]. eapply grid_get_is_Some; [done|lia..].
Qed.

Lemma get_tile_tiles_at m x y t :
  in_bounds m x y → tiles_at m x y = Some t → get_tile m x y = t.
Proof. intros Hin Ht. unfold get_tile. rewrite decide_True, Ht; done. Qed.

Lemma set_tile_width m x y t : width (set_tile m x y t) = width m.
Proof. unfold set_tile. by case_decide. Qed.

Lemma set_tile_height m x y t : height (set_tile m x y t) = height m.
Proof. unfold set_tile. by case_decide. Qed.

Lemma set_tile_in_bounds m x y t x' y' :
  in_bounds (set_tile m x y t) x' y' ↔ in_bounds m x' y'.
Proof. unfold in_bounds. by rewrite set_tile_width, set_tile_height. Qed.

Lemma set_tile_wf m x y t : wf_map m → wf_map (set_tile m x y t).
Proof.
  intros Hwf. unfold set_tile. case_decide; [|done].
  apply wf_map_dirty; [|done]. simpl. apply wf_map_rect in Hwf.
  auto with bolo.
Qed.

Lemma set_tile_out_of_bounds m x y t : ¬ in_bounds m x y → set_tile m x y t = m.
Proof. intros H. unfold set_tile. by rewrite decide_False. Qed.

Lemma get_set_tile_eq m x y t :
  wf_map m → in_bounds m x y → get_tile (set_tile m x y t) x y = t.
Proof.
  intros Hwf Hin. apply get_tile_tiles_at; [by apply set_tile_in_bounds|].
  unfold tiles_at, set_tile. rewrite decide_True by done. simpl.
  apply grid_get_set_eq. by apply tiles_at_is_Some.
Qed.

Lemma get_set_tile_ne m x y t x' y' :
  (x, y) ≠ (x', y') → get_tile (set_tile m x y t) x' y' = get_tile m x' y'.
Proof.
  intros Hne. unfold get_tile.
  destruct (decide (in_bounds m x y)) as [Hin|Hout];
    [|by rewrite set_tile_out_of_bounds].
  destruct (decide (in_bounds m x' y')) as [Hin'|Hout'].
  - rewrite decide_True by (by apply set_tile_in_bounds). f_equal.
    unfold tiles_at, set_tile. rewrite decide_True by done. simpl.
    apply grid_get_set_ne.
    destruct Hin as [[??][??]], Hin' as [[??][??]].
    intros [= Hy Hx]. apply Hne. f_equal; lia.
  - rewrite decide_False; [done|]. by rewrite set_tile_in_bounds.
Qed.

Lemma damage_tile_wf m x y : wf_map m → wf_map (damage_tile m x y).
Proof.
  intros Hwf. unfold damage_tile. case_match; auto using set_tile_wf.
Qed.

Lemma damage_tile_width m x y : width (damage_tile m x y) = width m.
Proof. unfold damage_tile. case_match; auto using set_tile_width. Qed.

Lemma damage_tile_height m x y : height (damage_tile m x y) = height m.
Proof. unfold damage_tile. case_match; auto using set_tile_height. Qed.

Lemma damage_tile_unchanged m x y :
  damaged (get_tile m x y) = get_tile m x y → damage_tile m x y = m.
Proof. unfold damage_tile. by destruct (get_tile m x y). Qed.

Lemma get_tile_oob m x y : ¬ in_bounds m x y → get_tile m x y = WALL.
Proof. intros Hout. unfold get_tile. by rewrite decide_False. Qed.

Lemma damage_tile_oob m x y : ¬ in_bounds m x y → damage_tile m x y = m.
Proof.
  intros Hout. unfold damage_tile. rewrite get_tile_oob by done.
  by apply set_tile_out_of_bounds.
Qed.

Lemma damage_tile_in_bounds m x y x' y' :
  in_bounds (damage_tile m x y) x' y' ↔ in_bounds m x' y'.
Proof. unfold in_bounds. by rewrite damage_tile_width, damage_tile_height. Qed.

Lemma get_damage_tile_eq m x y :
  wf_map m → in_bounds m x y →
  get_tile (damage_tile m x y) x y = damaged (get_tile m x y).
Proof.
  intros Hwf Hin. unfold damage_tile.
  destruct (get_tile m x y) eqn:Ht; simpl; auto using get_set_tile_eq.
Qed.

Lemma get_damage_tile_ne m x y x' y' :
  (x, y) ≠ (x', y') → get_tile (damage_tile m x y) x' y' = get_tile m x' y'.
Proof.
  intros Hne. unfold damage_tile.
  destruct (get_tile m x y); auto using get_set_tile_ne.
Qed.

Lemma damaged_twice_terminal t : damaged (damaged (damaged t)) = damaged (damaged t).
Proof. by destruct t. Qed.
End GameMapLemmas.

#[export] Hint Resolve GameMap_init_wf set_tile_wf damage_tile_wf : bolo.
#[export] Hint Rewrite set_tile_width set_tile_height damage_tile_width
  damage_tile_height : bolo.

(** ** Theorems *)

Section GameMapTheorems.
Implicit Types (m : GameMap) (x y : Z) (t : TileType).

(** Out-of-bounds policy of [GameMap.get_tile]: a coordinate outside
    [0 <= x < width], [0 <= y < height] reads as [WALL], whatever the
    grid holds, and [GameMap.set_tile] there changes nothing. *)
Theorem get_tile_out_of_bounds m x y t :
  ¬ in_bounds m x y → get_tile m x y = WALL ∧ set_tile m x y t = m.
Proof.
  intros Hout. split; [by apply get_tile_oob|by apply set_tile_out_of_bounds].
Qed.

(** [C38] Round trip of [GameMap.set_tile] and [GameMap.get_tile] on a
    well-formed map: within the bounds the cell written is the cell read
    back, every other cell reads as before, and the dimensions and the
    shape of the grid are unchanged. *)
Theorem set_get_tile_roundtrip m x y t :
  wf_map m → in_bounds m x y →
  get_tile (set_tile m x y t) x y = t ∧
  (∀ x' y', (x, y) ≠ (x', y') →
     get_tile (set_tile m x y t) x' y' = get_tile m x' y') ∧
  width (set_tile m x y t) = width m ∧
  height (set_tile m x y t) = height m ∧
  wf_map (set_tile m x y t).
Proof.
  intros Hwf Hin. split_and!;
    auto using get_set_tile_eq, get_set_tile_ne, set_tile_width,
      set_tile_height, set_tile_wf.
Qed.

(** [C6] [GameMap.damage_tile] implements the damage table [damaged]:
    on a well-formed map the hit cell becomes [damaged] of what it was
    (wall, damaged wall, rubble; forest to grass; swamp to crater;
    anything else unchanged) and no other cell changes. *)
Theorem damage_tile_refines_damaged m x y :
  wf_map m → in_bounds m x y →
  get_tile (damage_tile m x y) x y = damaged (get_tile m x y) ∧
  (∀ x' y', (x, y) ≠ (x', y') →
     get_tile (damage_tile m x y) x' y' = get_tile m x' y').
Proof.
  intros Hwf Hin. split; [by apply get_damage_tile_eq|].
  intros x' y' Hne. by apply get_damage_tile_ne.
Qed.

(** Damage terminates: two hits bring any cell to a terminal kind,
    so a third hit (and every later one) leaves the whole map
    unchanged; on a cell that is already rubble, road, grass, crater,
    river, deep water or boat the first hit already changes nothing. *)
Theorem damage_tile_fixpoint m x y :
  wf_map m →
  let m2 := damage_tile (damage_tile m x y) x y in
  damage_tile m2 x y = m2 ∧
  (damaged (get_tile m x y) = get_tile m x y → damage_tile m x y = m).
Proof.
  intros Hwf m2. split; [|apply damage_tile_unchanged]. subst m2.
  destruct (decide (in_bounds m x y)) as [Hin|Hout].
  - apply damage_tile_unchanged.
    rewrite !get_damage_tile_eq;
      auto with bolo; [|by apply damage_tile_in_bounds].
    apply damaged_twice_terminal.
  - by rewrite !(damage_tile_oob m x y).
Qed.
End GameMapTheorems.

(** ** Witnesses *)

(** A 4 by 3 map with a wall at (1, 1) and a forest at (2, 1). *)
Definition demo_map : GameMap :=
  set_tile (set_tile (GameMap_init 4 3) 1 1 WALL) 2 1 FOREST.

Lemma get_tile_out_of_bounds_witness :
  get_tile demo_map 4 0 = WALL ∧ set_tile demo_map 4 0 ROAD = demo_map.
Proof. apply get_tile_out_of_bounds. by_compute. Defined.

Lemma set_get_tile_roundtrip_witness :
  get_tile (set_tile demo_map 3 2 ROAD) 3 2 = ROAD ∧
  (∀ x' y', (3, 2) ≠ (x', y') →
     get_tile (set_tile demo_map 3 2 ROAD) x' y' = get_tile demo_map x' y') ∧
  width (set_tile demo_map 3 2 ROAD) = width demo_map ∧
  height (set_tile demo_map 3 2 ROAD) = height demo_map ∧
  wf_map (set_tile demo_map 3 2 ROAD).
Proof. apply set_get_tile_roundtrip; by_compute. Defined.

Lemma damage_tile_refines_damaged_witness :
  get_tile (damage_tile demo_map 1 1) 1 1 = damaged (get_tile demo_map 1 1) ∧
  (∀ x' y', (1, 1) ≠ (x', y') →
     get_tile (damage_tile demo_map 1 1) x' y' = get_tile demo_map x' y').
Proof. apply damage_tile_refines_damaged; by_compute. Defined.

Lemma damage_tile_fixpoint_witness :
  let m2 := damage_tile (damage_tile demo_map 1 1) 1 1 in
  damage_tile m2 1 1 = m2 ∧
  (damaged (get_tile demo_map 1 1) = get_tile demo_map 1 1 →
   damage_tile demo_map 1 1 = demo_map).
Proof. apply damage_tile_fixpoint. by_compute. Defined.

(** The wall of the demo map after one, two and three hits. *)
Example damage_wall_chain :
  get_tile (damage_tile demo_map 1 1) 1 1 = DAMAGED_WALL ∧
  get_tile (damage_tile (damage_tile demo_map 1 1) 1 1) 1 1 = RUBBLE ∧
  get_tile (damage_tile (damage_tile (damage_tile demo_map 1 1) 1 1) 1 1) 1 1
    = RUBBLE.
Proof. by vm_compute. Qed.
