(* ===== verification/MapRender.v ===== *)
(** * MapRender: the rendering of the map and its cache

    [GameMap.render] and [GameMap._rebuild_terrain_surface] of
    [src/src/bolo_engine.py], defined in [GameMap]: the surface the
    rebuild draws is the picture of the tiles, cell by cell in row order;
    the cache is transparent (rendering from the cache is rendering after
    a rebuild); what pygame is asked to draw is well formed; and a map of
    negative size, which the constructor accepts, fails at its first
    rendering. *)

From stdpp Require Import strings gmap.
From S2P Require Import Prelude PyFloat Config Draw GameMap.

(** ** The picture of a map *)

(** What the cached surface shows: for every row from the top, for every
    cell from the left, the rectangles of the cell's tile. *)
Definition terrain_picture (m : GameMap) : list Prim :=
  mjoin ((λ y, mjoin ((λ x, tile_prims x y (get_tile m x y))
                        <$> py_range 0 (width m)))
           <$> py_range 0 (height m)).

(** The map with its cache discarded: what [render] would see if the
    surface were rebuilt for every frame. *)
Definition GameMap_invalidate (m : GameMap) : GameMap :=
  mkGameMap (width m) (height m) (tiles m) None true.

(** ** Lemmas *)

Section MapRenderLemmas.
Implicit Types (m : GameMap) (x y : Z) (t : TileType).

(** The rebuild reads the width, the height and the tiles only. *)
Lemma terrain_surface_ext m m' :
  width m' = width m → height m' = height m → tiles m' = tiles m →
  terrain_surface m' = terrain_surface m.
Proof.
  intros Hw Hh Ht.
  unfold terrain_surface, row_prims, tiles_at, pixel_width, pixel_height.
  by rewrite Hw, Hh, Ht.
Qed.

Lemma row_prims_Some m y :
  wf_map m → 0 ≤ y < height m →
  row_prims m y =
    Some (mjoin ((λ x, tile_prims x y (get_tile m x y)) <$> py_range 0 (width m))).
Proof.
  intros Hwf Hy. unfold row_prims.
  rewrite (mapM_Some_fmap _ (λ x, tile_prims x y (get_tile m x y))); [done|].
  apply list.Forall_forall. intros x Hx%elem_of_py_range.
  assert (in_bounds m x y) as Hin by (unfold in_bounds; lia).
  destruct (tiles_at_is_Some m x y Hwf Hin) as [t Ht]. rewrite Ht. simpl.
  by rewrite (get_tile_tiles_at m x y t).
Qed.

(** The surface of a well-formed map is its picture; a map of negative
    width or height has none. *)
Lemma terrain_surface_Some m :
  wf_map m → 0 ≤ width m → 0 ≤ height m →
  terrain_surface m =
    Some (mkSurface (pixel_width m, pixel_height m) None (terrain_picture m)).
Proof.
  intros Hwf Hw Hh. unfold terrain_surface.
  rewrite decide_True by (unfold pixel_width, pixel_height; config_unfold; lia).
  rewrite (mapM_Some_fmap _
    (λ y, mjoin ((λ x, tile_prims x y (get_tile m x y)) <$> py_range 0 (width m))));
    [done|].
  apply list.Forall_forall. intros y Hy%elem_of_py_range.
  by apply row_prims_Some.
Qed.

Lemma terrain_surface_inv m s :
  wf_map m → terrain_surface m = Some s →
  0 ≤ width m ∧ 0 ≤ height m ∧
  s = mkSurface (pixel_width m, pixel_height m) None (terrain_picture m).
Proof.
  intros Hwf Hs. assert (0 ≤ width m ∧ 0 ≤ height m) as [??].
  { unfold terrain_surface, pixel_width, pixel_height in Hs.
    case_decide; [|done]. config_unfold. lia. }
  rewrite terrain_surface_Some in Hs by done. by simplify_eq.
Qed.

Lemma terrain_surface_None m :
  width m < 0 ∨ height m < 0 → terrain_surface m = None.
Proof.
  intros Hneg. unfold terrain_surface.
  rewrite decide_False; [done|].
  unfold pixel_width, pixel_height. config_unfold. lia.
Qed.

(** Every terrain colour has components of 10 or more, so the outline
    colour is a colour. *)
Lemma tile_prims_ok x y t : Forall Prim_ok (tile_prims x y t).
Proof.
  unfold tile_prims. rewrite terrain_of_cases.
  destruct t; simpl;
    repeat first [apply Forall_nil_2 | apply Forall_cons_2]; simpl;
    config_unfold; lia.
Qed.

Lemma terrain_picture_ok m : Forall Prim_ok (terrain_picture m).
Proof.
  unfold terrain_picture. apply Forall_join, Forall_fmap, list.Forall_forall.
  intros y _. simpl. apply Forall_join, Forall_fmap, list.Forall_forall.
  intros x _. apply tile_prims_ok.
Qed.

(** The cell [(x, y)] is in the picture, in the colour of its tile. *)
Lemma terrain_picture_cell m x y :
  in_bounds m x y →
  Forall (λ p, p ∈ terrain_picture m) (tile_prims x y (get_tile m x y)).
Proof.
  intros [[??] [??]]. apply list.Forall_forall. intros p Hp.
  unfold terrain_picture. apply list_elem_of_join.
  eexists. split; [|apply list_elem_of_fmap; exists y; split; [done|]].
  - apply list_elem_of_join. eexists. split; [exact Hp|].
    apply list_elem_of_fmap. exists x. split; [done|].
    apply elem_of_py_range. lia.
  - apply elem_of_py_range. lia.
Qed.

(** The picture has two rectangles for each cell. *)
Lemma length_terrain_picture m :
  length (terrain_picture m)
  = (Z.to_nat (height m) * (Z.to_nat (width m) * 2))%nat.
Proof.
  unfold terrain_picture.
  rewrite length_join, <- list_fmap_compose.
  rewrite (sum_list_fmap_same (Z.to_nat (width m) * 2)), length_py_range;
    [f_equal; lia|].
  apply list.Forall_forall. intros y _. simpl.
  rewrite length_join, <- list_fmap_compose.
  rewrite (sum_list_fmap_same 2), length_py_range; [f_equal; lia|].
  apply list.Forall_forall. intros x _. simpl. unfold tile_prims.
  by destruct (color _) as [[??]?].
Qed.

(** [_rebuild_terrain_surface] keeps the grid and leaves a valid
    cache. *)
Lemma GameMap__rebuild_terrain_surface_spec m :
  wf_map m → 0 ≤ width m → 0 ≤ height m →
  ∃ m', GameMap__rebuild_terrain_surface m = Some m' ∧
    width m' = width m ∧ height m' = height m ∧ tiles m' = tiles m ∧
    _dirty m' = false ∧ wf_map m' ∧
    _terrain_surface m' =
      Some (mkSurface (pixel_width m, pixel_height m) None (terrain_picture m)).
Proof.
  intros Hwf Hw Hh. unfold GameMap__rebuild_terrain_surface.
  rewrite terrain_surface_Some by done. simpl. eexists. split; [done|].
  simpl. split_and!; try done. split; [exact (wf_map_rect _ Hwf)|].
  intros _. simpl. split; [by eexists|].
  rewrite <- (terrain_surface_Some m) by done.
  by apply terrain_surface_ext.
Qed.

(** The cache test of [render] on a well-formed map: either the cache is
    used and it is the surface of the tiles, or the surface is rebuilt. *)
Lemma render_cache_cases m :
  wf_map m →
  (_dirty m || bool_decide (_terrain_surface m = None) = false ∧
   _dirty m = false ∧ _terrain_surface m = terrain_surface m ∧
   is_Some (terrain_surface m)) ∨
  _dirty m || bool_decide (_terrain_surface m = None) = true.
Proof.
  intros [_ Hc]. destruct (_dirty m) eqn:Hd; [by right|].
  destruct (Hc Hd) as [[s Hs] Heq]. left.
  rewrite bool_decide_eq_false_2 by (by rewrite Hs).
  split_and!; try done. rewrite <- Heq, Hs. by eexists.
Qed.

(** The rebuild of a map does not look at its cache. *)
Lemma rebuild_invalidate m :
  GameMap__rebuild_terrain_surface (GameMap_invalidate m)
  = GameMap__rebuild_terrain_surface m.
Proof.
  unfold GameMap__rebuild_terrain_surface.
  by rewrite (terrain_surface_ext m (GameMap_invalidate m)).
Qed.

(** A map with a valid cache is what its rebuild gives. *)
Lemma rebuild_of_cached m s :
  _dirty m = false → _terrain_surface m = Some s →
  terrain_surface m = Some s →
  GameMap__rebuild_terrain_surface m = Some m.
Proof.
  intros Hd Hs Ht. unfold GameMap__rebuild_terrain_surface.
  rewrite Ht. simpl. destruct m. simpl in *. by subst.
Qed.

(** Rendering from the cache is rendering after a rebuild. *)
Lemma render_invalidate m camera_offset viewport_size :
  wf_map m →
  GameMap_render m camera_offset viewport_size
  = GameMap_render (GameMap_invalidate m) camera_offset viewport_size.
Proof.
  intros Hwf. unfold GameMap_render at 2. simpl. rewrite rebuild_invalidate.
  unfold GameMap_render.
  destruct (render_cache_cases m Hwf) as [(-> & Hd & Hs & [s Ht]) | -> ]; [|done].
  by rewrite (rebuild_of_cached m s) by congruence.
Qed.

(** What [render] returns on a well-formed map of non-negative size with
    a camera that is a number. *)
Lemma GameMap_render_result m camera_offset viewport_size :
  wf_map m → 0 ≤ width m → 0 ≤ height m →
  is_number camera_offset.1 = true → is_number camera_offset.2 = true →
  ∃ m' src_x src_y,
    GameMap_render m camera_offset viewport_size =
      Some (m', [Blit (FromSurface (mkSurface (pixel_width m, pixel_height m)
                                      None (terrain_picture m)))
                   (TopLeft (0, 0))
                   (Some (mkRect src_x src_y viewport_size.1 viewport_size.2))]) ∧
    py_int camera_offset.1 = Some src_x ∧ py_int camera_offset.2 = Some src_y ∧
    width m' = width m ∧ height m' = height m ∧ tiles m' = tiles m ∧
    _dirty m' = false ∧ wf_map m' ∧
    Forall Prim_ok (terrain_picture m).
Proof.
  intros Hwf Hw Hh Hn1 Hn2.
  destruct (proj2 (py_int_is_Some _) Hn1) as [sx Hx].
  destruct (proj2 (py_int_is_Some _) Hn2) as [sy Hy].
  destruct (py_int_floordiv_is_Some _ TILE_SIZE Hn1) as [fx Hfx].
  destruct (py_int_floordiv_is_Some _ TILE_SIZE Hn2) as [fy Hfy].
  rewrite render_invalidate by done.
  unfold GameMap_render. cbn [_dirty GameMap_invalidate orb].
  rewrite rebuild_invalidate.
  destruct (GameMap__rebuild_terrain_surface_spec m Hwf Hw Hh)
    as (m' & -> & ? & ? & ? & ? & ? & Hs).
  rewrite Hfx, Hfy, Hx, Hy. simpl. rewrite Hs. simpl. exists m', sx, sy.
  split_and!; try done. apply terrain_picture_ok.
Qed.

(** A rendering that succeeds was of a map of non-negative size with a
    camera that is a number. *)
Lemma GameMap_render_Some m camera_offset viewport_size m' cmds :
  wf_map m → GameMap_render m camera_offset viewport_size = Some (m', cmds) →
  0 ≤ width m ∧ 0 ≤ height m ∧
  is_number camera_offset.1 = true ∧ is_number camera_offset.2 = true.
Proof.
  intros Hwf. rewrite render_invalidate by done.
  unfold GameMap_render. cbn [_dirty GameMap_invalidate orb].
  rewrite rebuild_invalidate. unfold GameMap__rebuild_terrain_surface.
  intros Hr. bind_inv Hr.
  match goal with
  | E : terrain_surface m ≫= _ = Some _ |- _ =>
      destruct (terrain_surface m) eqn:Es; [|done];
      apply terrain_surface_inv in Es as (?&?&_); [|done]
  end.
  split_and!; try done; apply py_int_is_Some; eauto.
Qed.

(** Rendering writes the cache only. *)
Lemma GameMap_render_invalidate m camera_offset viewport_size m' cmds :
  GameMap_render m camera_offset viewport_size = Some (m', cmds) →
  GameMap_invalidate m' = GameMap_invalidate m.
Proof.
  unfold GameMap_render, GameMap__rebuild_terrain_surface. intros Hr.
  destruct (_dirty m || _); bind_inv Hr; [|by simplify_eq].
  destruct (terrain_surface m); by simplify_eq/=.
Qed.
End MapRenderLemmas.

(** ** Theorems *)

Section MapRenderTheorems.
Implicit Types (m : GameMap) (x y : Z) (t : TileType).

(** [C25] The cache of the terrain surface is transparent: on a well-formed
    map, rendering with the cache and rendering after the cache has been
    discarded give the same commands and leave the same map.  The
    commands are therefore the picture of the tiles as they are now,
    whatever [set_tile], [damage_tile] and [generate_random] did since
    the surface was made. *)
Theorem GameMap_render_cache_transparent m camera_offset viewport_size :
  wf_map m →
  GameMap_render m camera_offset viewport_size
  = GameMap_render (GameMap_invalidate m) camera_offset viewport_size.
Proof. apply render_invalidate. Qed.

(** [C17] [GameMap.render] on a well-formed map of non-negative size, with a
    camera that is a number: it succeeds, blits the picture of the tiles
    from the camera position truncated to integers, leaves the grid as it
    is and the cache valid; and every rectangle of the picture has a
    colour pygame accepts. *)
Theorem GameMap_render_spec m camera_offset viewport_size :
  wf_map m → 0 ≤ width m → 0 ≤ height m →
  is_number camera_offset.1 = true → is_number camera_offset.2 = true →
  ∃ m' src_x src_y,
    GameMap_render m camera_offset viewport_size =
      Some (m', [Blit (FromSurface (mkSurface (pixel_width m, pixel_height m)
                                      None (terrain_picture m)))
                   (TopLeft (0, 0))
                   (Some (mkRect src_x src_y viewport_size.1 viewport_size.2))]) ∧
    py_int camera_offset.1 = Some src_x ∧ py_int camera_offset.2 = Some src_y ∧
    width m' = width m ∧ height m' = height m ∧ tiles m' = tiles m ∧
    _dirty m' = false ∧ wf_map m' ∧
    Forall Prim_ok (terrain_picture m).
Proof. apply GameMap_render_result. Qed.

(** A map of negative width or height is accepted by the constructor
    and fails when it is first rendered: [pygame.Surface] refuses the
    size. *)
Theorem GameMap_render_negative_size w h camera_offset viewport_size :
  w < 0 ∨ h < 0 →
  wf_map (GameMap_init w h) ∧
  GameMap_render (GameMap_init w h) camera_offset viewport_size = None.
Proof.
  intros Hneg. split; [apply GameMap_init_wf|].
  unfold GameMap_render. simpl. unfold GameMap__rebuild_terrain_surface.
  by rewrite terrain_surface_None.
Qed.
End MapRenderTheorems.

(** ** Witnesses and examples *)

Definition small_map : GameMap := set_tile (GameMap_init 3 2) 1 0 WALL.

Lemma GameMap_render_cache_transparent_witness :
  GameMap_render (damage_tile small_map 1 0) (0.5, 0)%float (48, 32)
  = GameMap_render (GameMap_invalidate (damage_tile small_map 1 0))
      (0.5, 0)%float (48, 32).
Proof. apply GameMap_render_cache_transparent. by_compute. Defined.

Lemma GameMap_render_spec_witness :
  ∃ m' src_x src_y,
    GameMap_render small_map (17.5, 0)%float (48, 32) =
      Some (m', [Blit (FromSurface (mkSurface (pixel_width small_map,
                                               pixel_height small_map)
                                      None (terrain_picture small_map)))
                   (TopLeft (0, 0)) (Some (mkRect src_x src_y 48 32))]) ∧
    py_int 17.5 = Some src_x ∧ py_int 0 = Some src_y ∧
    width m' = width small_map ∧ height m' = height small_map ∧
    tiles m' = tiles small_map ∧ _dirty m' = false ∧ wf_map m' ∧
    Forall Prim_ok (terrain_picture small_map).
Proof.
  apply (GameMap_render_spec small_map (17.5, 0)%float (48, 32));
    first [by_compute | by vm_compute].
Defined.

Lemma GameMap_render_negative_size_witness :
  wf_map (GameMap_init (-1) 5) ∧
  GameMap_render (GameMap_init (-1) 5) (0, 0)%float (1024, 768) = None.
Proof. apply GameMap_render_negative_size. by left. Defined.

(** The picture of a map of three by two cells whose cell (1, 0) is a
    wall, and the render of the map after a hit on the wall: the cache is
    rebuilt, and the second render of the same map uses it. *)
Example render_demo :
  terrain_picture small_map !! 2%nat
    = Some (RectP (100, 100, 100) (mkRect 16 0 16 16) 0) ∧
  terrain_picture small_map !! 3%nat
    = Some (RectP (90, 90, 90) (mkRect 16 0 16 16) 1) ∧
  match GameMap_render small_map (0, 0)%float (48, 32) with
  | Some (m1, _) =>
      _dirty m1 = false ∧ _dirty (damage_tile m1 1 0) = true ∧
      match GameMap_render (damage_tile m1 1 0) (0, 0)%float (48, 32) with
      | Some (m2, [Blit (FromSurface s) _ _]) =>
          surf_prims s !! 2%nat
            = Some (RectP (120, 110, 100) (mkRect 16 0 16 16) 0) ∧
          GameMap_render m2 (0, 0)%float (48, 32)
            = GameMap_render (damage_tile m1 1 0) (0, 0)%float (48, 32)
      | _ => False
      end
  | None => False
  end.
Proof. by vm_compute. Qed.
