(* ===== verification/MapGen.v ===== *)
(** * MapGen: [GameMap.generate_random]

    [src/src/bolo_engine.py], [GameMap.generate_random]: a sweep over all
    cells in row-major order that walls the border and draws the terrain
    of every interior cell from [random.random()], followed by a road
    along the middle row and one along the middle column.  The method
    writes [self.tiles[y][x]] directly, which raises [IndexError] outside
    the lists: the model returns [None] then. *)

From S2P Require Import Prelude PyFloat Config GameMap.
Set Warnings "-inexact-float".

(** [self.tiles[y][x] = t] *)
Definition tiles_write (g : list (list TileType)) (y x : Z) (t : TileType)
    : option (list (list TileType)) :=
  r ← py_index (length g) y;
  row ← g !! r;
  c ← py_index (length row) x;
  Some (grid_set g r c t).

(** The terrain drawn for [r = random.random()]. *)
Definition random_tile (r : float) : TileType :=
  if (r <? 0.05)%float then FOREST
  else if (r <? 0.08)%float then RIVER
  else if (r <? 0.10)%float then SWAMP
  else if (r <? 0.12)%float then WALL
  else GRASS.

(** [x == 0 or y == 0 or x == self.width - 1 or y == self.height - 1] *)
Definition is_border (m : GameMap) (x y : Z) : bool :=
  bool_decide (x = 0 ∨ y = 0 ∨ x = width m - 1 ∨ y = height m - 1).

(** The body of the inner loop, on the tiles and the position in the
    random sequence. *)
Definition gen_cell `{Platform} (m : GameMap) (y : Z)
    (st : list (list TileType) * nat) (x : Z)
    : option (list (list TileType) * nat) :=
  let '(g, rng) := st in
  if is_border m x y then g ← tiles_write g y x WALL; Some (g, rng)
  else g ← tiles_write g y x (random_tile (random_random rng)); Some (g, S rng).

Definition gen_row `{Platform} (m : GameMap) (st : list (list TileType) * nat)
    (y : Z) : option (list (list TileType) * nat) :=
  foldlM (gen_cell m y) st (py_range 0 (width m)).

(** [GameMap.generate_random] *)
Definition generate_random `{Platform} (m : GameMap) (rng : nat)
    : option (GameMap * nat) :=
  '(g, rng) ← foldlM (gen_row m) (tiles m, rng) (py_range 0 (height m));
  let mid_y := height m `div` 2 in
  g ← foldlM (λ g x, tiles_write g mid_y x ROAD) g (py_range 5 (width m - 5));
  let mid_x := width m `div` 2 in
  g ← foldlM (λ g y, tiles_write g y mid_x ROAD) g (py_range 5 (height m - 5));
  Some ({| width := width m; height := height m; tiles := g;
           _terrain_surface := _terrain_surface m; _dirty := true |},
        rng).

(** ** Specification *)

(** The cells the sweep visits before row [y], column [k], as
    [(row, column)] pairs in the order of the visit. *)
Definition cells_before (w y k : nat) : list (nat * nat) :=
  (r ← seq 0 y; (λ c, (r, c)) <$> seq 0 w) ++ ((λ c, (y, c)) <$> seq 0 k).

Definition interior (m : GameMap) (rc : nat * nat) : bool :=
  negb (is_border m (Z.of_nat rc.2) (Z.of_nat rc.1)).

(** How many draws the sweep has made when it reaches a cell: one for
    every interior cell before it. *)
Definition draws_before (m : GameMap) (y k : nat) : nat :=
  length (filter (λ rc, interior m rc = true)
            (cells_before (Z.to_nat (width m)) y k)).

Definition on_row_road (m : GameMap) (x y : Z) : bool :=
  bool_decide (y = height m `div` 2 ∧ 5 ≤ x < width m - 5).

Definition on_col_road (m : GameMap) (x y : Z) : bool :=
  bool_decide (x = width m `div` 2 ∧ 5 ≤ y < height m - 5).

(** What [generate_random] leaves in the cell [(x, y)] of the map [m]
    when it starts at position [rng] of the random sequence. *)
Definition generated_tile `{Platform} (m : GameMap) (rng : nat) (x y : Z)
    : TileType :=
  if on_col_road m x y || on_row_road m x y then ROAD
  else if is_border m x y then WALL
  else random_tile
         (random_random (rng + draws_before m (Z.to_nat y) (Z.to_nat x))).

(** ** Lemmas *)

Lemma tiles_write_in w h g y x v :
  rect w h g → 0 ≤ y < Z.of_nat h → 0 ≤ x < Z.of_nat w →
  tiles_write g y x v = Some (grid_set g (Z.to_nat y) (Z.to_nat x) v).
Proof.
  intros [Hlen Hrows] ??. unfold tiles_write.
  rewrite py_index_in by lia. simpl.
  destruct (lookup_lt_is_Some_2 g (Z.to_nat y)) as [row Hrow]; [lia|].
  rewrite Hrow. simpl. rewrite Forall_lookup in Hrows.
  rewrite (Hrows _ _ Hrow), py_index_in by lia. done.
Qed.

Lemma cells_before_S w y k :
  cells_before w y (S k) = cells_before w y k ++ [(y, k)].
Proof.
  unfold cells_before. by rewrite seq_S, fmap_app, app_assoc.
Qed.

Lemma cells_before_row w y : cells_before w (S y) 0 = cells_before w y w.
Proof.
  unfold cells_before. rewrite seq_S, bind_app. simpl.
  by rewrite !app_nil_r.
Qed.

(** The cells already swept when the sweep is at row [y], column [k]. *)
Definition before_cell (y k r c : nat) : bool :=
  bool_decide (r < y ∨ (r = y ∧ c < k))%nat.

Lemma before_cell_S y k r c :
  before_cell y (S k) r c = before_cell y k r c || bool_decide ((r, c) = (y, k)).
Proof.
  unfold before_cell. apply eq_true_iff_eq.
  rewrite orb_true_iff, !bool_decide_eq_true.
  split; intros; destruct_or?; destruct_and?; simplify_eq; try lia; auto.
  destruct (decide (c = k)) as [->|]; [by right|left; lia].
Qed.

Lemma before_cell_row w y r c :
  (c < w)%nat → before_cell (S y) 0 r c = before_cell y w r c.
Proof.
  intros ?. unfold before_cell. apply bool_decide_ext. lia.
Qed.

(** The dimensions as list lengths. *)
Definition cols (m : GameMap) : nat := Z.to_nat (width m).
Definition rows (m : GameMap) : nat := Z.to_nat (height m).

Section Sweep.
Context `{Platform} (m : GameMap) (rng : nat).
Implicit Types (g : list (list TileType)) (y k r c n : nat).

Lemma draws_before_S y k :
  draws_before m y (S k) =
    (draws_before m y k + (if interior m (y, k) then 1 else 0))%nat.
Proof.
  unfold draws_before. rewrite cells_before_S, list.filter_app, length_app.
  f_equal. rewrite list.filter_cons, list.filter_nil.
  destruct (interior m (y, k)); by case_decide.
Qed.

Lemma draws_before_row y : draws_before m (S y) 0 = draws_before m y (cols m).
Proof. unfold draws_before. by rewrite cells_before_row. Qed.

(** What the sweep writes in row [r], column [c]. *)
Definition swept_tile (r c : nat) : TileType :=
  if is_border m (Z.of_nat c) (Z.of_nat r) then WALL
  else random_tile (random_random (rng + draws_before m r c)).

(** The state of the sweep at row [y], column [k]. *)
Definition sweep_at (g0 : list (list TileType)) (y k : nat)
    (st : list (list TileType) * nat) : Prop :=
  painted (cols m) (rows m) (before_cell y k) swept_tile g0 st.1 ∧
  st.2 = (rng + draws_before m y k)%nat.

Lemma gen_cell_sweep g0 y k st :
  (y < rows m)%nat → (k < cols m)%nat → sweep_at g0 y k st →
  ∃ st', gen_cell m (Z.of_nat y) st (Z.of_nat k) = Some st' ∧
         sweep_at g0 y (S k) st'.
Proof.
  intros ?? [Hp Hn]. destruct st as [g n]. simpl in *. subst n.
  pose proof (painted_step _ _ _ (before_cell y (S k)) _ _ _ y k Hp) as Hstep.
  unfold gen_cell, sweep_at. rewrite draws_before_S. unfold interior. simpl.
  rewrite !(tiles_write_in (cols m) (rows m)) by (apply Hp || lia). rewrite !Nat2Z.id.
  unfold swept_tile in Hstep at 2.
  destruct (is_border m (Z.of_nat k) (Z.of_nat y)); simpl;
    eexists; (split; [done|]); simpl;
    (split; [apply Hstep; auto using before_cell_S|lia]).
Qed.

Lemma gen_row_sweep g0 y st :
  (y < rows m)%nat → sweep_at g0 y 0 st →
  ∃ st', gen_row m st (Z.of_nat y) = Some st' ∧ sweep_at g0 (S y) 0 st'.
Proof.
  intros Hy Hst. unfold gen_row.
  destruct (foldlM_inv (gen_cell m (Z.of_nat y)) (sweep_at g0 y) st
              (py_range 0 (width m))) as (st' & Hrun & [Hp Hn]); [done| |].
  - intros k s b [-> ?]%lookup_py_range ?. simpl.
    apply gen_cell_sweep; [done|unfold cols; lia|done].
  - exists st'. split; [done|].
    rewrite length_py_range, Z.sub_0_r in Hp, Hn. split.
    + eapply painted_ext; [|exact Hp]. intros. by apply before_cell_row.
    + by rewrite draws_before_row.
Qed.

(** The sweep succeeds, paints every cell and makes one draw for every
    interior cell. *)
Lemma sweep_all g0 :
  rect (cols m) (rows m) g0 →
  ∃ g, foldlM (gen_row m) (g0, rng) (py_range 0 (height m)) =
         Some (g, (rng + draws_before m (rows m) 0)%nat) ∧
       painted (cols m) (rows m) (λ _ _, true) swept_tile g0 g.
Proof.
  intros Hrect.
  destruct (foldlM_inv (gen_row m) (λ y, sweep_at g0 y 0) (g0, rng)
              (py_range 0 (height m))) as ([g n] & Hrun & [Hp Hn]).
  - split; simpl; [|unfold draws_before; simpl; lia].
    eapply painted_ext; [|by apply painted_start].
    intros. unfold before_cell. apply bool_decide_eq_false. lia.
  - intros y s b [-> ?]%lookup_py_range ?. simpl.
    apply gen_row_sweep; [unfold rows; lia|done].
  - rewrite length_py_range, Z.sub_0_r in Hp, Hn. simpl in *. subst n.
    exists g. split; [done|]. eapply painted_ext; [|exact Hp].
    intros. symmetry. unfold before_cell. apply bool_decide_eq_true.
    unfold rows in *. lia.
Qed.
End Sweep.

(** ** Roads *)

(** The cell [(y, x)] that a road loop writes at its index [i]: a road
    along the row [fixed] or along the column [fixed]. *)
Definition road_cell (along_row : bool) (fixed i : Z) : Z * Z :=
  if along_row then (fixed, i) else (i, fixed).

Definition on_road (along_row : bool) (fixed a b : Z) (r c : nat) : bool :=
  if along_row then bool_decide (Z.of_nat r = fixed ∧ a ≤ Z.of_nat c < b)
  else bool_decide (Z.of_nat c = fixed ∧ a ≤ Z.of_nat r < b).

Lemma on_road_S along_row fixed a k r c :
  0 ≤ fixed → 0 ≤ a →
  on_road along_row fixed a (a + Z.of_nat (S k)) r c =
    on_road along_row fixed a (a + Z.of_nat k) r c ||
    bool_decide
      ((r, c) = (Z.to_nat (road_cell along_row fixed (a + Z.of_nat k)).1,
                 Z.to_nat (road_cell along_row fixed (a + Z.of_nat k)).2)).
Proof.
  intros ??. unfold on_road, road_cell. apply eq_true_iff_eq.
  destruct along_row; simpl;
    rewrite orb_true_iff, !bool_decide_eq_true;
    (split; [intros [? ?]|intros [[? ?]|?]; simplify_eq]); try (split; lia).
  - destruct (decide (Z.of_nat c = a + Z.of_nat k));
      [right; f_equal; lia|left; lia].
  - destruct (decide (Z.of_nat r = a + Z.of_nat k));
      [right; f_equal; lia|left; lia].
Qed.

(** A road loop over [range(a, b)] succeeds when its cells are within the
    grid, and paints them. *)
Lemma road_loop (w h : nat) along_row fixed a b
    (body : list (list TileType) → Z → option (list (list TileType))) g1 :
  (∀ g i, body g i =
     tiles_write g (road_cell along_row fixed i).1
       (road_cell along_row fixed i).2 ROAD) →
  rect w h g1 → (a < b → 0 ≤ fixed) → 0 ≤ a →
  (∀ i, a ≤ i < b →
     (road_cell along_row fixed i).1 < Z.of_nat h ∧
     (road_cell along_row fixed i).2 < Z.of_nat w) →
  ∃ g2, foldlM body g1 (py_range a b) = Some g2 ∧
        painted w h (on_road along_row fixed a b) (λ _ _, ROAD) g1 g2.
Proof.
  intros Hbody Hrect ?? Hin.
  destruct (foldlM_inv body
    (λ k g, painted w h (on_road along_row fixed a (a + Z.of_nat k))
              (λ _ _, ROAD) g1 g) g1 (py_range a b)) as (g2 & Hrun & Hp).
  - eapply painted_ext; [|by apply painted_start].
    intros. unfold on_road.
    destruct along_row; apply bool_decide_eq_false; lia.
  - intros k g i [-> ?]%lookup_py_range Hp. rewrite Hbody.
    assert (0 ≤ fixed) by lia.
    destruct (Hin (a + Z.of_nat k)) as [??]; [lia|].
    assert (0 ≤ (road_cell along_row fixed (a + Z.of_nat k)).1 ∧
            0 ≤ (road_cell along_row fixed (a + Z.of_nat k)).2) as [??]
      by (unfold road_cell; destruct along_row; simpl; lia).
    rewrite (tiles_write_in w h) by (apply Hp || lia).
    eexists. split; [done|].
    apply (painted_step _ _ _ _ (λ _ _, ROAD) _ _ _ _ Hp); [lia..|].
    intros. by apply on_road_S.
  - exists g2. split; [done|]. eapply painted_ext; [|exact Hp].
    intros r c ??. rewrite length_py_range. unfold on_road.
    destruct along_row; apply bool_decide_ext; lia.
Qed.

(** ** Theorems *)

(** The dimensions for which the road loops stay within the lists: a map
    wide enough for the row road has a row, and a map high enough for the
    column road has a column. *)
Definition roads_fit (m : GameMap) : Prop :=
  (10 < width m → 0 < height m) ∧ (10 < height m → 0 < width m).

#[export] Instance roads_fit_dec m : Decision (roads_fit m).
Proof. unfold roads_fit. apply _. Defined.

Section Generate.
Context `{Platform}.
Implicit Types (m : GameMap) (rng : nat).

Lemma generate_random_run m rng :
  wf_map m → roads_fit m →
  ∃ g1 g2 g3,
    generate_random m rng =
      Some (mkGameMap (width m) (height m) g3 (_terrain_surface m) true,
            (rng + draws_before m (rows m) 0)%nat) ∧
    painted (cols m) (rows m) (λ _ _, true) (swept_tile m rng) (tiles m) g1 ∧
    painted (cols m) (rows m)
      (on_road true (height m `div` 2) 5 (width m - 5)) (λ _ _, ROAD) g1 g2 ∧
    painted (cols m) (rows m)
      (on_road false (width m `div` 2) 5 (height m - 5)) (λ _ _, ROAD) g2 g3.
Proof.
  intros Hwf [Hrow Hcol]. unfold generate_random.
  destruct (sweep_all m rng (tiles m) (wf_map_rect _ Hwf)) as (g1 & -> & Hp1). simpl.
  destruct (road_loop (cols m) (rows m) true (height m `div` 2) 5 (width m - 5)
              (λ g x, tiles_write g (height m `div` 2) x ROAD) g1)
    as (g2 & -> & Hp2); [done|apply Hp1| |lia| |].
  { intros. apply Z.div_pos; lia. }
  { intros i ?. simpl. unfold rows, cols.
    pose proof (Z.div_lt_upper_bound (height m) 2 (height m)). lia. }
  simpl.
  destruct (road_loop (cols m) (rows m) false (width m `div` 2) 5 (height m - 5)
              (λ g y, tiles_write g y (width m `div` 2) ROAD) g2)
    as (g3 & -> & Hp3); [done|apply Hp2| |lia| |].
  { intros. apply Z.div_pos; lia. }
  { intros i ?. simpl. unfold rows, cols.
    pose proof (Z.div_lt_upper_bound (width m) 2 (width m)). lia. }
  simpl. by exists g1, g2, g3.
Qed.

(** The cells of the generated map, the result and the draws. *)
Lemma generate_random_cells m rng :
  wf_map m → roads_fit m →
  ∃ m', generate_random m rng =
          Some (m', (rng + draws_before m (rows m) 0)%nat) ∧
        wf_map m' ∧ width m' = width m ∧ height m' = height m ∧
        ∀ x y, in_bounds m x y → get_tile m' x y = generated_tile m rng x y.
Proof.
  intros Hwf Hfit.
  destruct (generate_random_run m rng Hwf Hfit)
    as (g1 & g2 & g3 & -> & [_ Hp1] & [_ Hp2] & [Hr3 Hp3]).
  eexists. split; [done|]. split_and!; try done.
  intros x y [[??] [??]]. unfold get_tile. rewrite decide_True by done.
  unfold tiles_at. simpl.
  rewrite Hp3, Hp2, Hp1 by (unfold rows, cols; lia).
  unfold generated_tile, on_col_road, on_row_road, swept_tile, on_road.
  rewrite !Z2Nat.id by lia.
  repeat case_bool_decide; simpl; try done; lia.
Qed.

(** [C14] [generate_random] implements its specification.  On a
    well-formed map whose dimensions let the roads fit it returns; the map
    keeps its dimensions and shape; the cell [(x, y)] holds a road on the
    middle row between columns 5 and [width - 5] and on the middle column
    between rows 5 and [height - 5], else a wall on the border, else the
    terrain drawn from the random number whose index is the number of
    interior cells before it in row-major order; and the random sequence
    has advanced by the number of interior cells. *)
Theorem generate_random_spec m rng :
  wf_map m → roads_fit m →
  ∃ m', generate_random m rng =
          Some (m', (rng + draws_before m (rows m) 0)%nat) ∧
        wf_map m' ∧ width m' = width m ∧ height m' = height m ∧
        ∀ x y, in_bounds m x y → get_tile m' x y = generated_tile m rng x y.
Proof. apply generate_random_cells. Qed.

(** [C31] [generate_random] raises [IndexError] exactly when a road does
    not fit: on a well-formed map wider than 10 tiles without a row, or
    higher than 10 tiles without a column, the first write of the road
    fails. *)
Theorem generate_random_index_error m rng :
  wf_map m → ¬ roads_fit m → generate_random m rng = None.
Proof.
  intros Hwf Hfit. unfold generate_random.
  destruct (sweep_all m rng (tiles m) (wf_map_rect _ Hwf)) as (g1 & -> & [Hr1 _]). simpl.
  destruct (decide (10 < width m ∧ height m ≤ 0)) as [[??]|].
  - destruct Hr1 as [Hlen _]. unfold rows in Hlen.
    destruct g1; [|simpl in Hlen; lia].
    unfold py_range. rewrite (seqZ_cons 5 (width m - 5 - 5)) by lia. simpl.
    unfold tiles_write. simpl. by rewrite py_index_empty.
  - assert (10 < height m ∧ width m ≤ 0) as [??]
      by (unfold roads_fit in Hfit; lia).
    unfold py_range. rewrite (seqZ_nil 5 (width m - 5 - 5)) by lia. simpl.
    rewrite (seqZ_cons 5 (height m - 5 - 5)) by lia. simpl.
    destruct Hr1 as [Hlen Hrows]. unfold tiles_write.
    rewrite py_index_in by (unfold rows in Hlen; lia). simpl.
    destruct (lookup_lt_is_Some_2 g1 (Z.to_nat 5)) as [row Hrow];
      [unfold rows in Hlen; lia|].
    rewrite Hrow. simpl. rewrite Forall_lookup in Hrows.
    rewrite (Hrows _ _ Hrow). unfold cols.
    replace (Z.to_nat (width m)) with 0%nat by lia.
    by rewrite py_index_empty.
Qed.

(** The border is walled on maps of ordinary size: when the map has
    at least 3 rows and 3 columns, every border cell of the generated map
    is a wall, and every other cell is forest, river, swamp, wall, grass
    or road, never water too deep to cross. *)
Theorem generate_random_border m rng m' rng' :
  wf_map m → 3 ≤ width m → 3 ≤ height m →
  generate_random m rng = Some (m', rng') →
  ∀ x y, in_bounds m x y →
    (is_border m x y = true → get_tile m' x y = WALL) ∧
    get_tile m' x y ∈ [FOREST; RIVER; SWAMP; WALL; GRASS; ROAD].
Proof.
  intros Hwf ?? Hgen x y Hin.
  destruct (generate_random_cells m rng Hwf) as (m0 & Hrun & _ & _ & _ & Hcell).
  { unfold roads_fit. lia. }
  rewrite Hrun in Hgen. simplify_eq. rewrite (Hcell x y Hin).
  destruct Hin as [[??] [??]].
  unfold generated_tile, on_col_road, on_row_road, is_border, random_tile.
  split.
  - intros ?%bool_decide_eq_true.
    rewrite !bool_decide_false by (Z.div_mod_to_equations; lia). simpl.
    by rewrite bool_decide_true.
  - repeat case_bool_decide; simpl; repeat case_match; by repeat constructor.
Qed.
End Generate.

(** ** Witnesses *)

(** A platform whose random sequence is [0.00, 0.07, 0.14, ...] modulo 1,
    so that every terrain is drawn. *)
Definition stripes_platform : Platform :=
  {| libm_cos := λ _, 1%float; libm_sin := λ _, 0%float;
     libm_atan2 := λ _ _, 0%float;
     random_random := λ n, (Z2F (Z.of_nat (n * 7 mod 100)) / 100)%float |}.

Lemma generate_random_spec_witness :
  ∃ m', @generate_random stripes_platform (GameMap_init 16 12) 3 =
          Some (m', (3 + draws_before (GameMap_init 16 12)
                          (rows (GameMap_init 16 12)) 0)%nat) ∧
        wf_map m' ∧ width m' = 16 ∧ height m' = 12 ∧
        ∀ x y, in_bounds (GameMap_init 16 12) x y →
          get_tile m' x y =
            @generated_tile stripes_platform (GameMap_init 16 12) 3 x y.
Proof.
  apply (@generate_random_spec stripes_platform (GameMap_init 16 12) 3);
    by_compute.
Defined.

Lemma generate_random_index_error_witness :
  @generate_random stripes_platform (GameMap_init 20 0) 0 = None.
Proof. apply generate_random_index_error; by_compute. Defined.

Definition demo_generated : GameMap :=
  default (GameMap_init 0 0)
    (fst <$> @generate_random stripes_platform (GameMap_init 16 12) 3).

Lemma generate_random_border_witness :
  (is_border (GameMap_init 16 12) 0 5 = true →
   get_tile demo_generated 0 5 = WALL) ∧
  get_tile demo_generated 0 5 ∈ [FOREST; RIVER; SWAMP; WALL; GRASS; ROAD].
Proof.
  apply (@generate_random_border stripes_platform (GameMap_init 16 12) 3
           demo_generated 143);
    [by_compute|done|done|by vm_compute|by_compute].
Defined.

(** The first rows of a generated 16 by 12 map: walls around, the drawn
    terrain inside, the two roads through the middle. *)
Example generate_random_demo :
  (λ mr, take 3 (tiles mr.1)) <$>
    @generate_random stripes_platform (GameMap_init 16 12) 0 =
  Some [replicate 16 WALL;
        [WALL; FOREST; RIVER; GRASS; GRASS; GRASS; GRASS; GRASS; GRASS;
         GRASS; GRASS; GRASS; GRASS; GRASS; GRASS; WALL];
        [WALL; GRASS; RIVER; GRASS; GRASS; GRASS; GRASS; GRASS; GRASS;
         GRASS; GRASS; GRASS; GRASS; GRASS; GRASS; WALL]].
Proof. by vm_compute. Qed.

(** On a map of two rows the row road runs along the bottom border: the
    border is not closed. *)
Example generate_random_low_map :
  (λ mr, get_tile mr.1 5 1) <$>
    @generate_random stripes_platform (GameMap_init 12 2) 0 = Some ROAD ∧
  is_border (GameMap_init 12 2) 5 1 = true.
Proof. by vm_compute. Qed.
