(* ===== verification/Entity.v ===== *)
(** * Entity: the entity base class, resources, shells and mines

    Section 2 of [src/src/bolo_engine.py], first part: the fields and
    methods every entity inherits from [Entity], the [Resources] of a
    tank, and the classes [Shell] and [Mine].  A method that mutates
    [self] returns the new object; [Shell.update] and [Mine.detonate]
    also change the map and return it. *)

From stdpp Require Import strings gmap.
From S2P Require Import Prelude PyFloat Config GameMap.
Set Warnings "-inexact-float".

(** ** [class Entity] *)

(** The fields set by [Entity.__init__]. *)
Record EntityBase := mkEntityBase {
  e_id : nat;
  e_x : float;
  e_y : float;
  e_alive : bool
}.

(** [Entity.__init__]: takes the next id from the class counter
    [Entity._next_id] and increments it.  Returns the object and the new
    counter. *)
Definition Entity_init (next_id : nat) (x y : float) : EntityBase * nat :=
  ({| e_id := next_id; e_x := x; e_y := y; e_alive := true |}, S next_id).

(** [Entity.tile_position]:
    [(int(self.x // TILE_SIZE), int(self.y // TILE_SIZE))].  The
    specification (7) has the coordinates always numeric, and on numbers
    this is the tile Python computes ([tile_position_numeric] below); on
    a NaN or an infinity, where [int] raises, it reads 0. *)
Definition tile_position (e : EntityBase) : Z * Z :=
  (floordiv (e_x e) TILE_SIZE, floordiv (e_y e) TILE_SIZE).

(** [Entity.destroy] *)
Definition Entity_destroy (e : EntityBase) : EntityBase :=
  {| e_id := e_id e; e_x := e_x e; e_y := e_y e; e_alive := false |}.

(** Assignment to [self.x] and [self.y]. *)
Definition Entity_move (e : EntityBase) (x y : float) : EntityBase :=
  {| e_id := e_id e; e_x := x; e_y := y; e_alive := e_alive e |}.

(** ** [class Resources] *)

Record Resources := mkResources {
  armor : Z;
  shells : Z;
  mines : Z;
  wood : Z
}.

(** The dataclass defaults. *)
Definition Resources_default : Resources :=
  {| armor := TANK_MAX_ARMOR; shells := TANK_MAX_SHELLS;
     mines := TANK_MAX_MINES; wood := 0 |}.

(** ** [class Shell] *)

Record Shell := mkShell {
  shell_base : EntityBase;
  shell_angle : float;
  shell_team : Team;
  owner_id : nat;
  shell_speed : float;
  shell_damage : Z;
  lifetime : Z;
  radius : Z
}.

(** [Shell.__init__] *)
Definition Shell_init (next_id : nat) (x y angle : float) (team : Team)
    (owner : nat) : Shell * nat :=
  let '(b, next_id') := Entity_init next_id x y in
  ({| shell_base := b; shell_angle := angle; shell_team := team;
      owner_id := owner; shell_speed := SHELL_SPEED;
      shell_damage := SHELL_DAMAGE; lifetime := SHELL_LIFETIME;
      radius := 3 |}, next_id').

Definition Shell_set_base (s : Shell) (b : EntityBase) : Shell :=
  {| shell_base := b; shell_angle := shell_angle s; shell_team := shell_team s;
     owner_id := owner_id s; shell_speed := shell_speed s;
     shell_damage := shell_damage s; lifetime := lifetime s;
     radius := radius s |}.

Definition Shell_set_lifetime (s : Shell) (n : Z) : Shell :=
  {| shell_base := shell_base s; shell_angle := shell_angle s;
     shell_team := shell_team s; owner_id := owner_id s;
     shell_speed := shell_speed s; shell_damage := shell_damage s;
     lifetime := n; radius := radius s |}.

(** [self.destroy()] on a shell. *)
Definition Shell_destroy (s : Shell) : Shell :=
  Shell_set_base s (Entity_destroy (shell_base s)).

(** The bounds test at the end of [Shell.update]:
    [x < 0 or x > pixel_width or y < 0 or y > pixel_height]. *)
Definition Shell_out_of_bounds (m : GameMap) (b : EntityBase) : bool :=
  ((e_x b <? 0) || (Z2F (pixel_width m) <? e_x b) ||
   (e_y b <? 0) || (Z2F (pixel_height m) <? e_y b))%float.

(** The first statements of [Shell.update]: the move along the heading
    and the lifetime decrement. *)
Definition Shell_step `{Platform} (s : Shell) : Shell :=
  let b := shell_base s in
  let x := (e_x b + cos_deg (shell_angle s) * shell_speed s)%float in
  let y := (e_y b + sin_deg (shell_angle s) * shell_speed s)%float in
  Shell_set_lifetime (Shell_set_base s (Entity_move b x y)) (lifetime s - 1).

(** [Shell.update]: move, count the lifetime down, then the terrain
    collision, then the bounds check; the first that applies destroys the
    shell and ends the update. *)
Definition Shell_update `{Platform} (game_map : GameMap) (s : Shell)
    : Shell * GameMap :=
  let s := Shell_step s in
  if decide (lifetime s ≤ 0) then (Shell_destroy s, game_map)
  else
    let '(tx, ty) := tile_position (shell_base s) in
    let terrain := terrain_of (get_tile game_map tx ty) in
    if blocks_shots terrain then
      let game_map :=
        if destructible terrain then damage_tile game_map tx ty else game_map in
      (Shell_destroy s, game_map)
    else if Shell_out_of_bounds game_map (shell_base s) then
      (Shell_destroy s, game_map)
    else (s, game_map).

(** ** [class Mine] *)

Record Mine := mkMine {
  mine_base : EntityBase;
  mine_team : Team;
  hidden : bool;
  mine_damage : Z;
  mine_radius : Z;
  detection_radius : Z
}.

(** [Mine.__init__] *)
Definition Mine_init (next_id : nat) (x y : float) (team : Team)
    (hid : bool) : Mine * nat :=
  let '(b, next_id') := Entity_init next_id x y in
  ({| mine_base := b; mine_team := team; hidden := hid;
      mine_damage := MINE_DAMAGE; mine_radius := 6;
      detection_radius := 4 |}, next_id').

(** [Mine.update]: nothing (collisions are handled by the game state). *)
Definition Mine_update (mn : Mine) : Mine := mn.

(** [Mine.detonate]: crater at the mine's tile, then destroy. *)
Definition Mine_detonate (game_map : GameMap) (mn : Mine) : Mine * GameMap :=
  let '(tx, ty) := tile_position (mine_base mn) in
  ({| mine_base := Entity_destroy (mine_base mn); mine_team := mine_team mn;
      hidden := hidden mn; mine_damage := mine_damage mn;
      mine_radius := mine_radius mn;
      detection_radius := detection_radius mn |},
   set_tile game_map tx ty CRATER).

(** ** Lemmas on the base fields *)

(** [tile_position] is [int(x // TILE_SIZE)] with its exceptions wherever
    that returns, which is exactly on the positions that are numbers. *)
Lemma tile_position_numeric (e : EntityBase) :
  (∀ tx ty, py_int_floordiv (e_x e) TILE_SIZE = Some tx →
            py_int_floordiv (e_y e) TILE_SIZE = Some ty →
            tile_position e = (tx, ty)) ∧
  (is_number (e_x e) = true → is_number (e_y e) = true →
   py_int_floordiv (e_x e) TILE_SIZE = Some (tile_position e).1 ∧
   py_int_floordiv (e_y e) TILE_SIZE = Some (tile_position e).2).
Proof.
  unfold tile_position. split.
  - by intros tx ty [_ <-]%py_int_floordiv_Some [_ <-]%py_int_floordiv_Some.
  - intros [tx Hx]%(py_int_floordiv_is_Some _ TILE_SIZE)
           [ty Hy]%(py_int_floordiv_is_Some _ TILE_SIZE).
    rewrite Hx, Hy. apply py_int_floordiv_Some in Hx as [_ <-].
    by apply py_int_floordiv_Some in Hy as [_ <-].
Qed.

Lemma Entity_init_fresh n x y :
  e_id (Entity_init n x y).1 = n ∧ (Entity_init n x y).2 = S n ∧
  e_alive (Entity_init n x y).1 = true.
Proof. done. Qed.

Lemma Shell_init_fields n x y a tm o :
  let s := (Shell_init n x y a tm o).1 in
  e_id (shell_base s) = n ∧ e_alive (shell_base s) = true ∧
  shell_team s = tm ∧ owner_id s = o ∧ shell_damage s = SHELL_DAMAGE ∧
  lifetime s = SHELL_LIFETIME ∧ radius s = 3 ∧
  (Shell_init n x y a tm o).2 = S n.
Proof. done. Qed.

Section ShellLemmas.
Context `{Platform}.
Implicit Types (m : GameMap) (s : Shell).

(** What [Shell.update] never touches. *)
Lemma Shell_update_static m s :
  let s' := (Shell_update m s).1 in
  e_id (shell_base s') = e_id (shell_base s) ∧
  shell_team s' = shell_team s ∧ owner_id s' = owner_id s ∧
  shell_damage s' = shell_damage s ∧ radius s' = radius s ∧
  shell_angle s' = shell_angle s ∧ shell_speed s' = shell_speed s ∧
  lifetime s' = lifetime s - 1.
Proof.
  unfold Shell_update. simpl. repeat (case_match || case_decide); done.
Qed.

(** [Shell.update] never revives a shell. *)
Lemma Shell_update_alive m s :
  e_alive (shell_base (Shell_update m s).1) = true →
  e_alive (shell_base s) = true ∧ 1 < lifetime s.
Proof.
  unfold Shell_update. simpl.
  repeat (case_match || case_decide); simpl; try done. intros ->. split; [done|lia].
Qed.

Lemma Shell_update_expired m s :
  lifetime s ≤ 1 → e_alive (shell_base (Shell_update m s).1) = false.
Proof.
  intros Hl. destruct (e_alive _) eqn:Ha; [|done].
  apply Shell_update_alive in Ha. lia.
Qed.

Lemma Shell_update_map_wf m s : wf_map m → wf_map (Shell_update m s).2.
Proof.
  intros Hwf. unfold Shell_update. simpl.
  repeat (case_match || case_decide); simpl; auto with bolo.
Qed.

Lemma Shell_update_map_dims m s :
  width (Shell_update m s).2 = width m ∧ height (Shell_update m s).2 = height m.
Proof.
  unfold Shell_update. simpl.
  repeat (case_match || case_decide); simpl; by autorewrite with bolo.
Qed.
End ShellLemmas.

(** ** Theorems on shells and mines *)

Section ShellTheorems.
Context `{Platform}.
Implicit Types (m : GameMap) (s : Shell).

(** [n] successive calls of [Shell.update] on the same shell, the map
    threaded through them. *)
Fixpoint Shell_updates (n : nat) m s : Shell * GameMap :=
  match n with
  | O => (s, m)
  | S n' => let '(s', m') := Shell_update m s in Shell_updates n' m' s'
  end.

Lemma Shell_updates_alive n m s :
  e_alive (shell_base (Shell_updates n m s).1) = true →
  e_alive (shell_base s) = true ∧ Z.of_nat n < lifetime s ∨ n = 0%nat.
Proof.
  revert m s. induction n as [|n IH]; intros m s; [by right|].
  simpl. destruct (Shell_update m s) as [s' m'] eqn:Hup. intros Ha. left.
  assert (Hs' : s' = (Shell_update m s).1) by by rewrite Hup.
  destruct (IH _ _ Ha) as [[Ha' Hl]| ->].
  - rewrite Hs' in Ha'. apply Shell_update_alive in Ha' as [? ?].
    destruct (Shell_update_static m s) as (_&_&_&_&_&_&_&Hlt).
    rewrite <- Hs' in Hlt. split; [done|lia].
  - simpl in Ha. rewrite Hs' in Ha.
    apply Shell_update_alive in Ha as [? ?]. split; [done|lia].
Qed.

(** [C32] Every branch of [Shell.update].  With [s1] the shell moved one
    step with its lifetime decremented and [(tx, ty)] its tile: the shell
    is destroyed with the map untouched when the lifetime has run out;
    otherwise it is destroyed and the tile takes one hit when the tile
    blocks shots (a wall or a damaged wall, both destructible); otherwise
    it is destroyed when it has left the pixel bounds; otherwise it flies
    on as [s1].  The map changes only in the wall case. *)
Theorem Shell_update_cases m s :
  let s1 := Shell_step s in
  let tx := (tile_position (shell_base s1)).1 in
  let ty := (tile_position (shell_base s1)).2 in
  let tile := get_tile m tx ty in
  Shell_update m s =
    if decide (lifetime s ≤ 1) then (Shell_destroy s1, m)
    else if decide (tile = WALL ∨ tile = DAMAGED_WALL)
         then (Shell_destroy s1, damage_tile m tx ty)
    else if Shell_out_of_bounds m (shell_base s1) then (Shell_destroy s1, m)
    else (s1, m).
Proof.
  intros s1 tx ty tile. unfold Shell_update. fold s1.
  replace (lifetime s1) with (lifetime s - 1) by done.
  destruct (tile_position (shell_base s1)) as [tx' ty'] eqn:Htp.
  subst tx ty tile. simpl.
  repeat case_decide; try lia; try done.
  - rewrite (proj2 (blocks_shots_iff _)) by done.
    by destruct (blocks_shots_impassable (get_tile m tx' ty')
                   (proj2 (blocks_shots_iff _) ltac:(done))) as [_ ->].
  - destruct (blocks_shots _) eqn:Hb; [|done].
    by apply blocks_shots_iff in Hb.
Qed.

(** [C39] A shell does not outlive its lifetime: after [n >= 1] updates,
    with [n] at least the remaining lifetime, the shell is destroyed,
    whatever the terrain; in particular a shell with [lifetime = 1] is
    destroyed by its next update.  A destroyed shell is never revived by
    further updates. *)
Theorem Shell_lifetime_bound n m s :
  (0 < n)%nat → lifetime s ≤ Z.of_nat n →
  e_alive (shell_base (Shell_updates n m s).1) = false.
Proof.
  intros Hn Hl. destruct (e_alive _) eqn:Ha; [|done].
  apply Shell_updates_alive in Ha as [[_ ?]|?]; lia.
Qed.
End ShellTheorems.

Section MineTheorems.
Implicit Types (m : GameMap) (mn : Mine).

(** [Mine.detonate] on a well-formed map: the mine is destroyed, its
    other fields are kept, the tile it stands on becomes a crater when it
    lies within the grid, and no other tile changes. *)
Theorem Mine_detonate_crater m mn :
  wf_map m →
  let '(tx, ty) := tile_position (mine_base mn) in
  let '(mn', m') := Mine_detonate m mn in
  e_alive (mine_base mn') = false ∧
  e_id (mine_base mn') = e_id (mine_base mn) ∧
  mine_team mn' = mine_team mn ∧
  wf_map m' ∧
  (in_bounds m tx ty → get_tile m' tx ty = CRATER) ∧
  (∀ x y, (tx, ty) ≠ (x, y) → get_tile m' x y = get_tile m x y).
Proof.
  intros Hwf. unfold Mine_detonate.
  destruct (tile_position (mine_base mn)) as [tx ty]. simpl.
  split_and!; auto using set_tile_wf, get_set_tile_eq, get_set_tile_ne.
Qed.
End MineTheorems.

(** ** Witnesses *)

(** A shell of team 1 fired by entity 0, heading east from (24, 24) on the
    demo map: its first step lands on the wall at tile (1, 1). *)
Definition demo_shell : Shell := (Shell_init 7 24 24 0 TEAM_1 0).1.

Lemma Shell_lifetime_bound_witness :
  e_alive (shell_base
    (@Shell_updates east_platform 1 (GameMap_init 4 3)
       (Shell_set_lifetime demo_shell 1)).1) = false.
Proof. apply Shell_lifetime_bound; by_compute. Defined.

Example Shell_update_demo_wall :
  let '(s', m') := @Shell_update east_platform demo_map demo_shell in
  e_alive (shell_base s') = false ∧ e_x (shell_base s') = 30%float ∧
  get_tile m' 1 1 = DAMAGED_WALL ∧ lifetime s' = 89.
Proof. by vm_compute. Qed.

Definition demo_mine : Mine := (Mine_init 8 40 20 TEAM_2 false).1.

Lemma Mine_detonate_crater_witness :
  let '(tx, ty) := tile_position (mine_base demo_mine) in
  let '(mn', m') := Mine_detonate demo_map demo_mine in
  e_alive (mine_base mn') = false ∧
  e_id (mine_base mn') = e_id (mine_base demo_mine) ∧
  mine_team mn' = mine_team demo_mine ∧
  wf_map m' ∧
  (in_bounds demo_map tx ty → get_tile m' tx ty = CRATER) ∧
  (∀ x y, (tx, ty) ≠ (x, y) → get_tile m' x y = get_tile demo_map x y).
Proof. apply Mine_detonate_crater. by_compute. Defined.
