(* ===== verification/Tank.v ===== *)
(** * Tank: the class [Tank]

    [src/src/bolo_engine.py], class [Tank]: the per-frame update, movement
    with its terrain speed and legality checks, rotation, firing, mine
    placement, damage and resupply.  [fire] and [place_mine] construct a
    new entity, so they take the id counter and return it. *)

From stdpp Require Import strings gmap.
From S2P Require Import Prelude PyFloat Config GameMap Entity.
Set Warnings "-inexact-float".

Record Tank := mkTank {
  tank_base : EntityBase;
  tank_team : Team;
  tank_angle : float;
  resources : Resources;
  tank_speed : float;
  tank_size : Z;
  is_moving : bool;
  has_boat : bool;
  lgm_deployed : bool;
  lgm_position : option (float * float);
  lgm_respawn_timer : Z;
  carried_pillboxes : list nat;
  tank_fire_cooldown : Z;
  tank_fire_rate : Z
}.

(** [Tank.__init__] *)
Definition Tank_init (next_id : nat) (x y : float) (team : Team) : Tank * nat :=
  let '(b, next_id') := Entity_init next_id x y in
  ({| tank_base := b; tank_team := team; tank_angle := 0.0;
      resources := Resources_default; tank_speed := TANK_BASE_SPEED;
      tank_size := TANK_SIZE; is_moving := false; has_boat := false;
      lgm_deployed := false; lgm_position := None; lgm_respawn_timer := 0;
      carried_pillboxes := []; tank_fire_cooldown := 0;
      tank_fire_rate := 10 |}, next_id').

(** ** Field assignments *)

Definition Tank_set_base (t : Tank) (b : EntityBase) : Tank :=
  mkTank b (tank_team t) (tank_angle t) (resources t) (tank_speed t)
    (tank_size t) (is_moving t) (has_boat t) (lgm_deployed t)
    (lgm_position t) (lgm_respawn_timer t) (carried_pillboxes t)
    (tank_fire_cooldown t) (tank_fire_rate t).

Definition Tank_set_angle (t : Tank) (a : float) : Tank :=
  mkTank (tank_base t) (tank_team t) a (resources t) (tank_speed t)
    (tank_size t) (is_moving t) (has_boat t) (lgm_deployed t)
    (lgm_position t) (lgm_respawn_timer t) (carried_pillboxes t)
    (tank_fire_cooldown t) (tank_fire_rate t).

Definition Tank_set_resources (t : Tank) (r : Resources) : Tank :=
  mkTank (tank_base t) (tank_team t) (tank_angle t) r (tank_speed t)
    (tank_size t) (is_moving t) (has_boat t) (lgm_deployed t)
    (lgm_position t) (lgm_respawn_timer t) (carried_pillboxes t)
    (tank_fire_cooldown t) (tank_fire_rate t).

Definition Tank_set_is_moving (t : Tank) (b : bool) : Tank :=
  mkTank (tank_base t) (tank_team t) (tank_angle t) (resources t)
    (tank_speed t) (tank_size t) b (has_boat t) (lgm_deployed t)
    (lgm_position t) (lgm_respawn_timer t) (carried_pillboxes t)
    (tank_fire_cooldown t) (tank_fire_rate t).

Definition Tank_set_lgm_deployed (t : Tank) (b : bool) : Tank :=
  mkTank (tank_base t) (tank_team t) (tank_angle t) (resources t)
    (tank_speed t) (tank_size t) (is_moving t) (has_boat t) b
    (lgm_position t) (lgm_respawn_timer t) (carried_pillboxes t)
    (tank_fire_cooldown t) (tank_fire_rate t).

Definition Tank_set_lgm_respawn_timer (t : Tank) (n : Z) : Tank :=
  mkTank (tank_base t) (tank_team t) (tank_angle t) (resources t)
    (tank_speed t) (tank_size t) (is_moving t) (has_boat t) (lgm_deployed t)
    (lgm_position t) n (carried_pillboxes t)
    (tank_fire_cooldown t) (tank_fire_rate t).

Definition Tank_set_fire_cooldown (t : Tank) (n : Z) : Tank :=
  mkTank (tank_base t) (tank_team t) (tank_angle t) (resources t)
    (tank_speed t) (tank_size t) (is_moving t) (has_boat t) (lgm_deployed t)
    (lgm_position t) (lgm_respawn_timer t) (carried_pillboxes t)
    n (tank_fire_rate t).

Definition Resources_set_armor (r : Resources) (n : Z) : Resources :=
  mkResources n (shells r) (mines r) (wood r).
Definition Resources_set_shells (r : Resources) (n : Z) : Resources :=
  mkResources (armor r) n (mines r) (wood r).
Definition Resources_set_mines (r : Resources) (n : Z) : Resources :=
  mkResources (armor r) (shells r) n (wood r).

(** ** Methods *)

(** [Tank.update]: the fire cooldown and the LGM respawn timer count down
    to zero; the LGM is marked not deployed when its timer reaches
    zero. *)
Definition Tank_update (t : Tank) : Tank :=
  let t := if decide (0 < tank_fire_cooldown t)
           then Tank_set_fire_cooldown t (tank_fire_cooldown t - 1) else t in
  if decide (0 < lgm_respawn_timer t) then
    let t := Tank_set_lgm_respawn_timer t (lgm_respawn_timer t - 1) in
    if decide (lgm_respawn_timer t = 0) then Tank_set_lgm_deployed t false
    else t
  else t.

(** [Tank._get_terrain_speed] *)
Definition Tank__get_terrain_speed (game_map : GameMap) (t : Tank) : float :=
  let '(tx, ty) := tile_position (tank_base t) in
  let tile := get_tile game_map tx ty in
  let terrain := terrain_of tile in
  if decide ((tile = DEEP_WATER ∨ tile = RIVER) ∧ has_boat t = false) then
    if decide (tile = DEEP_WATER) then 0.0%float
    else speed_multiplier terrain
  else speed_multiplier terrain.

(** The bounds check of [Tank._can_move_to]:
    [size <= x <= pixel_width - size] and the same for [y]. *)
Definition Tank_within_bounds (game_map : GameMap) (t : Tank) (x y : float)
    : bool :=
  negb ((x <? Z2F (tank_size t)) ||
        (Z2F (pixel_width game_map - tank_size t) <? x))%float &&
  negb ((y <? Z2F (tank_size t)) ||
        (Z2F (pixel_height game_map - tank_size t) <? y))%float.

(** The terrain check of [Tank._can_move_to]: the tile is passable, or it
    is deep water and the tank has a boat. *)
Definition Tank_may_enter (t : Tank) (tile : TileType) : bool :=
  if passable (terrain_of tile) then true
  else bool_decide (tile = DEEP_WATER) && has_boat t.

(** [Tank._can_move_to] *)
Definition Tank__can_move_to (x y : float) (game_map : GameMap) (t : Tank)
    : bool :=
  if negb (Tank_within_bounds game_map t x y) then false
  else
    let tile_x := floordiv x TILE_SIZE in
    let tile_y := floordiv y TILE_SIZE in
    Tank_may_enter t (get_tile game_map tile_x tile_y).

(** The end of both moves: take the new position if it is legal. *)
Definition Tank_try_move (game_map : GameMap) (t : Tank) (new_x new_y : float)
    : Tank :=
  if Tank__can_move_to new_x new_y game_map t then
    Tank_set_is_moving (Tank_set_base t (Entity_move (tank_base t) new_x new_y))
      true
  else t.

(** [Tank.move_forward] *)
Definition Tank_move_forward `{Platform} (game_map : GameMap) (t : Tank)
    : Tank :=
  let terrain_speed := Tank__get_terrain_speed game_map t in
  if (terrain_speed <=? 0)%float then t
  else
    let dx := (cos_deg (tank_angle t) * tank_speed t * terrain_speed)%float in
    let dy := (sin_deg (tank_angle t) * tank_speed t * terrain_speed)%float in
    Tank_try_move game_map t (e_x (tank_base t) + dx)%float
      (e_y (tank_base t) + dy)%float.

(** [Tank.move_backward] *)
Definition Tank_move_backward `{Platform} (game_map : GameMap) (t : Tank)
    : Tank :=
  let terrain_speed := Tank__get_terrain_speed game_map t in
  if (terrain_speed <=? 0)%float then t
  else
    let dx :=
      (cos_deg (tank_angle t) * tank_speed t * terrain_speed * 0.6)%float in
    let dy :=
      (sin_deg (tank_angle t) * tank_speed t * terrain_speed * 0.6)%float in
    Tank_try_move game_map t (e_x (tank_base t) - dx)%float
      (e_y (tank_base t) - dy)%float.

(** [Tank.rotate_left] and [Tank.rotate_right] *)
Definition Tank_rotate_left (t : Tank) : Tank :=
  Tank_set_angle t (float_mod (tank_angle t - TANK_ROTATION_SPEED)%float 360).

Definition Tank_rotate_right (t : Tank) : Tank :=
  Tank_set_angle t (float_mod (tank_angle t + TANK_ROTATION_SPEED)%float 360).

(** [Tank.fire]: [None] on cooldown or without shells; otherwise one
    shell less, the cooldown restarted, and a new shell at the cannon
    tip. *)
Definition Tank_fire `{Platform} (next_id : nat) (t : Tank)
    : Tank * option Shell * nat :=
  if decide (0 < tank_fire_cooldown t ∨ shells (resources t) ≤ 0) then
    (t, None, next_id)
  else
    let t' :=
      Tank_set_fire_cooldown
        (Tank_set_resources t
           (Resources_set_shells (resources t) (shells (resources t) - 1)))
        (tank_fire_rate t) in
    let cannon_length := Z2F (tank_size t + 8) in
    let shell_x :=
      (e_x (tank_base t) + cos_deg (tank_angle t) * cannon_length)%float in
    let shell_y :=
      (e_y (tank_base t) + sin_deg (tank_angle t) * cannon_length)%float in
    let '(s, next_id') :=
      Shell_init next_id shell_x shell_y (tank_angle t) (tank_team t)
        (e_id (tank_base t)) in
    (t', Some s, next_id').

(** [Tank.place_mine] *)
Definition Tank_place_mine (next_id : nat) (t : Tank)
    : Tank * option Mine * nat :=
  if decide (mines (resources t) ≤ 0) then (t, None, next_id)
  else
    let t' :=
      Tank_set_resources t
        (Resources_set_mines (resources t) (mines (resources t) - 1)) in
    let '(mn, next_id') :=
      Mine_init next_id (e_x (tank_base t)) (e_y (tank_base t)) (tank_team t)
        false in
    (t', Some mn, next_id').

(** [Tank.take_damage] *)
Definition Tank_take_damage (amount : Z) (t : Tank) : Tank :=
  let t :=
    Tank_set_resources t
      (Resources_set_armor (resources t) (armor (resources t) - amount)) in
  if decide (armor (resources t) ≤ 0)
  then Tank_set_base t (Entity_destroy (tank_base t)) else t.

(** [Tank.resupply]: top-ups toward each maximum; the base passed in is
    not read. *)
Definition Tank_resupply (t : Tank) : Tank :=
  let r := resources t in
  let r := Resources_set_armor r (Z.min TANK_MAX_ARMOR (armor r + 1)) in
  let r := Resources_set_shells r (Z.min TANK_MAX_SHELLS (shells r + 5)) in
  let r := Resources_set_mines r (Z.min TANK_MAX_MINES (mines r + 2)) in
  Tank_set_resources t r.

(** ** The resource invariant *)

(** Every resource is at most its configured maximum; stocks of shells,
    mines and wood are never negative (armor may be, on a destroyed
    tank). *)
Definition Resources_ok (r : Resources) : Prop :=
  armor r ≤ TANK_MAX_ARMOR ∧
  (0 ≤ shells r ∧ shells r ≤ TANK_MAX_SHELLS) ∧
  (0 ≤ mines r ∧ mines r ≤ TANK_MAX_MINES) ∧
  (0 ≤ wood r ∧ wood r ≤ TANK_MAX_WOOD).

(** The headings a tank takes.  [angle] starts at 0, or at 180 for an
    enemy, and a rotation adds or takes [TANK_ROTATION_SPEED], 4 degrees,
    modulo 360: the angle is one of the ninety multiples of 4 below 360,
    and the float arithmetic on them is exact. *)
Definition headings : list float := (λ k, Z2F (4 * k)) <$> seqZ 0 90.

Definition is_heading (a : float) : bool := existsb (Leibniz.eqb a) headings.
Arguments is_heading : simpl never.

(** The invariant of a tank: resources in range, a live tank has armor
    left, the cooldown is between zero and the fire rate, the LGM timer is
    not negative, the angle is a heading, the size is not negative. *)
Definition Tank_ok (t : Tank) : Prop :=
  Resources_ok (resources t) ∧
  (e_alive (tank_base t) = true → 0 < armor (resources t)) ∧
  (0 ≤ tank_fire_cooldown t ∧ tank_fire_cooldown t ≤ tank_fire_rate t) ∧
  0 ≤ lgm_respawn_timer t ∧
  is_heading (tank_angle t) = true ∧
  0 ≤ tank_size t.

#[export] Instance Resources_ok_dec r : Decision (Resources_ok r).
Proof. unfold Resources_ok. apply _. Defined.

#[export] Instance Tank_ok_dec t : Decision (Tank_ok t).
Proof. unfold Tank_ok. apply _. Defined.

(** The calls a controller or the collision code can make on a tank. *)
Inductive TankOp :=
  | OpUpdate
  | OpMoveForward (m : GameMap)
  | OpMoveBackward (m : GameMap)
  | OpRotateLeft
  | OpRotateRight
  | OpFire (next_id : nat)
  | OpPlaceMine (next_id : nat)
  | OpTakeDamage (amount : Z)
  | OpResupply.

Definition Tank_apply `{Platform} (t : Tank) (op : TankOp) : Tank :=
  match op with
  | OpUpdate => Tank_update t
  | OpMoveForward m => Tank_move_forward m t
  | OpMoveBackward m => Tank_move_backward m t
  | OpRotateLeft => Tank_rotate_left t
  | OpRotateRight => Tank_rotate_right t
  | OpFire n => (Tank_fire n t).1.1
  | OpPlaceMine n => (Tank_place_mine n t).1.1
  | OpTakeDamage amount => Tank_take_damage amount t
  | OpResupply => Tank_resupply t
  end.

(** Damage amounts are not negative (shells deal 1, mines 4). *)
Definition TankOp_valid (op : TankOp) : Prop :=
  match op with OpTakeDamage amount => 0 ≤ amount | _ => True end.

#[export] Instance TankOp_valid_dec op : Decision (TankOp_valid op).
Proof. destruct op; simpl; apply _. Defined.

(** ** Lemmas *)

Ltac tank_unfold :=
  unfold Tank_ok, Resources_ok, Tank_update, Tank_try_move, Tank_fire,
    Tank_place_mine, Tank_take_damage, Tank_resupply, Tank_rotate_left,
    Tank_rotate_right in *; simpl in *; config_unfold.

(** The headings are closed under the two rotations, and lie in
    [[0, 360)]: ninety cases, each by evaluation. *)
Lemma is_heading_elem a : is_heading a = true ↔ a ∈ headings.
Proof.
  unfold is_heading. rewrite existsb_exists. split.
  - intros (b & Hb%list_elem_of_In & ->%Leibniz.eqb_spec). done.
  - intros Ha. exists a. split; [by apply list_elem_of_In|].
    by apply Leibniz.eqb_spec.
Qed.

Lemma is_heading_rotate a :
  is_heading a = true →
  is_heading (float_mod (a - TANK_ROTATION_SPEED) 360) = true ∧
  is_heading (float_mod (a + TANK_ROTATION_SPEED) 360) = true ∧
  (0 <=? a)%float = true ∧ (a <? 360)%float = true.
Proof.
  intros Ha%is_heading_elem%list_elem_of_In.
  assert (Hall : forallb (λ a,
            is_heading (float_mod (a - TANK_ROTATION_SPEED) 360) &&
            is_heading (float_mod (a + TANK_ROTATION_SPEED) 360) &&
            (0 <=? a)%float && (a <? 360)%float) headings = true)
    by by vm_compute.
  rewrite forallb_forall in Hall. specialize (Hall a Ha).
  by repeat apply andb_true_iff in Hall as [Hall ?].
Qed.

Section TankLemmas.
Context `{Platform}.
Implicit Types (t : Tank) (m : GameMap) (n : nat).

Lemma Tank_init_ok n x y tm : Tank_ok (Tank_init n x y tm).1.
Proof. tank_unfold. bounds. Qed.

Lemma Tank_update_ok t : Tank_ok t → Tank_ok (Tank_update t).
Proof. tank_unfold. intros ?. repeat case_decide; bounds. Qed.

Lemma Tank_try_move_ok m t x y : Tank_ok t → Tank_ok (Tank_try_move m t x y).
Proof. tank_unfold. by case_match. Qed.

Lemma Tank_move_forward_ok m t : Tank_ok t → Tank_ok (Tank_move_forward m t).
Proof.
  intros ?. unfold Tank_move_forward. case_match; auto using Tank_try_move_ok.
Qed.

Lemma Tank_move_backward_ok m t : Tank_ok t → Tank_ok (Tank_move_backward m t).
Proof.
  intros ?. unfold Tank_move_backward. case_match; auto using Tank_try_move_ok.
Qed.

Lemma Tank_fire_ok n t : Tank_ok t → Tank_ok (Tank_fire n t).1.1.
Proof. tank_unfold. intros ?. case_decide; bounds. Qed.

Lemma Tank_place_mine_ok n t : Tank_ok t → Tank_ok (Tank_place_mine n t).1.1.
Proof. tank_unfold. intros ?. case_decide; bounds. Qed.

Lemma Tank_take_damage_ok a t :
  0 ≤ a → Tank_ok t → Tank_ok (Tank_take_damage a t).
Proof.
  tank_unfold. intros ? ?. case_decide; bounds.
Qed.

Lemma Tank_resupply_ok t : Tank_ok t → Tank_ok (Tank_resupply t).
Proof. tank_unfold. intros ?. bounds. Qed.

Lemma Tank_rotate_left_ok t : Tank_ok t → Tank_ok (Tank_rotate_left t).
Proof.
  intros (?&?&?&?&Ha&?). apply is_heading_rotate in Ha as (?&?&?&?).
  unfold Tank_ok; simpl; split_and!; tauto || done.
Qed.

Lemma Tank_rotate_right_ok t : Tank_ok t → Tank_ok (Tank_rotate_right t).
Proof.
  intros (?&?&?&?&Ha&?). apply is_heading_rotate in Ha as (?&?&?&?).
  unfold Tank_ok; simpl; split_and!; tauto || done.
Qed.

Lemma Tank_apply_ok t op : TankOp_valid op → Tank_ok t → Tank_ok (Tank_apply t op).
Proof.
  destruct op; simpl; intros ??;
    auto using Tank_update_ok, Tank_move_forward_ok, Tank_move_backward_ok,
      Tank_rotate_left_ok, Tank_rotate_right_ok, Tank_fire_ok,
      Tank_place_mine_ok, Tank_take_damage_ok, Tank_resupply_ok.
Qed.

(** A destroyed tank stays destroyed under every call. *)
Lemma Tank_apply_dead t op :
  e_alive (tank_base t) = false → e_alive (tank_base (Tank_apply t op)) = false.
Proof.
  destruct op; simpl; tank_unfold;
    unfold Tank_move_forward, Tank_move_backward, Tank_try_move;
    intros Hd; repeat (case_match || case_decide); simpl; done.
Qed.

(** What a move leaves alone: everything but the position and the
    [is_moving] flag. *)
Lemma Tank_try_move_cases m t x y :
  (Tank__can_move_to x y m t = false ∧ Tank_try_move m t x y = t) ∨
  (Tank__can_move_to x y m t = true ∧
   Tank_try_move m t x y =
     Tank_set_is_moving (Tank_set_base t (Entity_move (tank_base t) x y)) true).
Proof. unfold Tank_try_move. destruct (Tank__can_move_to _ _ _ _); auto. Qed.

Lemma Tank__can_move_to_spec x y m t :
  Tank__can_move_to x y m t = true ↔
  Tank_within_bounds m t x y = true ∧
  Tank_may_enter t (get_tile m (floordiv x TILE_SIZE) (floordiv y TILE_SIZE)) = true.
Proof.
  unfold Tank__can_move_to. destruct (Tank_within_bounds _ _ _ _); simpl;
    intuition congruence.
Qed.

(** Damage only opens terrain: a tile a tank may stand on is still one
    after a hit, and so is a crater. *)
Lemma Tank_may_enter_damaged t tile :
  Tank_may_enter t tile = true → Tank_may_enter t (damaged tile) = true.
Proof.
  unfold Tank_may_enter. rewrite !terrain_of_cases.
  destruct tile; simpl; try done.
Qed.

Lemma Tank_may_enter_crater t : Tank_may_enter t CRATER = true.
Proof. unfold Tank_may_enter. by rewrite terrain_of_cases. Qed.
(** What [update] and [take_damage] leave alone: the entity header up to
    the [alive] flag, which [take_damage] can only clear. *)
Lemma Tank_update_static t :
  tank_base (Tank_update t) = tank_base t ∧
  tank_team (Tank_update t) = tank_team t ∧
  tank_size (Tank_update t) = tank_size t ∧
  resources (Tank_update t) = resources t.
Proof. unfold Tank_update. by repeat case_decide. Qed.

Lemma Tank_take_damage_static a t :
  let t' := Tank_take_damage a t in
  e_id (tank_base t') = e_id (tank_base t) ∧
  e_x (tank_base t') = e_x (tank_base t) ∧
  e_y (tank_base t') = e_y (tank_base t) ∧
  tank_team t' = tank_team t ∧ tank_size t' = tank_size t ∧
  (e_alive (tank_base t') = true → e_alive (tank_base t) = true).
Proof. unfold Tank_take_damage. simpl. by case_decide. Qed.

(** What no method changes: the id, the team and the size; and no method
    revives a tank. *)
Lemma Tank_apply_static t op :
  let t' := Tank_apply t op in
  e_id (tank_base t') = e_id (tank_base t) ∧ tank_team t' = tank_team t ∧
  tank_size t' = tank_size t ∧
  (e_alive (tank_base t') = true → e_alive (tank_base t) = true).
Proof.
  destruct op; simpl; tank_unfold;
    unfold Tank_move_forward, Tank_move_backward, Tank_try_move;
    repeat (case_match || case_decide); simpl; done.
Qed.

Lemma Tank_foldl_ok t ops :
  Tank_ok t → Forall TankOp_valid ops → Tank_ok (foldl Tank_apply t ops).
Proof.
  intros Hok Hops. revert t Hok.
  induction Hops as [|op ops Hop _ IH]; intros t Hok; simpl;
    auto using Tank_apply_ok.
Qed.

Lemma Tank_foldl_static t ops :
  let t' := foldl Tank_apply t ops in
  e_id (tank_base t') = e_id (tank_base t) ∧ tank_team t' = tank_team t ∧
  tank_size t' = tank_size t ∧
  (e_alive (tank_base t') = true → e_alive (tank_base t) = true).
Proof.
  revert t. induction ops as [|op ops IH]; intros t; simpl; [done|].
  destruct (IH (Tank_apply t op)) as (?&?&?&?).
  destruct (Tank_apply_static t op) as (?&?&?&?).
  split_and!; try congruence. auto.
Qed.

(** What [fire] and [place_mine] return beside the tank: an object with
    the next id, of the tank's team, or nothing and the counter as it
    was. *)
Lemma Tank_fire_shot n t :
  let '(t', shot, n') := Tank_fire n t in
  t' = Tank_apply t (OpFire n) ∧
  match shot with
  | Some s =>
      e_id (shell_base s) = n ∧ n' = S n ∧ e_alive (shell_base s) = true ∧
      shell_team s = tank_team t ∧ owner_id s = e_id (tank_base t) ∧
      shell_damage s = SHELL_DAMAGE ∧ lifetime s = SHELL_LIFETIME ∧
      radius s = 3
  | None => n' = n ∧ t' = t
  end.
Proof. unfold Tank_apply, Tank_fire. by case_decide. Qed.

Lemma Tank_place_mine_shot n t :
  let '(t', mine, n') := Tank_place_mine n t in
  t' = Tank_apply t (OpPlaceMine n) ∧
  match mine with
  | Some mn =>
      e_id (mine_base mn) = n ∧ n' = S n ∧ e_alive (mine_base mn) = true ∧
      mine_team mn = tank_team t ∧ mine_damage mn = MINE_DAMAGE ∧
      mine_radius mn = 6
  | None => n' = n ∧ t' = t
  end.
Proof. unfold Tank_apply, Tank_place_mine. by case_decide. Qed.

Lemma Tank_ok_set_angle t a :
  is_heading a = true → Tank_ok t → Tank_ok (Tank_set_angle t a).
Proof.
  intros ? (?&?&?&?&_&?). unfold Tank_ok; simpl; split_and!; tauto || done.
Qed.

End TankLemmas.

#[export] Hint Resolve Tank_init_ok Tank_update_ok Tank_move_forward_ok
  Tank_move_backward_ok Tank_fire_ok Tank_place_mine_ok Tank_take_damage_ok
  Tank_resupply_ok Tank_apply_ok : bolo.

(** ** Theorems *)

Section TankTheorems.
Context `{Platform}.
Implicit Types (t : Tank) (m : GameMap) (n : nat).

(** [C18] The resources of a tank never exceed their maxima: starting from
    a tank that satisfies the invariant [Tank_ok] (as a freshly constructed
    one does), every sequence of [update], moves, rotations, [fire],
    [place_mine], [take_damage] with a non-negative amount and [resupply]
    leaves armor at most 8, shells, mines and wood within [0 .. 40], the
    cooldown within [0 .. fire_rate], armor positive while the tank is
    alive, and the angle among the multiples of 4 degrees below 360. *)
Theorem Tank_ok_reachable t ops :
  Tank_ok t → Forall TankOp_valid ops → Tank_ok (foldl Tank_apply t ops).
Proof.
  intros Hok Hops. revert t Hok.
  induction Hops as [|op ops Hop _ IH]; intros t Hok; simpl; auto with bolo.
Qed.

(** The angle of a tank stays in [[0, 360)]: starting from a tank that
    satisfies [Tank_ok], every sequence of calls leaves an angle that is
    at least 0, less than 360 and a multiple of 4 degrees.  The range
    alone is not kept by a rotation ([Tank_rotate_left_360] below): what
    keeps it is that the angles of a run are the multiples of the
    rotation speed, on which the float arithmetic of [%] is exact. *)
Theorem Tank_angle_reachable t ops :
  Tank_ok t → Forall TankOp_valid ops →
  let a := tank_angle (foldl Tank_apply t ops) in
  (0 <=? a)%float = true ∧ (a <? 360)%float = true ∧ a ∈ headings.
Proof.
  intros Hok Hops a.
  destruct (Tank_foldl_ok t ops Hok Hops) as (_&_&_&_&Ha&_).
  destruct (is_heading_rotate _ Ha) as (_&_&?&?).
  by rewrite <- is_heading_elem.
Qed.

(** [C33] [Tank.fire] on both branches.  On cooldown or with no shell left
    it returns no projectile and changes neither the tank nor the id
    counter.  Otherwise the stock drops by one shell, the cooldown becomes
    the fire rate, nothing else of the tank changes, and the shell
    returned is alive, carries the next id, the tank's team and heading,
    the tank's id as its owner, and starts at the cannon tip
    ([size + 8] along the heading). *)
Theorem Tank_fire_cases n t :
  (0 < tank_fire_cooldown t ∨ shells (resources t) ≤ 0 →
   Tank_fire n t = (t, None, n)) ∧
  (tank_fire_cooldown t ≤ 0 → 0 < shells (resources t) →
   ∃ t' s, Tank_fire n t = (t', Some s, S n) ∧
     t' = Tank_set_fire_cooldown
            (Tank_set_resources t
               (Resources_set_shells (resources t) (shells (resources t) - 1)))
            (tank_fire_rate t) ∧
     shell_base s =
       mkEntityBase n
         (e_x (tank_base t) + cos_deg (tank_angle t) * Z2F (tank_size t + 8))%float
         (e_y (tank_base t) + sin_deg (tank_angle t) * Z2F (tank_size t + 8))%float
         true ∧
     shell_team s = tank_team t ∧ owner_id s = e_id (tank_base t) ∧
     shell_angle s = tank_angle t ∧ shell_damage s = SHELL_DAMAGE ∧
     lifetime s = SHELL_LIFETIME).
Proof.
  unfold Tank_fire. split.
  - intros Hg. by rewrite decide_True.
  - intros Hc Hs. rewrite decide_False by lia. simpl. by eexists _, _.
Qed.

(** [Tank.place_mine] on both branches: with no mine in stock it
    returns nothing and changes nothing; otherwise the stock drops by one
    and the mine returned is alive, visible, carries the next id and the
    tank's team, and lies at the tank's position. *)
Theorem Tank_place_mine_cases n t :
  (mines (resources t) ≤ 0 → Tank_place_mine n t = (t, None, n)) ∧
  (0 < mines (resources t) →
   ∃ mn, Tank_place_mine n t =
     (Tank_set_resources t
        (Resources_set_mines (resources t) (mines (resources t) - 1)),
      Some mn, S n) ∧
     mine_base mn = mkEntityBase n (e_x (tank_base t)) (e_y (tank_base t)) true ∧
     mine_team mn = tank_team t ∧ hidden mn = false ∧
     mine_damage mn = MINE_DAMAGE).
Proof.
  unfold Tank_place_mine. split.
  - intros Hg. by rewrite decide_True.
  - intros Hs. rewrite decide_False by lia. simpl. by eexists.
Qed.

(** [Tank.take_damage] subtracts the amount from the armor and
    destroys the tank exactly when the armor falls to zero or below; a
    tank that survives keeps every other field, and a destroyed tank is
    not revived. *)
Theorem Tank_take_damage_destroys amount t :
  let t' := Tank_take_damage amount t in
  armor (resources t') = armor (resources t) - amount ∧
  (e_alive (tank_base t') = true ↔
     e_alive (tank_base t) = true ∧ 0 < armor (resources t) - amount) ∧
  (0 < armor (resources t) - amount →
     t' = Tank_set_resources t
            (Resources_set_armor (resources t) (armor (resources t) - amount))).
Proof.
  unfold Tank_take_damage. simpl. case_decide; simpl; split_and!; try done;
    try lia; intuition (done || lia).
Qed.

(** A move never puts a tank where it may not be.  After
    [Tank.move_forward] or [Tank.move_backward] either the tank is
    unchanged (no speed on its terrain, or the candidate position was
    refused), or only its position and [is_moving] flag changed and the new
    position passed both checks of [_can_move_to]: it lies within
    [size .. pixel size - size] on both axes, on a tile that is passable
    or is deep water entered with a boat. *)
Theorem Tank_move_safe m t (forward : bool) :
  let t' := if forward then Tank_move_forward m t else Tank_move_backward m t in
  t' = t ∨
  (t' = Tank_set_is_moving (Tank_set_base t (tank_base t')) true ∧
   e_id (tank_base t') = e_id (tank_base t) ∧
   e_alive (tank_base t') = e_alive (tank_base t) ∧
   Tank_within_bounds m t (e_x (tank_base t')) (e_y (tank_base t')) = true ∧
   let '(tx, ty) := tile_position (tank_base t') in
   Tank_may_enter t (get_tile m tx ty) = true).
Proof.
  destruct forward; simpl; unfold Tank_move_forward, Tank_move_backward;
    (case_match; [by left|]);
    match goal with |- context [Tank_try_move m t ?x ?y] =>
      destruct (Tank_try_move_cases m t x y) as [[_ ->]|[Hc ->]]; [by left|];
      apply Tank__can_move_to_spec in Hc as [Hb He]; right; simpl;
      by split_and!
    end.
Qed.

(** [C23] A boat lets a tank into deep water and then strands it there.
    [_can_move_to] accepts a deep-water tile for a tank that has a boat,
    but [_get_terrain_speed] returns the tile's multiplier [0.0] for such
    a tank, and both moves give up when the speed is not positive: once
    its tile is deep water, a tank with a boat can move neither forward nor
    backward. *)
Theorem Tank_boat_stranded m t :
  has_boat t = true →
  (let '(tx, ty) := tile_position (tank_base t) in
   get_tile m tx ty = DEEP_WATER) →
  Tank_may_enter t DEEP_WATER = true ∧
  Tank_move_forward m t = t ∧ Tank_move_backward m t = t.
Proof.
  intros Hb Ht.
  assert (Hs : Tank__get_terrain_speed m t = 0%float).
  { unfold Tank__get_terrain_speed.
    destruct (tile_position (tank_base t)) as [tx ty]. rewrite Ht.
    rewrite decide_False by (rewrite Hb; by intros [_ ?]).
    by rewrite terrain_of_cases. }
  unfold Tank_move_forward, Tank_move_backward, Tank_may_enter.
  rewrite Hs, Hb, terrain_of_cases. by simpl.
Qed.

(** [n] frames of [Tank.update]. *)
Definition Tank_updates (n : nat) (t : Tank) : Tank := Nat.iter n Tank_update t.

Lemma Tank_update_cooldown t :
  tank_fire_cooldown (Tank_update t) =
    (if decide (0 < tank_fire_cooldown t) then tank_fire_cooldown t - 1
     else tank_fire_cooldown t) ∧
  resources (Tank_update t) = resources t.
Proof. unfold Tank_update. by repeat case_decide. Qed.

Lemma Tank_updates_cooldown n t :
  0 ≤ tank_fire_cooldown t →
  tank_fire_cooldown (Tank_updates n t) = Z.max 0 (tank_fire_cooldown t - Z.of_nat n) ∧
  resources (Tank_updates n t) = resources t.
Proof.
  intros Hc. induction n as [|n [IHc IHr]]; [simpl; split; [lia|done]|].
  unfold Tank_updates in *. simpl.
  destruct (Tank_update_cooldown (Nat.iter n Tank_update t)) as [-> ->].
  split; [|done]. rewrite IHc. case_decide; lia.
Qed.

(** The fire cooldown runs out: [n] updates after a shot taken with
    fire rate [r], the cooldown is [max(0, r - n)], so a second [fire]
    fails during the first [r - 1] frames and succeeds from frame [r] on
    when a shell is left. *)
Theorem Tank_cooldown_recovers n0 t t1 s n :
  Tank_fire n0 t = (t1, Some s, S n0) → 0 ≤ tank_fire_rate t →
  let t2 := Tank_updates n t1 in
  tank_fire_cooldown t2 = Z.max 0 (tank_fire_rate t - Z.of_nat n) ∧
  (Z.of_nat n < tank_fire_rate t → (Tank_fire (S n0) t2).1.2 = None) ∧
  (tank_fire_rate t ≤ Z.of_nat n → 1 < shells (resources t) →
   is_Some (Tank_fire (S n0) t2).1.2).
Proof.
  intros Hf Hr t2.
  assert (Ht1 : tank_fire_cooldown t1 = tank_fire_rate t ∧
                shells (resources t1) = shells (resources t) - 1).
  { unfold Tank_fire in Hf. case_decide; simplify_eq/=. done. }
  destruct Ht1 as [Hc1 Hs1].
  destruct (Tank_updates_cooldown n t1) as [Hc2 Hr2]; [lia|].
  fold t2 in Hc2, Hr2. rewrite Hc1 in Hc2. split_and!; [done|..].
  - intros Hn. unfold Tank_fire. rewrite decide_True; [done|lia].
  - intros Hn Hs. unfold Tank_fire. rewrite decide_False; [by eexists|].
    rewrite Hr2, Hs1. lia.
Qed.
End TankTheorems.

(** ** Witnesses *)

(** A team-1 tank at (40, 24), on the forest tile (2, 1) of the demo
    map. *)
Definition demo_tank : Tank := (Tank_init 0 40 24 TEAM_1).1.

Lemma Tank_ok_reachable_witness :
  Tank_ok
    (foldl (@Tank_apply east_platform) demo_tank
       [OpFire 1; OpTakeDamage 3; OpResupply; OpMoveForward demo_map;
        OpUpdate; OpPlaceMine 5; OpTakeDamage 9]).
Proof. apply Tank_ok_reachable; by_compute. Defined.

Lemma Tank_angle_reachable_witness :
  let a := tank_angle
    (foldl (@Tank_apply east_platform) demo_tank
       [OpRotateLeft; OpRotateLeft; OpFire 1; OpRotateRight; OpRotateRight;
        OpRotateRight]) in
  (0 <=? a)%float = true ∧ (a <? 360)%float = true ∧ a ∈ headings.
Proof. apply Tank_angle_reachable; by_compute. Defined.

(** A turn to the left from 0 gives 356, and ninety turns to the right
    come back to 0. *)
Example Tank_rotate_demo :
  tank_angle (Tank_rotate_left demo_tank) = 356%float ∧
  tank_angle (Nat.iter 90 Tank_rotate_right demo_tank) = 0%float.
Proof. by vm_compute. Qed.

(** From an angle just below 4 that is not a heading, a turn to the left
    gives 360: [(-2^-50) % 360] rounds to 360.0. *)
Example Tank_rotate_left_360 :
  let t := Tank_set_angle demo_tank (4 - 0x1p-50)%float in
  (tank_angle t <? 360)%float = true ∧ is_heading (tank_angle t) = false ∧
  tank_angle (Tank_rotate_left t) = 360%float.
Proof. by vm_compute. Qed.

(** The same tank holding a boat, on a map whose tile (2, 1) is deep
    water. *)
Definition boat_map : GameMap := set_tile (GameMap_init 4 3) 2 1 DEEP_WATER.

Definition boat_tank : Tank :=
  mkTank (tank_base demo_tank) TEAM_1 0 Resources_default TANK_BASE_SPEED
    TANK_SIZE false true false None 0 [] 0 10.

Lemma Tank_boat_stranded_witness :
  Tank_may_enter boat_tank DEEP_WATER = true ∧
  @Tank_move_forward east_platform boat_map boat_tank = boat_tank ∧
  @Tank_move_backward east_platform boat_map boat_tank = boat_tank.
Proof. apply Tank_boat_stranded; by vm_compute. Defined.

Lemma Tank_cooldown_recovers_witness :
  let t1 := (@Tank_fire east_platform 1 demo_tank).1.1 in
  let t2 := Tank_updates 10 t1 in
  tank_fire_cooldown t2 = Z.max 0 (tank_fire_rate demo_tank - Z.of_nat 10) ∧
  (Z.of_nat 10 < tank_fire_rate demo_tank →
   (@Tank_fire east_platform 2 t2).1.2 = None) ∧
  (tank_fire_rate demo_tank ≤ Z.of_nat 10 → 1 < shells (resources demo_tank) →
   is_Some (@Tank_fire east_platform 2 t2).1.2).
Proof.
  eapply (@Tank_cooldown_recovers east_platform 1 demo_tank _ _ 10);
    [by vm_compute|by_compute].
Defined.

(** The forest slows the demo tank to [2.0 * 0.4] pixels per frame; the
    wall two tiles to the west of it refuses a tank that has reached its
    edge. *)
Example Tank_move_forward_demo :
  e_x (tank_base (@Tank_move_forward east_platform demo_map demo_tank))
    = 40.8%float ∧
  is_moving (@Tank_move_forward east_platform demo_map demo_tank) = true ∧
  Tank__can_move_to 31.5 24 demo_map demo_tank = false ∧
  Tank__can_move_to 40 37 demo_map demo_tank = false.
Proof. by vm_compute. Qed.

Example Tank_fire_demo :
  let '(t', s, n) := @Tank_fire east_platform 1 demo_tank in
  shells (resources t') = 39 ∧ tank_fire_cooldown t' = 10 ∧ n = 2%nat ∧
  (e_x ∘ shell_base <$> s) = Some 60%float ∧
  (@Tank_fire east_platform 2 t').1.2 = None.
Proof. by vm_compute. Qed.
