(* ===== verification/Structures.v ===== *)
(** * Structures: the classes [Pillbox] and [Base]

    [src/src/bolo_engine.py], classes [Pillbox] and [Base].  A pillbox
    scans the tanks of the game for the nearest hostile one in range and
    fires at it; its update draws from [random.random] and constructs a
    shell, so it takes the position in the random sequence and the id
    counter and returns them.  A base regenerates its stock on a timer and
    transfers stock to a tank of its team. *)

From stdpp Require Import strings gmap.
From S2P Require Import Prelude PyFloat Config GameMap Entity Tank.
Set Warnings "-inexact-float".

(** ** [class Pillbox] *)

Record Pillbox := mkPillbox {
  pill_base : EntityBase;
  pill_team : Team;
  pill_health : Z;
  pill_fire_rate : Z;
  pill_fire_cooldown : Z;
  pill_range : float;
  pill_size : Z;
  active : bool;
  aggression : Z
}.

(** [Pillbox.__init__] *)
Definition Pillbox_init (next_id : nat) (x y : float) (team : Team)
    : Pillbox * nat :=
  let '(b, next_id') := Entity_init next_id x y in
  ({| pill_base := b; pill_team := team; pill_health := PILLBOX_MAX_HEALTH;
      pill_fire_rate := PILLBOX_FIRE_RATE; pill_fire_cooldown := 0;
      pill_range := PILLBOX_RANGE; pill_size := 8; active := true;
      aggression := 0 |}, next_id').

Definition Pillbox_set_fire_cooldown (p : Pillbox) (n : Z) : Pillbox :=
  mkPillbox (pill_base p) (pill_team p) (pill_health p) (pill_fire_rate p) n
    (pill_range p) (pill_size p) (active p) (aggression p).

Definition Pillbox_set_aggression (p : Pillbox) (n : Z) : Pillbox :=
  mkPillbox (pill_base p) (pill_team p) (pill_health p) (pill_fire_rate p)
    (pill_fire_cooldown p) (pill_range p) (pill_size p) (active p) n.

(** The distance from a tank to the pillbox, as [_find_target] computes
    it. *)
Definition Pillbox_distance (p : Pillbox) (t : Tank) : float :=
  distance (e_x (tank_base t)) (e_y (tank_base t))
    (e_x (pill_base p)) (e_y (pill_base p)).

(** The test of [_find_target] that does not depend on the best so far:
    a tank of another team, within range. *)
Definition Pillbox_candidate (p : Pillbox) (t : Tank) : bool :=
  bool_decide (tank_team t ≠ pill_team p) &&
  (Pillbox_distance p t <? pill_range p)%float.

(** [Pillbox._find_target], over the tanks among [game_state.entities]
    in list order: the loop keeps a tank when it is hostile, in range and
    strictly nearer than the best so far, which starts at infinity. *)
Definition Pillbox__find_target (tanks : list Tank) (p : Pillbox)
    : option Tank :=
  (argbest (Pillbox_distance p) PrimFloat.ltb (Pillbox_candidate p)
     infinity tanks).1.

(** The cooldown set by a shot: [max(5, fire_rate - aggression * 3)]. *)
Definition Pillbox_adjusted_rate (p : Pillbox) : Z :=
  Z.max 5 (pill_fire_rate p - aggression p * 3).

(** [Pillbox._fire_at] *)
Definition Pillbox__fire_at `{Platform} (next_id : nat) (target : Tank)
    (p : Pillbox) : Pillbox * Shell * nat :=
  let angle :=
    atan2_deg (e_y (tank_base target) - e_y (pill_base p))%float
      (e_x (tank_base target) - e_x (pill_base p))%float in
  let p' := Pillbox_set_fire_cooldown p (Pillbox_adjusted_rate p) in
  let '(s, next_id') :=
    Shell_init next_id (e_x (pill_base p)) (e_y (pill_base p)) angle
      (pill_team p) (e_id (pill_base p)) in
  (p', s, next_id').

(** The aggression decay of [Pillbox.update]:
    [if self.aggression > 0 and random.random() < 0.01]; the generator is
    consulted only when the aggression is positive. *)
Definition Pillbox_decay `{Platform} (rng : nat) (p : Pillbox)
    : Pillbox * nat :=
  if decide (0 < aggression p) then
    if (random_random rng <? 0.01)%float
    then (Pillbox_set_aggression p (Z.max 0 (aggression p - 1)), S rng)
    else (p, S rng)
  else (p, rng).

(** [Pillbox.update].  Returns the pillbox, the shell it passed to
    [game_state.add_entity] if it fired, the id counter and the position
    in the random sequence. *)
Definition Pillbox_update `{Platform} (tanks : list Tank) (next_id rng : nat)
    (p : Pillbox) : Pillbox * option Shell * nat * nat :=
  if negb (active p) then (p, None, next_id, rng)
  else
    let p := if decide (0 < pill_fire_cooldown p)
             then Pillbox_set_fire_cooldown p (pill_fire_cooldown p - 1)
             else p in
    let '(p, rng) := Pillbox_decay rng p in
    if decide (pill_fire_cooldown p ≤ 0) then
      match Pillbox__find_target tanks p with
      | Some target =>
          let '(p, s, next_id) := Pillbox__fire_at next_id target p in
          (p, Some s, next_id, rng)
      | None => (p, None, next_id, rng)
      end
    else (p, None, next_id, rng).

(** [Pillbox.take_damage] *)
Definition Pillbox_take_damage (amount : Z) (p : Pillbox) : Pillbox :=
  let health := pill_health p - amount in
  let aggr := Z.min 8 (aggression p + 1) in
  if decide (health ≤ 0) then
    mkPillbox (pill_base p) NEUTRAL 0 (pill_fire_rate p)
      (pill_fire_cooldown p) (pill_range p) (pill_size p) false aggr
  else
    mkPillbox (pill_base p) (pill_team p) health (pill_fire_rate p)
      (pill_fire_cooldown p) (pill_range p) (pill_size p) (active p) aggr.

(** [Pillbox.capture] *)
Definition Pillbox_capture (new_team : Team) (p : Pillbox) : Pillbox :=
  mkPillbox (pill_base p) new_team (PILLBOX_MAX_HEALTH `div` 2)
    (pill_fire_rate p) (pill_fire_cooldown p) (pill_range p) (pill_size p)
    true 0.

(** ** [class Base] *)

Record Base := mkBase {
  base_base : EntityBase;
  base_team : Team;
  base_health : Z;
  base_size : Z;
  base_shells : Z;
  base_mines : Z;
  base_armor : Z;
  regen_timer : Z
}.

(** [Base.__init__] *)
Definition Base_init (next_id : nat) (x y : float) (team : Team) : Base * nat :=
  let '(b, next_id') := Entity_init next_id x y in
  ({| base_base := b; base_team := team; base_health := 16; base_size := 16;
      base_shells := 20; base_mines := 10; base_armor := 8;
      regen_timer := BASE_RESUPPLY_RATE |}, next_id').

(** [Base.update] *)
Definition Base_update (b : Base) : Base :=
  let timer := regen_timer b - 1 in
  if decide (timer ≤ 0) then
    mkBase (base_base b) (base_team b) (base_health b) (base_size b)
      (Z.min 40 (base_shells b + 1)) (Z.min 20 (base_mines b + 1))
      (Z.min 16 (base_armor b + 1)) BASE_RESUPPLY_RATE
  else
    mkBase (base_base b) (base_team b) (base_health b) (base_size b)
      (base_shells b) (base_mines b) (base_armor b) timer.

Definition Base_set_armor (b : Base) (n : Z) : Base :=
  mkBase (base_base b) (base_team b) (base_health b) (base_size b)
    (base_shells b) (base_mines b) n (regen_timer b).

Definition Base_set_shells (b : Base) (n : Z) : Base :=
  mkBase (base_base b) (base_team b) (base_health b) (base_size b)
    n (base_mines b) (base_armor b) (regen_timer b).

Definition Base_set_mines (b : Base) (n : Z) : Base :=
  mkBase (base_base b) (base_team b) (base_health b) (base_size b)
    (base_shells b) n (base_armor b) (regen_timer b).

(** The three transfers of [Base.resupply_tank], each on the state
    [(base, tank, resupplied)] the previous one left. *)
Definition Base_give_armor (st : Base * Tank * bool) : Base * Tank * bool :=
  let '(b, t, resupplied) := st in
  let r := resources t in
  if decide (armor r < TANK_MAX_ARMOR ∧ 0 < base_armor b) then
    let transfer := min3 1 (base_armor b) (TANK_MAX_ARMOR - armor r) in
    (Base_set_armor b (base_armor b - transfer),
     Tank_set_resources t (Resources_set_armor r (armor r + transfer)), true)
  else st.

Definition Base_give_shells (st : Base * Tank * bool) : Base * Tank * bool :=
  let '(b, t, resupplied) := st in
  let r := resources t in
  if decide (shells r < TANK_MAX_SHELLS ∧ 0 < base_shells b) then
    let transfer := min3 5 (base_shells b) (TANK_MAX_SHELLS - shells r) in
    (Base_set_shells b (base_shells b - transfer),
     Tank_set_resources t (Resources_set_shells r (shells r + transfer)), true)
  else st.

Definition Base_give_mines (st : Base * Tank * bool) : Base * Tank * bool :=
  let '(b, t, resupplied) := st in
  let r := resources t in
  if decide (mines r < TANK_MAX_MINES ∧ 0 < base_mines b) then
    let transfer := min3 2 (base_mines b) (TANK_MAX_MINES - mines r) in
    (Base_set_mines b (base_mines b - transfer),
     Tank_set_resources t (Resources_set_mines r (mines r + transfer)), true)
  else st.

(** [Base.resupply_tank]: nothing for a tank of another team; otherwise
    armor first, then shells, then mines.  Returns the base, the tank and
    whether anything was transferred. *)
Definition Base_resupply_tank (b : Base) (t : Tank) : Base * Tank * bool :=
  if decide (tank_team t ≠ base_team b) then (b, t, false)
  else Base_give_mines (Base_give_shells (Base_give_armor (b, t, false))).

(** [Base.take_damage] *)
Definition Base_take_damage (amount : Z) (b : Base) : Base :=
  let health := base_health b - amount in
  if decide (health ≤ 0) then
    mkBase (base_base b) NEUTRAL 1 (base_size b) (base_shells b)
      (base_mines b) (base_armor b) (regen_timer b)
  else
    mkBase (base_base b) (base_team b) health (base_size b) (base_shells b)
      (base_mines b) (base_armor b) (regen_timer b).

(** [Base.capture] *)
Definition Base_capture (new_team : Team) (b : Base) : Base :=
  mkBase (base_base b) new_team 8 (base_size b) (base_shells b)
    (base_mines b) (base_armor b) (regen_timer b).

(** ** Invariants *)

(** Health within [0 .. 16], aggression within [0 .. 8], the cooldown
    within [0 .. fire_rate]; a pillbox is inactive exactly when its health
    is zero, and is then neutral; the size is not negative. *)
Definition Pillbox_ok (p : Pillbox) : Prop :=
  (0 ≤ pill_health p ∧ pill_health p ≤ PILLBOX_MAX_HEALTH) ∧
  (0 ≤ aggression p ∧ aggression p ≤ 8) ∧
  (0 ≤ pill_fire_cooldown p ∧ pill_fire_cooldown p ≤ pill_fire_rate p) ∧
  5 ≤ pill_fire_rate p ∧
  (active p = false ↔ pill_health p = 0) ∧
  (pill_health p = 0 → pill_team p = NEUTRAL) ∧
  0 ≤ pill_size p.

#[export] Instance Pillbox_ok_dec p : Decision (Pillbox_ok p).
Proof. unfold Pillbox_ok. apply _. Defined.

(** Stock within the regeneration caps, the timer within
    [1 .. BASE_RESUPPLY_RATE], health within [1 .. 16]. *)
Definition Base_ok (b : Base) : Prop :=
  (0 ≤ base_shells b ∧ base_shells b ≤ 40) ∧
  (0 ≤ base_mines b ∧ base_mines b ≤ 20) ∧
  (0 ≤ base_armor b ∧ base_armor b ≤ 16) ∧
  (1 ≤ regen_timer b ∧ regen_timer b ≤ BASE_RESUPPLY_RATE) ∧
  (1 ≤ base_health b ∧ base_health b ≤ 16).

#[export] Instance Base_ok_dec b : Decision (Base_ok b).
Proof. unfold Base_ok. apply _. Defined.

(** The calls the engine can make on a pillbox. *)
Inductive PillboxOp :=
  | PUpdate (tanks : list Tank) (next_id rng : nat)
  | PTakeDamage (amount : Z)
  | PCapture (new_team : Team).

Definition Pillbox_apply `{Platform} (p : Pillbox) (op : PillboxOp) : Pillbox :=
  match op with
  | PUpdate tanks n rng => (Pillbox_update tanks n rng p).1.1.1
  | PTakeDamage amount => Pillbox_take_damage amount p
  | PCapture tm => Pillbox_capture tm p
  end.

Definition PillboxOp_valid (op : PillboxOp) : Prop :=
  match op with PTakeDamage amount => 0 ≤ amount | _ => True end.

#[export] Instance PillboxOp_valid_dec op : Decision (PillboxOp_valid op).
Proof. destruct op; simpl; apply _. Defined.

(** The calls the engine can make on a base. *)
Inductive BaseOp :=
  | BUpdate
  | BResupply (t : Tank)
  | BTakeDamage (amount : Z)
  | BCapture (new_team : Team).

Definition Base_apply (b : Base) (op : BaseOp) : Base :=
  match op with
  | BUpdate => Base_update b
  | BResupply t => (Base_resupply_tank b t).1.1
  | BTakeDamage amount => Base_take_damage amount b
  | BCapture tm => Base_capture tm b
  end.

Definition BaseOp_valid (op : BaseOp) : Prop :=
  match op with
  | BTakeDamage amount => 0 ≤ amount
  | BResupply t => Tank_ok t
  | _ => True
  end.

#[export] Instance BaseOp_valid_dec op : Decision (BaseOp_valid op).
Proof. destruct op; simpl; apply _. Defined.

(** ** Lemmas *)

Ltac structures_unfold :=
  unfold Pillbox_ok, Base_ok, Pillbox_take_damage, Pillbox_capture,
    Pillbox_adjusted_rate, Base_update, Base_take_damage, Base_capture,
    Tank_ok, Resources_ok in *; simpl in *; config_unfold.

(** The three transfers unfolded, for case analysis. *)
Ltac resupply_unfold :=
  unfold Base_resupply_tank, Base_give_mines, Base_give_shells,
    Base_give_armor, min3 in *; simpl in *.

Section PillboxLemmas.
Context `{Platform}.
Implicit Types (p : Pillbox) (t : Tank) (tanks : list Tank) (n rng : nat).

Lemma Pillbox_init_ok n x y tm : Pillbox_ok (Pillbox_init n x y tm).1.
Proof. structures_unfold. bounds. Qed.

Lemma Pillbox_take_damage_ok a p :
  0 ≤ a → Pillbox_ok p → Pillbox_ok (Pillbox_take_damage a p).
Proof.
  structures_unfold. intros ? ?. case_decide; simpl; destruct_and?;
    split_and!; try lia; try done; intuition lia.
Qed.

Lemma Pillbox_capture_ok tm p : Pillbox_ok p → Pillbox_ok (Pillbox_capture tm p).
Proof.
  structures_unfold. intros ?. destruct_and?.
  split_and!; try lia; try done; intuition (done || lia).
Qed.

Lemma Pillbox_decay_ok rng p : Pillbox_ok p → Pillbox_ok (Pillbox_decay rng p).1.
Proof.
  unfold Pillbox_decay. intros ?. repeat case_match; simpl; try done.
  structures_unfold. bounds.
Qed.

(** What the decay step leaves alone. *)
Lemma Pillbox_decay_static rng p :
  let p' := (Pillbox_decay rng p).1 in
  pill_base p' = pill_base p ∧ pill_team p' = pill_team p ∧
  pill_health p' = pill_health p ∧ pill_fire_rate p' = pill_fire_rate p ∧
  pill_fire_cooldown p' = pill_fire_cooldown p ∧ active p' = active p ∧
  pill_range p' = pill_range p ∧
  (aggression p' = aggression p ∨
   0 < aggression p ∧ aggression p' = aggression p - 1).
Proof.
  unfold Pillbox_decay. repeat case_match; simpl; split_and!; try done; auto.
  right. lia.
Qed.

Lemma Pillbox_update_ok tanks n rng p :
  Pillbox_ok p → Pillbox_ok (Pillbox_update tanks n rng p).1.1.1.
Proof.
  intros Hok. unfold Pillbox_update. case_match; [done|].
  set (p1 := if decide (0 < pill_fire_cooldown p) then _ else p).
  assert (Hok1 : Pillbox_ok p1).
  { subst p1. case_decide; [|done]. structures_unfold. bounds. }
  pose proof (Pillbox_decay_ok rng p1 Hok1) as Hok2.
  destruct (Pillbox_decay rng p1) as [p2 rng2]. simpl in Hok2.
  case_decide; [|done]. case_match; [|done].
  unfold Pillbox__fire_at. simpl. structures_unfold. bounds.
Qed.

Lemma Pillbox_apply_ok p op :
  PillboxOp_valid op → Pillbox_ok p → Pillbox_ok (Pillbox_apply p op).
Proof.
  destruct op; simpl; intros ??;
    auto using Pillbox_update_ok, Pillbox_take_damage_ok, Pillbox_capture_ok.
Qed.
(** What [update] leaves alone, and what it returns beside the pillbox:
    a shot is a live shell with the next id, of the pillbox's team and
    owned by it; without a shot the id counter does not move. *)
Lemma Pillbox_update_static tanks n rng p :
  let '(p', shot, n', rng') := Pillbox_update tanks n rng p in
  pill_base p' = pill_base p ∧ pill_team p' = pill_team p ∧
  pill_health p' = pill_health p ∧ active p' = active p ∧
  pill_size p' = pill_size p ∧ (rng ≤ rng')%nat ∧
  match shot with
  | Some s =>
      e_id (shell_base s) = n ∧ n' = S n ∧
      e_alive (shell_base s) = true ∧ shell_team s = pill_team p ∧
      owner_id s = e_id (pill_base p) ∧ shell_damage s = SHELL_DAMAGE ∧
      lifetime s = SHELL_LIFETIME ∧ radius s = 3
  | None => n' = n
  end.
Proof.
  unfold Pillbox_update. destruct (negb (active p)); [by split_and!|].
  set (p1 := if decide (0 < pill_fire_cooldown p) then _ else p).
  assert (pill_base p1 = pill_base p ∧ pill_team p1 = pill_team p ∧
          pill_health p1 = pill_health p ∧ active p1 = active p ∧
          pill_size p1 = pill_size p) as (?&?&?&?&?)
    by (subst p1; by case_decide).
  pose proof (Pillbox_decay_static rng p1) as Hd.
  assert (rng ≤ (Pillbox_decay rng p1).2 ∧
          pill_size (Pillbox_decay rng p1).1 = pill_size p1)%nat as [Hrng ?]
    by (unfold Pillbox_decay; repeat case_match; simpl; split; (lia || done)).
  destruct (Pillbox_decay rng p1) as [p2 rng2]. simpl in *.
  destruct Hd as (?&?&?&?&?&?&?&_).
  case_decide; [|split_and!; congruence].
  destruct (Pillbox__find_target tanks p2); simpl; split_and!; congruence.
Qed.

Lemma Pillbox_take_damage_static a p :
  pill_base (Pillbox_take_damage a p) = pill_base p ∧
  pill_size (Pillbox_take_damage a p) = pill_size p ∧
  (pill_team (Pillbox_take_damage a p) = pill_team p ∨
   pill_team (Pillbox_take_damage a p) = NEUTRAL).
Proof. unfold Pillbox_take_damage. case_decide; simpl; auto. Qed.

End PillboxLemmas.

Section BaseLemmas.
Implicit Types (b : Base) (t : Tank).

Lemma Base_init_ok n x y tm : Base_ok (Base_init n x y tm).1.
Proof. structures_unfold. bounds. Qed.

Lemma Base_update_ok b : Base_ok b → Base_ok (Base_update b).
Proof. structures_unfold. intros ?. case_decide; bounds. Qed.

Lemma Base_take_damage_ok a b : 0 ≤ a → Base_ok b → Base_ok (Base_take_damage a b).
Proof. structures_unfold. intros ??. case_decide; bounds. Qed.

Lemma Base_capture_ok tm b : Base_ok b → Base_ok (Base_capture tm b).
Proof. structures_unfold. intros ?. bounds. Qed.

Lemma Base_resupply_tank_other_team b t :
  tank_team t ≠ base_team b → Base_resupply_tank b t = (b, t, false).
Proof. intros ?. unfold Base_resupply_tank. by rewrite decide_True. Qed.

Lemma Base_resupply_tank_static b t :
  let '(b', t', _) := Base_resupply_tank b t in
  base_base b' = base_base b ∧ base_team b' = base_team b ∧
  base_health b' = base_health b ∧ base_size b' = base_size b ∧
  regen_timer b' = regen_timer b ∧
  Tank_set_resources t' (resources t) = t ∧
  wood (resources t') = wood (resources t).
Proof.
  resupply_unfold. repeat case_decide; simpl; split_and!; try done;
    by destruct t.
Qed.

Lemma Base_resupply_tank_ok b t :
  Base_ok b → Tank_ok t →
  Base_ok (Base_resupply_tank b t).1.1 ∧ Tank_ok (Base_resupply_tank b t).1.2.
Proof.
  intros Hb Ht. resupply_unfold. structures_unfold.
  repeat case_decide; simpl; bounds.
Qed.

Lemma Base_apply_ok b op : BaseOp_valid op → Base_ok b → Base_ok (Base_apply b op).
Proof.
  destruct op; simpl; intros ??;
    auto using Base_update_ok, Base_take_damage_ok, Base_capture_ok.
  by apply Base_resupply_tank_ok.
Qed.
Lemma Base_update_static b :
  base_base (Base_update b) = base_base b ∧
  base_team (Base_update b) = base_team b ∧
  base_size (Base_update b) = base_size b.
Proof. unfold Base_update. by case_decide. Qed.

End BaseLemmas.

(** ** Theorems on pillboxes *)

Section PillboxTheorems.
Context `{Platform}.
Implicit Types (p : Pillbox) (t : Tank) (tanks : list Tank) (n rng : nat).

(** The pillbox invariant holds in every reachable state: from a
    pillbox that satisfies [Pillbox_ok] (as a new one does), any sequence
    of [update], [take_damage] with non-negative amounts and [capture]
    keeps health within [0 .. 16], aggression within [0 .. 8] and the
    cooldown within [0 .. fire_rate], and keeps the pillbox inactive
    exactly when its health is zero, in which case it is neutral. *)
Theorem Pillbox_ok_reachable p ops :
  Pillbox_ok p → Forall PillboxOp_valid ops →
  Pillbox_ok (foldl Pillbox_apply p ops).
Proof.
  intros Hok Hops. revert p Hok.
  induction Hops as [|op ops Hop _ IH]; intros p Hok; simpl;
    auto using Pillbox_apply_ok.
Qed.

(** [C21] [Pillbox._find_target] returns the nearest hostile tank in
    range, the first one found on ties.  When it returns a tank, that tank
    is in the list, of another team and strictly within range; no hostile
    tank in range is strictly nearer; and no hostile tank in range that
    comes earlier in the list is at the same distance.  It returns nothing
    exactly when no tank of the list is hostile and in range. *)
Theorem Pillbox_find_target_nearest tanks p :
  (pill_range p <? infinity)%float = true →
  match Pillbox__find_target tanks p with
  | Some t =>
      ∃ l1 l2, tanks = l1 ++ t :: l2 ∧ tank_team t ≠ pill_team p ∧
        (Pillbox_distance p t <? pill_range p)%float = true ∧
        (∀ c, c ∈ tanks → Pillbox_candidate p c = true →
           (Pillbox_distance p c <? Pillbox_distance p t)%float = false) ∧
        (∀ c, c ∈ l1 → Pillbox_candidate p c = true →
           Pillbox_distance p c ≠ Pillbox_distance p t)
  | None => Forall (λ c, Pillbox_candidate p c = false) tanks
  end.
Proof.
  intros Hrange. unfold Pillbox__find_target.
  destruct (argbest _ _ _ _ tanks).1 as [t|] eqn:Hres.
  - apply (argbest_spec _ _ _ ltb_trans ltb_irrefl) in Hres
      as (l1 & l2 & -> & Hok & _ & Hbest & Htie).
    exists l1, l2. unfold Pillbox_candidate in Hok at 1.
    apply andb_true_iff in Hok as [Hteam%bool_decide_eq_true_1 Hin].
    by split_and!.
  - apply argbest_None in Hres.
    eapply List.Forall_impl; [|exact Hres]. intros c Hc. simpl in Hc.
    destruct (Pillbox_candidate p c) eqn:Hcand; [|done].
    unfold Pillbox_candidate in Hcand.
    apply andb_true_iff in Hcand as [_ Hin].
    by rewrite (ltb_trans _ _ _ Hin Hrange) in Hc.
Qed.

(** [Pillbox.update] on its branches.  An inactive pillbox does
    nothing.  A shell is produced only by an active pillbox whose cooldown
    was at most 1, aimed at the tank [_find_target] returns; the shell is
    alive at the pillbox's position with the next id, the pillbox's team
    and the pillbox's id as owner, and the cooldown becomes
    [max(5, fire_rate - 3 * aggression)].  When no shell is produced the
    id counter is unchanged.  The random generator is consulted at most
    once, and only when the aggression is positive. *)
Theorem Pillbox_update_cases tanks n rng p :
  let '(p', shell, n', rng') := Pillbox_update tanks n rng p in
  (active p = false → (p', shell, n', rng') = (p, None, n, rng)) ∧
  pill_base p' = pill_base p ∧ pill_team p' = pill_team p ∧
  pill_health p' = pill_health p ∧ active p' = active p ∧
  (rng' = rng ∨ 0 < aggression p ∧ active p = true ∧ rng' = S rng) ∧
  match shell with
  | Some s =>
      active p = true ∧ pill_fire_cooldown p ≤ 1 ∧ n' = S n ∧
      is_Some (Pillbox__find_target tanks (Pillbox_decay rng
        (if decide (0 < pill_fire_cooldown p)
         then Pillbox_set_fire_cooldown p (pill_fire_cooldown p - 1)
         else p)).1) ∧
      shell_base s =
        mkEntityBase n (e_x (pill_base p)) (e_y (pill_base p)) true ∧
      shell_team s = pill_team p ∧ owner_id s = e_id (pill_base p) ∧
      pill_fire_cooldown p' = Pillbox_adjusted_rate p'
  | None => n' = n
  end.
Proof.
  unfold Pillbox_update.
  destruct (active p) eqn:Hact; simpl; [|by split_and!; auto].
  set (p1 := if decide (0 < pill_fire_cooldown p) then _ else p).
  assert (Hp1 : pill_base p1 = pill_base p ∧ pill_team p1 = pill_team p ∧
                pill_health p1 = pill_health p ∧ active p1 = active p ∧
                aggression p1 = aggression p ∧
                (pill_fire_cooldown p1 ≤ 0 → pill_fire_cooldown p ≤ 1)).
  { subst p1. case_decide; simpl; split_and!; try done; lia. }
  destruct Hp1 as (Hb1 & Ht1 & Hh1 & Ha1 & Hg1 & Hc1).
  pose proof (Pillbox_decay_static rng p1) as Hd.
  assert (Hrng : (Pillbox_decay rng p1).2 = rng ∨
                 0 < aggression p1 ∧ (Pillbox_decay rng p1).2 = S rng).
  { unfold Pillbox_decay. repeat case_match; simpl; auto. }
  destruct (Pillbox_decay rng p1) as [p2 rng2] eqn:Hdec. simpl in Hd, Hrng.
  destruct Hd as (Hb2 & Ht2 & Hh2 & _ & Hc2 & Ha2 & _ & _).
  assert (Hrng' : rng2 = rng ∨ 0 < aggression p ∧ true = true ∧ rng2 = S rng).
  { rewrite <- Hg1. destruct Hrng as [?|[??]]; auto. }
  case_decide as Hcd; [|split_and!; try done; congruence].
  destruct (Pillbox__find_target tanks p2) as [target|] eqn:Hft; simpl;
    [|split_and!; try done; congruence].
  split_and!; try done;
    first [congruence | apply Hc1; congruence | by rewrite Hft].
Qed.

(** Successive hits. *)
Definition Pillbox_hits (amounts : list Z) (p : Pillbox) : Pillbox :=
  foldl (λ q a, Pillbox_take_damage a q) p amounts.

Lemma Pillbox_hits_health amounts p :
  Forall (λ a, 0 ≤ a) amounts → 0 ≤ pill_health p →
  pill_health (Pillbox_hits amounts p) =
    Z.max 0 (pill_health p - foldr Z.add 0 amounts).
Proof.
  unfold Pillbox_hits. intros Ha. revert p.
  induction Ha as [|a l Ha Hl IH]; intros p Hp; simpl; [lia|].
  pose proof (sum_nonneg l Hl).
  rewrite IH; unfold Pillbox_take_damage; case_decide; simpl; lia.
Qed.

(** Destruction and capture of a pillbox.  Hits with non-negative
    amounts that add up to at least its health leave the pillbox with
    health 0, inactive and neutral, whatever its team was; a following
    [capture] gives it to the capturing team with half the maximum health
    (8), active, with aggression 0. *)
Theorem Pillbox_destroyed_then_captured amounts p tm :
  Pillbox_ok p → Forall (λ a, 0 ≤ a) amounts →
  pill_health p ≤ foldr Z.add 0 amounts →
  let p' := Pillbox_hits amounts p in
  pill_health p' = 0 ∧ active p' = false ∧ pill_team p' = NEUTRAL ∧
  let p'' := Pillbox_capture tm p' in
  pill_health p'' = 8 ∧ active p'' = true ∧ pill_team p'' = tm ∧
  aggression p'' = 0.
Proof.
  intros Hok Ha Hsum p'.
  assert (Hok' : Pillbox_ok p').
  { subst p'. unfold Pillbox_hits. clear Hsum. revert p Hok.
    induction Ha; intros p Hok; simpl; auto using Pillbox_take_damage_ok. }
  assert (Hh : pill_health p' = 0).
  { subst p'. rewrite Pillbox_hits_health; [lia|done|apply Hok]. }
  destruct Hok' as (_ & _ & _ & _ & Hact & Hteam).
  split_and!; try done; [by apply Hact|by apply Hteam].
Qed.
End PillboxTheorems.

(** ** Theorems on bases *)

Section BaseTheorems.
Implicit Types (b : Base) (t : Tank).

(** The base invariant holds in every reachable state: from a base
    that satisfies [Base_ok] (as a new one does), any sequence of
    [update], [resupply_tank] of tanks that satisfy their invariant,
    [take_damage] with non-negative amounts and [capture] keeps the stock
    within [0 .. 40] shells, [0 .. 20] mines and [0 .. 16] armor, the
    timer within [1 .. 1200] and the health within [1 .. 16]. *)
Theorem Base_ok_reachable b ops :
  Base_ok b → Forall BaseOp_valid ops → Base_ok (foldl Base_apply b ops).
Proof.
  intros Hok Hops. revert b Hok.
  induction Hops as [|op ops Hop _ IH]; intros b Hok; simpl;
    auto using Base_apply_ok.
Qed.

(** [C3] [Base.resupply_tank] moves stock and neither creates nor loses
    any.  For a tank of another team nothing changes and the result is
    [False].  For a tank of the base's team, with both invariants holding
    before: they hold after; what the tank gains of each resource is what
    the base loses; the amounts are [min(1, stock, missing)] armor,
    [min(5, stock, missing)] shells and [min(2, stock, missing)] mines,
    zero when the tank is full or the base is out of stock; and the result
    is [True] exactly when something was transferred. *)
Theorem Base_resupply_conserves b t :
  Base_ok b → Tank_ok t →
  let '(b', t', resupplied) := Base_resupply_tank b t in
  let r := resources t in
  let r' := resources t' in
  Base_ok b' ∧ Tank_ok t' ∧
  (tank_team t ≠ base_team b → (b', t', resupplied) = (b, t, false)) ∧
  (tank_team t = base_team b →
   armor r' - armor r = base_armor b - base_armor b' ∧
   shells r' - shells r = base_shells b - base_shells b' ∧
   mines r' - mines r = base_mines b - base_mines b' ∧
   armor r' - armor r =
     Z.max 0 (min3 1 (base_armor b) (TANK_MAX_ARMOR - armor r)) ∧
   shells r' - shells r =
     Z.max 0 (min3 5 (base_shells b) (TANK_MAX_SHELLS - shells r)) ∧
   mines r' - mines r =
     Z.max 0 (min3 2 (base_mines b) (TANK_MAX_MINES - mines r)) ∧
   (resupplied = true ↔
      0 < (armor r' - armor r) + (shells r' - shells r) + (mines r' - mines r))).
Proof.
  intros Hb Ht.
  pose proof (Base_resupply_tank_ok b t Hb Ht) as [Hb' Ht'].
  pose proof (Base_resupply_tank_other_team b t) as Hother.
  destruct (Base_resupply_tank b t) as [[b' t'] f] eqn:Hres. simpl in *.
  split_and!; [done..|]. intros Hteam. clear Hother Hb' Ht'.
  revert Hres. resupply_unfold. rewrite decide_False by by intros [].
  structures_unfold.
  repeat case_decide; intros [= <- <- <-]; simpl in *; split_and!; lia.
Qed.

(** [n] frames of [Base.update]. *)
Definition Base_updates (n : nat) (b : Base) : Base := Nat.iter n Base_update b.

Lemma Base_updates_countdown n b :
  Z.of_nat n < regen_timer b →
  Base_updates n b =
    mkBase (base_base b) (base_team b) (base_health b) (base_size b)
      (base_shells b) (base_mines b) (base_armor b) (regen_timer b - Z.of_nat n).
Proof.
  unfold Base_updates. induction n as [|n IH]; intros Hn; simpl.
  - destruct b; simpl. f_equal. lia.
  - rewrite IH by lia. unfold Base_update. simpl.
    rewrite decide_False by lia. f_equal. lia.
Qed.

(** Regeneration is a countdown and a capped refill: during the
    [regen_timer - 1] updates that follow, the stock of a base does not
    change; the update that brings the timer to zero adds one shell, one
    mine and one armor, capped at 40, 20 and 16, and restarts the timer at
    [BASE_RESUPPLY_RATE]. *)
Theorem Base_regen_period n b :
  0 < regen_timer b → Z.of_nat (S n) = regen_timer b →
  Base_updates (S n) b =
    mkBase (base_base b) (base_team b) (base_health b) (base_size b)
      (Z.min 40 (base_shells b + 1)) (Z.min 20 (base_mines b + 1))
      (Z.min 16 (base_armor b + 1)) BASE_RESUPPLY_RATE ∧
  ∀ k, (k ≤ n)%nat →
    base_shells (Base_updates k b) = base_shells b ∧
    base_mines (Base_updates k b) = base_mines b ∧
    base_armor (Base_updates k b) = base_armor b.
Proof.
  intros Hpos Hn. split.
  - change (Base_updates (S n) b) with (Base_update (Base_updates n b)).
    rewrite Base_updates_countdown by lia. unfold Base_update. simpl.
    by rewrite decide_True by lia.
  - intros k Hk. by rewrite Base_updates_countdown by lia.
Qed.
End BaseTheorems.

(** ** Witnesses *)

Definition demo_pillbox : Pillbox := (Pillbox_init 3 100 100 NEUTRAL).1.

(** Two hostile tanks at distances 50 and 30 from the demo pillbox, and a
    neutral one at distance 10. *)
Definition demo_tanks : list Tank :=
  [(Tank_init 10 150 100 TEAM_1).1; (Tank_init 11 100 130 TEAM_2).1;
   (Tank_init 12 110 100 NEUTRAL).1].

Lemma Pillbox_ok_reachable_witness :
  Pillbox_ok
    (foldl (@Pillbox_apply east_platform) demo_pillbox
       [PTakeDamage 1; PUpdate demo_tanks 20 0; PTakeDamage 15;
        PUpdate demo_tanks 21 1; PCapture TEAM_1; PUpdate demo_tanks 21 1]).
Proof. apply Pillbox_ok_reachable; by_compute. Defined.

Lemma Pillbox_find_target_nearest_witness :
  match Pillbox__find_target demo_tanks demo_pillbox with
  | Some t =>
      ∃ l1 l2, demo_tanks = l1 ++ t :: l2 ∧ tank_team t ≠ pill_team demo_pillbox ∧
        (Pillbox_distance demo_pillbox t <? pill_range demo_pillbox)%float = true ∧
        (∀ c, c ∈ demo_tanks → Pillbox_candidate demo_pillbox c = true →
           (Pillbox_distance demo_pillbox c <? Pillbox_distance demo_pillbox t)%float
             = false) ∧
        (∀ c, c ∈ l1 → Pillbox_candidate demo_pillbox c = true →
           Pillbox_distance demo_pillbox c ≠ Pillbox_distance demo_pillbox t)
  | None => Forall (λ c, Pillbox_candidate demo_pillbox c = false) demo_tanks
  end.
Proof. apply Pillbox_find_target_nearest. by vm_compute. Defined.

Example Pillbox_find_target_demo :
  e_id ∘ tank_base <$> Pillbox__find_target demo_tanks demo_pillbox = Some 11%nat.
Proof. by vm_compute. Qed.

Lemma Pillbox_destroyed_then_captured_witness :
  let p' := Pillbox_hits [1; 5; 10] demo_pillbox in
  pill_health p' = 0 ∧ active p' = false ∧ pill_team p' = NEUTRAL ∧
  let p'' := Pillbox_capture TEAM_1 p' in
  pill_health p'' = 8 ∧ active p'' = true ∧ pill_team p'' = TEAM_1 ∧
  aggression p'' = 0.
Proof. apply Pillbox_destroyed_then_captured; by_compute. Defined.

(** A team-1 base with 8 armor in stock and a team-1 tank with armor 5 of
    8: one contact moves one unit of armor. *)
Definition demo_base : Base := (Base_init 4 200 200 TEAM_1).1.

Definition hurt_tank : Tank := Tank_take_damage 3 demo_tank.

Lemma Base_ok_reachable_witness :
  Base_ok
    (foldl Base_apply demo_base
       [BResupply hurt_tank; BUpdate; BTakeDamage 20; BCapture TEAM_2; BUpdate]).
Proof. apply Base_ok_reachable; by_compute. Defined.

Lemma Base_resupply_conserves_witness :
  let '(b', t', resupplied) := Base_resupply_tank demo_base hurt_tank in
  let r := resources hurt_tank in
  let r' := resources t' in
  Base_ok b' ∧ Tank_ok t' ∧
  (tank_team hurt_tank ≠ base_team demo_base →
   (b', t', resupplied) = (demo_base, hurt_tank, false)) ∧
  (tank_team hurt_tank = base_team demo_base →
   armor r' - armor r = base_armor demo_base - base_armor b' ∧
   shells r' - shells r = base_shells demo_base - base_shells b' ∧
   mines r' - mines r = base_mines demo_base - base_mines b' ∧
   armor r' - armor r =
     Z.max 0 (min3 1 (base_armor demo_base) (TANK_MAX_ARMOR - armor r)) ∧
   shells r' - shells r =
     Z.max 0 (min3 5 (base_shells demo_base) (TANK_MAX_SHELLS - shells r)) ∧
   mines r' - mines r =
     Z.max 0 (min3 2 (base_mines demo_base) (TANK_MAX_MINES - mines r)) ∧
   (resupplied = true ↔
      0 < (armor r' - armor r) + (shells r' - shells r) + (mines r' - mines r))).
Proof. apply (Base_resupply_conserves demo_base hurt_tank); by_compute. Defined.

Example Base_resupply_demo :
  let '(b', t', resupplied) := Base_resupply_tank demo_base hurt_tank in
  armor (resources hurt_tank) = 5 ∧ armor (resources t') = 6 ∧
  base_armor demo_base = 8 ∧ base_armor b' = 7 ∧ resupplied = true ∧
  shells (resources t') = 40 ∧ base_shells b' = 20.
Proof. by vm_compute. Qed.

Lemma Base_regen_period_witness :
  Base_updates 1200 demo_base =
    mkBase (base_base demo_base) (base_team demo_base) (base_health demo_base)
      (base_size demo_base)
      (Z.min 40 (base_shells demo_base + 1)) (Z.min 20 (base_mines demo_base + 1))
      (Z.min 16 (base_armor demo_base + 1)) BASE_RESUPPLY_RATE ∧
  ∀ k, (k ≤ 1199)%nat →
    base_shells (Base_updates k demo_base) = base_shells demo_base ∧
    base_mines (Base_updates k demo_base) = base_mines demo_base ∧
    base_armor (Base_updates k demo_base) = base_armor demo_base.
Proof. apply (Base_regen_period 1199 demo_base); by_compute. Defined.
