(* ===== verification/GameState.v ===== *)
(** * GameState: the entity collection and the frame pipeline

    [src/src/bolo_engine.py], class [GameState].  The Python object graph
    is modelled by a store: [heap] maps the id of an entity to its current
    state, and [entities], [pending_entities] and [player] hold ids, so
    that a tank damaged through the collection is the tank the [player]
    reference sees.  The class counter [Entity._next_id] and the position
    in the sequence of [random.random()] draws are carried in the state
    as [id_counter] and [rng_pos].

    [GameState_update] is the frame: merge the pending entities, update
    every entity, resolve the four collision categories in order, purge
    the dead, move the camera. *)

From stdpp Require Import gmap.
From S2P Require Import Prelude PyFloat Config GameMap Entity Tank Structures.
Set Warnings "-inexact-float".

(** ** The entities of a game *)

(** The subclasses of [Entity], as the [isinstance] tests of the engine
    tell them apart. *)
Inductive EntityObj :=
  | ETank (t : Tank)
  | EShell (s : Shell)
  | EMine (mn : Mine)
  | EPillbox (p : Pillbox)
  | EBase (b : Base).

(** The fields of [Entity] every subclass inherits. *)
Definition obj_base (o : EntityObj) : EntityBase :=
  match o with
  | ETank t => tank_base t
  | EShell s => shell_base s
  | EMine mn => mine_base mn
  | EPillbox p => pill_base p
  | EBase b => base_base b
  end.

Definition obj_alive (o : EntityObj) : bool := e_alive (obj_base o).

(** ** [class GameState] *)

Record GameState := mkGameState {
  game_map : GameMap;
  entities : list nat;
  pending_entities : list nat;
  player : option nat;
  camera_x : float;
  camera_y : float;
  paused : bool;
  game_over : bool;
  score : Z;
  (* the objects the references above point to *)
  heap : gmap nat EntityObj;
  (* [Entity._next_id] *)
  id_counter : nat;
  (* how many times [random.random()] has been called *)
  rng_pos : nat
}.

(** [GameState.__init__], in a process whose id counter and generator are
    at [n] and [r]. *)
Definition GameState_init (n r : nat) : GameState :=
  {| game_map := GameMap_init MAP_WIDTH MAP_HEIGHT; entities := [];
     pending_entities := []; player := None; camera_x := 0; camera_y := 0;
     paused := false; game_over := false; score := 0; heap := ∅;
     id_counter := n; rng_pos := r |}.

Definition set_heap (gs : GameState) (h : gmap nat EntityObj) : GameState :=
  mkGameState (game_map gs) (entities gs) (pending_entities gs) (player gs)
    (camera_x gs) (camera_y gs) (paused gs) (game_over gs) (score gs) h
    (id_counter gs) (rng_pos gs).

Definition set_game_map (gs : GameState) (m : GameMap) : GameState :=
  mkGameState m (entities gs) (pending_entities gs) (player gs)
    (camera_x gs) (camera_y gs) (paused gs) (game_over gs) (score gs)
    (heap gs) (id_counter gs) (rng_pos gs).

Definition set_entities (gs : GameState) (l pending : list nat) : GameState :=
  mkGameState (game_map gs) l pending (player gs)
    (camera_x gs) (camera_y gs) (paused gs) (game_over gs) (score gs)
    (heap gs) (id_counter gs) (rng_pos gs).

Definition set_camera (gs : GameState) (x y : float) : GameState :=
  mkGameState (game_map gs) (entities gs) (pending_entities gs) (player gs)
    x y (paused gs) (game_over gs) (score gs)
    (heap gs) (id_counter gs) (rng_pos gs).

Definition set_counters (gs : GameState) (n r : nat) : GameState :=
  mkGameState (game_map gs) (entities gs) (pending_entities gs) (player gs)
    (camera_x gs) (camera_y gs) (paused gs) (game_over gs) (score gs)
    (heap gs) n r.

(** A method that mutates the object [i] refers to leaves [o] there. *)
Definition store (gs : GameState) (i : nat) (o : EntityObj) : GameState :=
  set_heap gs (<[i := o]> (heap gs)).

(** [GameState.add_entity]: the reference to [o], an object just
    constructed, is appended to the pending list. *)
Definition add_entity (gs : GameState) (o : EntityObj) : GameState :=
  let i := e_id (obj_base o) in
  set_entities (store gs i o) (entities gs) (pending_entities gs ++ [i]).

Definition alive_at (gs : GameState) (i : nat) : bool :=
  match heap gs !! i with Some o => obj_alive o | None => false end.

(** [GameState.remove_dead_entities] *)
Definition remove_dead_entities (gs : GameState) : GameState :=
  set_entities gs (filter (λ i, alive_at gs i = true) (entities gs))
    (pending_entities gs).

(** The tanks among [game_state.entities], in list order: what the loop
    of [Pillbox._find_target] visits. *)
Definition tank_at (gs : GameState) (i : nat) : option Tank :=
  match heap gs !! i with Some (ETank t) => Some t | _ => None end.

Definition heap_tanks (gs : GameState) : list Tank :=
  omap (tank_at gs) (entities gs).

(** [entity.update(self)] for the entity [i] refers to, by its class. *)
Definition Entity_update `{Platform} (gs : GameState) (i : nat) : GameState :=
  match heap gs !! i with
  | Some (ETank t) => store gs i (ETank (Tank_update t))
  | Some (EShell s) =>
      let '(s', m') := Shell_update (game_map gs) s in
      set_game_map (store gs i (EShell s')) m'
  | Some (EMine mn) => store gs i (EMine (Mine_update mn))
  | Some (EPillbox p) =>
      let '(p', shot, n', r') :=
        Pillbox_update (heap_tanks gs) (id_counter gs) (rng_pos gs) p in
      let gs := set_counters (store gs i (EPillbox p')) n' r' in
      match shot with
      | Some s => add_entity gs (EShell s)
      | None => gs
      end
  | Some (EBase b) => store gs i (EBase (Base_update b))
  | None => gs
  end.

(** ** Collisions *)

(** [dist < reach] with [dist] the distance from [a] to [b] and [reach]
    the sum of two integer sizes. *)
Definition touching (a b : EntityBase) (reach : Z) : bool :=
  (distance (e_x a) (e_y a) (e_x b) (e_y b) <? Z2F reach)%float.

(** The body of the inner loop of the shell and tank pass for the shell
    [s] at [i] and the entity at [j]: [Some] is a hit, which ends the
    loop. *)
Definition shell_tank_contact (i : nat) (s : Shell) (gs : GameState) (j : nat)
    : option GameState :=
  match heap gs !! j with
  | Some (ETank t) =>
      if negb (e_alive (tank_base t)) then None
      else if decide (e_id (tank_base t) = owner_id s) then None
      else if decide (tank_team t = shell_team s) then None
      else if touching (shell_base s) (tank_base t) (tank_size t + radius s)
      then Some (store (store gs j (ETank (Tank_take_damage (shell_damage s) t)))
                   i (EShell (Shell_destroy s)))
      else None
  | _ => None
  end.

Definition shell_pillbox_contact (i : nat) (s : Shell) (gs : GameState)
    (j : nat) : option GameState :=
  match heap gs !! j with
  | Some (EPillbox p) =>
      if negb (e_alive (pill_base p) && active p) then None
      else if decide (pill_team p = shell_team s) then None
      else if touching (shell_base s) (pill_base p) (pill_size p + radius s)
      then Some (store
                   (store gs j (EPillbox (Pillbox_take_damage (shell_damage s) p)))
                   i (EShell (Shell_destroy s)))
      else None
  | _ => None
  end.

Definition mine_tank_contact (i : nat) (mn : Mine) (gs : GameState) (j : nat)
    : option GameState :=
  match heap gs !! j with
  | Some (ETank t) =>
      if negb (e_alive (tank_base t)) then None
      else if decide (tank_team t = mine_team mn) then None
      else if touching (mine_base mn) (tank_base t) (tank_size t + mine_radius mn)
      then
        let gs := store gs j (ETank (Tank_take_damage (mine_damage mn) t)) in
        let '(mn', m') := Mine_detonate (game_map gs) mn in
        Some (set_game_map (store gs i (EMine mn')) m')
      else None
  | _ => None
  end.

(** The outer loops of the first three passes, for the entity at [i]. *)
Definition collide_shell_tank (gs : GameState) (i : nat) : GameState :=
  match heap gs !! i with
  | Some (EShell s) =>
      if e_alive (shell_base s)
      then default gs (scan (shell_tank_contact i s) gs (entities gs))
      else gs
  | _ => gs
  end.

Definition collide_shell_pillbox (gs : GameState) (i : nat) : GameState :=
  match heap gs !! i with
  | Some (EShell s) =>
      if e_alive (shell_base s)
      then default gs (scan (shell_pillbox_contact i s) gs (entities gs))
      else gs
  | _ => gs
  end.

Definition collide_mine_tank (gs : GameState) (i : nat) : GameState :=
  match heap gs !! i with
  | Some (EMine mn) =>
      if e_alive (mine_base mn)
      then default gs (scan (mine_tank_contact i mn) gs (entities gs))
      else gs
  | _ => gs
  end.

(** The body of the inner loop of the tank and base pass, which has no
    [break]: the tank at [i] meets the entity at [j]. *)
Definition tank_base_contact (i : nat) (gs : GameState) (j : nat) : GameState :=
  match heap gs !! i, heap gs !! j with
  | Some (ETank t), Some (EBase b) =>
      if touching (tank_base t) (base_base b) (tank_size t + base_size b) then
        if decide (base_team b = tank_team t) then
          let '(b', t', _) := Base_resupply_tank b t in
          store (store gs j (EBase b')) i (ETank t')
        else if decide (base_team b = NEUTRAL) then
          store gs j (EBase (Base_capture (tank_team t) b))
        else gs
      else gs
  | _, _ => gs
  end.

Definition collide_tank_base (gs : GameState) (i : nat) : GameState :=
  match heap gs !! i with
  | Some (ETank t) =>
      if e_alive (tank_base t)
      then foldl (tank_base_contact i) gs (entities gs)
      else gs
  | _ => gs
  end.

(** One pass: the outer loop over [self.entities]. *)
Definition collision_pass (body : GameState → nat → GameState)
    (gs : GameState) : GameState :=
  foldl body gs (entities gs).

(** [GameState._process_collisions] *)
Definition GameState__process_collisions (gs : GameState) : GameState :=
  let gs := collision_pass collide_shell_tank gs in
  let gs := collision_pass collide_shell_pillbox gs in
  let gs := collision_pass collide_mine_tank gs in
  collision_pass collide_tank_base gs.

(** ** The camera *)

Definition player_tank (gs : GameState) : option Tank :=
  player gs ≫= tank_at gs.

(** One axis of [_update_camera]: a tenth of the way to the target, then
    [max(0, min(limit, camera))]. *)
Definition camera_axis (pos camera : float) (window extent : Z) : float :=
  let target := (pos - Z2F (window `div` 2))%float in
  let camera := (camera + (target - camera) * 0.1)%float in
  py_max (Z2F 0) (py_min (Z2F (extent - window)) camera).

(** [GameState._update_camera] *)
Definition GameState__update_camera (gs : GameState) : GameState :=
  match player_tank gs with
  | Some t =>
      set_camera gs
        (camera_axis (e_x (tank_base t)) (camera_x gs) WINDOW_WIDTH
           (pixel_width (game_map gs)))
        (camera_axis (e_y (tank_base t)) (camera_y gs) WINDOW_HEIGHT
           (pixel_height (game_map gs)))
  | None => gs
  end.

(** ** The frame *)

(** [GameState.update] *)
Definition GameState_update `{Platform} (gs : GameState) : GameState :=
  if paused gs || game_over gs then gs
  else
    let gs := set_entities gs (entities gs ++ pending_entities gs) [] in
    let gs := foldl Entity_update gs (entities gs) in
    let gs := GameState__process_collisions gs in
    let gs := remove_dead_entities gs in
    match player_tank gs with
    | Some t => if e_alive (tank_base t) then GameState__update_camera gs else gs
    | None => gs
    end.

(** ** Invariants *)

(** A shell does non-negative damage, has a radius that leaves room for
    its core and, while alive, has frames left; a mine does non-negative
    damage and has a radius that leaves room for its core. *)
Definition Shell_ok (s : Shell) : Prop :=
  0 ≤ shell_damage s ∧ (e_alive (shell_base s) = true → 0 < lifetime s) ∧
  1 ≤ radius s.

Definition Mine_ok (mn : Mine) : Prop :=
  0 ≤ mine_damage mn ∧ 2 ≤ mine_radius mn.

Definition obj_ok (o : EntityObj) : Prop :=
  match o with
  | ETank t => Tank_ok t
  | EShell s => Shell_ok s
  | EMine mn => Mine_ok mn
  | EPillbox p => Pillbox_ok p
  | EBase b => Base_ok b
  end.

#[export] Instance obj_ok_dec o : Decision (obj_ok o).
Proof. destruct o; simpl; unfold Shell_ok, Mine_ok; apply _. Defined.

(** The object stored under [i] carries the id [i], which the counter has
    passed, and satisfies the invariant of its class. *)
Definition heap_ok (n : nat) (i : nat) (o : EntityObj) : Prop :=
  e_id (obj_base o) = i ∧ (i < n)%nat ∧ obj_ok o.

Definition refs_ok (h : gmap nat EntityObj) (l : list nat) : Prop :=
  Forall (λ i, is_Some (h !! i)) l.

Definition player_ok (gs : GameState) : Prop :=
  match player gs with
  | Some i => is_Some (tank_at gs i)
  | None => True
  end.

#[export] Instance player_ok_dec gs : Decision (player_ok gs).
Proof. unfold player_ok. destruct (player gs); apply _. Defined.

(** The state is well formed: the map is a grid of its dimensions, the
    store is consistent, no reference dangles and the player is a tank. *)
Definition wf_state (gs : GameState) : Prop :=
  wf_map (game_map gs) ∧
  map_Forall (heap_ok (id_counter gs)) (heap gs) ∧
  refs_ok (heap gs) (entities gs) ∧
  refs_ok (heap gs) (pending_entities gs) ∧
  player_ok gs.

#[export] Instance wf_state_dec gs : Decision (wf_state gs).
Proof. unfold wf_state, refs_ok, heap_ok. apply _. Defined.

(** ** How a state may change within a frame *)

Definition same_class (o o' : EntityObj) : bool :=
  match o, o' with
  | ETank _, ETank _ | EShell _, EShell _ | EMine _, EMine _
  | EPillbox _, EPillbox _ | EBase _, EBase _ => true
  | _, _ => false
  end.

(** What no step of a frame changes in an object of each class: the team
    and size of a tank; the team, owner, damage and radius of a shell,
    whose lifetime does not grow; the
    team, damage and radius of a mine; the size of a pillbox, whose team
    stays or falls to [NEUTRAL]; the size of a base, whose team stays
    unless it was [NEUTRAL]. *)
Definition class_le (o o' : EntityObj) : Prop :=
  match o, o' with
  | ETank t, ETank t' =>
      tank_team t' = tank_team t ∧ tank_size t' = tank_size t
  | EShell s, EShell s' =>
      shell_team s' = shell_team s ∧ owner_id s' = owner_id s ∧
      shell_damage s' = shell_damage s ∧ radius s' = radius s ∧
      lifetime s' ≤ lifetime s
  | EMine mn, EMine mn' =>
      mine_team mn' = mine_team mn ∧ mine_damage mn' = mine_damage mn ∧
      mine_radius mn' = mine_radius mn
  | EPillbox p, EPillbox p' =>
      pill_size p' = pill_size p ∧
      (pill_team p' = pill_team p ∨ pill_team p' = NEUTRAL)
  | EBase b, EBase b' =>
      base_size b' = base_size b ∧
      (base_team b ≠ NEUTRAL → base_team b' = base_team b)
  | _, _ => False
  end.

(** An object keeps its class and what [class_le] lists, keeps its id,
    and is not revived. *)
Definition obj_le (o o' : EntityObj) : Prop :=
  class_le o o' ∧
  e_id (obj_base o') = e_id (obj_base o) ∧
  (obj_alive o' = true → obj_alive o = true).

(** What every step of a frame respects: objects stay in the store and
    change within [obj_le]; the counters only grow; the map keeps its
    dimensions; the player reference and the flags stay. *)
Definition evolves (gs gs' : GameState) : Prop :=
  (∀ i o, heap gs !! i = Some o → ∃ o', heap gs' !! i = Some o' ∧ obj_le o o') ∧
  (id_counter gs ≤ id_counter gs')%nat ∧
  (rng_pos gs ≤ rng_pos gs')%nat ∧
  width (game_map gs') = width (game_map gs) ∧
  height (game_map gs') = height (game_map gs) ∧
  player gs' = player gs ∧
  paused gs' = paused gs ∧ game_over gs' = game_over gs ∧
  score gs' = score gs.

(** Objects come into the store through the pending list only. *)
Definition born_pending (gs gs' : GameState) : Prop :=
  ∀ i, is_Some (heap gs' !! i) →
       is_Some (heap gs !! i) ∨ i ∈ pending_entities gs'.

(** The steps between the merge and the purge moreover keep the entity
    list and the camera, and only append to the pending list references
    to objects constructed since, which are the only new objects. *)
Definition steps (gs gs' : GameState) : Prop :=
  evolves gs gs' ∧
  entities gs' = entities gs ∧
  (∃ l, pending_entities gs' = pending_entities gs ++ l ∧
        Forall (λ i, (id_counter gs ≤ i)%nat) l) ∧
  camera_x gs' = camera_x gs ∧ camera_y gs' = camera_y gs ∧
  born_pending gs gs'.

(** [gs'] is a well-formed state reached from [gs] by such steps. *)
Definition good (gs gs' : GameState) : Prop := wf_state gs' ∧ steps gs gs'.

(** ** Lemmas: the relations *)

Section Relations.
Implicit Types (gs : GameState) (o : EntityObj) (i j : nat).

Lemma same_class_refl o : same_class o o = true.
Proof. by destruct o. Qed.

Lemma class_le_same_class o o' : class_le o o' → same_class o o' = true.
Proof. by destruct o, o'. Qed.

Lemma class_le_refl o : class_le o o.
Proof. destruct o; simpl; split_and?; auto; lia. Qed.

Lemma class_le_trans o1 o2 o3 : class_le o1 o2 → class_le o2 o3 → class_le o1 o3.
Proof.
  destruct o1, o2, o3; simpl; try done; intros; destruct_and?;
    split_and?; try congruence; try lia.
  - destruct_or?; first [left; congruence|right; congruence].
  - intros Hn. use_premises. intuition congruence.
Qed.

Lemma obj_le_refl o : obj_le o o.
Proof. split_and!; auto using class_le_refl. Qed.

Lemma obj_le_trans o1 o2 o3 : obj_le o1 o2 → obj_le o2 o3 → obj_le o1 o3.
Proof.
  intros (?&?&?) (?&?&?). split_and!; eauto using class_le_trans.
  congruence.
Qed.

Lemma evolves_refl gs : evolves gs gs.
Proof. split_and!; try done. eauto using obj_le_refl. Qed.

Lemma evolves_trans gs1 gs2 gs3 :
  evolves gs1 gs2 → evolves gs2 gs3 → evolves gs1 gs3.
Proof.
  intros (Ha&?&?&?&?&?&?&?&?) (Hb&?&?&?&?&?&?&?&?).
  split_and!; try congruence; try lia.
  intros i o Ho. destruct (Ha _ _ Ho) as (o2 & Ho2 & ?).
  destruct (Hb _ _ Ho2) as (o3 & ? & ?). eauto using obj_le_trans.
Qed.

Lemma born_pending_refl gs : born_pending gs gs.
Proof. intros i ?. by left. Qed.

Lemma born_pending_insert gs gs' i o :
  heap gs' = <[i := o]> (heap gs) → is_Some (heap gs !! i) →
  born_pending gs gs'.
Proof.
  intros Hh Hi k Hk. left. rewrite Hh in Hk.
  apply lookup_insert_is_Some' in Hk as [->|?]; done.
Qed.

Lemma born_pending_same gs gs' : heap gs' = heap gs → born_pending gs gs'.
Proof. intros Hh i Hi. left. by rewrite <-Hh. Qed.

Lemma steps_refl gs : steps gs gs.
Proof.
  split_and!; auto using evolves_refl, born_pending_refl.
  exists []. by rewrite app_nil_r.
Qed.

Lemma steps_trans gs1 gs2 gs3 : steps gs1 gs2 → steps gs2 gs3 → steps gs1 gs3.
Proof.
  intros (Hev&?&(l1&Hl1&Hf1)&?&?&Hb1) (?&?&(l2&Hl2&Hf2)&?&?&Hb2).
  split_and!; try congruence; eauto using evolves_trans.
  - exists (l1 ++ l2). split; [by rewrite Hl2, Hl1, app_assoc|].
    apply Forall_app. split; [done|].
    destruct Hev as (_&?&_). eapply List.Forall_impl; [|exact Hf2].
    simpl. lia.
  - intros i Hi. destruct (Hb2 i Hi) as [Hi2|?]; [|by right].
    destruct (Hb1 i Hi2) as [?|?]; [by left|right].
    rewrite Hl2. apply elem_of_app. by left.
Qed.

Lemma good_refl gs : wf_state gs → good gs gs.
Proof. split; auto using steps_refl. Qed.

Lemma good_trans gs1 gs2 gs3 : good gs1 gs2 → good gs2 gs3 → good gs1 gs3.
Proof. intros [? ?] [? ?]. split; eauto using steps_trans. Qed.

Lemma good_then (f : GameState → GameState) gs gs1 :
  good gs gs1 → (wf_state gs1 → good gs1 (f gs1)) → good gs (f gs1).
Proof. intros Hg Hf. eapply good_trans; [done|]. apply Hf, Hg. Qed.

(** A loop whose body is good is good. *)
Lemma good_foldl (f : GameState → nat → GameState) l gs :
  (∀ gs i, wf_state gs → good gs (f gs i)) →
  wf_state gs → good gs (foldl f gs l).
Proof.
  intros Hf. revert gs. induction l as [|i l IH]; intros gs Hwf; simpl.
  - by apply good_refl.
  - eapply good_trans; [by apply Hf|]. apply IH. by destruct (Hf gs i Hwf).
Qed.

(** A loop that ends at the first hit is good when every hit is. *)
Lemma good_scan (f : GameState → nat → option GameState) l gs :
  (∀ j gs', f gs j = Some gs' → good gs gs') →
  wf_state gs → good gs (default gs (scan f gs l)).
Proof.
  intros Hf Hwf. destruct (scan f gs l) as [gs'|] eqn:Hscan; simpl.
  - apply scan_Some in Hscan as (?&j&?&?&?&?). eauto.
  - by apply good_refl.
Qed.

(** What well-formedness says of a stored object. *)
Lemma wf_lookup gs i o :
  wf_state gs → heap gs !! i = Some o →
  e_id (obj_base o) = i ∧ (i < id_counter gs)%nat ∧ obj_ok o.
Proof. intros (_&Hh&_) Ho. exact (map_Forall_lookup_1 _ _ _ _ Hh Ho). Qed.

(** Objects of different classes are different objects. *)
(** The next identifier is not in the store. *)
Lemma wf_fresh gs : wf_state gs → heap gs !! id_counter gs = None.
Proof.
  intros Hwf. destruct (heap gs !! id_counter gs) as [o|] eqn:Ho; [|done].
  destruct (wf_lookup _ _ _ Hwf Ho) as (_&?&_). lia.
Qed.

Lemma lookup_class_ne gs i j o o' :
  heap gs !! i = Some o → heap gs !! j = Some o' →
  same_class o o' = false → i ≠ j.
Proof.
  intros Hi Hj Hc ->. rewrite Hi in Hj. simplify_eq.
  by rewrite same_class_refl in Hc.
Qed.
End Relations.

(** ** Lemmas: the primitive steps *)

(** The shape of a proof of [good gs gs']. *)
Ltac good_split :=
  split; [split_and!|split_and!; [split_and!|..]]; simpl; try done;
  try (by exists []; rewrite app_nil_r).

Section Primitives.
Implicit Types (gs : GameState) (o : EntityObj) (i j : nat).

Lemma tank_at_Some gs i t : tank_at gs i = Some t ↔ heap gs !! i = Some (ETank t).
Proof.
  unfold tank_at. destruct (heap gs !! i) as [[]|]; split; congruence.
Qed.

Lemma refs_ok_insert h l i o : refs_ok h l → refs_ok (<[i := o]> h) l.
Proof.
  apply List.Forall_impl. intros k ?. apply lookup_insert_is_Some'. by right.
Qed.

Lemma heap_ok_mono n n' i o : (n ≤ n')%nat → heap_ok n i o → heap_ok n' i o.
Proof. intros ? (?&?&?). split_and!; [done|lia|done]. Qed.

(** Mutating a stored object, within what [obj_le] allows. *)
Lemma store_good gs i o o' :
  wf_state gs → heap gs !! i = Some o → obj_le o o' → obj_ok o' →
  good gs (store gs i o').
Proof.
  intros Hwf Ho Hle Hok. pose proof Hwf as (Hm&Hh&He&Hp&Hpl).
  destruct (wf_lookup _ _ _ Hwf Ho) as (Hid&Hlt&_).
  pose proof Hle as (Hcl%class_le_same_class&Hid'&_).
  good_split.
  - apply map_Forall_insert_2; [|done]. split_and!; [congruence|done..].
  - by apply refs_ok_insert.
  - by apply refs_ok_insert.
  - unfold player_ok in *. simpl. destruct (player gs) as [k|]; [|done].
    destruct Hpl as [t Ht]. apply tank_at_Some in Ht.
    unfold tank_at. simpl. destruct (decide (i = k)) as [->|].
    + rewrite lookup_insert_eq. simplify_eq. by destruct o'.
    + rewrite lookup_insert_ne by done. by rewrite Ht.
  - intros k o0 Hk. destruct (decide (i = k)) as [->|].
    + rewrite lookup_insert_eq. simplify_eq. eauto.
    + rewrite lookup_insert_ne by done. eauto using obj_le_refl.
  - by eapply born_pending_insert.
Qed.

(** Mutating two stored objects of different classes. *)
Lemma store_two_good gs i o1 o1' j o2 o2' :
  wf_state gs → heap gs !! j = Some o2 → heap gs !! i = Some o1 →
  same_class o2 o1 = false →
  obj_le o2 o2' → obj_ok o2' → obj_le o1 o1' → obj_ok o1' →
  good gs (store (store gs j o2') i o1').
Proof.
  intros Hwf Hj Hi Hc ????.
  assert (Hg : good gs (store gs j o2')) by by eapply store_good.
  eapply good_trans; [exact Hg|].
  eapply store_good; [apply Hg| |done..]. simpl.
  rewrite lookup_insert_ne; [done|]. by eapply lookup_class_ne.
Qed.

(** Replacing the map by one of the same dimensions. *)
Lemma set_game_map_good gs m :
  wf_state gs → wf_map m → width m = width (game_map gs) →
  height m = height (game_map gs) → good gs (set_game_map gs m).
Proof.
  intros (?&?&?&?&?) ???. good_split; [eauto using obj_le_refl|].
  by apply born_pending_same.
Qed.

(** Advancing the counters. *)
Lemma set_counters_good gs n r :
  wf_state gs → (id_counter gs ≤ n)%nat → (rng_pos gs ≤ r)%nat →
  good gs (set_counters gs n r).
Proof.
  intros (?&Hh&?&?&?) ??. good_split.
  - eapply map_Forall_impl; [exact Hh|]. eauto using heap_ok_mono.
  - eauto using obj_le_refl.
  - by apply born_pending_same.
Qed.

(** Constructing an entity, which takes the next id, and adding it. *)
Lemma spawn_good gs o r :
  wf_state gs → e_id (obj_base o) = id_counter gs → obj_ok o →
  (rng_pos gs ≤ r)%nat →
  good gs (add_entity (set_counters gs (S (id_counter gs)) r) o).
Proof.
  intros Hwf Hid Hok Hr. pose proof Hwf as (?&Hh&He&Hp&Hpl).
  assert (Hfresh : heap gs !! id_counter gs = None).
  { destruct (heap gs !! id_counter gs) as [o0|] eqn:Ho0; [|done].
    destruct (wf_lookup _ _ _ Hwf Ho0) as (_&?&_). lia. }
  good_split.
  - rewrite Hid. apply map_Forall_insert_2; [split_and!; [done|lia|done]|].
    eapply map_Forall_impl; [exact Hh|].
    intros ???. eapply heap_ok_mono; [|done]. lia.
  - by apply refs_ok_insert.
  - apply Forall_app. split; [by apply refs_ok_insert|].
    apply Forall_singleton. by rewrite lookup_insert_eq.
  - unfold player_ok in *. simpl. destruct (player gs) as [k|]; [|done].
    destruct Hpl as [t Ht]. apply tank_at_Some in Ht. unfold tank_at. simpl.
    rewrite Hid, lookup_insert_ne by congruence. by rewrite Ht.
  - intros k o0 Hk. rewrite Hid, lookup_insert_ne by congruence.
    eauto using obj_le_refl.
  - lia.
  - eexists [_]. split; [done|]. apply Forall_singleton. lia.
  - intros k Hk. simpl in *.
    apply lookup_insert_is_Some' in Hk as [<-|?]; [right|by left].
    apply elem_of_app. right. by apply list_elem_of_singleton.
Qed.
End Primitives.

(** ** Lemmas: the steps of the frame are good *)

(** Every lookup in a well-formed store yields its [wf_lookup] facts. *)
Ltac wf_facts :=
  repeat match goal with
  | Hwf : wf_state ?gs, H : heap ?gs !! ?i = Some ?o |- _ =>
      lazymatch goal with
      | _ : obj_ok o |- _ => fail
      | _ => destruct (wf_lookup gs i o Hwf H) as (?&?&?)
      end
  end.

(** Mutating a stored object: the goals left are [obj_le] and the class
    invariant. *)
Ltac store_step := eapply store_good; [done|done| |simpl].

(** [obj_le] from the facts a [_static] lemma gives. *)
Ltac le_from H :=
  let X := fresh in
  pose proof H as X; cbv zeta in X; destruct_and?;
  unfold obj_le, obj_alive; simpl; split_and!; auto; congruence.

Section Steps.
Context `{Platform}.
Implicit Types (gs : GameState) (o : EntityObj) (i j : nat).

Lemma Tank_update_le t : obj_le (ETank t) (ETank (Tank_update t)).
Proof. le_from (Tank_update_static t). Qed.

Lemma Tank_take_damage_le a t : obj_le (ETank t) (ETank (Tank_take_damage a t)).
Proof. le_from (Tank_take_damage_static a t). Qed.

Lemma Shell_update_le m s : obj_le (EShell s) (EShell (Shell_update m s).1).
Proof.
  pose proof (Shell_update_alive m s) as Ha.
  pose proof (Shell_update_static m s) as Hs. cbv zeta in Hs. destruct_and?.
  split_and!; simpl; try done; [split_and!; (done || lia)|].
  intros ?. by apply Ha.
Qed.

Lemma Shell_update_ok m s : Shell_ok s → Shell_ok (Shell_update m s).1.
Proof.
  intros (?&_&?). pose proof (Shell_update_static m s) as (_&_&_&Hd&Hr&_&_&Hl).
  pose proof (Shell_update_alive m s) as Ha. simpl in *.
  split_and!; [congruence| |congruence]. intros Hal. destruct (Ha Hal). lia.
Qed.

Lemma Shell_ok_damage s : Shell_ok s → 0 ≤ shell_damage s.
Proof. by intros [? _]. Qed.

Lemma Mine_ok_damage mn : Mine_ok mn → 0 ≤ mine_damage mn.
Proof. by intros [? _]. Qed.

Lemma Shell_destroy_le s : obj_le (EShell s) (EShell (Shell_destroy s)).
Proof. split_and!; simpl; done || lia. Qed.

Lemma Shell_destroy_ok s : Shell_ok s → Shell_ok (Shell_destroy s).
Proof. intros (?&_&?). by split_and!. Qed.

Lemma Pillbox_take_damage_le a p :
  obj_le (EPillbox p) (EPillbox (Pillbox_take_damage a p)).
Proof. le_from (Pillbox_take_damage_static a p). Qed.

Lemma Base_update_le b : obj_le (EBase b) (EBase (Base_update b)).
Proof. le_from (Base_update_static b). Qed.

Lemma Base_capture_le tm b :
  base_team b = NEUTRAL → obj_le (EBase b) (EBase (Base_capture tm b)).
Proof. intros ?. by split_and!. Qed.

Lemma Base_resupply_tank_le b t :
  let '(b', t', _) := Base_resupply_tank b t in
  obj_le (EBase b) (EBase b') ∧ obj_le (ETank t) (ETank t').
Proof.
  pose proof (Base_resupply_tank_static b t) as Hst.
  destruct (Base_resupply_tank b t) as [[b' t'] f].
  destruct Hst as (?&?&_&?&_&Ht&_).
  split; [le_from I|]. rewrite <- Ht. by split_and!.
Qed.

Lemma Mine_detonate_good m mn :
  let '(mn', m') := Mine_detonate m mn in
  obj_le (EMine mn) (EMine mn') ∧ (Mine_ok mn → Mine_ok mn') ∧
  (wf_map m → wf_map m') ∧ width m' = width m ∧ height m' = height m.
Proof.
  unfold Mine_detonate. destruct (tile_position (mine_base mn)) as [tx ty].
  split_and!; try done.
  - apply set_tile_wf.
  - apply set_tile_width.
  - apply set_tile_height.
Qed.

Lemma Entity_update_good gs i : wf_state gs → good gs (Entity_update gs i).
Proof.
  intros Hwf. unfold Entity_update.
  destruct (heap gs !! i) as [[t|s|mn|p|b]|] eqn:Hi; [..|by apply good_refl];
    wf_facts; simpl in *.
  - store_step; [apply Tank_update_le|by apply Tank_update_ok].
  - pose proof (Shell_update_le (game_map gs) s).
    pose proof (Shell_update_ok (game_map gs) s).
    pose proof (Shell_update_map_wf (game_map gs) s) as Hm.
    pose proof (Shell_update_map_dims (game_map gs) s) as [??].
    destruct (Shell_update (game_map gs) s) as [s' m']. simpl in *.
    assert (Hg : good gs (store gs i (EShell s'))) by (store_step; auto).
    eapply good_trans; [exact Hg|].
    apply set_game_map_good; simpl; [apply Hg|apply Hm, Hwf|done..].
  - store_step; [apply obj_le_refl|done].
  - pose proof (Pillbox_update_static (heap_tanks gs) (id_counter gs)
                  (rng_pos gs) p) as Hst.
    pose proof (Pillbox_update_ok (heap_tanks gs) (id_counter gs)
                  (rng_pos gs) p) as Hok.
    destruct (Pillbox_update _ _ _ p) as [[[p' shot] n'] r']. simpl in *.
    destruct Hst as (Hb&?&_&_&?&?&Hshot).
    assert (Hg : good gs (store gs i (EPillbox p'))).
    { store_step; [|auto]. unfold obj_le, obj_alive. simpl. rewrite Hb.
      split_and!; auto. }
    eapply good_trans; [exact Hg|].
    destruct shot as [s|].
    + destruct Hshot as (?&->&_&_&_&Hdmg&Hlife&Hrad).
      apply (spawn_good (store gs i (EPillbox p')) (EShell s) r');
        [apply Hg|done| |done].
      split_and!; simpl; [by rewrite Hdmg|by rewrite Hlife|by rewrite Hrad].
    + subst n'. apply set_counters_good; [apply Hg|done..].
  - store_step; [apply Base_update_le|by apply Base_update_ok].
Qed.

Lemma shell_tank_contact_good gs i s j gs' :
  wf_state gs → heap gs !! i = Some (EShell s) →
  shell_tank_contact i s gs j = Some gs' → good gs gs'.
Proof.
  intros Hwf Hi. unfold shell_tank_contact.
  destruct (heap gs !! j) as [[t| | | |]|] eqn:Hj; try done.
  repeat case_match; try done. intros [= <-]. wf_facts. simpl in *.
  eapply store_two_good; eauto using Tank_take_damage_le, Shell_destroy_le;
    simpl; [apply Tank_take_damage_ok|apply Shell_destroy_ok]; try done.
  by apply Shell_ok_damage.
Qed.

Lemma shell_pillbox_contact_good gs i s j gs' :
  wf_state gs → heap gs !! i = Some (EShell s) →
  shell_pillbox_contact i s gs j = Some gs' → good gs gs'.
Proof.
  intros Hwf Hi. unfold shell_pillbox_contact.
  destruct (heap gs !! j) as [[| | |p|]|] eqn:Hj; try done.
  repeat case_match; try done. intros [= <-]. wf_facts. simpl in *.
  eapply store_two_good;
    eauto using Shell_destroy_le, Pillbox_take_damage_le;
    simpl; [apply Pillbox_take_damage_ok|apply Shell_destroy_ok]; try done.
  by apply Shell_ok_damage.
Qed.

Lemma mine_tank_contact_good gs i mn j gs' :
  wf_state gs → heap gs !! i = Some (EMine mn) →
  mine_tank_contact i mn gs j = Some gs' → good gs gs'.
Proof.
  intros Hwf Hi. unfold mine_tank_contact.
  destruct (heap gs !! j) as [[t| | | |]|] eqn:Hj; try done.
  cbn [game_map store set_heap].
  pose proof (Mine_detonate_good (game_map gs) mn) as Hd.
  destruct (Mine_detonate (game_map gs) mn) as [mn' m'].
  destruct Hd as (?&?&Hm&?&?).
  repeat case_match; try done. intros [= <-]. wf_facts. simpl in *.
  match goal with
  | |- good _ (set_game_map ?g _) => assert (Hg : good gs g)
  end.
  { eapply store_two_good; eauto using Tank_take_damage_le; simpl;
      [apply Tank_take_damage_ok; auto using Mine_ok_damage|auto]. }
  eapply good_trans; [exact Hg|].
  apply set_game_map_good; simpl; [apply Hg|apply Hm, Hwf|done..].
Qed.

Lemma tank_base_contact_good gs i j :
  wf_state gs → good gs (tank_base_contact i gs j).
Proof.
  intros Hwf. unfold tank_base_contact.
  destruct (heap gs !! i) as [[t| | | |]|] eqn:Hi; try by apply good_refl.
  destruct (heap gs !! j) as [[| | | |b]|] eqn:Hj; try by apply good_refl.
  wf_facts. simpl in *. repeat case_match; try by apply good_refl.
  - pose proof (Base_resupply_tank_le b t) as Hle.
    pose proof (Base_resupply_tank_ok b t) as Hok.
    destruct (Base_resupply_tank b t) as [[b' t'] f]. simplify_eq/=.
    destruct Hle as [??]. destruct Hok as [??]; [done..|].
    eapply store_two_good; eauto.
  - store_step; [by apply Base_capture_le|by apply Base_capture_ok].
Qed.

Lemma collide_shell_tank_good gs i : wf_state gs → good gs (collide_shell_tank gs i).
Proof.
  intros Hwf. unfold collide_shell_tank.
  repeat case_match; try by apply good_refl.
  apply good_scan; eauto using shell_tank_contact_good.
Qed.

Lemma collide_shell_pillbox_good gs i :
  wf_state gs → good gs (collide_shell_pillbox gs i).
Proof.
  intros Hwf. unfold collide_shell_pillbox.
  repeat case_match; try by apply good_refl.
  apply good_scan; eauto using shell_pillbox_contact_good.
Qed.

Lemma collide_mine_tank_good gs i : wf_state gs → good gs (collide_mine_tank gs i).
Proof.
  intros Hwf. unfold collide_mine_tank.
  repeat case_match; try by apply good_refl.
  apply good_scan; eauto using mine_tank_contact_good.
Qed.

Lemma collide_tank_base_good gs i : wf_state gs → good gs (collide_tank_base gs i).
Proof.
  intros Hwf. unfold collide_tank_base.
  repeat case_match; try by apply good_refl.
  apply good_foldl; auto using tank_base_contact_good.
Qed.

Lemma collision_pass_good body gs :
  (∀ gs i, wf_state gs → good gs (body gs i)) →
  wf_state gs → good gs (collision_pass body gs).
Proof. intros. by apply good_foldl. Qed.

Lemma process_collisions_good gs :
  wf_state gs → good gs (GameState__process_collisions gs).
Proof.
  intros Hwf. unfold GameState__process_collisions. cbv zeta.
  repeat (eapply (good_then (collision_pass _));
    [|intros; apply collision_pass_good;
      [auto using collide_shell_tank_good, collide_shell_pillbox_good,
         collide_mine_tank_good, collide_tank_base_good|done]]).
  by apply good_refl.
Qed.
End Steps.

(** ** Lemmas: the frame *)

Section Frame.
Context `{Platform}.
Implicit Types (gs : GameState) (o : EntityObj) (i j : nat).

(** The state after the merge of the pending entities. *)
Definition merged (gs : GameState) : GameState :=
  set_entities gs (entities gs ++ pending_entities gs) [].

Lemma merged_wf gs : wf_state gs → wf_state (merged gs).
Proof.
  intros (?&?&?&?&?). split_and!; simpl; try done.
  - by apply Forall_app.
  - by apply Forall_nil.
Qed.

Lemma purge_camera_wf gs x y :
  wf_state gs → wf_state (set_camera (remove_dead_entities gs) x y).
Proof.
  intros (?&?&He&?&?). split_and!; simpl; try done.
  unfold refs_ok in *. rewrite list.Forall_forall in He. apply list.Forall_forall.
  intros i [_ ?]%list_elem_of_filter. auto.
Qed.

(** The camera step changes at most the camera. *)
Lemma frame_camera_cases gs :
  ∃ x y,
    match player_tank gs with
    | Some t => if e_alive (tank_base t) then GameState__update_camera gs else gs
    | None => gs
    end = set_camera gs x y.
Proof.
  unfold GameState__update_camera.
  destruct (player_tank gs) as [t|]; [destruct (e_alive _)|]; eauto;
    exists (camera_x gs), (camera_y gs); by destruct gs.
Qed.

(** A frame that runs is: merge, then steps that are [good], then the
    purge and the camera. *)
Lemma GameState_update_unfold gs :
  wf_state gs → paused gs || game_over gs = false →
  ∃ gs3 x y, good (merged gs) gs3 ∧
    GameState_update gs = set_camera (remove_dead_entities gs3) x y.
Proof.
  intros Hwf Hrun. unfold GameState_update. rewrite Hrun. cbv zeta.
  fold (merged gs).
  set (gs3 := GameState__process_collisions _).
  destruct (frame_camera_cases (remove_dead_entities gs3)) as (x & y & ->).
  exists gs3, x, y. split; [|done]. subst gs3.
  eapply (good_then GameState__process_collisions);
    [|apply process_collisions_good].
  apply good_foldl; auto using Entity_update_good, merged_wf.
Qed.

Lemma GameState_update_paused_eq gs :
  paused gs || game_over gs = true → GameState_update gs = gs.
Proof. intros Hp. unfold GameState_update. by rewrite Hp. Qed.

Lemma GameState_update_good gs :
  wf_state gs →
  wf_state (GameState_update gs) ∧ evolves gs (GameState_update gs).
Proof.
  intros Hwf. destruct (paused gs || game_over gs) eqn:Hrun.
  { rewrite GameState_update_paused_eq by done. auto using evolves_refl. }
  destruct (GameState_update_unfold gs Hwf Hrun) as (gs3&x&y&[Hwf3 Hst]&->).
  split; [by apply purge_camera_wf|].
  destruct Hst as ((?&?&?&?&?&?&?&?&?)&_). by split_and!.
Qed.

(** [n] frames. *)
Definition GameState_frames (n : nat) (gs : GameState) : GameState :=
  Nat.iter n GameState_update gs.

Lemma GameState_frames_good n gs :
  wf_state gs →
  wf_state (GameState_frames n gs) ∧ evolves gs (GameState_frames n gs).
Proof.
  intros Hwf. induction n as [|n [IHwf IHev]]; simpl.
  - auto using evolves_refl.
  - destruct (GameState_update_good _ IHwf). eauto using evolves_trans.
Qed.
End Frame.

(** ** Theorems on the frame *)

Section FrameTheorems.
Context `{Platform}.
Implicit Types (gs : GameState) (o : EntityObj) (i j : nat).

(** [C1] Well-formedness is an invariant of the frame: after any number
    of calls of [GameState.update] on a well-formed state, the map is
    still a grid of its dimensions, every stored object carries the id it
    is stored under, below the id counter, and satisfies the invariant of
    its class (resources within their maxima, pillbox and base fields
    within their ranges), no reference of [entities] or
    [pending_entities] dangles, and the player is a tank. *)
Theorem GameState_frames_wf n gs :
  wf_state gs → wf_state (GameState_frames n gs).
Proof. intros Hwf. by destruct (GameState_frames_good n gs Hwf). Qed.

(** [C22] An entity is never revived and never changes identity: whatever
    the store holds under an id at some frame, it holds under that id an
    object of the same class and id after any number of frames, and if the
    object was dead it is still dead. *)
Theorem GameState_frames_never_revive n gs i o :
  wf_state gs → heap gs !! i = Some o →
  ∃ o', heap (GameState_frames n gs) !! i = Some o' ∧
        same_class o o' = true ∧
        e_id (obj_base o') = e_id (obj_base o) ∧
        (obj_alive o = false → obj_alive o' = false).
Proof.
  intros Hwf Ho. destruct (GameState_frames_good n gs Hwf) as [_ (Hh&_)].
  destruct (Hh _ _ Ho) as (o' & ? & (?&?&Hal)). exists o'.
  split_and!; auto using class_le_same_class.
  destruct (obj_alive o'); [|done]. intros <-. symmetry. by apply Hal.
Qed.

(** The frame changes no allegiance except through destruction and
    capture of the neutral: over any number of frames a tank keeps its
    team and size, a shell its team, owner, damage and radius, a mine its
    team, damage and radius; a pillbox keeps its team or becomes
    [NEUTRAL]; a base that is not [NEUTRAL] keeps its team, so that a base
    owned by a team is never captured. *)
Theorem GameState_frames_teams n gs i o :
  wf_state gs → heap gs !! i = Some o →
  ∃ o', heap (GameState_frames n gs) !! i = Some o' ∧ class_le o o'.
Proof.
  intros Hwf Ho. destruct (GameState_frames_good n gs Hwf) as [_ (Hh&_)].
  destruct (Hh _ _ Ho) as (o' & ? & (?&_)). eauto.
Qed.

(** A paused or finished game does not move: when [paused] or
    [game_over] is set, any number of calls of [GameState.update] returns
    the state unchanged, pending entities included. *)
Theorem GameState_update_paused n gs :
  paused gs || game_over gs = true → GameState_frames n gs = gs.
Proof.
  intros Hp. induction n as [|n IH]; simpl; [done|].
  rewrite IH. by apply GameState_update_paused_eq.
Qed.

(** [C20] What a running frame leaves in the two lists.  The entities
    after the frame are the entities and the pending entities before it,
    in that order, without those that are dead after the frame; so every
    listed entity is alive.  The pending list after the frame holds only
    references to objects constructed during the frame, none of which is
    in [entities]: an entity spawned in a frame takes no part in it. *)
Theorem GameState_update_purge gs :
  wf_state gs → paused gs || game_over gs = false →
  let gs' := GameState_update gs in
  entities gs' =
    filter (λ i, alive_at gs' i = true) (entities gs ++ pending_entities gs) ∧
  Forall (λ i, alive_at gs' i = true) (entities gs') ∧
  Forall (λ i, (id_counter gs ≤ i < id_counter gs')%nat ∧ i ∉ entities gs')
    (pending_entities gs').
Proof.
  intros Hwf Hrun gs'.
  destruct (GameState_update_good gs Hwf) as [Hwf' _]. fold gs' in Hwf'.
  destruct (GameState_update_unfold gs Hwf Hrun)
    as (gs3&x&y&[Hwf3 (_&Hent&(l&Hpend&Hfresh)&_)]&Heq).
  assert (Hfilter : entities gs' =
    filter (λ i, alive_at gs' i = true) (entities gs ++ pending_entities gs)).
  { subst gs'. rewrite Heq. simpl. by rewrite Hent. }
  split_and!; [done| |].
  - rewrite Hfilter. apply list.Forall_forall.
    by intros i [? _]%list_elem_of_filter.
  - assert (Hp' : pending_entities gs' = l) by (subst gs'; by rewrite Heq).
    rewrite Hp'. apply list.Forall_forall. intros i Hi.
    rewrite list.Forall_forall in Hfresh. specialize (Hfresh i Hi).
    simpl in Hfresh. destruct Hwf' as (_&Hh&_&Hrefs&_).
    unfold refs_ok in Hrefs. rewrite Hp', list.Forall_forall in Hrefs.
    destruct (Hrefs i Hi) as [o Ho].
    destruct (map_Forall_lookup_1 _ _ _ _ Hh Ho) as (_&?&_).
    split; [lia|]. rewrite Hfilter.
    intros [_ Hin]%list_elem_of_filter.
    assert (is_Some (heap gs !! i)) as [o0 Ho0].
    { destruct Hwf as (_&_&He&Hp&_). unfold refs_ok in *.
      rewrite list.Forall_forall in He, Hp.
      apply elem_of_app in Hin as [?|?]; auto. }
    destruct (wf_lookup _ _ _ Hwf Ho0) as (_&?&_). lia.
Qed.
End FrameTheorems.

(** ** Theorems on collisions *)

(** The test of the shell and tank pass: the tank is alive, is not the
    owner of the shell, is of another team, and is within reach. *)
Definition shell_may_hit (s : Shell) (t : Tank) : bool :=
  e_alive (tank_base t) &&
  bool_decide (e_id (tank_base t) ≠ owner_id s) &&
  bool_decide (tank_team t ≠ shell_team s) &&
  touching (shell_base s) (tank_base t) (tank_size t + radius s).

(** The test of the mine and tank pass. *)
Definition mine_may_hit (mn : Mine) (t : Tank) : bool :=
  e_alive (tank_base t) &&
  bool_decide (tank_team t ≠ mine_team mn) &&
  touching (mine_base mn) (tank_base t) (tank_size t + mine_radius mn).

(** The state after the shell [s] at [i] hit the tank [t] at [j]. *)
Definition shell_hit (gs : GameState) (i : nat) (s : Shell) (j : nat) (t : Tank)
    : GameState :=
  store (store gs j (ETank (Tank_take_damage (shell_damage s) t)))
    i (EShell (Shell_destroy s)).

Section CollisionTheorems.
Implicit Types (gs : GameState) (o : EntityObj) (i j k : nat).

Lemma shell_tank_contact_spec i s gs j :
  shell_tank_contact i s gs j =
    match tank_at gs j with
    | Some t => if shell_may_hit s t then Some (shell_hit gs i s j t) else None
    | None => None
    end.
Proof.
  unfold shell_tank_contact, tank_at, shell_may_hit.
  destruct (heap gs !! j) as [[t| | | |]|]; try done.
  destruct (e_alive (tank_base t)); simpl; [|done].
  repeat case_decide; repeat case_bool_decide; simpl; done.
Qed.

Lemma mine_tank_contact_spec i mn gs j gs' :
  mine_tank_contact i mn gs j = Some gs' →
  ∃ t, tank_at gs j = Some t ∧ mine_may_hit mn t = true ∧
       heap gs' = <[i := EMine (Mine_detonate (game_map gs) mn).1]>
                    (<[j := ETank (Tank_take_damage (mine_damage mn) t)]> (heap gs)).
Proof.
  unfold mine_tank_contact, tank_at, mine_may_hit.
  destruct (heap gs !! j) as [[t| | | |]|]; try done.
  cbn [game_map store set_heap].
  destruct (Mine_detonate (game_map gs) mn) as [mn' m'].
  intros Hc. exists t. split; [done|]. revert Hc.
  destruct (e_alive (tank_base t)); simpl; [|done].
  case_decide; [done|]. rewrite bool_decide_true by done. simpl.
  case_match; [|done]. by intros [= <-].
Qed.

(** [C2] A live shell hits the first tank it may hit and no other.  The
    step of the shell and tank pass for a live shell [s] either finds, in
    the order of [entities], a first tank that is alive, is not the owner
    of [s], is of another team and is within [size + radius] of it: that
    tank takes [s.damage], [s] is destroyed and nothing else changes; or
    finds none among the entities and changes nothing. *)
Theorem collide_shell_tank_first_hit gs i s :
  heap gs !! i = Some (EShell s) → e_alive (shell_base s) = true →
  (∃ l1 j l2 t,
     entities gs = l1 ++ j :: l2 ∧ tank_at gs j = Some t ∧
     shell_may_hit s t = true ∧
     (∀ k t', k ∈ l1 → tank_at gs k = Some t' → shell_may_hit s t' = false) ∧
     collide_shell_tank gs i = shell_hit gs i s j t) ∨
  ((∀ k t', k ∈ entities gs → tank_at gs k = Some t' →
      shell_may_hit s t' = false) ∧
   collide_shell_tank gs i = gs).
Proof.
  intros Hi Hal. unfold collide_shell_tank. rewrite Hi, Hal.
  destruct (scan _ gs (entities gs)) as [gs'|] eqn:Hscan; simpl.
  - left. apply scan_Some in Hscan as (l1&j&l2&Hl&Hno&Hj).
    rewrite shell_tank_contact_spec in Hj.
    destruct (tank_at gs j) as [t|] eqn:Ht; [|done].
    destruct (shell_may_hit s t) eqn:Hhit; [|done]. simplify_eq.
    exists l1, j, l2, t. split_and!; try done.
    intros k t' Hk Ht'. rewrite list.Forall_forall in Hno.
    specialize (Hno k Hk). rewrite shell_tank_contact_spec, Ht' in Hno.
    by destruct (shell_may_hit s t').
  - right. split; [|done]. apply scan_None in Hscan.
    intros k t' Hk Ht'. rewrite list.Forall_forall in Hscan.
    specialize (Hscan k Hk). rewrite shell_tank_contact_spec, Ht' in Hscan.
    by destruct (shell_may_hit s t').
Qed.
End CollisionTheorems.

(** ** No friendly fire *)

(** An object that cannot harm the tank [t]: a shell that is dead, of the
    team of [t] or owned by [t]; a mine that is dead or of the team of
    [t]; anything else. *)
Definition friendly_to (t : Tank) (o : EntityObj) : Prop :=
  match o with
  | EShell s =>
      e_alive (shell_base s) = false ∨ shell_team s = tank_team t ∨
      owner_id s = e_id (tank_base t)
  | EMine mn => e_alive (mine_base mn) = false ∨ mine_team mn = tank_team t
  | _ => True
  end.

(** The store holds at [j] the tank [t] up to its resources, with no less
    armor, and nothing in it can harm [t]. *)
Definition unharmed (j : nat) (t : Tank) (h : gmap nat EntityObj) : Prop :=
  (∃ t', h !! j = Some (ETank t') ∧ tank_base t' = tank_base t ∧
         tank_team t' = tank_team t ∧
         armor (resources t) ≤ armor (resources t')) ∧
  map_Forall (λ _ o, friendly_to t o) h.

Section Unharmed.
Context (j : nat) (t : Tank).
Implicit Types (gs : GameState) (h : gmap nat EntityObj) (o : EntityObj).
Implicit Types (i k : nat).

Lemma unharmed_insert h k o :
  unharmed j t h → k ≠ j → friendly_to t o → unharmed j t (<[k := o]> h).
Proof.
  intros [(t'&?&?) Hf] ??. split.
  - exists t'. by rewrite lookup_insert_ne.
  - by apply map_Forall_insert_2.
Qed.

Lemma unharmed_class_ne h k o :
  unharmed j t h → h !! k = Some o → same_class o (ETank t) = false → k ≠ j.
Proof. intros [(t'&Hj&_) _] Hk Hc ->. rewrite Hj in Hk. by simplify_eq. Qed.

Lemma unharmed_shell_misses h i s k t' :
  unharmed j t h → h !! i = Some (EShell s) → e_alive (shell_base s) = true →
  h !! k = Some (ETank t') → shell_may_hit s t' = true → k ≠ j.
Proof.
  intros [(t0&Hj&Hb&Htm&_) Hf] Hi Hal Hk Hhit ->.
  rewrite Hj in Hk. simplify_eq.
  pose proof (map_Forall_lookup_1 _ _ _ _ Hf Hi) as Hfr. simpl in Hfr.
  unfold shell_may_hit in Hhit. rewrite Hb, Htm in Hhit.
  repeat case_bool_decide; rewrite ?andb_false_r in Hhit; try done.
  destruct Hfr as [?|[?|?]]; congruence.
Qed.

Lemma unharmed_mine_misses h i mn k t' :
  unharmed j t h → h !! i = Some (EMine mn) → e_alive (mine_base mn) = true →
  h !! k = Some (ETank t') → mine_may_hit mn t' = true → k ≠ j.
Proof.
  intros [(t0&Hj&Hb&Htm&_) Hf] Hi Hal Hk Hhit ->.
  rewrite Hj in Hk. simplify_eq.
  pose proof (map_Forall_lookup_1 _ _ _ _ Hf Hi) as Hfr. simpl in Hfr.
  unfold mine_may_hit in Hhit. rewrite Htm in Hhit.
  repeat case_bool_decide; rewrite ?andb_false_r in Hhit; try done.
  destruct Hfr as [?|?]; congruence.
Qed.

(** The two loop shapes keep a property of the store. *)
Lemma foldl_heap_inv (P : gmap nat EntityObj → Prop)
    (f : GameState → nat → GameState) l gs :
  (∀ gs i, P (heap gs) → P (heap (f gs i))) →
  P (heap gs) → P (heap (foldl f gs l)).
Proof. intros Hf. revert gs. induction l; simpl; auto. Qed.

Lemma scan_heap_inv (P : gmap nat EntityObj → Prop)
    (f : GameState → nat → option GameState) l gs :
  (∀ k gs', f gs k = Some gs' → P (heap gs')) →
  P (heap gs) → P (heap (default gs (scan f gs l))).
Proof.
  intros Hf ?. destruct (scan f gs l) as [gs'|] eqn:Hscan; simpl; [|done].
  apply scan_Some in Hscan as (?&k&?&?&?&?). eauto.
Qed.

Lemma collide_shell_tank_unharmed gs i :
  unharmed j t (heap gs) → unharmed j t (heap (collide_shell_tank gs i)).
Proof.
  intros Hu. unfold collide_shell_tank.
  destruct (heap gs !! i) as [[|s| | |]|] eqn:Hi; try done.
  destruct (e_alive (shell_base s)) eqn:Hal; [|done].
  apply scan_heap_inv; [|done]. intros k gs'.
  rewrite shell_tank_contact_spec.
  destruct (tank_at gs k) as [t'|] eqn:Hk; [|done].
  apply tank_at_Some in Hk.
  destruct (shell_may_hit s t') eqn:Hhit; [|done]. intros [= <-]. simpl.
  apply unharmed_insert; [apply unharmed_insert| |]; simpl; eauto.
  - by eapply unharmed_shell_misses.
  - by eapply unharmed_class_ne.
Qed.

Lemma collide_shell_pillbox_unharmed gs i :
  unharmed j t (heap gs) → unharmed j t (heap (collide_shell_pillbox gs i)).
Proof.
  intros Hu. unfold collide_shell_pillbox.
  destruct (heap gs !! i) as [[|s| | |]|] eqn:Hi; try done.
  destruct (e_alive (shell_base s)) eqn:Hal; [|done].
  apply scan_heap_inv; [|done]. intros k gs'. unfold shell_pillbox_contact.
  destruct (heap gs !! k) as [[| | |p|]|] eqn:Hk; try done.
  repeat case_match; try done. intros [= <-]. simpl.
  apply unharmed_insert; [apply unharmed_insert| |]; simpl; eauto;
    by eapply unharmed_class_ne.
Qed.

Lemma collide_mine_tank_unharmed gs i :
  unharmed j t (heap gs) → unharmed j t (heap (collide_mine_tank gs i)).
Proof.
  intros Hu. unfold collide_mine_tank.
  destruct (heap gs !! i) as [[| |mn| |]|] eqn:Hi; try done.
  destruct (e_alive (mine_base mn)) eqn:Hal; [|done].
  apply scan_heap_inv; [|done]. intros k gs' Hc.
  apply mine_tank_contact_spec in Hc as (t'&Hk%tank_at_Some&Hhit&->).
  apply unharmed_insert; [apply unharmed_insert| |]; simpl; eauto.
  - by eapply unharmed_mine_misses.
  - by eapply unharmed_class_ne.
Qed.

Lemma Base_resupply_tank_armor b t0 :
  armor (resources t0) ≤ armor (resources (Base_resupply_tank b t0).1.2).
Proof.
  resupply_unfold. repeat case_decide; simpl; lia.
Qed.

Lemma tank_base_contact_unharmed gs i k :
  unharmed j t (heap gs) → unharmed j t (heap (tank_base_contact i gs k)).
Proof.
  intros Hu. unfold tank_base_contact.
  destruct (heap gs !! i) as [[t0| | | |]|] eqn:Hi; try done.
  destruct (heap gs !! k) as [[| | | |b]|] eqn:Hk; try done.
  assert (k ≠ j) by by eapply unharmed_class_ne.
  pose proof (Base_resupply_tank_static b t0) as Hst.
  pose proof (Base_resupply_tank_armor b t0) as Har.
  destruct (Base_resupply_tank b t0) as [[b' tr] f]. simpl in Har.
  destruct Hst as (_&_&_&_&_&Ht&_).
  repeat case_match; try done; simpl; [|by apply unharmed_insert].
  destruct (decide (i = j)) as [->|]; [|by repeat apply unharmed_insert].
  destruct Hu as [(t'&Hj&?&?&?) Hf]. rewrite Hj in Hi. simplify_eq.
  split.
  - assert (tank_base tr = tank_base t0 ∧ tank_team tr = tank_team t0)
      as [??] by by rewrite <- Ht.
    exists tr. rewrite lookup_insert_eq.
    split_and!; [done|congruence..|lia].
  - by repeat apply map_Forall_insert_2.
Qed.

Lemma collide_tank_base_unharmed gs i :
  unharmed j t (heap gs) → unharmed j t (heap (collide_tank_base gs i)).
Proof.
  intros Hu. unfold collide_tank_base. repeat case_match; try done.
  apply (foldl_heap_inv (unharmed j t)); auto using tank_base_contact_unharmed.
Qed.

Lemma process_collisions_unharmed gs :
  unharmed j t (heap gs) →
  unharmed j t (heap (GameState__process_collisions gs)).
Proof.
  intros Hu. unfold GameState__process_collisions, collision_pass. cbv zeta.
  repeat (apply (foldl_heap_inv (unharmed j t));
    [auto using collide_shell_tank_unharmed, collide_shell_pillbox_unharmed,
       collide_mine_tank_unharmed, collide_tank_base_unharmed|]).
  done.
Qed.
End Unharmed.

(** [C7] No friendly fire.  If every live shell in the store is of the
    team of the tank [t] or owned by it, and every live mine is of its
    team, then [_process_collisions] leaves [t] where it is, alive as it
    was, of its team, and with at least the armor it had (a base of its
    team may have added some). *)
Theorem process_collisions_no_friendly_fire gs j t :
  heap gs !! j = Some (ETank t) →
  (∀ k o, heap gs !! k = Some o → friendly_to t o) →
  ∃ t', heap (GameState__process_collisions gs) !! j = Some (ETank t') ∧
        tank_base t' = tank_base t ∧ tank_team t' = tank_team t ∧
        armor (resources t) ≤ armor (resources t').
Proof.
  intros Hj Hf.
  destruct (process_collisions_unharmed j t gs) as [Ht' _]; [|done].
  split; [|done]. exists t. by split_and!.
Qed.

(** ** Theorems on the camera *)

Section Camera.
Implicit Types (gs : GameState) (pos camera : float) (window extent : Z).

Lemma camera_axis_clamped pos camera window extent :
  (Z2F 0 <=? Z2F (extent - window))%float = true →
  (Z2F 0 <=? camera_axis pos camera window extent)%float = true ∧
  (camera_axis pos camera window extent <=? Z2F (extent - window))%float = true.
Proof. intros ?. by apply clamp_between. Qed.

Lemma camera_axis_tight pos camera window :
  camera_axis pos camera window window = 0%float.
Proof.
  unfold camera_axis. rewrite Z.sub_diag. unfold py_max, py_min. simpl Z2F.
  match goal with |- context [(?c <? 0)%float] => set (x := c) end.
  destruct (x <? 0)%float eqn:Hlt.
  - by rewrite (ltb_asym _ _ Hlt).
  - by rewrite ltb_irrefl.
Qed.

(** The camera stays on the map: when the map is at least as large
    as the window, [_update_camera] with a player leaves both camera
    coordinates within [0 .. pixel size - window size], whatever the
    position of the player and the previous camera, not-a-number
    included. *)
Theorem GameState__update_camera_clamped gs t :
  player_tank gs = Some t →
  let lim_x := Z2F (pixel_width (game_map gs) - WINDOW_WIDTH) in
  let lim_y := Z2F (pixel_height (game_map gs) - WINDOW_HEIGHT) in
  (Z2F 0 <=? lim_x)%float = true → (Z2F 0 <=? lim_y)%float = true →
  let gs' := GameState__update_camera gs in
  ((Z2F 0 <=? camera_x gs')%float = true ∧ (camera_x gs' <=? lim_x)%float = true) ∧
  ((Z2F 0 <=? camera_y gs')%float = true ∧ (camera_y gs' <=? lim_y)%float = true).
Proof.
  intros Ht lim_x lim_y Hx Hy. unfold GameState__update_camera. rewrite Ht.
  simpl. split; by apply camera_axis_clamped.
Qed.

(** [C40] On a map of the configured size the camera does not move: the
    map of [MAP_WIDTH] by [MAP_HEIGHT] tiles is exactly as large as the
    window, so [_update_camera] sets the camera to [(0, 0)] whatever the
    position of the player. *)
Theorem GameState__update_camera_default gs t :
  player_tank gs = Some t →
  width (game_map gs) = MAP_WIDTH → height (game_map gs) = MAP_HEIGHT →
  camera_x (GameState__update_camera gs) = 0%float ∧
  camera_y (GameState__update_camera gs) = 0%float.
Proof.
  intros Ht Hw Hh. unfold GameState__update_camera. rewrite Ht. simpl.
  unfold pixel_width, pixel_height. rewrite Hw, Hh.
  change (MAP_WIDTH * TILE_SIZE) with WINDOW_WIDTH.
  change (MAP_HEIGHT * TILE_SIZE) with WINDOW_HEIGHT.
  split; apply camera_axis_tight.
Qed.
End Camera.

#[export] Instance friendly_to_dec t o : Decision (friendly_to t o).
Proof. destruct o; simpl; apply _. Defined.

(** ** Witnesses *)

(** Tank A of team 1 at (100, 100) has just fired east: its shell, 5
    pixels from tank B of team 2, is pending.  A base of team 1 touches A;
    a neutral pillbox and a mine of team 1 are far away. *)
Definition demo_A : Tank := (@Tank_fire east_platform 2 (Tank_init 0 100 100 TEAM_1).1).1.1.

Definition demo_B : Tank := (Tank_init 1 125 100 TEAM_2).1.

Definition demo_shot : Shell :=
  default demo_shell (@Tank_fire east_platform 2 (Tank_init 0 100 100 TEAM_1).1).1.2.

Definition demo_state : GameState :=
  {| game_map := GameMap_init MAP_WIDTH MAP_HEIGHT;
     entities := [0; 1; 3; 4; 5]%nat; pending_entities := [2%nat];
     player := Some 0%nat; camera_x := 0; camera_y := 0;
     paused := false; game_over := false; score := 0;
     heap := list_to_map
       [(0%nat, ETank demo_A); (1%nat, ETank demo_B); (2%nat, EShell demo_shot);
        (3%nat, EBase (Base_init 3 100 120 TEAM_1).1);
        (4%nat, EPillbox (Pillbox_init 4 400 400 NEUTRAL).1);
        (5%nat, EMine (Mine_init 5 300 300 TEAM_1 false).1)];
     id_counter := 6; rng_pos := 0 |}.

Definition demo_paused : GameState :=
  mkGameState (game_map demo_state) (entities demo_state)
    (pending_entities demo_state) (player demo_state) 0 0 true false 0
    (heap demo_state) 6 0.

Lemma GameState_frames_wf_witness :
  wf_state (@GameState_frames east_platform 3 demo_state).
Proof. apply GameState_frames_wf. by_compute. Defined.

Lemma GameState_frames_never_revive_witness :
  ∃ o', heap (@GameState_frames east_platform 2 demo_state) !! 2%nat = Some o' ∧
        same_class (EShell demo_shot) o' = true ∧
        e_id (obj_base o') = e_id (obj_base (EShell demo_shot)) ∧
        (obj_alive (EShell demo_shot) = false → obj_alive o' = false).
Proof. apply GameState_frames_never_revive; [by_compute|by vm_compute]. Defined.

Lemma GameState_frames_teams_witness :
  ∃ o', heap (@GameState_frames east_platform 2 demo_state) !! 3%nat = Some o' ∧
        class_le (EBase (Base_init 3 100 120 TEAM_1).1) o'.
Proof. apply GameState_frames_teams; [by_compute|by vm_compute]. Defined.

Lemma GameState_update_paused_witness :
  @GameState_frames east_platform 5 demo_paused = demo_paused.
Proof. by apply GameState_update_paused. Defined.

Lemma GameState_update_purge_witness :
  let gs' := @GameState_update east_platform demo_state in
  entities gs' =
    filter (λ i, alive_at gs' i = true)
      (entities demo_state ++ pending_entities demo_state) ∧
  Forall (λ i, alive_at gs' i = true) (entities gs') ∧
  Forall (λ i, (id_counter demo_state ≤ i < id_counter gs')%nat ∧
               i ∉ entities gs')
    (pending_entities gs').
Proof. apply GameState_update_purge; [by_compute|done]. Defined.

Lemma collide_shell_tank_first_hit_witness :
  let gs := merged demo_state in
  (∃ l1 j l2 t,
     entities gs = l1 ++ j :: l2 ∧ tank_at gs j = Some t ∧
     shell_may_hit demo_shot t = true ∧
     (∀ k t', k ∈ l1 → tank_at gs k = Some t' →
        shell_may_hit demo_shot t' = false) ∧
     collide_shell_tank gs 2 = shell_hit gs 2 demo_shot j t) ∨
  ((∀ k t', k ∈ entities gs → tank_at gs k = Some t' →
      shell_may_hit demo_shot t' = false) ∧
   collide_shell_tank gs 2 = gs).
Proof. apply collide_shell_tank_first_hit; by vm_compute. Defined.

Lemma process_collisions_no_friendly_fire_witness :
  ∃ t', heap (GameState__process_collisions (merged demo_state)) !! 0%nat
          = Some (ETank t') ∧
        tank_base t' = tank_base demo_A ∧ tank_team t' = tank_team demo_A ∧
        armor (resources demo_A) ≤ armor (resources t').
Proof.
  apply process_collisions_no_friendly_fire; [by vm_compute|].
  apply map_Forall_lookup. by_compute.
Defined.

Lemma GameState__update_camera_clamped_witness :
  let gs := demo_state in
  let lim_x := Z2F (pixel_width (game_map gs) - WINDOW_WIDTH) in
  let lim_y := Z2F (pixel_height (game_map gs) - WINDOW_HEIGHT) in
  let gs' := GameState__update_camera gs in
  ((Z2F 0 <=? camera_x gs')%float = true ∧ (camera_x gs' <=? lim_x)%float = true) ∧
  ((Z2F 0 <=? camera_y gs')%float = true ∧ (camera_y gs' <=? lim_y)%float = true).
Proof.
  apply (GameState__update_camera_clamped demo_state demo_A); by vm_compute.
Defined.

Lemma GameState__update_camera_default_witness :
  camera_x (GameState__update_camera demo_state) = 0%float ∧
  camera_y (GameState__update_camera demo_state) = 0%float.
Proof.
  apply (GameState__update_camera_default demo_state demo_A); by vm_compute.
Defined.

(** The scenario of the shell fired at a tank 5 pixels away: one
    collision resolution takes one point of armor from B and destroys the
    shell; A, the owner, is not hit, and is resupplied one shell by the
    base it touches. *)
Example scenario_shell_hits_tank :
  let gs' := GameState__process_collisions (merged demo_state) in
  (armor ∘ resources <$> tank_at demo_state 1) = Some 8 ∧
  (armor ∘ resources <$> tank_at gs' 1) = Some 7 ∧
  alive_at gs' 2 = false ∧
  (armor ∘ resources <$> tank_at gs' 0) = Some 8 ∧
  (shells ∘ resources <$> tank_at demo_state 0) = Some 39 ∧
  (shells ∘ resources <$> tank_at gs' 0) = Some 40.
Proof. by vm_compute. Qed.

(** The same scenario through a whole frame: the pending shell is merged,
    flies 6 pixels, hits B and is purged. *)
Example scenario_frame :
  let gs' := @GameState_update east_platform demo_state in
  entities gs' = [0; 1; 3; 4; 5]%nat ∧ pending_entities gs' = [] ∧
  (armor ∘ resources <$> tank_at gs' 1) = Some 7 ∧
  alive_at gs' 2 = false ∧ id_counter gs' = 6%nat.
Proof. by vm_compute. Qed.
