(* ===== verification/Lifecycle.v ===== *)
(** * Lifecycle: the life cycle of an entity, and the frames that refine it

    The specification gives an entity a life cycle: it is constructed
    into the pending buffer, becomes live at the next frame boundary, and
    once its [alive] flag is cleared it is purged at the next cleanup and
    never comes back.  This file states the cycle as a transition system
    on five abstract states, reads the state of an entity off a
    [GameState], and shows that a frame of [GameState.update]
    ([src/src/bolo_engine.py]) moves every entity by one transition of the
    system, and that the steps the methods of the engine take between
    frames are its acts.  What holds of every run of the system then
    holds of every run of the engine. *)

From stdpp Require Import gmap.
From S2P Require Import Prelude PyFloat Config GameMap Entity Tank.
From S2P Require Import Structures GameState.

(** ** The abstract life cycle *)

(** An entity is not constructed yet; in the pending buffer; listed and
    alive; listed and dead, which a frame never leaves behind; or in
    neither list. *)
Inductive Life := Unborn | Waiting | Live | Fallen | Gone.

#[export] Instance Life_eq_dec : EqDecision Life.
Proof. solve_decision. Defined.

(** What one frame may do to an entity; the flag says whether the frame
    runs or the game is paused or over. *)
Inductive life_frame : bool → Life → Life → Prop :=
  | lf_idle l : life_frame false l l
  | lf_unborn : life_frame true Unborn Unborn
  | lf_born : life_frame true Unborn Waiting
  | lf_enters : life_frame true Waiting Live
  | lf_stillborn : life_frame true Waiting Gone
  | lf_lives : life_frame true Live Live
  | lf_dies : life_frame true Live Gone
  | lf_swept : life_frame true Fallen Gone
  | lf_gone : life_frame true Gone Gone.

(** What may happen to an entity between two frames and inside one:
    it is constructed into the pending buffer, or its [alive] flag is
    cleared while it is listed. *)
Inductive life_act : Life → Life → Prop :=
  | la_stay l : life_act l l
  | la_spawn : life_act Unborn Waiting
  | la_kill : life_act Live Fallen.

(** A run: frames, and what happens between them. *)
Inductive life_run : Life → Life → Prop :=
  | life_run_refl l : life_run l l
  | life_run_step b l1 l2 l3 :
      life_run l1 l2 → life_frame b l2 l3 → life_run l1 l3
  | life_run_act l1 l2 l3 :
      life_run l1 l2 → life_act l2 l3 → life_run l1 l3.

#[export] Hint Constructors life_frame life_act life_run : bolo.

(** How far an entity is through its life. *)
Definition life_rank (l : Life) : nat :=
  match l with
  | Unborn => 0 | Waiting => 1 | Live => 2 | Fallen => 3 | Gone => 4
  end.

(** ** The life of an entity in a state *)

Definition life (gs : GameState) (i : nat) : Life :=
  match heap gs !! i with
  | None => Unborn
  | Some o =>
      if decide (i ∈ entities gs) then if obj_alive o then Live else Fallen
      else if decide (i ∈ pending_entities gs) then Waiting
      else Gone
  end.

(** * The abstract system, by rule induction *)

Lemma life_frame_rank b l l' : life_frame b l l' → (life_rank l ≤ life_rank l')%nat.
Proof. destruct 1; simpl; lia. Qed.

(** A running frame leaves no dead entity listed. *)
Lemma life_frame_not_fallen l l' : life_frame true l l' → l' ≠ Fallen.
Proof. by inversion 1. Qed.

Lemma life_frame_gone b l : life_frame b Gone l → l = Gone.
Proof. by inversion 1. Qed.

Lemma life_act_rank l l' : life_act l l' → (life_rank l ≤ life_rank l')%nat.
Proof. destruct 1; simpl; lia. Qed.

Lemma life_act_gone l : life_act Gone l → l = Gone.
Proof. by inversion 1. Qed.

(** Life only goes forward. *)
Lemma life_run_rank l l' : life_run l l' → (life_rank l ≤ life_rank l')%nat.
Proof.
  induction 1 as [|b l1 l2 l3 _ IH Hf|l1 l2 l3 _ IH Ha]; [done| |].
  - apply life_frame_rank in Hf. lia.
  - apply life_act_rank in Ha. lia.
Qed.

Lemma life_run_gone l : life_run Gone l → l = Gone.
Proof.
  intros Hrun. remember Gone as l0 eqn:Hl0.
  induction Hrun as [|b l1 l2 l3 _ IH Hf|l1 l2 l3 _ IH Ha]; [done| |].
  - rewrite (IH Hl0), Hl0 in Hf. apply life_frame_gone in Hf. congruence.
  - rewrite (IH Hl0), Hl0 in Ha. apply life_act_gone in Ha. congruence.
Qed.

Lemma life_run_trans l1 l2 l3 : life_run l1 l2 → life_run l2 l3 → life_run l1 l3.
Proof. induction 2; eauto with bolo. Qed.

(** * The frames of the engine refine the system *)

Section Refinement.
Context `{Platform}.
Implicit Types (gs : GameState) (o : EntityObj) (i : nat).

(** What a running frame does to the store and to the two lists. *)
Lemma frame_facts gs :
  wf_state gs → paused gs || game_over gs = false →
  let gs' := GameState_update gs in
  entities gs' =
    filter (λ i, alive_at gs' i = true) (entities gs ++ pending_entities gs) ∧
  Forall (λ i, (id_counter gs ≤ i)%nat) (pending_entities gs') ∧
  (∀ i o, heap gs !! i = Some o → ∃ o', heap gs' !! i = Some o' ∧ obj_le o o') ∧
  (∀ i, is_Some (heap gs' !! i) →
        is_Some (heap gs !! i) ∨ i ∈ pending_entities gs').
Proof.
  intros Hwf Hrun gs'. subst gs'.
  destruct (GameState_update_unfold gs Hwf Hrun)
    as (gs3&x&y&[_ ((Hobj&_)&Hent&(l&Hpend&Hfresh)&_&_&Hborn)]&->).
  simpl in *. split_and!; [by rewrite Hent|by rewrite Hpend|done|done].
Qed.

(** The ids a well-formed state lists are in its store, below the
    counter. *)
Lemma listed_below gs i :
  wf_state gs → i ∈ entities gs ++ pending_entities gs →
  ∃ o, heap gs !! i = Some o ∧ (i < id_counter gs)%nat.
Proof.
  intros Hwf Hi. pose proof Hwf as (_&_&He&Hp&_).
  unfold refs_ok in *. rewrite list.Forall_forall in He, Hp.
  assert (is_Some (heap gs !! i)) as [o Ho]
    by (apply elem_of_app in Hi as [?|?]; auto).
  exists o. split; [done|]. by destruct (wf_lookup _ _ _ Hwf Ho) as (_&?&_).
Qed.

(** An entity that was not in the store before a running frame is
    pending after it, or still not in the store. *)
Lemma frame_life_unborn gs i :
  wf_state gs → paused gs || game_over gs = false →
  heap gs !! i = None →
  life (GameState_update gs) i = Unborn ∨ life (GameState_update gs) i = Waiting.
Proof.
  intros Hwf Hrun Hi.
  destruct (frame_facts gs Hwf Hrun) as (Hent&_&_&Hborn).
  unfold life. destruct (heap (GameState_update gs) !! i) as [o'|] eqn:Ho';
    [|by left].
  destruct (Hborn i) as [[o Ho]|Hpend]; [by eexists|by rewrite Hi in Ho|].
  assert (i ∉ entities (GameState_update gs)) as Hne.
  { rewrite Hent. intros [_ Hl]%list_elem_of_filter.
    destruct (listed_below gs i Hwf Hl) as (o&Ho&_). by rewrite Hi in Ho. }
  rewrite decide_False, decide_True by done. by right.
Qed.

(** An entity that was in the store before a running frame is listed
    after it exactly when it was listed or pending and is alive. *)
Lemma frame_life_stored gs i o :
  wf_state gs → paused gs || game_over gs = false →
  heap gs !! i = Some o →
  ∃ o', heap (GameState_update gs) !! i = Some o' ∧
    (obj_alive o' = true → obj_alive o = true) ∧
    life (GameState_update gs) i =
      if decide (i ∈ entities gs ++ pending_entities gs)
      then if obj_alive o' then Live else Gone
      else Gone.
Proof.
  intros Hwf Hrun Ho.
  destruct (frame_facts gs Hwf Hrun) as (Hent&Hnew&Hobj&_).
  destruct (Hobj i o Ho) as (o' & Ho' & (_&_&Hal)).
  exists o'. split_and!; [done..|].
  assert (i ∉ pending_entities (GameState_update gs)) as Hnp.
  { intros Hp. rewrite list.Forall_forall in Hnew. specialize (Hnew i Hp).
    destruct (wf_lookup _ _ _ Hwf Ho) as (_&?&_). simpl in *. lia. }
  unfold life. rewrite Ho', Hent.
  assert (alive_at (GameState_update gs) i = obj_alive o') as Ha
    by (unfold alive_at; by rewrite Ho').
  destruct (decide (i ∈ entities gs ++ pending_entities gs)) as [Hl|Hl].
  - destruct (obj_alive o') eqn:Hal'.
    + rewrite decide_True; [done|]. apply list_elem_of_filter. by rewrite Ha.
    + rewrite decide_False, decide_False; [done|done|].
      intros [? _]%list_elem_of_filter. congruence.
  - rewrite decide_False, decide_False; [done|done|].
    by intros [_ ?]%list_elem_of_filter.
Qed.

(** A step of the kind the methods of the engine take (the objects in the
    store evolve, [entities] is the same, [pending_entities] grows by new
    objects) is an act of the life cycle of every entity. *)
Lemma good_life gs gs' i :
  wf_state gs → good gs gs' → life_act (life gs i) (life gs' i).
Proof.
  intros Hwf [_ ((Hobj&_)&Hent&(l&Hpend&Hfresh)&_&_&Hborn)].
  unfold life. rewrite Hent, Hpend.
  destruct (heap gs !! i) as [o|] eqn:Ho.
  - destruct (Hobj i o Ho) as (o' & -> & (_&_&Hal)).
    destruct (wf_lookup _ _ _ Hwf Ho) as (_&Hlt&_).
    destruct (decide (i ∈ entities gs)).
    { destruct (obj_alive o'), (obj_alive o); auto with bolo.
      by specialize (Hal eq_refl). }
    rewrite (decide_ext (i ∈ pending_entities gs ++ l)
               (i ∈ pending_entities gs)); [constructor|].
    rewrite elem_of_app. split; [|by left]. intros [?|Hl]; [done|].
    rewrite list.Forall_forall in Hfresh. specialize (Hfresh i Hl). lia.
  - destruct (heap gs' !! i) as [o'|] eqn:Ho'; [|constructor].
    destruct (Hborn i) as [[o Ho2]|Hp]; [by eexists|by rewrite Ho in Ho2|].
    assert (i ∉ entities gs) as Hne.
    { intros He. destruct (listed_below gs i Hwf) as (o&Ho2&_);
        [apply elem_of_app; by left|by rewrite Ho in Ho2]. }
    rewrite Hpend in Hp. rewrite decide_False, decide_True by done.
    constructor.
Qed.

(** One frame is one transition. *)
Lemma GameState_update_life gs i :
  wf_state gs →
  life_frame (negb (paused gs || game_over gs))
    (life gs i) (life (GameState_update gs) i).
Proof.
  intros Hwf. destruct (paused gs || game_over gs) eqn:Hrun; simpl.
  { rewrite GameState_update_paused_eq by done. constructor. }
  destruct (heap gs !! i) as [o|] eqn:Ho.
  - destruct (frame_life_stored gs i o Hwf Hrun Ho) as (o' & _ & Hal & ->).
    unfold life. rewrite Ho.
    destruct (decide (i ∈ entities gs)) as [He|He].
    + rewrite decide_True by (apply elem_of_app; by left).
      destruct (obj_alive o'), (obj_alive o); auto with bolo.
      by specialize (Hal eq_refl).
    + destruct (decide (i ∈ pending_entities gs)) as [Hp|Hp].
      * rewrite decide_True by (apply elem_of_app; by right).
        destruct (obj_alive o'); constructor.
      * rewrite decide_False by (rewrite elem_of_app; tauto). constructor.
  - pose proof (frame_life_unborn gs i Hwf Hrun Ho) as Hl.
    unfold life at 1. rewrite Ho.
    destruct Hl as [->| ->]; constructor.
Qed.

Lemma GameState_frames_life_run n gs i :
  wf_state gs → life_run (life gs i) (life (GameState_frames n gs) i).
Proof.
  intros Hwf. induction n as [|n IH]; simpl; [constructor|].
  eapply life_run_step; [exact IH|].
  apply GameState_update_life.
  by destruct (GameState_frames_good n gs Hwf).
Qed.
End Refinement.

(** * What a frame leaves alone

    The loops of a frame run over [entities]: an object of the store
    that is not listed (one that is pending, or was purged) is neither
    updated nor met by a collision test. *)

(** [entities] is the same and the unlisted objects of the store are as
    they were. *)
Definition only_listed (gs gs' : GameState) : Prop :=
  entities gs' = entities gs ∧
  ∀ k, k ∉ entities gs → is_Some (heap gs !! k) → heap gs' !! k = heap gs !! k.

Section OnlyListed.
Context `{Platform}.
Implicit Types (gs : GameState) (o : EntityObj) (i j k : nat).

Lemma only_listed_refl gs : only_listed gs gs.
Proof. by split. Qed.

Lemma only_listed_trans gs1 gs2 gs3 :
  only_listed gs1 gs2 → only_listed gs2 gs3 → only_listed gs1 gs3.
Proof.
  intros [He1 H1] [He2 H2]. split; [congruence|]. intros k Hk Hs.
  rewrite <- (H1 k Hk Hs). apply H2; [by rewrite He1|].
  by rewrite (H1 k Hk Hs).
Qed.

(** Writing a listed object, or one that was not in the store. *)
Lemma store_only_listed gs i o :
  i ∈ entities gs ∨ heap gs !! i = None → only_listed gs (store gs i o).
Proof.
  intros Hi. split; [done|]. intros k Hk [o' Ho']. simpl.
  apply lookup_insert_ne. intros ->. destruct Hi; [done|congruence].
Qed.

(** Steps that change neither [entities] nor the store. *)
Lemma same_only_listed gs gs' :
  entities gs' = entities gs → heap gs' = heap gs → only_listed gs gs'.
Proof. intros He Hh. split; [done|]. intros. by rewrite Hh. Qed.

Lemma only_listed_then gs gs1 gs2 :
  only_listed gs gs1 → only_listed gs1 gs2 → only_listed gs gs2.
Proof. apply only_listed_trans. Qed.

(** A loop over listed entities, under an invariant of the state. *)
Lemma only_listed_foldl (I : GameState → Prop)
    (f : GameState → nat → GameState) l gs :
  (∀ gs i, I gs → i ∈ entities gs → I (f gs i) ∧ only_listed gs (f gs i)) →
  I gs → Forall (λ i, i ∈ entities gs) l →
  I (foldl f gs l) ∧ only_listed gs (foldl f gs l).
Proof.
  intros Hf. revert gs.
  induction l as [|i l IH]; intros gs HI Hl; simpl;
    [by auto using only_listed_refl|].
  apply Forall_cons_iff in Hl as [Hi Hl].
  destruct (Hf gs i HI Hi) as [HI1 H1].
  destruct (IH (f gs i) HI1) as [HI2 H2]; [by rewrite (proj1 H1)|].
  eauto using only_listed_trans.
Qed.

(** A loop that ends at the first hit. *)
Lemma only_listed_scan (f : GameState → nat → option GameState) l gs :
  (∀ j gs', j ∈ l → f gs j = Some gs' → only_listed gs gs') →
  only_listed gs (default gs (scan f gs l)).
Proof.
  intros Hf. destruct (scan f gs l) as [gs'|] eqn:Hscan; simpl;
    [|apply only_listed_refl].
  apply scan_Some in Hscan as (l1&j&l2&->&_&Hj).
  apply (Hf j); [|done]. apply elem_of_app. right. by left.
Qed.

(** [update] of a listed entity: it is written back, and the shell a
    pillbox fires takes the next id, which is not in the store. *)
Lemma Entity_update_only_listed gs i :
  wf_state gs → i ∈ entities gs → only_listed gs (Entity_update gs i).
Proof.
  intros Hwf Hi. unfold Entity_update.
  destruct (heap gs !! i) as [[t|s|mn|p|b]|] eqn:Ho;
    [..|apply only_listed_refl]; try by apply store_only_listed; left.
  - destruct (Shell_update (game_map gs) s) as [s' m'].
    eapply only_listed_trans; [by apply store_only_listed; left|].
    by apply same_only_listed.
  - pose proof (Pillbox_update_static (heap_tanks gs) (id_counter gs)
                  (rng_pos gs) p) as Hst.
    destruct (Pillbox_update _ _ _ p) as [[[p' shot] n'] r'].
    destruct Hst as (_&_&_&_&_&_&Hshot).
    eapply only_listed_trans; [by apply store_only_listed; left|].
    destruct shot as [s|]; [|by apply same_only_listed].
    destruct Hshot as (Hid&_). unfold add_entity. simpl. rewrite Hid.
    split; [done|]. intros k Hk [o' Ho']. simpl in *.
    apply lookup_insert_ne. intros <-.
    destruct (decide (id_counter gs = i)) as [<-|Hne];
      [by destruct (wf_lookup _ _ _ Hwf Ho) as (_&?&_); lia|].
    rewrite lookup_insert_ne in Ho' by done.
    destruct (wf_lookup _ _ _ Hwf Ho') as (_&?&_). lia.
Qed.

(** The bodies of the inner loops write the two entities that meet. *)
Lemma contact_only_listed gs i j gs' :
  i ∈ entities gs → j ∈ entities gs →
  (∃ s, shell_tank_contact i s gs j = Some gs') ∨
  (∃ s, shell_pillbox_contact i s gs j = Some gs') ∨
  (∃ mn, mine_tank_contact i mn gs j = Some gs') ∨
  tank_base_contact i gs j = gs' →
  only_listed gs gs'.
Proof.
  intros Hi Hj.
  assert (∀ o1 o2, only_listed gs (store (store gs j o1) i o2)) as H2.
  { intros. eapply only_listed_trans; apply store_only_listed; by left. }
  unfold shell_tank_contact, shell_pillbox_contact, mine_tank_contact,
    tank_base_contact.
  intros [[s Hc]|[[s Hc]|[[mn Hc]| <-]]]; repeat case_match; simplify_eq;
    try apply only_listed_refl; try apply H2;
    try (by apply store_only_listed; left).
Qed.

(** The body of an outer loop, for a listed entity. *)
Lemma collide_only_listed gs i :
  i ∈ entities gs →
  only_listed gs (collide_shell_tank gs i) ∧
  only_listed gs (collide_shell_pillbox gs i) ∧
  only_listed gs (collide_mine_tank gs i) ∧
  only_listed gs (collide_tank_base gs i).
Proof.
  intros Hi.
  unfold collide_shell_tank, collide_shell_pillbox, collide_mine_tank,
    collide_tank_base.
  split_and!; repeat case_match; try apply only_listed_refl.
  1-3: apply only_listed_scan; intros j gs' Hj Hc;
    apply (contact_only_listed gs i j); eauto 6.
  apply (only_listed_foldl (λ gs', i ∈ entities gs')); [|done|].
  - intros gs1 j Hi1 Hj.
    assert (only_listed gs1 (tank_base_contact i gs1 j)) as Hl
      by (apply (contact_only_listed gs1 i j); auto).
    split; [by rewrite (proj1 Hl)|done].
  - by apply list.Forall_forall.
Qed.

Lemma collision_pass_only_listed body gs :
  (∀ gs i, i ∈ entities gs → only_listed gs (body gs i)) →
  only_listed gs (collision_pass body gs).
Proof.
  intros Hb. unfold collision_pass.
  apply (only_listed_foldl (λ _, True)); [auto|done|].
  by apply list.Forall_forall.
Qed.

Lemma process_collisions_only_listed gs :
  only_listed gs (GameState__process_collisions gs).
Proof.
  unfold GameState__process_collisions. cbv zeta.
  repeat (eapply only_listed_trans;
    [|apply collision_pass_only_listed; intros; by apply collide_only_listed]).
  apply only_listed_refl.
Qed.

(** The loop of updates: every state it goes through is well formed. *)
Lemma updates_only_listed gs :
  wf_state gs →
  only_listed gs (foldl Entity_update gs (entities gs)).
Proof.
  intros Hwf. apply (only_listed_foldl wf_state); [|done|].
  - intros gs1 i Hwf1 Hi. split; [|by apply Entity_update_only_listed].
    by destruct (Entity_update_good gs1 i Hwf1).
  - by apply list.Forall_forall.
Qed.

(** A frame writes no object that is in neither list. *)
Lemma GameState_update_unlisted gs k :
  wf_state gs → k ∉ entities gs ++ pending_entities gs →
  is_Some (heap gs !! k) →
  heap (GameState_update gs) !! k = heap gs !! k.
Proof.
  intros Hwf Hk Hs. unfold GameState_update.
  destruct (paused gs || game_over gs); [done|]. cbv zeta. fold (merged gs).
  set (gs2 := foldl Entity_update _ _).
  set (gs3 := GameState__process_collisions gs2).
  destruct (frame_camera_cases (remove_dead_entities gs3)) as (x & y & ->).
  assert (only_listed (merged gs) gs3) as [_ Hl].
  { eapply only_listed_trans; [|apply process_collisions_only_listed].
    by apply updates_only_listed, merged_wf. }
  by apply Hl.
Qed.

(** An entity is [Gone] when it is in the store and in neither list. *)
Lemma life_Gone gs k :
  life gs k = Gone ↔
  is_Some (heap gs !! k) ∧ k ∉ entities gs ++ pending_entities gs.
Proof.
  unfold life. rewrite elem_of_app.
  destruct (heap gs !! k) as [o|]; [|split; [done|by intros [[] _]]].
  assert (is_Some (Some o)) by by eexists.
  repeat case_decide; try destruct (obj_alive o); split; try done; tauto.
Qed.

Lemma GameState_frames_unlisted n gs k :
  wf_state gs → k ∉ entities gs ++ pending_entities gs →
  is_Some (heap gs !! k) →
  heap (GameState_frames n gs) !! k = heap gs !! k.
Proof.
  intros Hwf Hk Hs. induction n as [|n IH]; [done|]. simpl.
  fold (GameState_frames n gs). rewrite <- IH.
  assert (life (GameState_frames n gs) k = Gone) as [??]%life_Gone.
  { apply life_run_gone. rewrite <- (proj2 (life_Gone gs k)) by done.
    by apply GameState_frames_life_run. }
  apply GameState_update_unlisted; [|done..].
  by destruct (GameState_frames_good n gs Hwf).
Qed.
End OnlyListed.

(** * Every shell leaves the game *)

Section ShellLeaves.
Context `{Platform}.
Implicit Types (gs : GameState) (i : nat) (s : Shell).

(** No step of a frame gives a shell more frames to live. *)
Lemma steps_shell_ages gs gs' i s :
  steps gs gs' → heap gs !! i = Some (EShell s) →
  ∃ s', heap gs' !! i = Some (EShell s') ∧ lifetime s' ≤ lifetime s.
Proof.
  intros ((Hobj&_)&_) Hi. destruct (Hobj _ _ Hi) as (o'&Ho'&Hcl&_).
  destruct o' as [|s'| | |]; try done. exists s'. split; [done|].
  simpl in Hcl. tauto.
Qed.

(** The update of a shell takes one frame of its lifetime. *)
Lemma Entity_update_shell gs i s :
  heap gs !! i = Some (EShell s) →
  ∃ s', heap (Entity_update gs i) !! i = Some (EShell s') ∧
        lifetime s' = lifetime s - 1.
Proof.
  intros Hi. unfold Entity_update. rewrite Hi.
  pose proof (Shell_update_static (game_map gs) s) as (_&_&_&_&_&_&_&Hl).
  destruct (Shell_update _ s) as [s' m']. simpl in *. exists s'.
  by rewrite lookup_insert_eq.
Qed.

Lemma updates_shell_ages l gs i s :
  wf_state gs → i ∈ l → heap gs !! i = Some (EShell s) →
  ∃ s', heap (foldl Entity_update gs l) !! i = Some (EShell s') ∧
        lifetime s' ≤ lifetime s - 1.
Proof.
  revert gs s. induction l as [|j l IH]; intros gs s Hwf Hin Hi;
    [by apply elem_of_nil in Hin|]. simpl.
  destruct (Entity_update_good gs j Hwf) as [Hwf1 Hst1].
  destruct (decide (j = i)) as [->|Hne].
  - destruct (Entity_update_shell gs i s Hi) as (s1&H1&Hl1).
    destruct (good_foldl Entity_update l _ Entity_update_good Hwf1) as [_ Hst].
    destruct (steps_shell_ages _ _ _ _ Hst H1) as (s2&?&?).
    exists s2. split; [done|lia].
  - apply elem_of_cons in Hin as [?|Hin]; [done|].
    destruct (steps_shell_ages _ _ _ _ Hst1 Hi) as (s1&H1&?).
    destruct (IH _ _ Hwf1 Hin H1) as (s2&?&?). exists s2. split; [done|lia].
Qed.

(** A running frame takes at least one frame of the lifetime of every
    shell that is listed or pending. *)
Lemma frame_shell_ages gs i s :
  wf_state gs → paused gs || game_over gs = false →
  i ∈ entities gs ++ pending_entities gs → heap gs !! i = Some (EShell s) →
  ∃ s', heap (GameState_update gs) !! i = Some (EShell s') ∧
        lifetime s' ≤ lifetime s - 1.
Proof.
  intros Hwf Hrun Hin Hi. unfold GameState_update. rewrite Hrun. cbv zeta.
  fold (merged gs).
  destruct (frame_camera_cases (remove_dead_entities
    (GameState__process_collisions
       (foldl Entity_update (merged gs) (entities (merged gs))))))
    as (x&y&->). simpl.
  pose proof (merged_wf gs Hwf) as Hwfm.
  destruct (updates_shell_ages _ (merged gs) i s Hwfm Hin Hi) as (s1&H1&?).
  destruct (good_foldl Entity_update (entities (merged gs)) _
              Entity_update_good Hwfm) as [Hwf2 _].
  destruct (process_collisions_good _ Hwf2) as [_ Hst].
  destruct (steps_shell_ages _ _ _ _ Hst H1) as (s2&?&?).
  exists s2. split; [done|lia].
Qed.

(** After a running frame a shell is gone, or it is live with a frame
    less to live and one frame at least. *)
Lemma frame_shell gs i s :
  wf_state gs → paused gs || game_over gs = false →
  heap gs !! i = Some (EShell s) →
  ∃ s', heap (GameState_update gs) !! i = Some (EShell s') ∧
    (life (GameState_update gs) i = Gone ∨
     lifetime s' ≤ lifetime s - 1 ∧ 0 < lifetime s').
Proof.
  intros Hwf Hrun Hi.
  destruct (frame_life_stored gs i _ Hwf Hrun Hi) as (o'&Ho'&_&Hlife).
  destruct (GameState_update_good gs Hwf) as [Hwf' (Hobj&_)].
  destruct (Hobj _ _ Hi) as (o2&Ho2&Hcl&_). rewrite Ho' in Ho2.
  destruct o2 as [|s'| | |]; try done. simplify_eq. exists s'.
  split; [done|]. rewrite Hlife. case_decide as Hin; [|by left].
  destruct (obj_alive (EShell s')) eqn:Hal; [right|by left].
  destruct (frame_shell_ages gs i s Hwf Hrun Hin Hi) as (s2&Hs2&?).
  rewrite Ho' in Hs2. simplify_eq.
  destruct (wf_lookup _ _ _ Hwf' Ho') as (_&_&(_&Hl&_)). auto.
Qed.

Lemma frames_shell n gs i s :
  wf_state gs → paused gs || game_over gs = false →
  heap gs !! i = Some (EShell s) →
  ∃ s', heap (GameState_frames n gs) !! i = Some (EShell s') ∧
    ((0 < n)%nat →
     life (GameState_frames n gs) i = Gone ∨
     lifetime s' ≤ lifetime s - Z.of_nat n ∧ 0 < lifetime s').
Proof.
  intros Hwf Hrun Hi. induction n as [|n (sn&Hn&IH)];
    [exists s; split; [done|lia]|].
  destruct (GameState_frames_good n gs Hwf) as [Hwfn (_&_&_&_&_&_&Hp&Hg&_)].
  assert (paused (GameState_frames n gs) || game_over (GameState_frames n gs)
          = false) as Hrunn by (by rewrite Hp, Hg).
  destruct (frame_shell _ i sn Hwfn Hrunn Hn) as (s'&Hs'&Hf).
  exists s'. split; [exact Hs'|]. intros _.
  destruct Hf as [?|[??]]; [by left|].
  destruct (decide (n = 0)%nat) as [->|Hpos];
    [right; simpl in Hn; simplify_eq; split; [lia|done]|].
  destruct IH as [Hgone|[??]]; [lia| |right; split; [lia|done]].
  left. pose proof (GameState_update_life _ i Hwfn) as Hfr.
  rewrite Hgone in Hfr. by apply life_frame_gone in Hfr.
Qed.
End ShellLeaves.

(** * Theorems *)

Section LifecycleTheorems.
Context `{Platform}.

(** [C4] The frames of the engine refine the life cycle of the
    specification: in a well-formed state, one call of [GameState.update]
    moves every entity by one transition of [life_frame], so any number
    of frames is a run of the system.  An entity enters the store through
    the pending buffer only, becomes listed at the next running frame,
    is listed only while alive, and leaves the lists when it is dead. *)
Theorem GameState_update_refines_life_cycle n gs i :
  wf_state gs →
  life_frame (negb (paused gs || game_over gs))
    (life gs i) (life (GameState_update gs) i) ∧
  life_run (life gs i) (life (GameState_frames n gs) i).
Proof.
  intros Hwf. split;
    [by apply GameState_update_life|by apply GameState_frames_life_run].
Qed.

(** Life only goes forward, and a purged entity stays purged: over any
    number of frames the rank of an entity in its life cycle does not
    decrease; an entity that is in neither list is in neither list ever
    after; and after a frame that runs no listed entity is dead. *)
Theorem GameState_frames_life_forward n gs i :
  wf_state gs →
  (life_rank (life gs i) ≤ life_rank (life (GameState_frames n gs) i))%nat ∧
  (life gs i = Gone → life (GameState_frames n gs) i = Gone) ∧
  (paused gs || game_over gs = false →
   life (GameState_update gs) i ≠ Fallen).
Proof.
  intros Hwf. pose proof (GameState_frames_life_run n gs i Hwf) as Hrun.
  split_and!.
  - by apply life_run_rank.
  - intros Hg. rewrite Hg in Hrun. by apply life_run_gone.
  - intros Hr. pose proof (GameState_update_life gs i Hwf) as Hf.
    rewrite Hr in Hf. by apply life_frame_not_fallen in Hf.
Qed.

(** The loops of a frame see the listed entities only.  The collision
    passes write no object that is not in [entities], so an entity that
    was constructed during the frame and waits in the pending buffer is
    invisible to them; and an object that is in neither list (a purged
    entity the player reference still points to, say) is never written
    again, whatever the number of frames. *)
Theorem GameState_update_leaves_unlisted n gs k :
  wf_state gs → is_Some (heap gs !! k) →
  (k ∉ entities gs →
   heap (GameState__process_collisions gs) !! k = heap gs !! k) ∧
  (k ∉ entities gs ++ pending_entities gs →
   heap (GameState_frames n gs) !! k = heap gs !! k).
Proof.
  intros Hwf Hs. split.
  - intros Hk. by apply process_collisions_only_listed.
  - intros Hk. by apply GameState_frames_unlisted.
Qed.

(** [C12] Every shell leaves the game.  In a game that runs (not paused, not
    over), a shell in the store is gone from both lists after as many
    frames as it has left to live, and after one frame if it has none:
    whatever it meets, and whether or not it is listed to begin with,
    the collection never keeps a shell longer than its lifetime, and it
    never comes back. *)
Theorem shell_leaves_within_lifetime n m gs i s :
  wf_state gs → paused gs || game_over gs = false →
  heap gs !! i = Some (EShell s) →
  (0 < n)%nat → lifetime s ≤ Z.of_nat n → (n ≤ m)%nat →
  life (GameState_frames m gs) i = Gone ∧
  (i ∉ entities (GameState_frames m gs)) ∧
  (i ∉ pending_entities (GameState_frames m gs)).
Proof.
  intros Hwf Hrun Hi Hn Hl Hm.
  assert (life (GameState_frames m gs) i = Gone) as Hg.
  { destruct (frames_shell m gs i s Hwf Hrun Hi) as (s'&_&Hf).
    destruct Hf as [?|[??]]; [lia|done|lia]. }
  split; [done|]. apply life_Gone in Hg as [_ Hg].
  rewrite elem_of_app in Hg. tauto.
Qed.
End LifecycleTheorems.

(** * Witnesses and examples *)

Lemma GameState_update_refines_life_cycle_witness :
  life_frame (negb (paused demo_state || game_over demo_state))
    (life demo_state 2)
    (life (@GameState_update east_platform demo_state) 2) ∧
  life_run (life demo_state 2)
    (life (@GameState_frames east_platform 3 demo_state) 2).
Proof.
  apply (@GameState_update_refines_life_cycle east_platform). by_compute.
Defined.

Lemma GameState_frames_life_forward_witness :
  (life_rank (life demo_state 2)
   ≤ life_rank (life (@GameState_frames east_platform 3 demo_state) 2))%nat ∧
  (life demo_state 2 = Gone →
   life (@GameState_frames east_platform 3 demo_state) 2 = Gone) ∧
  (paused demo_state || game_over demo_state = false →
   life (@GameState_update east_platform demo_state) 2 ≠ Fallen).
Proof.
  apply (@GameState_frames_life_forward east_platform). by_compute.
Defined.

(** The demonstration state with its mine taken off the list: the mine
    object stays in the store as it is. *)
Definition unlisted_state : GameState :=
  set_entities demo_state [0; 1; 3; 4]%nat [2%nat].

Lemma GameState_update_leaves_unlisted_witness :
  heap (GameState__process_collisions unlisted_state) !! 5%nat
    = heap unlisted_state !! 5%nat ∧
  heap (@GameState_frames east_platform 3 unlisted_state) !! 5%nat
    = heap unlisted_state !! 5%nat.
Proof.
  destruct (@GameState_update_leaves_unlisted east_platform 3
              unlisted_state 5) as [H1 H2]; [by_compute|by eexists|].
  split; [apply H1|apply H2]; by_compute.
Defined.

Lemma shell_leaves_within_lifetime_witness :
  life (@GameState_frames east_platform 95 demo_state) 2 = Gone ∧
  (2%nat ∉ entities (@GameState_frames east_platform 95 demo_state)) ∧
  (2%nat ∉ pending_entities (@GameState_frames east_platform 95 demo_state)).
Proof.
  apply (@shell_leaves_within_lifetime east_platform 90 95 demo_state 2
           demo_shot); first [by_compute | by vm_compute | lia].
Defined.

(** The shell of the demonstration state waits in the pending buffer,
    is merged by the first frame, hits a tank in the same frame and is
    purged at its end; the tanks stay listed; the id the counter has not
    reached is unborn. *)
Example life_demo :
  (λ i, (λ n, life (@GameState_frames east_platform n demo_state) i)
          <$> [0; 1; 2]%nat) <$> [0; 2; 6]%nat
  = [[Live; Live; Live]; [Waiting; Gone; Gone]; [Unborn; Unborn; Unborn]].
Proof. by vm_compute. Qed.
