(* ===== verification/Accounting.v ===== *)
(** * Accounting: every point of damage is paid for

    [src/src/bolo_engine.py], [GameState._process_collisions]: the four
    passes take armor from tanks and health from pillboxes, and destroy
    the shells and detonate the mines that did it.  This file counts
    both sides over the whole store: the health the passes take is at
    most the damage of the ammunition they consume.  A shell therefore
    harms one target at most, whatever the order of the entities, and a
    tank or a pillbox loses nothing in a frame in which no shell and no
    mine is consumed. *)

From stdpp Require Import gmap.
From S2P Require Import Prelude PyFloat Config GameMap Entity Tank Structures.
From S2P Require Import GameState.
Set Warnings "-inexact-float".

(** ** Sums over a store *)

Section MapSum.
Context {A : Type}.
Implicit Types (f g : A → Z) (m : gmap nat A).

(** The sum of [f] over the values of a finite map. *)
Definition map_sum f m : Z := map_fold (λ _ x acc, f x + acc) 0 m.

Lemma map_sum_empty f : map_sum f ∅ = 0.
Proof. apply map_fold_empty. Qed.

Lemma map_sum_insert_None f m i x :
  m !! i = None → map_sum f (<[i := x]> m) = f x + map_sum f m.
Proof.
  intros Hi. unfold map_sum.
  by rewrite map_fold_insert_L by (intros; lia || done).
Qed.

(** Overwriting a value changes the sum by the difference. *)
Lemma map_sum_insert f m i x y :
  m !! i = Some x → map_sum f (<[i := y]> m) = map_sum f m - f x + f y.
Proof.
  intros Hi. rewrite <- (insert_delete_id m i x) at 2 by done.
  rewrite <- (insert_delete_eq m i y).
  rewrite !map_sum_insert_None by apply lookup_delete_eq. lia.
Qed.

(** Overwriting two values. *)
Lemma map_sum_insert_two f m i x x' j y y' :
  i ≠ j → m !! i = Some x → m !! j = Some y →
  map_sum f (<[i := x']> (<[j := y']> m))
  = map_sum f m - f x + f x' - f y + f y'.
Proof.
  intros Hij Hi Hj.
  rewrite (map_sum_insert f _ i x) by by rewrite lookup_insert_ne.
  rewrite (map_sum_insert f m j y) by done. lia.
Qed.
End MapSum.

(** ** Health and ammunition *)

(** What an object can lose to a hit: the armor of a tank, the health of
    a pillbox. *)
Definition health_of (o : EntityObj) : Z :=
  match o with
  | ETank t => armor (resources t)
  | EPillbox p => pill_health p
  | _ => 0
  end.

(** What an object can still take: the damage of a live shell or of a
    live mine. *)
Definition ammo_of (o : EntityObj) : Z :=
  match o with
  | EShell s => if e_alive (shell_base s) then shell_damage s else 0
  | EMine mn => if e_alive (mine_base mn) then mine_damage mn else 0
  | _ => 0
  end.

Definition total_health (gs : GameState) : Z := map_sum health_of (heap gs).
Definition live_ammo (gs : GameState) : Z := map_sum ammo_of (heap gs).

(** The store has lost, since the totals were [h0] and [a0], no more
    health than ammunition. *)
Definition paid (h0 a0 : Z) (h : gmap nat EntityObj) : Prop :=
  h0 - map_sum health_of h ≤ a0 - map_sum ammo_of h.

Section Paid.
Context (h0 a0 : Z).
Implicit Types (gs : GameState) (h : gmap nat EntityObj) (o : EntityObj).
Implicit Types (i j k : nat).

(** Two objects are overwritten, and what the first lost in health the
    second lost in ammunition at least. *)
Lemma paid_insert_two h i o o' j p p' :
  paid h0 a0 h → i ≠ j → h !! i = Some o → h !! j = Some p →
  health_of o + health_of p - health_of o' - health_of p'
  ≤ ammo_of o + ammo_of p - ammo_of o' - ammo_of p' →
  paid h0 a0 (<[i := o']> (<[j := p']> h)).
Proof.
  unfold paid. intros Hp Hij Hi Hj Hle.
  rewrite !(map_sum_insert_two _ h i o o' j p p') by done. lia.
Qed.

Lemma paid_insert h i o o' :
  paid h0 a0 h → h !! i = Some o →
  health_of o - health_of o' ≤ ammo_of o - ammo_of o' →
  paid h0 a0 (<[i := o']> h).
Proof.
  unfold paid. intros Hp Hi Hle. rewrite !(map_sum_insert _ h i o o') by done.
  lia.
Qed.

Lemma Shell_destroy_ammo s : ammo_of (EShell (Shell_destroy s)) = 0.
Proof. done. Qed.

Lemma Tank_take_damage_health a t :
  health_of (ETank (Tank_take_damage a t)) = armor (resources t) - a.
Proof. unfold Tank_take_damage. by case_decide. Qed.

Lemma Pillbox_take_damage_health a p :
  pill_health p - a ≤ health_of (EPillbox (Pillbox_take_damage a p)).
Proof. unfold Pillbox_take_damage. simpl. repeat case_decide; simpl; lia. Qed.

Lemma Mine_detonate_ammo m mn : ammo_of (EMine (Mine_detonate m mn).1) = 0.
Proof. done. Qed.

Lemma collide_shell_tank_paid gs i :
  paid h0 a0 (heap gs) → paid h0 a0 (heap (collide_shell_tank gs i)).
Proof.
  intros Hp. unfold collide_shell_tank.
  destruct (heap gs !! i) as [[|s| | |]|] eqn:Hi; try done.
  destruct (e_alive (shell_base s)) eqn:Hal; [|done].
  apply scan_heap_inv; [|done]. intros k gs'.
  rewrite shell_tank_contact_spec.
  destruct (tank_at gs k) as [t|] eqn:Hk; [|done].
  apply tank_at_Some in Hk.
  destruct (shell_may_hit s t); [|done]. intros [= <-]. simpl.
  eapply paid_insert_two; [done|congruence|done..|].
  rewrite Tank_take_damage_health. simpl. rewrite Hal. lia.
Qed.

Lemma collide_shell_pillbox_paid gs i :
  paid h0 a0 (heap gs) → paid h0 a0 (heap (collide_shell_pillbox gs i)).
Proof.
  intros Hp. unfold collide_shell_pillbox.
  destruct (heap gs !! i) as [[|s| | |]|] eqn:Hi; try done.
  destruct (e_alive (shell_base s)) eqn:Hal; [|done].
  apply scan_heap_inv; [|done]. intros k gs'. unfold shell_pillbox_contact.
  destruct (heap gs !! k) as [[| | |p|]|] eqn:Hk; try done.
  repeat case_match; try done. intros [= <-]. simpl.
  eapply paid_insert_two; [done|congruence|done..|].
  pose proof (Pillbox_take_damage_health (shell_damage s) p).
  simpl in *. rewrite Hal. lia.
Qed.

Lemma collide_mine_tank_paid gs i :
  paid h0 a0 (heap gs) → paid h0 a0 (heap (collide_mine_tank gs i)).
Proof.
  intros Hp. unfold collide_mine_tank.
  destruct (heap gs !! i) as [[| |mn| |]|] eqn:Hi; try done.
  destruct (e_alive (mine_base mn)) eqn:Hal; [|done].
  apply scan_heap_inv; [|done]. intros k gs' Hc.
  apply mine_tank_contact_spec in Hc as (t&Hk%tank_at_Some&_&->).
  eapply paid_insert_two; [done|congruence|done..|].
  rewrite Tank_take_damage_health, Mine_detonate_ammo. simpl. rewrite Hal. lia.
Qed.

Lemma tank_base_contact_paid gs i k :
  paid h0 a0 (heap gs) → paid h0 a0 (heap (tank_base_contact i gs k)).
Proof.
  intros Hp. unfold tank_base_contact.
  destruct (heap gs !! i) as [[t| | | |]|] eqn:Hi; try done.
  destruct (heap gs !! k) as [[| | | |b]|] eqn:Hk; try done.
  pose proof (Base_resupply_tank_armor b t) as Har.
  destruct (Base_resupply_tank b t) as [[b' tr] f]. simpl in Har.
  repeat case_match; try done; simpl.
  - eapply paid_insert_two; [done|congruence|done..|]. simpl. lia.
  - eapply paid_insert; [done..|]. simpl. lia.
Qed.

Lemma collide_tank_base_paid gs i :
  paid h0 a0 (heap gs) → paid h0 a0 (heap (collide_tank_base gs i)).
Proof.
  intros Hp. unfold collide_tank_base. repeat case_match; try done.
  apply (foldl_heap_inv (paid h0 a0)); auto using tank_base_contact_paid.
Qed.

Lemma process_collisions_paid gs :
  paid h0 a0 (heap gs) → paid h0 a0 (heap (GameState__process_collisions gs)).
Proof.
  intros Hp. unfold GameState__process_collisions, collision_pass. cbv zeta.
  repeat (apply (foldl_heap_inv (paid h0 a0));
    [auto using collide_shell_tank_paid, collide_shell_pillbox_paid,
       collide_mine_tank_paid, collide_tank_base_paid|]).
  done.
Qed.
End Paid.

(** ** The whole frame

    The updates of a frame consume ammunition too (a shell that expires
    or meets a wall) and make some: a pillbox that fires constructs a
    shell.  [owed h0 a0 n0] says that since the totals were [h0] and
    [a0] and the id counter [n0], the health lost is at most the
    ammunition consumed plus one shell for every object constructed. *)
Definition owed (h0 a0 : Z) (n0 : nat) (gs : GameState) : Prop :=
  h0 - total_health gs
  ≤ a0 - live_ammo gs
    + SHELL_DAMAGE * (Z.of_nat (id_counter gs) - Z.of_nat n0).

Section Owed.
Context `{Platform} (h0 a0 : Z) (n0 : nat).
Implicit Types (gs : GameState) (o : EntityObj) (i : nat).

(** An object is overwritten and loses no more health than
    ammunition. *)
Lemma owed_store gs i o o' :
  owed h0 a0 n0 gs → heap gs !! i = Some o →
  health_of o - health_of o' ≤ ammo_of o - ammo_of o' →
  owed h0 a0 n0 (store gs i o').
Proof.
  unfold owed, total_health, live_ammo. simpl. intros Ho Hi Hle.
  rewrite !(map_sum_insert _ (heap gs) i o o') by done. lia.
Qed.

(** A shell that is updated keeps its damage and is not revived. *)
Lemma Shell_update_ammo m s :
  Shell_ok s → ammo_of (EShell (Shell_update m s).1) ≤ ammo_of (EShell s).
Proof.
  intros (Hd&_). destruct (Shell_update_le m s) as ((_&_&Hdmg&_)&_&Hal).
  unfold obj_alive in Hal. simpl in *. rewrite Hdmg.
  destruct (e_alive (shell_base (Shell_update m s).1)); [by rewrite Hal|].
  destruct (e_alive (shell_base s)); lia.
Qed.

(** The shell a pillbox fires is a new object of the store. *)
Lemma owed_spawn gs s r :
  heap gs !! id_counter gs = None → owed h0 a0 n0 gs →
  e_id (shell_base s) = id_counter gs →
  e_alive (shell_base s) = true → shell_damage s = SHELL_DAMAGE →
  owed h0 a0 n0
    (add_entity (set_counters gs (S (id_counter gs)) r) (EShell s)).
Proof.
  unfold owed, total_health, live_ammo. simpl. intros Hn Ho -> Hal Hd.
  rewrite !map_sum_insert_None by done.
  simpl. rewrite Hal, Hd. lia.
Qed.

Lemma Entity_update_owed gs i :
  wf_state gs → owed h0 a0 n0 gs → owed h0 a0 n0 (Entity_update gs i).
Proof.
  intros Hwf Ho. unfold Entity_update.
  destruct (heap gs !! i) as [[t|s|mn|p|b]|] eqn:Hi; [..|done].
  - eapply owed_store; [done..|]. simpl.
    destruct (Tank_update_static t) as (_&_&_&->). lia.
  - pose proof (Shell_update_ammo (game_map gs) s) as Ha.
    destruct (Shell_update (game_map gs) s) as [s' m'].
    apply (owed_store gs i (EShell s) (EShell s')) in Ho; [done|done|].
    destruct (wf_lookup _ _ _ Hwf Hi) as (_&_&Hok). specialize (Ha Hok).
    simpl in *. lia.
  - eapply owed_store; [done..|]. unfold Mine_update. lia.
  - pose proof (Pillbox_update_static (heap_tanks gs) (id_counter gs)
                  (rng_pos gs) p) as Hst.
    destruct (Pillbox_update _ _ _ p) as [[[p' shot] n'] r'].
    destruct Hst as (_&_&Hh&_&_&_&Hshot).
    assert (Hp : owed h0 a0 n0 (store gs i (EPillbox p')))
      by (eapply owed_store; [done..|]; simpl; lia).
    destruct shot as [s|]; [|subst n'; exact Hp].
    destruct Hshot as (?&->&?&_&_&?&_).
    apply (owed_spawn (store gs i (EPillbox p')) s r'); [|done..].
    destruct (wf_lookup _ _ _ Hwf Hi) as (_&?&_). simpl.
    rewrite lookup_insert_ne by lia. by apply wf_fresh.
  - eapply owed_store; [done..|]. simpl. lia.
Qed.

Lemma updates_owed l gs :
  wf_state gs → owed h0 a0 n0 gs →
  wf_state (foldl Entity_update gs l) ∧
  owed h0 a0 n0 (foldl Entity_update gs l).
Proof.
  revert gs. induction l as [|i l IH]; intros gs Hwf Ho; simpl; [done|].
  apply IH; [apply Entity_update_good, Hwf|by apply Entity_update_owed].
Qed.

Lemma process_collisions_owed gs :
  wf_state gs → owed h0 a0 n0 gs →
  owed h0 a0 n0 (GameState__process_collisions gs).
Proof.
  intros Hwf Ho.
  destruct (process_collisions_good gs Hwf) as (_&(_&Hn&_)&_).
  pose proof (process_collisions_paid h0
                (a0 + SHELL_DAMAGE
                      * (Z.of_nat (id_counter gs) - Z.of_nat n0)) gs) as Hp.
  unfold paid, owed, total_health, live_ammo, SHELL_DAMAGE in *. lia.
Qed.

Lemma GameState_update_owed gs :
  wf_state gs → owed h0 a0 n0 gs → owed h0 a0 n0 (GameState_update gs).
Proof.
  intros Hwf Ho. unfold GameState_update.
  destruct (paused gs || game_over gs); [done|]. cbv zeta. fold (merged gs).
  set (gs3 := GameState__process_collisions _).
  destruct (frame_camera_cases (remove_dead_entities gs3)) as (x & y & ->).
  change (owed h0 a0 n0 gs3). subst gs3.
  destruct (updates_owed (entities (merged gs)) (merged gs)) as [??];
    [by apply merged_wf|done|].
  by apply process_collisions_owed.
Qed.

Lemma GameState_frames_owed n gs :
  wf_state gs → owed h0 a0 n0 gs → owed h0 a0 n0 (GameState_frames n gs).
Proof.
  intros Hwf Ho. induction n as [|n IH]; simpl; [done|].
  apply GameState_update_owed; [|exact IH].
  by apply GameState_frames_good.
Qed.
End Owed.

(** * Theorems *)

(** [C9] Every point of damage is paid for.  Over the four passes of
    [_process_collisions] the armor of the tanks and the health of the
    pillboxes fall, in total, by no more than the damage of the live
    shells and mines falls: a hit consumes the shell or the mine that
    made it, so no shell harms two targets and nothing is harmed for
    free, in whatever order the entities are listed.  In particular,
    when no live ammunition is left after the passes that was not there
    before, the total health has not fallen at all. *)
Theorem process_collisions_damage_paid gs :
  let gs' := GameState__process_collisions gs in
  total_health gs - total_health gs' ≤ live_ammo gs - live_ammo gs' ∧
  (live_ammo gs ≤ live_ammo gs' → total_health gs ≤ total_health gs').
Proof.
  intros gs'.
  assert (paid (total_health gs) (live_ammo gs) (heap gs')) as Hp.
  { apply process_collisions_paid. unfold paid, total_health, live_ammo. lia. }
  unfold paid, total_health, live_ammo in *. lia.
Qed.

(** [C10] The account of any number of frames.  From a well-formed state, over
    [n] frames of [GameState.update] the armor of the tanks and the
    health of the pillboxes fall, in total, by no more than the live
    ammunition falls plus the damage of one shell for every object
    constructed in those frames, which are the shells the pillboxes
    fired. *)
Theorem GameState_frames_damage_paid `{Platform} n gs :
  wf_state gs →
  let gs' := GameState_frames n gs in
  total_health gs - total_health gs'
  ≤ live_ammo gs - live_ammo gs'
    + SHELL_DAMAGE * (Z.of_nat (id_counter gs') - Z.of_nat (id_counter gs)).
Proof.
  intros Hwf gs'.
  apply (GameState_frames_owed (total_health gs) (live_ammo gs)
           (id_counter gs) n gs Hwf).
  unfold owed. lia.
Qed.

(** * Witnesses and examples *)

Lemma GameState_frames_damage_paid_witness :
  let gs' := @GameState_frames east_platform 3 demo_state in
  total_health demo_state - total_health gs'
  ≤ live_ammo demo_state - live_ammo gs'
    + SHELL_DAMAGE
      * (Z.of_nat (id_counter gs') - Z.of_nat (id_counter demo_state)).
Proof.
  apply (@GameState_frames_damage_paid east_platform 3 demo_state).
  by_compute.
Defined.

(** The scenario of the specification, with the shell listed: the shell
    of damage 1 takes one point of armor and is consumed, so both totals
    fall by one. *)
Example damage_paid_demo :
  let gs := merged demo_state in
  let gs' := GameState__process_collisions gs in
  total_health gs - total_health gs' = 1 ∧ live_ammo gs - live_ammo gs' = 1.
Proof. by vm_compute. Qed.
