(* ===== verification/Controller.v ===== *)
(** * Controller: the class [BoloGame]

    [src/src/bolo_engine.py], class [BoloGame]: the set-up of a game, the
    key handler, the per-frame update with the player's held keys and the
    enemy behaviour, and the loop of [run].  The events and pressed keys
    that pygame reports are inputs of the model; what a frame draws, and
    the loop with its frames, are in [Render]. *)

From stdpp Require Import gmap.
From S2P Require Import Prelude PyFloat Config GameMap MapGen Entity Tank.
From S2P Require Import Structures GameState Lifecycle.
Set Warnings "-inexact-float".

(** ** Inputs *)

(** The keys [_handle_keydown] tells apart. *)
Inductive Key := K_ESCAPE | K_r | K_SPACE | K_m | K_other.

#[export] Instance Key_eq_dec : EqDecision Key.
Proof. solve_decision. Defined.

(** The entries of [pygame.key.get_pressed()] that [_update] reads. *)
Record Pressed := mkPressed {
  K_w : bool; K_UP : bool; K_s : bool; K_DOWN : bool;
  K_a : bool; K_LEFT : bool; K_d : bool; K_RIGHT : bool
}.

(** The events [_handle_events] tells apart. *)
Inductive Event := QUIT | KEYDOWN (key : Key) | OtherEvent.

#[export] Instance Event_eq_dec : EqDecision Event.
Proof. solve_decision. Defined.

(** ** [class BoloGame] *)

Record BoloGame := mkBoloGame {
  running : bool;
  game_state : GameState
}.

Definition set_player (gs : GameState) (p : option nat) : GameState :=
  mkGameState (game_map gs) (entities gs) (pending_entities gs) p
    (camera_x gs) (camera_y gs) (paused gs) (game_over gs) (score gs)
    (heap gs) (id_counter gs) (rng_pos gs).

Definition set_paused (gs : GameState) (b : bool) : GameState :=
  mkGameState (game_map gs) (entities gs) (pending_entities gs) (player gs)
    (camera_x gs) (camera_y gs) b (game_over gs) (score gs)
    (heap gs) (id_counter gs) (rng_pos gs).

(** [self.game_state.entities.append(o)] for an object [o] just
    constructed, whose constructor left the id counter at [n]. *)
Definition entities_append (gs : GameState) (o : EntityObj) (n : nat)
    : GameState :=
  let i := e_id (obj_base o) in
  set_counters
    (set_entities (store gs i o) (entities gs ++ [i]) (pending_entities gs))
    n (rng_pos gs).

(** The body of the loop that spawns the enemies. *)
Definition spawn_enemy (gs : GameState) (i : Z) : GameState :=
  let '(enemy, n) :=
    Tank_init (id_counter gs) (Z2F ((MAP_WIDTH * TILE_SIZE * 3) `div` 4))
      (Z2F ((MAP_HEIGHT * TILE_SIZE) `div` 4 + i * 100)) TEAM_2 in
  entities_append gs (ETank (Tank_set_angle enemy (Z2F 180))) n.

(** The body of the loop that spawns the pillboxes. *)
Definition spawn_pillbox (gs : GameState) (i : Z) : GameState :=
  let '(pill, n) :=
    Pillbox_init (id_counter gs) (Z2F (150 + i * 200))
      (Z2F (MAP_HEIGHT * TILE_SIZE - 150)) NEUTRAL in
  entities_append gs (EPillbox pill) n.

Definition spawn_base (x y : Z) (team : Team) (gs : GameState) : GameState :=
  let '(b, n) := Base_init (id_counter gs) (Z2F x) (Z2F y) team in
  entities_append gs (EBase b) n.

(** The spawns of [_setup_game]: the player, three enemies, three bases
    and four pillboxes. *)
Definition setup_spawns (gs : GameState) : GameState :=
  let '(player, n) :=
    Tank_init (id_counter gs) (Z2F ((MAP_WIDTH * TILE_SIZE) `div` 4))
      (Z2F ((MAP_HEIGHT * TILE_SIZE) `div` 2)) TEAM_1 in
  let gs := set_player gs (Some (e_id (tank_base player))) in
  let gs := entities_append gs (ETank player) n in
  let gs := foldl spawn_enemy gs (py_range 0 3) in
  let gs := spawn_base 200 200 TEAM_1 gs in
  let gs := spawn_base (MAP_WIDTH * TILE_SIZE - 200) 200 TEAM_2 gs in
  let gs :=
    spawn_base ((MAP_WIDTH * TILE_SIZE) `div` 2) ((MAP_HEIGHT * TILE_SIZE) `div` 2)
      NEUTRAL gs in
  foldl spawn_pillbox gs (py_range 0 4).

(** [BoloGame._setup_game] *)
Definition BoloGame__setup_game `{Platform} (gs : GameState)
    : option GameState :=
  '(m, r) ← generate_random (game_map gs) (rng_pos gs);
  Some (setup_spawns (set_counters (set_game_map gs m) (id_counter gs) r)).

(** [BoloGame.__init__], less the window: a new state, set up.  The id
    counter and the generator are those of the process. *)
Definition BoloGame_init `{Platform} (n r : nat) : option BoloGame :=
  mkBoloGame true <$> BoloGame__setup_game (GameState_init n r).

(** The player when it is a live tank: [player and player.alive]. *)
Definition live_player (gs : GameState) : option Tank :=
  match player_tank gs with
  | Some t => if e_alive (tank_base t) then Some t else None
  | None => None
  end.

(** [shell = tank.fire(...); if shell: add_entity(shell)] for the tank
    at [i]. *)
Definition fire_and_add `{Platform} (gs : GameState) (i : nat) (t : Tank)
    : GameState :=
  let '(t', shot, n) := Tank_fire (id_counter gs) t in
  let gs := set_counters (store gs i (ETank t')) n (rng_pos gs) in
  match shot with
  | Some s => add_entity gs (EShell s)
  | None => gs
  end.

Definition place_mine_and_add (gs : GameState) (i : nat) (t : Tank)
    : GameState :=
  let '(t', mine, n) := Tank_place_mine (id_counter gs) t in
  let gs := set_counters (store gs i (ETank t')) n (rng_pos gs) in
  match mine with
  | Some mn => add_entity gs (EMine mn)
  | None => gs
  end.

(** [BoloGame._handle_keydown].  A restart constructs a new [GameState]
    and sets it up; the id counter and the generator go on. *)
Definition BoloGame__handle_keydown `{Platform} (key : Key) (game : BoloGame)
    : option BoloGame :=
  let gs := game_state game in
  match key with
  | K_ESCAPE =>
      Some (mkBoloGame (running game) (set_paused gs (negb (paused gs))))
  | K_r =>
      mkBoloGame (running game) <$>
        BoloGame__setup_game (GameState_init (id_counter gs) (rng_pos gs))
  | _ =>
      match player gs, live_player gs with
      | Some i, Some t =>
          match key with
          | K_SPACE => Some (mkBoloGame (running game) (fire_and_add gs i t))
          | K_m => Some (mkBoloGame (running game) (place_mine_and_add gs i t))
          | _ => Some game
          end
      | _, _ => Some game
      end
  end.

(** [BoloGame._handle_events] on the events pygame reports. *)
Definition handle_event `{Platform} (game : BoloGame) (ev : Event)
    : option BoloGame :=
  match ev with
  | QUIT => Some (mkBoloGame false (game_state game))
  | KEYDOWN key => BoloGame__handle_keydown key game
  | OtherEvent => Some game
  end.

Definition BoloGame__handle_events `{Platform} (events : list Event)
    (game : BoloGame) : option BoloGame :=
  foldlM handle_event game events.

(** The held keys of [_update], applied to the player's tank in the
    order of the code. *)
Definition apply_held `{Platform} (keys : Pressed) (m : GameMap) (t : Tank)
    : Tank :=
  let t := if K_w keys || K_UP keys then Tank_move_forward m t else t in
  let t := if K_s keys || K_DOWN keys then Tank_move_backward m t else t in
  let t := if K_a keys || K_LEFT keys then Tank_rotate_left t else t in
  if K_d keys || K_RIGHT keys then Tank_rotate_right t else t.

(** [BoloGame._simple_enemy_ai] for the tank at [i]. *)
Definition BoloGame__simple_enemy_ai `{Platform} (gs : GameState) (i : nat)
    : GameState :=
  match live_player gs, tank_at gs i with
  | Some p, Some enemy =>
      let dx := (e_x (tank_base p) - e_x (tank_base enemy))%float in
      let dy := (e_y (tank_base p) - e_y (tank_base enemy))%float in
      let target_angle := atan2_deg dy dx in
      let angle_diff :=
        (float_mod (target_angle - tank_angle enemy + 180) 360 - 180)%float in
      let enemy :=
        if (5 <? abs angle_diff)%float then
          if (0 <? angle_diff)%float then Tank_rotate_right enemy
          else Tank_rotate_left enemy
        else enemy in
      let dist := PrimFloat.sqrt (dx * dx + dy * dy)%float in
      if (abs angle_diff <? 30)%float then
        let enemy :=
          if (150 <? dist)%float then Tank_move_forward (game_map gs) enemy
          else enemy in
        let gs := store gs i (ETank enemy) in
        if (dist <? 300)%float then
          let r := random_random (rng_pos gs) in
          let gs := set_counters gs (id_counter gs) (S (rng_pos gs)) in
          if (r <? 0.03)%float then fire_and_add gs i enemy else gs
        else gs
      else store gs i (ETank enemy)
  | _, _ => gs
  end.

(** The body of the enemy loop of [_update]. *)
Definition enemy_step `{Platform} (gs : GameState) (i : nat) : GameState :=
  match tank_at gs i with
  | Some t =>
      if decide (tank_team t = TEAM_2) then BoloGame__simple_enemy_ai gs i
      else gs
  | None => gs
  end.

(** [BoloGame._update] *)
Definition BoloGame__update `{Platform} (keys : Pressed) (game : BoloGame)
    : BoloGame :=
  let gs := game_state game in
  if paused gs then game
  else
    let gs :=
      match player gs, live_player gs with
      | Some i, Some t =>
          store gs i (ETank (apply_held keys (game_map gs) t))
      | _, _ => gs
      end in
    let gs := foldl enemy_step gs (entities gs) in
    mkBoloGame (running game) (GameState_update gs).

(** One turn of the loop of [BoloGame.run], less the rendering and the
    clock: the events of the turn, then the update with the keys held. *)
Definition BoloGame_turn `{Platform} (input : list Event * Pressed)
    (game : BoloGame) : option BoloGame :=
  BoloGame__update input.2 <$> BoloGame__handle_events input.1 game.

(** [BoloGame.run] over the inputs of successive turns: the loop ends
    when [running] is cleared. *)
Fixpoint BoloGame_run `{Platform} (inputs : list (list Event * Pressed))
    (game : BoloGame) : option BoloGame :=
  match inputs with
  | [] => Some game
  | input :: inputs' =>
      if running game then BoloGame_turn input game ≫= BoloGame_run inputs'
      else Some game
  end.

(** ** Lemmas: the controller keeps the state well formed *)

Section ControllerLemmas.
Context `{Platform}.
Implicit Types (gs : GameState) (game : BoloGame) (o : EntityObj) (i : nat).
Implicit Types (t : Tank) (keys : Pressed).

Lemma GameState_init_wf n r : wf_state (GameState_init n r).
Proof.
  split_and!; simpl;
    first [apply GameMap_init_wf|apply map_Forall_empty|by apply Forall_nil
          |done].
Qed.

Lemma set_paused_wf gs b : wf_state gs → wf_state (set_paused gs b).
Proof. by intros (?&?&?&?&?). Qed.

Lemma set_player_wf gs i t :
  wf_state gs → heap gs !! i = Some (ETank t) →
  wf_state (set_player gs (Some i)).
Proof.
  intros (?&?&?&?&?) Hi. split_and!; try done.
  unfold player_ok, tank_at. simpl. by rewrite Hi.
Qed.

(** Constructing an entity and appending it to [entities]. *)
Lemma entities_append_wf gs o :
  wf_state gs → e_id (obj_base o) = id_counter gs → obj_ok o →
  wf_state (entities_append gs o (S (id_counter gs))).
Proof.
  intros Hwf Hid Hok. pose proof (wf_fresh gs Hwf) as Hfresh.
  destruct Hwf as (?&Hh&He&Hp&Hpl). unfold entities_append. rewrite Hid.
  split_and!; simpl; try done.
  - apply map_Forall_insert_2; [split_and!; [done|lia|done]|].
    eapply map_Forall_impl; [exact Hh|].
    intros ???. eapply heap_ok_mono; [|done]. lia.
  - apply Forall_app. split; [by apply refs_ok_insert|].
    apply Forall_singleton. by rewrite lookup_insert_eq.
  - by apply refs_ok_insert.
  - unfold player_ok in *. simpl. destruct (player gs) as [k|]; [|done].
    destruct Hpl as [t Ht]. apply tank_at_Some in Ht. unfold tank_at. simpl.
    rewrite lookup_insert_ne by congruence. by rewrite Ht.
Qed.

Lemma live_player_Some gs t :
  live_player gs = Some t →
  ∃ i, player gs = Some i ∧ heap gs !! i = Some (ETank t) ∧
       e_alive (tank_base t) = true.
Proof.
  unfold live_player, player_tank. destruct (player gs) as [i|]; [|done].
  simpl. destruct (tank_at gs i) as [t'|] eqn:Ht; [|done].
  destruct (e_alive (tank_base t')) eqn:Hal; [|done]. intros [= ->].
  exists i. by rewrite <- tank_at_Some.
Qed.

Lemma Tank_apply_le t op : obj_le (ETank t) (ETank (Tank_apply t op)).
Proof. le_from (Tank_apply_static t op). Qed.

Lemma Tank_foldl_le t ops : obj_le (ETank t) (ETank (foldl Tank_apply t ops)).
Proof. le_from (Tank_foldl_static t ops). Qed.

Lemma fire_and_add_good gs i t :
  wf_state gs → heap gs !! i = Some (ETank t) → good gs (fire_and_add gs i t).
Proof.
  intros Hwf Hi. unfold fire_and_add. wf_facts.
  pose proof (Tank_fire_shot (id_counter gs) t) as Hshot.
  destruct (Tank_fire (id_counter gs) t) as [[t' shot] n].
  destruct Hshot as [-> Hshot].
  assert (Hg : good gs (store gs i (ETank (Tank_apply t (OpFire (id_counter gs)))))).
  { store_step; [apply Tank_apply_le|by apply Tank_fire_ok]. }
  eapply good_trans; [exact Hg|]. destruct shot as [s|].
  - destruct Hshot as (?&->&_&_&_&Hd&Hl&Hr).
    apply (spawn_good (store gs i _) (EShell s)); [apply Hg|done| |done].
    split_and!; simpl; [by rewrite Hd|by rewrite Hl|by rewrite Hr].
  - destruct Hshot as [-> _]. apply set_counters_good; [apply Hg|done..].
Qed.

Lemma place_mine_and_add_good gs i t :
  wf_state gs → heap gs !! i = Some (ETank t) →
  good gs (place_mine_and_add gs i t).
Proof.
  intros Hwf Hi. unfold place_mine_and_add. wf_facts.
  pose proof (Tank_place_mine_shot (id_counter gs) t) as Hshot.
  destruct (Tank_place_mine (id_counter gs) t) as [[t' mine] n].
  destruct Hshot as [-> Hshot].
  assert (Hg : good gs
    (store gs i (ETank (Tank_apply t (OpPlaceMine (id_counter gs)))))).
  { store_step; [apply Tank_apply_le|by apply Tank_place_mine_ok]. }
  eapply good_trans; [exact Hg|]. destruct mine as [mn|].
  - destruct Hshot as (?&->&_&_&Hd&Hr).
    apply (spawn_good (store gs i _) (EMine mn)); [apply Hg|done| |done].
    unfold obj_ok, Mine_ok. by rewrite Hd, Hr.
  - destruct Hshot as [-> _]. apply set_counters_good; [apply Hg|done..].
Qed.

(** The held keys as a sequence of tank methods. *)
Definition held_ops keys (m : GameMap) : list TankOp :=
  (if K_w keys || K_UP keys then [OpMoveForward m] else []) ++
  (if K_s keys || K_DOWN keys then [OpMoveBackward m] else []) ++
  (if K_a keys || K_LEFT keys then [OpRotateLeft] else []) ++
  (if K_d keys || K_RIGHT keys then [OpRotateRight] else []).

Lemma apply_held_ops keys m t :
  apply_held keys m t = foldl Tank_apply t (held_ops keys m).
Proof.
  unfold apply_held, held_ops.
  destruct (K_w keys || K_UP keys), (K_s keys || K_DOWN keys),
    (K_a keys || K_LEFT keys), (K_d keys || K_RIGHT keys);
    cbn [foldl app Tank_apply]; reflexivity.
Qed.

Lemma held_ops_valid keys m : Forall TankOp_valid (held_ops keys m).
Proof.
  unfold held_ops.
  destruct (K_w keys || K_UP keys), (K_s keys || K_DOWN keys),
    (K_a keys || K_LEFT keys), (K_d keys || K_RIGHT keys); simpl;
    by repeat constructor.
Qed.

Lemma apply_held_good keys gs i t :
  wf_state gs → heap gs !! i = Some (ETank t) →
  good gs (store gs i (ETank (apply_held keys (game_map gs) t))).
Proof.
  intros Hwf Hi. wf_facts. rewrite apply_held_ops.
  store_step; [apply Tank_foldl_le|].
  apply Tank_foldl_ok; [done|apply held_ops_valid].
Qed.
(** The tank methods [_simple_enemy_ai] calls before it fires. *)
Definition ai_ops (turn rt fwd : bool) (m : GameMap) : list TankOp :=
  (if turn then [if rt then OpRotateRight else OpRotateLeft] else []) ++
  (if fwd then [OpMoveForward m] else []).

Lemma ai_ops_apply (turn rt fwd : bool) m t :
  (let t := if turn then
              if rt then Tank_rotate_right t else Tank_rotate_left t
            else t in
   if fwd then Tank_move_forward m t else t)
  = foldl Tank_apply t (ai_ops turn rt fwd m).
Proof.
  destruct turn, rt, fwd; cbn [ai_ops app foldl Tank_apply]; reflexivity.
Qed.

Lemma ai_ops_valid (turn rt fwd : bool) m :
  Forall TankOp_valid (ai_ops turn rt fwd m).
Proof. destruct turn, rt, fwd; by repeat constructor. Qed.

Lemma ai_store_good gs i t (turn rt fwd : bool) :
  wf_state gs → heap gs !! i = Some (ETank t) →
  good gs (store gs i
             (ETank (foldl Tank_apply t (ai_ops turn rt fwd (game_map gs))))).
Proof.
  intros Hwf Hi. wf_facts. store_step; [apply Tank_foldl_le|].
  apply Tank_foldl_ok; [done|apply ai_ops_valid].
Qed.

Lemma simple_enemy_ai_good gs i :
  wf_state gs → good gs (BoloGame__simple_enemy_ai gs i).
Proof.
  intros Hwf. unfold BoloGame__simple_enemy_ai.
  destruct (live_player gs) as [p|]; [|by apply good_refl].
  destruct (tank_at gs i) as [enemy|] eqn:Hi; [|by apply good_refl].
  apply tank_at_Some in Hi. cbv zeta.
  set (diff := (float_mod _ 360 - 180)%float).
  set (dist := PrimFloat.sqrt _).
  pose proof (ai_ops_apply (5 <? abs diff)%float (0 <? diff)%float
                (150 <? dist)%float (game_map gs) enemy) as He2.
  pose proof (ai_ops_apply (5 <? abs diff)%float (0 <? diff)%float
                false (game_map gs) enemy) as He1.
  cbv zeta in He1, He2. cbv iota in He1. rewrite He2, He1.
  destruct (abs diff <? 30)%float; [|by apply ai_store_good].
  eapply (good_then (λ g, if (dist <? 300)%float then _ else g));
    [by apply ai_store_good|].
  intros Hwf1. destruct (dist <? 300)%float; [|by apply good_refl].
  eapply (good_then (λ g, if (_ <? 0.03)%float then _ else g)).
  { apply set_counters_good; [done|simpl; lia..]. }
  intros Hwf2. destruct (_ <? 0.03)%float; [|by apply good_refl].
  apply fire_and_add_good; [done|]. simpl. by rewrite lookup_insert_eq.
Qed.

Lemma enemy_step_good gs i : wf_state gs → good gs (enemy_step gs i).
Proof.
  intros Hwf. unfold enemy_step.
  repeat case_match; auto using good_refl, simple_enemy_ai_good.
Qed.

(** The state [_update] hands to [GameState.update]. *)
Lemma update_inputs_good keys gs :
  wf_state gs →
  good gs
    (foldl enemy_step
       match player gs, live_player gs with
       | Some i, Some t => store gs i (ETank (apply_held keys (game_map gs) t))
       | _, _ => gs
       end
       (entities gs)).
Proof.
  intros Hwf.
  eapply (good_then (λ g, foldl enemy_step g (entities gs)));
    [|intros; apply good_foldl; auto using enemy_step_good].
  destruct (player gs) as [i|] eqn:Hp; [|by apply good_refl].
  destruct (live_player gs) as [t|] eqn:Hl; [|by apply good_refl].
  apply live_player_Some in Hl as (i'&?&?&_). simplify_eq.
  by apply apply_held_good.
Qed.

Lemma BoloGame__update_wf keys game :
  wf_state (game_state game) →
  wf_state (game_state (BoloGame__update keys game)).
Proof.
  intros Hwf. unfold BoloGame__update. case_match; [done|]. simpl.
  apply GameState_update_good.
  destruct (update_inputs_good keys (game_state game) Hwf) as [Hwf' Hst].
  match goal with
  | Hwf' : wf_state (foldl _ ?a ?l) |- wf_state (foldl _ ?b ?l') =>
      replace l' with l; [exact Hwf'|]
  end.
  repeat case_match; simpl; done.
Qed.
End ControllerLemmas.

(** ** Lemmas: the set-up *)

(** [gs'] is [gs] with [k] entities constructed and appended. *)
Definition appended (k : nat) (gs gs' : GameState) : Prop :=
  wf_state gs' ∧
  entities gs' = entities gs ++ seq (id_counter gs) k ∧
  id_counter gs' = (id_counter gs + k)%nat ∧
  pending_entities gs' = pending_entities gs ∧
  game_map gs' = game_map gs ∧ rng_pos gs' = rng_pos gs ∧
  paused gs' = paused gs ∧ game_over gs' = game_over gs ∧
  player gs' = player gs ∧
  (∀ i o, heap gs !! i = Some o → heap gs' !! i = Some o) ∧
  (∀ i, is_Some (heap gs' !! i) →
     is_Some (heap gs !! i) ∨ (id_counter gs ≤ i)%nat).

Section SetupLemmas.
Context `{Platform}.
Implicit Types (gs : GameState) (o : EntityObj) (i k : nat).

Lemma appended_trans k1 k2 gs1 gs2 gs3 :
  appended k1 gs1 gs2 → appended k2 gs2 gs3 → appended (k1 + k2) gs1 gs3.
Proof.
  intros (?&He1&Hc1&?&?&?&?&?&?&?&Hn1) (?&He2&Hc2&?&?&?&?&?&?&?&Hn2).
  split_and!; try congruence; auto.
  - rewrite He2, He1, Hc1, <- app_assoc. f_equal. symmetry. apply seq_app.
  - lia.
  - intros i Hi. destruct (Hn2 i Hi) as [?|?]; [auto|right; lia].
Qed.

Lemma entities_append_appended gs o :
  wf_state gs → e_id (obj_base o) = id_counter gs → obj_ok o →
  appended 1 gs (entities_append gs o (S (id_counter gs))).
Proof.
  intros Hwf Hid Hok. split_and!; simpl; try done.
  - by apply entities_append_wf.
  - by rewrite Hid.
  - lia.
  - intros i o' Hi. rewrite lookup_insert_ne; [done|].
    rewrite Hid. intros <-. by rewrite wf_fresh in Hi.
  - intros i [<-|[_ ?]]%lookup_insert_is_Some; [right; lia|by left].
Qed.

Lemma spawn_enemy_appended gs (z : Z) :
  wf_state gs → appended 1 gs (spawn_enemy gs z).
Proof.
  intros. apply entities_append_appended; [done..|].
  apply Tank_ok_set_angle; [by vm_compute|apply Tank_init_ok].
Qed.

Lemma spawn_base_appended x y tm gs :
  wf_state gs → appended 1 gs (spawn_base x y tm gs).
Proof.
  intros. apply entities_append_appended; [done..|]. apply Base_init_ok.
Qed.

Lemma spawn_pillbox_appended gs (z : Z) :
  wf_state gs → appended 1 gs (spawn_pillbox gs z).
Proof.
  intros. apply entities_append_appended; [done..|]. apply Pillbox_init_ok.
Qed.

Lemma appended_then k1 k2 gs gs1 (f : GameState → GameState) :
  appended k1 gs gs1 → (wf_state gs1 → appended k2 gs1 (f gs1)) →
  appended (k1 + k2) gs (f gs1).
Proof.
  intros H1 Hf. eapply appended_trans; [done|]. apply Hf, H1.
Qed.

Lemma appended_foldl (f : GameState → Z → GameState) (l : list Z) gs :
  (∀ gs z, wf_state gs → appended 1 gs (f gs z)) →
  wf_state gs → appended (length l) gs (foldl f gs l).
Proof.
  intros Hf. revert gs. induction l as [|z l IH]; intros gs Hwf; simpl.
  - split_and!; auto. by rewrite app_nil_r.
  - apply (appended_trans 1 (length l) gs (f gs z)); [by apply Hf|].
    apply IH. by destruct (Hf gs z Hwf).
Qed.
(** The tank [_setup_game] constructs for the player. *)
Definition player_tank_init (n : nat) : Tank :=
  (Tank_init n (Z2F ((MAP_WIDTH * TILE_SIZE) `div` 4))
     (Z2F ((MAP_HEIGHT * TILE_SIZE) `div` 2)) TEAM_1).1.

Lemma setup_spawns_spec gs :
  wf_state gs →
  let gs' := setup_spawns gs in
  wf_state gs' ∧
  entities gs' = entities gs ++ seq (id_counter gs) 11 ∧
  id_counter gs' = (id_counter gs + 11)%nat ∧
  pending_entities gs' = pending_entities gs ∧
  game_map gs' = game_map gs ∧ rng_pos gs' = rng_pos gs ∧
  paused gs' = paused gs ∧ game_over gs' = game_over gs ∧
  player gs' = Some (id_counter gs) ∧
  heap gs' !! id_counter gs = Some (ETank (player_tank_init (id_counter gs))) ∧
  (∀ i, is_Some (heap gs' !! i) →
     is_Some (heap gs !! i) ∨ (id_counter gs ≤ i)%nat).
Proof.
  intros Hwf gs'.
  set (gs1 := entities_append gs (ETank (player_tank_init (id_counter gs)))
                (S (id_counter gs))).
  assert (H1 : appended 1 gs gs1).
  { apply entities_append_appended; [done..|]. apply Tank_init_ok. }
  assert (Hp : heap gs1 !! id_counter gs =
               Some (ETank (player_tank_init (id_counter gs)))).
  { subst gs1. simpl. by rewrite lookup_insert_eq. }
  set (gs2 := set_player gs1 (Some (id_counter gs))).
  assert (Hwf2 : wf_state gs2).
  { eapply set_player_wf; [apply H1|exact Hp]. }
  assert (H10 : appended 10 gs2 gs').
  { subst gs'. unfold setup_spawns. simpl. fold gs1. fold gs2.
    apply (appended_then 6 4 _ _ (λ g, foldl spawn_pillbox g (py_range 0 4)));
      [|intros; apply (appended_foldl spawn_pillbox (py_range 0 4));
        auto using spawn_pillbox_appended].
    apply (appended_then 5 1 _ _ (spawn_base _ _ _));
      [|apply spawn_base_appended].
    apply (appended_then 4 1 _ _ (spawn_base _ _ _));
      [|apply spawn_base_appended].
    apply (appended_then 3 1 _ _ (spawn_base _ _ _));
      [|apply spawn_base_appended].
    apply (appended_foldl spawn_enemy (py_range 0 3));
      auto using spawn_enemy_appended. }
  destruct H1 as (_&He1&Hc1&?&?&?&?&?&_&_&Hn1).
  destruct H10 as (?&He&Hc&?&?&?&?&?&?&Hheap&Hn10).
  split_and!; try done; try (simpl in *; congruence).
  - rewrite He. simpl. by rewrite <- app_assoc.
  - rewrite Hc. simpl. lia.
  - by apply Hheap.
  - intros i Hi. destruct (Hn10 i Hi) as [?|?]; [by apply Hn1|].
    right. simpl in *. lia.
Qed.
End SetupLemmas.

(** ** Theorems *)

Section ControllerTheorems.
Context `{Platform}.
Implicit Types (gs : GameState) (game : BoloGame) (keys : Pressed).

(** The number of interior cells of the configured map, each of which
    takes one draw. *)
Definition setup_draws : nat := 2852.

Lemma setup_game_run n r :
  ∃ m,
    generate_random (GameMap_init MAP_WIDTH MAP_HEIGHT) r
      = Some (m, (r + setup_draws)%nat) ∧
    BoloGame__setup_game (GameState_init n r) =
      Some (setup_spawns
              (set_counters (set_game_map (GameState_init n r) m) n
                 (r + setup_draws))) ∧
    wf_map m ∧ width m = MAP_WIDTH ∧ height m = MAP_HEIGHT ∧
    get_tile m 16 24 = ROAD.
Proof.
  destruct (generate_random_cells (GameMap_init MAP_WIDTH MAP_HEIGHT) r)
    as (m & Hgen & Hwf & Hw & Hh & Hcell);
    [apply GameMap_init_wf|by_compute|].
  assert (Hdraws : draws_before (GameMap_init MAP_WIDTH MAP_HEIGHT)
                     (rows (GameMap_init MAP_WIDTH MAP_HEIGHT)) 0
                   = setup_draws) by (vm_compute; reflexivity).
  rewrite Hdraws in Hgen.
  exists m. unfold BoloGame__setup_game.
  change (game_map (GameState_init n r))
    with (GameMap_init MAP_WIDTH MAP_HEIGHT).
  change (rng_pos (GameState_init n r)) with r.
  rewrite Hgen. split_and!; [reflexivity|reflexivity|exact Hwf|exact Hw
                            |exact Hh|].
  rewrite Hcell by by_compute. unfold generated_tile.
  assert (on_col_road (GameMap_init MAP_WIDTH MAP_HEIGHT) 16 24
          || on_row_road (GameMap_init MAP_WIDTH MAP_HEIGHT) 16 24 = true)
    as -> by (vm_compute; reflexivity).
  reflexivity.
Qed.

(** The state in which [_setup_game] spawns the entities. *)
Lemma setup_map_wf n r m :
  wf_map m → width m = MAP_WIDTH → height m = MAP_HEIGHT →
  wf_state (set_counters (set_game_map (GameState_init n r) m) n
              (r + setup_draws)).
Proof.
  intros ???.
  assert (Hg : good (GameState_init n r)
                 (set_game_map (GameState_init n r) m)).
  { apply set_game_map_good; auto using GameState_init_wf. }
  apply set_counters_good; [apply Hg|cbn; lia..].
Qed.

(** The run of [_setup_game] on a new state. *)
Lemma setup_game_new n r :
  ∃ gs, BoloGame__setup_game (GameState_init n r) = Some gs ∧
    wf_state gs ∧ entities gs = seq n 11 ∧ pending_entities gs = [] ∧
    player gs = Some n ∧ id_counter gs = (n + 11)%nat ∧
    rng_pos gs = (r + setup_draws)%nat ∧
    paused gs = false ∧ game_over gs = false ∧
    live_player gs = Some (player_tank_init n) ∧
    tank_team (player_tank_init n) = TEAM_1 ∧
    (let '(tx, ty) := tile_position (tank_base (player_tank_init n)) in
     get_tile (game_map gs) tx ty = ROAD).
Proof.
  destruct (setup_game_run n r) as (m & _ & Hrun & Hwf & Hw & Hh & Hroad).
  eexists. split; [exact Hrun|].
  pose proof (setup_map_wf n r m Hwf Hw Hh) as Hwf0.
  destruct (setup_spawns_spec _ Hwf0)
    as (?&He&Hc&Hpe&Hm&Hr&Hpa&Hgo&Hp&Hhp&_).
  split_and!; [done|exact He|exact Hpe|exact Hp|exact Hc|exact Hr|exact Hpa
              |exact Hgo| |reflexivity|].
  - unfold live_player, player_tank. rewrite Hp. cbn [mbind option_bind].
    unfold tank_at. rewrite Hhp. reflexivity.
  - assert (tile_position (tank_base (player_tank_init n)) = (16, 24)) as ->
      by (vm_compute; reflexivity).
    rewrite Hm. exact Hroad.
Qed.

(** [C30] [_setup_game] on a new state always succeeds and yields a
    well-formed state: eleven entities with consecutive ids from the id
    counter on (the player, three enemies, three bases, four pillboxes),
    nothing pending, the player a live tank of team 1 standing on the
    road whatever the random terrain, and one random number drawn for
    each of the 2852 interior cells of the map. *)
Theorem BoloGame__setup_game_spec n r :
  ∃ gs, BoloGame__setup_game (GameState_init n r) = Some gs ∧
    wf_state gs ∧ entities gs = seq n 11 ∧ pending_entities gs = [] ∧
    player gs = Some n ∧ id_counter gs = (n + 11)%nat ∧
    rng_pos gs = (r + setup_draws)%nat ∧
    paused gs = false ∧ game_over gs = false ∧
    live_player gs = Some (player_tank_init n) ∧
    tank_team (player_tank_init n) = TEAM_1 ∧
    (let '(tx, ty) := tile_position (tank_base (player_tank_init n)) in
     get_tile (game_map gs) tx ty = ROAD).
Proof. apply setup_game_new. Qed.
Lemma handle_keydown_wf key game :
  wf_state (game_state game) →
  ∃ game', BoloGame__handle_keydown key game = Some game' ∧
           wf_state (game_state game') ∧ running game' = running game.
Proof.
  intros Hwf.
  assert (∀ g, wf_state (game_state g) → running g = running game →
            ∃ game', Some g = Some game' ∧ wf_state (game_state game') ∧
                     running game' = running game) as Hsome by eauto.
  assert (∀ (f : GameState → nat → Tank → GameState),
            (∀ i (t : Tank), heap (game_state game) !! i = Some (ETank t) →
                    wf_state (f (game_state game) i t)) →
            ∃ game',
              match player (game_state game), live_player (game_state game) with
              | Some i, Some t =>
                  Some (mkBoloGame (running game) (f (game_state game) i t))
              | _, _ => Some game
              end = Some game' ∧
              wf_state (game_state game') ∧ running game' = running game)
    as Hplayer.
  { intros f Hf.
    destruct (player (game_state game)) as [i|] eqn:Hp; [|by apply Hsome].
    destruct (live_player (game_state game)) as [t|] eqn:Hl;
      [|by apply Hsome].
    apply live_player_Some in Hl as (i'&?&?&_). simplify_eq.
    apply Hsome; [by apply Hf|done]. }
  destruct key; unfold BoloGame__handle_keydown.
  - apply Hsome; [by apply set_paused_wf|done].
  - destruct (setup_game_new (id_counter (game_state game))
                (rng_pos (game_state game))) as (gs & -> & ? & _).
    by apply Hsome.
  - apply (Hplayer (λ gs i t, fire_and_add gs i t)).
    intros. by apply fire_and_add_good.
  - apply (Hplayer (λ gs i t, place_mine_and_add gs i t)).
    intros. by apply place_mine_and_add_good.
  - destruct (player (game_state game)), (live_player (game_state game));
      by apply Hsome.
Qed.

Lemma handle_events_wf events game :
  wf_state (game_state game) →
  ∃ game', BoloGame__handle_events events game = Some game' ∧
           wf_state (game_state game').
Proof.
  revert game. unfold BoloGame__handle_events.
  induction events as [|ev events IH]; intros game Hwf; simpl;
    [by exists game|].
  assert (∃ g1, handle_event game ev = Some g1 ∧ wf_state (game_state g1))
    as (g1 & -> & Hwf1).
  { destruct ev; simpl; [by exists (mkBoloGame false (game_state game))|
                         |by exists game].
    destruct (handle_keydown_wf key game Hwf) as (g1 & ? & ? & _). eauto. }
  simpl. by apply IH.
Qed.

Lemma BoloGame_run_wf inputs game :
  wf_state (game_state game) →
  ∃ game', BoloGame_run inputs game = Some game' ∧
           wf_state (game_state game').
Proof.
  revert game. induction inputs as [|input inputs IH]; intros game Hwf; simpl;
    [by exists game|].
  destruct (running game); [|by exists game]. unfold BoloGame_turn.
  destruct (handle_events_wf input.1 game Hwf) as (g1 & -> & Hwf1). simpl.
  apply IH. by apply BoloGame__update_wf.
Qed.


(** Escape pauses and resumes, and a paused game stands still:
    the key flips [paused] and changes nothing else, pressing it twice
    gives the game back, and while [paused] is set [_update] returns the
    game unchanged whatever keys are held. *)
Theorem BoloGame_pause game keys :
  ∃ game1, BoloGame__handle_keydown K_ESCAPE game = Some game1 ∧
    paused (game_state game1) = negb (paused (game_state game)) ∧
    BoloGame__handle_keydown K_ESCAPE game1 = Some game ∧
    (paused (game_state game) = false → BoloGame__update keys game1 = game1).
Proof.
  eexists. split; [reflexivity|]. destruct game as [run gs]. simpl.
  split_and!; [done| |by intros ->].
  rewrite negb_involutive. by destruct gs.
Qed.

(** A restart starts afresh and reuses no id: the [R] key always
    succeeds and replaces the state by a newly set-up one, whose eleven
    entities carry the ids from the old id counter on, so that no object
    of the old state is in the new one; the id counter and the random
    sequence go on from where they were, and the game is not paused. *)
Theorem BoloGame_restart_fresh game :
  let gs := game_state game in
  ∃ gs', BoloGame__handle_keydown K_r game = Some (mkBoloGame (running game) gs') ∧
    wf_state gs' ∧ entities gs' = seq (id_counter gs) 11 ∧
    player gs' = Some (id_counter gs) ∧ paused gs' = false ∧
    id_counter gs' = (id_counter gs + 11)%nat ∧
    rng_pos gs' = (rng_pos gs + setup_draws)%nat ∧
    ∀ i, is_Some (heap gs' !! i) → (id_counter gs ≤ i)%nat.
Proof.
  intros gs.
  destruct (setup_game_run (id_counter gs) (rng_pos gs))
    as (m & _ & Hrun & Hwf & Hw & Hh & _).
  unfold BoloGame__handle_keydown. fold gs. rewrite Hrun.
  pose proof (setup_map_wf (id_counter gs) (rng_pos gs) m Hwf Hw Hh) as Hwf0.
  destruct (setup_spawns_spec _ Hwf0)
    as (?&He&Hc&_&_&Hr&Hpa&_&Hp&_&Hnew).
  eexists. split; [reflexivity|].
  split_and!; [done|exact He|exact Hp|exact Hpa|exact Hc|exact Hr|].
  intros i Hi. destruct (Hnew i Hi) as [[o Ho]|?]; [|done].
  exfalso. exact (lookup_empty_Some (M := gmap nat) i o Ho).
Qed.

(** A dead player is not driven: when the player is missing or
    dead, the fire and mine keys change nothing, and [_update] ignores
    the held keys. *)
Theorem BoloGame_dead_player game keys :
  live_player (game_state game) = None →
  BoloGame__handle_keydown K_SPACE game = Some game ∧
  BoloGame__handle_keydown K_m game = Some game ∧
  BoloGame__update keys game =
    BoloGame__update (mkPressed false false false false false false false false)
      game.
Proof.
  intros Hl. unfold BoloGame__handle_keydown, BoloGame__update.
  rewrite Hl. by destruct (player (game_state game)).
Qed.
Lemma fire_and_add_heap gs i (t : Tank) j :
  j ≠ i → (j < id_counter gs)%nat →
  heap (fire_and_add gs i t) !! j = heap gs !! j.
Proof.
  intros ??. unfold fire_and_add.
  pose proof (Tank_fire_shot (id_counter gs) t) as Hshot.
  destruct (Tank_fire (id_counter gs) t) as [[t' [s|]] n];
    destruct Hshot as [_ Hshot]; simpl.
  - destruct Hshot as (->&_). rewrite !lookup_insert_ne by lia. done.
  - by rewrite lookup_insert_ne.
Qed.

Lemma simple_enemy_ai_heap gs i j :
  j ≠ i → (j < id_counter gs)%nat →
  heap (BoloGame__simple_enemy_ai gs i) !! j = heap gs !! j.
Proof.
  intros ??. unfold BoloGame__simple_enemy_ai.
  destruct (live_player gs); [|done]. destruct (tank_at gs i); [|done].
  cbv zeta.
  repeat match goal with
  | |- context [if ?c then _ else _] => destruct c
  end; rewrite ?fire_and_add_heap by done; simpl;
    by rewrite lookup_insert_ne.
Qed.

(** The enemy behaviour drives the tanks of team 2 and no other:
    through the enemy loop of [_update], over any list of entities, a
    tank of another team, the player's among them, is left exactly as it
    was. *)
Theorem enemy_ai_only_team2 gs l j (t : Tank) :
  wf_state gs → heap gs !! j = Some (ETank t) → tank_team t ≠ TEAM_2 →
  heap (foldl enemy_step gs l) !! j = Some (ETank t).
Proof.
  intros Hwf Hj Hteam. revert gs Hwf Hj.
  induction l as [|i l IH]; intros gs Hwf Hj; simpl; [done|].
  apply IH; [by apply enemy_step_good|].
  unfold enemy_step. destruct (tank_at gs i) as [e|] eqn:Hi; [|done].
  case_decide; [|done]. apply tank_at_Some in Hi.
  rewrite simple_enemy_ai_heap; [done| |].
  - intros ->. congruence.
  - by destruct (wf_lookup _ _ _ Hwf Hj) as (_&?&_).
Qed.
(** ** Discrete actions pressed more than once in a frame *)

(** The player stays the live tank it was while its object is replaced
    by a live one. *)
Lemma live_player_store gs i t' :
  player gs = Some i → e_alive (tank_base t') = true →
  live_player (store gs i (ETank t')) = Some t'.
Proof.
  intros Hp Hal. unfold live_player, player_tank, tank_at. simpl.
  rewrite Hp. simpl. by rewrite lookup_insert_eq, Hal.
Qed.

(** A state is not changed by writing back the object it holds. *)
Lemma store_same gs i o : heap gs !! i = Some o → store gs i o = gs.
Proof.
  intros Hi. unfold store, set_heap. rewrite insert_id by done.
  by destruct gs.
Qed.

(** [fire] on cooldown or without shells changes nothing. *)
Lemma fire_and_add_blocked gs i t :
  heap gs !! i = Some (ETank t) →
  0 < tank_fire_cooldown t ∨ shells (resources t) ≤ 0 →
  fire_and_add gs i t = gs.
Proof.
  intros Hi Hb. unfold fire_and_add, Tank_fire. rewrite decide_True by done.
  rewrite store_same by done. by destruct gs.
Qed.

(** [fire] that succeeds leaves the tank on cooldown. *)
Lemma fire_and_add_fires gs i t :
  wf_state gs → player gs = Some i → heap gs !! i = Some (ETank t) →
  ¬ (0 < tank_fire_cooldown t ∨ shells (resources t) ≤ 0) →
  ∃ t', heap (fire_and_add gs i t) !! i = Some (ETank t') ∧
    player (fire_and_add gs i t) = Some i ∧
    tank_base t' = tank_base t ∧ tank_fire_cooldown t' = tank_fire_rate t.
Proof.
  intros Hwf Hp Hi Hb. unfold fire_and_add, Tank_fire.
  rewrite decide_False by done. simpl. eexists. split.
  - rewrite lookup_insert_ne, lookup_insert_eq; [done|].
    destruct (wf_lookup _ _ _ Hwf Hi) as (_&?&_). simpl in *. lia.
  - by split_and!.
Qed.

(** [place_mine] with a mine in stock: the stock is one less and the
    mine, with the next id, is at the end of the pending buffer. *)
Lemma place_mine_and_add_places gs i t :
  wf_state gs → heap gs !! i = Some (ETank t) → 0 < mines (resources t) →
  let gs' := place_mine_and_add gs i t in
  let n := id_counter gs in
  pending_entities gs' = pending_entities gs ++ [n] ∧
  id_counter gs' = S n ∧ player gs' = player gs ∧
  heap gs' !! n
    = Some (EMine (Mine_init n (e_x (tank_base t)) (e_y (tank_base t))
                     (tank_team t) false).1) ∧
  heap gs' !! i
    = Some (ETank (Tank_set_resources t
              (Resources_set_mines (resources t) (mines (resources t) - 1)))) ∧
  ∀ j, j ≠ i → j ≠ n → heap gs' !! j = heap gs !! j.
Proof.
  intros Hwf Hi Hm. unfold place_mine_and_add, Tank_place_mine.
  rewrite decide_False by lia. simpl. split_and!; [done..| | |].
  - by rewrite lookup_insert_eq.
  - rewrite lookup_insert_ne, lookup_insert_eq; [done|].
    destruct (wf_lookup _ _ _ Hwf Hi) as (_&?&_). simpl in *. lia.
  - intros j ??. by rewrite !lookup_insert_ne.
Qed.

Lemma live_player_intro gs i t :
  player gs = Some i → heap gs !! i = Some (ETank t) →
  e_alive (tank_base t) = true → live_player gs = Some t.
Proof.
  intros Hp Hi Hal. unfold live_player, player_tank, tank_at.
  rewrite Hp. simpl. by rewrite Hi, Hal.
Qed.

(** The fire key on a tank that cannot fire, any number of times. *)
Lemma fire_key_blocked game i t n :
  player (game_state game) = Some i →
  heap (game_state game) !! i = Some (ETank t) →
  e_alive (tank_base t) = true →
  0 < tank_fire_cooldown t ∨ shells (resources t) ≤ 0 →
  BoloGame__handle_events (replicate n (KEYDOWN K_SPACE)) game = Some game.
Proof.
  intros Hp Hi Hal Hb. induction n as [|n IH]; [done|].
  unfold BoloGame__handle_events in *. simpl.
  rewrite Hp, (live_player_intro _ i t) by done. simpl.
  rewrite fire_and_add_blocked by done. by destruct game.
Qed.

(** The fire key acts at most once in a frame: however many [KEYDOWN]
    events of the key the frame reports, the game is as after the first
    of them, because a shot leaves the tank on cooldown and a tank that
    cannot fire is not changed by [fire]. *)
Theorem BoloGame_fire_key_once game i t n :
  wf_state (game_state game) → player (game_state game) = Some i →
  heap (game_state game) !! i = Some (ETank t) →
  e_alive (tank_base t) = true → 0 < tank_fire_rate t →
  BoloGame__handle_events (replicate (S n) (KEYDOWN K_SPACE)) game
  = BoloGame__handle_events [KEYDOWN K_SPACE] game.
Proof.
  intros Hwf Hp Hi Hal Hrate.
  destruct (decide (0 < tank_fire_cooldown t ∨ shells (resources t) ≤ 0))
    as [Hb|Hb].
  { rewrite (fire_key_blocked game i t (S n)) by done.
    symmetry. by apply (fire_key_blocked game i t 1). }
  destruct (fire_and_add_fires _ i t Hwf Hp Hi Hb) as (t'&Hi'&Hp'&Hbase&Hcd).
  unfold BoloGame__handle_events. simpl.
  rewrite Hp, (live_player_intro _ i t) by done. simpl.
  apply (fire_key_blocked (mkBoloGame _ _) i t'); simpl;
    [done|done|by rewrite Hbase|lia].
Qed.

(** [C36] The mine key acts as often as it is reported: two [KEYDOWN] events
    of the key in one frame place two mines, both where the tank stands,
    and take two mines from the stock, since [place_mine] has no
    cooldown. *)
Theorem BoloGame_mine_key_repeats game i t :
  let gs := game_state game in
  let n := id_counter gs in
  wf_state gs → player gs = Some i → heap gs !! i = Some (ETank t) →
  e_alive (tank_base t) = true → 2 ≤ mines (resources t) →
  ∃ game', BoloGame__handle_events [KEYDOWN K_m; KEYDOWN K_m] game
           = Some game' ∧
    pending_entities (game_state game') = pending_entities gs ++ [n; S n] ∧
    (∃ t', heap (game_state game') !! i = Some (ETank t') ∧
           mines (resources t') = mines (resources t) - 2) ∧
    ∀ j, j ∈ [n; S n] →
      ∃ mn, heap (game_state game') !! j = Some (EMine mn) ∧
        e_alive (mine_base mn) = true ∧
        e_x (mine_base mn) = e_x (tank_base t) ∧
        e_y (mine_base mn) = e_y (tank_base t).
Proof.
  intros gs n Hwf Hp Hi Hal Hm.
  destruct (place_mine_and_add_places gs i t Hwf Hi) as (Hpe&Hn&Hp1&Hmn&Hi1&_);
    [lia|].
  set (gs1 := place_mine_and_add gs i t) in *.
  set (t1 := Tank_set_resources t _) in *.
  assert (Hwf1 : wf_state gs1) by by apply place_mine_and_add_good.
  destruct (place_mine_and_add_places gs1 i t1 Hwf1 Hi1)
    as (Hpe2&_&_&Hmn2&Hi2&Hrest); [simpl; lia|].
  assert (n ≠ i) by (destruct (wf_lookup _ _ _ Hwf Hi) as (_&?&_);
                     subst n; simpl in *; lia).
  eexists. split.
  { unfold BoloGame__handle_events. simpl. fold gs.
    rewrite Hp, (live_player_intro gs i t) by done. simpl. fold gs1.
    by rewrite Hp1, Hp, (live_player_intro gs1 i t1) by (done || congruence). }
  subst n. simpl. rewrite Hpe2, Hpe, Hn, <- app_assoc. split_and!; [done| |].
  - eexists. split; [exact Hi2|]. simpl. lia.
  - intros j [->|[->|[]%elem_of_nil]%elem_of_cons]%elem_of_cons.
    + rewrite Hrest, Hmn by (rewrite ?Hn; lia). by eexists.
    + rewrite Hn in Hmn2. rewrite Hmn2. by eexists.
Qed.

(** ** A paused game

    [_update] returns at once while [paused] is set, but [_handle_events]
    runs before it in every turn.  [acted gs gs'] is what the keys of a
    turn may change: the player's tank, the pending buffer, the objects
    constructed into it and the id counter; nothing else. *)
Definition acted (gs gs' : GameState) : Prop :=
  game_map gs' = game_map gs ∧ entities gs' = entities gs ∧
  player gs' = player gs ∧ camera_x gs' = camera_x gs ∧
  camera_y gs' = camera_y gs ∧ paused gs' = paused gs ∧
  rng_pos gs' = rng_pos gs ∧ (id_counter gs ≤ id_counter gs')%nat ∧
  pending_entities gs `prefix_of` pending_entities gs' ∧
  ∀ j, player gs ≠ Some j → (j < id_counter gs)%nat →
       heap gs' !! j = heap gs !! j.

Lemma acted_refl gs : acted gs gs.
Proof. by unfold acted. Qed.

Lemma acted_trans gs1 gs2 gs3 : acted gs1 gs2 → acted gs2 gs3 → acted gs1 gs3.
Proof.
  intros (Hm&He&Hp&Hx&Hy&Hpa&Hr&Hn&Hpe&Hh) (Hm'&He'&Hp'&Hx'&Hy'&Hpa'&Hr'&Hn'&Hpe'&Hh').
  unfold acted. split_and!; try congruence; [lia|by etrans|].
  intros j Hj Hlt. rewrite Hh', Hh; [done..|congruence|lia].
Qed.

Lemma fire_and_add_acted gs i t :
  player gs = Some i → acted gs (fire_and_add gs i t).
Proof.
  intros Hp. unfold fire_and_add.
  pose proof (Tank_fire_shot (id_counter gs) t) as Hshot.
  destruct (Tank_fire (id_counter gs) t) as [[t' [s|]] n];
    destruct Hshot as [_ Hshot]; unfold acted; simpl.
  - destruct Hshot as (Hid&->&_). rewrite Hid.
    split_and!; try done; [lia|by apply prefix_app_r|].
    intros j Hj ?. rewrite !lookup_insert_ne by (lia || congruence). done.
  - destruct Hshot as [-> _]. split_and!; try done.
    intros j Hj ?. rewrite lookup_insert_ne by congruence. done.
Qed.

Lemma place_mine_and_add_acted gs i t :
  player gs = Some i → acted gs (place_mine_and_add gs i t).
Proof.
  intros Hp. unfold place_mine_and_add.
  pose proof (Tank_place_mine_shot (id_counter gs) t) as Hshot.
  destruct (Tank_place_mine (id_counter gs) t) as [[t' [mn|]] n];
    destruct Hshot as [_ Hshot]; unfold acted; simpl.
  - destruct Hshot as (Hid&->&_). rewrite Hid.
    split_and!; try done; [lia|by apply prefix_app_r|].
    intros j Hj ?. rewrite !lookup_insert_ne by (lia || congruence). done.
  - destruct Hshot as [-> _]. split_and!; try done.
    intros j Hj ?. rewrite lookup_insert_ne by congruence. done.
Qed.

(** An event other than Escape and the restart key. *)
Lemma handle_event_acted game ev :
  ev ≠ KEYDOWN K_ESCAPE → ev ≠ KEYDOWN K_r →
  ∃ game', handle_event game ev = Some game' ∧
    acted (game_state game) (game_state game').
Proof.
  intros Hesc Hr.
  destruct ev as [|key|]; cbn [handle_event]; [by eauto using acted_refl|
                                              |by eauto using acted_refl].
  destruct key; unfold BoloGame__handle_keydown; [done|done|..].
  3: by destruct (player (game_state game)), (live_player (game_state game));
       eauto using acted_refl.
  all: destruct (player (game_state game)) as [j|] eqn:Hp;
    [|by eauto using acted_refl];
    destruct (live_player (game_state game)) as [t|] eqn:Hl;
    [|by eauto using acted_refl]; eexists; split; [done|].
  - by apply fire_and_add_acted.
  - by apply place_mine_and_add_acted.
Qed.

Lemma handle_events_acted events game :
  KEYDOWN K_ESCAPE ∉ events → KEYDOWN K_r ∉ events →
  ∃ game', BoloGame__handle_events events game = Some game' ∧
    acted (game_state game) (game_state game').
Proof.
  unfold BoloGame__handle_events. revert game.
  induction events as [|ev events IH]; intros game Hesc Hr; simpl;
    [eauto using acted_refl|].
  apply not_elem_of_cons in Hesc as [? Hesc].
  apply not_elem_of_cons in Hr as [? Hr].
  destruct (handle_event_acted game ev) as (g1 & -> & Ha); [done..|].
  destruct (IH g1 Hesc Hr) as (g2 & Hg2 & ?). simpl.
  exists g2. split; [done|]. by eapply acted_trans.
Qed.

(** [C29] What a pause holds and what it lets through.  In a paused game a
    turn without Escape and without the restart key leaves the game
    paused, with the same map, the same entity list, the same camera and
    the same position in the random sequence, and writes no object but
    the player's tank; with no event at all it changes nothing.  But the
    keys of the player still act: the mine key, in a paused game whose
    player has a mine, takes the mine from the stock and puts it into the
    pending buffer. *)
Theorem BoloGame_paused_turn events keys game :
  let gs := game_state game in
  paused gs = true →
  KEYDOWN K_ESCAPE ∉ events → KEYDOWN K_r ∉ events →
  ∃ game', BoloGame_turn (events, keys) game = Some game' ∧
    acted gs (game_state game') ∧ paused (game_state game') = true ∧
    (events = [] → game' = game) ∧
    (∀ i t, wf_state gs → events = [KEYDOWN K_m] → player gs = Some i →
       heap gs !! i = Some (ETank t) → e_alive (tank_base t) = true →
       0 < mines (resources t) →
       pending_entities (game_state game')
       = pending_entities gs ++ [id_counter gs] ∧
       ∃ t', heap (game_state game') !! i = Some (ETank t') ∧
         mines (resources t') = mines (resources t) - 1).
Proof.
  intros gs Hpa Hesc Hr.
  destruct (handle_events_acted events game Hesc Hr) as (g1 & Hg1 & Ha).
  assert (Hpa1 : paused (game_state g1) = true).
  { destruct Ha as (_&_&_&_&_&->&_). exact Hpa. }
  exists g1. unfold BoloGame_turn. cbn [fst snd]. rewrite Hg1.
  unfold BoloGame__update. cbn [fmap option_fmap option_map]. rewrite Hpa1.
  split_and!; [done..| |].
  - intros ->. by injection Hg1 as <-.
  - intros i t Hwf -> Hp Hi Hal Hm. revert Hg1.
    unfold BoloGame__handle_events. cbn [foldlM handle_event].
    unfold BoloGame__handle_keydown. fold gs.
    rewrite Hp, (live_player_intro gs i t) by done. intros [= <-].
    destruct (place_mine_and_add_places gs i t Hwf Hi Hm)
      as (Hpe&_&_&_&Hi1&_).
    cbn [game_state]. split; [exact Hpe|]. eexists. split; [exact Hi1|].
    simpl. lia.
Qed.

(** ** The life cycle under the controller *)

(** An event other than the restart key is an act of the life cycle of
    every entity. *)
Lemma handle_event_life game ev i :
  wf_state (game_state game) → ev ≠ KEYDOWN K_r →
  ∃ game', handle_event game ev = Some game' ∧
    wf_state (game_state game') ∧
    life_act (life (game_state game) i) (life (game_state game') i).
Proof.
  intros Hwf Hev.
  assert (∀ gs', good (game_state game) gs' →
            wf_state gs' ∧ life_act (life (game_state game) i) (life gs' i))
    as Hgood by (intros gs' Hg; split; [apply Hg|by apply good_life]).
  destruct ev as [|key|]; cbn [handle_event];
    [by eauto using la_stay| |by eauto using la_stay].
  destruct key; unfold BoloGame__handle_keydown;
    [by eauto using la_stay, set_paused_wf|done|..].
  3: by destruct (player (game_state game)), (live_player (game_state game));
       eauto using la_stay.
  all: destruct (player (game_state game)) as [j|] eqn:Hp;
    [|by eauto using la_stay];
    destruct (live_player (game_state game)) as [t|] eqn:Hl;
    [|by eauto using la_stay];
    apply live_player_Some in Hl as (j'&?&?&_); simplify_eq;
    eexists; split; [done|]; apply Hgood.
  - by apply fire_and_add_good.
  - by apply place_mine_and_add_good.
Qed.

Lemma handle_events_life events game i :
  wf_state (game_state game) → KEYDOWN K_r ∉ events →
  ∃ game', BoloGame__handle_events events game = Some game' ∧
    wf_state (game_state game') ∧
    life_run (life (game_state game) i) (life (game_state game') i).
Proof.
  unfold BoloGame__handle_events. revert game.
  induction events as [|ev events IH]; intros game Hwf Hr; simpl;
    [eauto using life_run_refl|].
  apply not_elem_of_cons in Hr as [Hev Hr].
  destruct (handle_event_life game ev i Hwf) as (g1 & -> & Hwf1 & Ha);
    [done|].
  destruct (IH g1 Hwf1 Hr) as (g2 & Hg2 & ? & Hrun). simpl.
  exists g2. split_and!; [done..|].
  eapply life_run_trans; [|exact Hrun]. eauto with bolo.
Qed.

(** [_update]: the held keys and the enemies act, then the frame. *)
Lemma BoloGame__update_life keys game i :
  wf_state (game_state game) →
  life_run (life (game_state game) i)
    (life (game_state (BoloGame__update keys game)) i).
Proof.
  intros Hwf. unfold BoloGame__update. case_match; [constructor|]. simpl.
  pose proof (update_inputs_good keys (game_state game) Hwf) as Hg.
  match type of Hg with
  | good _ (foldl _ ?a ?l) =>
      match goal with
      | |- context [foldl _ ?b ?l'] => replace l' with l; [set (gs1 := foldl _ a l) in *|]
      end
  end; [|repeat case_match; simpl; done].
  eapply life_run_step; [|apply GameState_update_life, Hg].
  eapply life_run_act; [constructor|by apply good_life].
Qed.

Lemma BoloGame_run_life inputs game i :
  wf_state (game_state game) →
  Forall (λ input, KEYDOWN K_r ∉ input.1) inputs →
  ∃ game', BoloGame_run inputs game = Some game' ∧
    life_run (life (game_state game) i) (life (game_state game') i).
Proof.
  intros Hwf Hin. revert game Hwf.
  induction Hin as [|input inputs Hr _ IH]; intros game Hwf; simpl;
    [eauto using life_run_refl|].
  destruct (running game); [|eauto using life_run_refl]. unfold BoloGame_turn.
  destruct (handle_events_life input.1 game i Hwf Hr) as (g1 & -> & Hwf1 & H1).
  simpl. destruct (IH (BoloGame__update input.2 g1)) as (g2 & ? & H2);
    [by apply BoloGame__update_wf|].
  exists g2. split; [done|].
  eauto using life_run_trans, BoloGame__update_life.
Qed.

(** [C13] The controller refines the life cycle: in a game that is not
    restarted, whatever events and held keys the turns of [run] bring,
    every entity goes through a run of the life cycle, its frames and
    the acts between them; so its stage never goes back, and an entity
    that has been purged is never listed or pending again. *)
Theorem BoloGame_run_life_cycle inputs game i :
  wf_state (game_state game) →
  Forall (λ input, KEYDOWN K_r ∉ input.1) inputs →
  ∃ game', BoloGame_run inputs game = Some game' ∧
    life_run (life (game_state game) i) (life (game_state game') i) ∧
    (life_rank (life (game_state game) i)
     ≤ life_rank (life (game_state game') i))%nat ∧
    (life (game_state game) i = Gone → life (game_state game') i = Gone).
Proof.
  intros Hwf Hin.
  destruct (BoloGame_run_life inputs game i Hwf Hin) as (game' & ? & Hrun).
  exists game'. split_and!; [done..|by apply life_run_rank|].
  intros Hg. rewrite Hg in Hrun. by apply life_run_gone.
Qed.

End ControllerTheorems.

(** ** Witnesses *)

Definition demo_game : BoloGame := mkBoloGame true demo_state.

Definition no_keys : Pressed :=
  mkPressed false false false false false false false false.

Definition forward_keys : Pressed :=
  mkPressed true false false false false false false true.

Lemma BoloGame_dead_player_witness :
  let game := mkBoloGame true (set_player demo_state None) in
  @BoloGame__handle_keydown east_platform K_SPACE game = Some game ∧
  @BoloGame__handle_keydown east_platform K_m game = Some game ∧
  @BoloGame__update east_platform forward_keys game =
    @BoloGame__update east_platform no_keys game.
Proof. by apply (@BoloGame_dead_player east_platform). Defined.


Lemma BoloGame_mine_key_repeats_witness :
  ∃ game', @BoloGame__handle_events east_platform
             [KEYDOWN K_m; KEYDOWN K_m] demo_game = Some game' ∧
    pending_entities (game_state game') = [2; 6; 7]%nat ∧
    (∃ t', heap (game_state game') !! 0%nat = Some (ETank t') ∧
           mines (resources t') = mines (resources demo_A) - 2) ∧
    ∀ j, j ∈ [6; 7]%nat →
      ∃ mn, heap (game_state game') !! j = Some (EMine mn) ∧
        e_alive (mine_base mn) = true ∧
        e_x (mine_base mn) = e_x (tank_base demo_A) ∧
        e_y (mine_base mn) = e_y (tank_base demo_A).
Proof.
  apply (@BoloGame_mine_key_repeats east_platform demo_game 0%nat demo_A);
    first [done | by_compute].
Defined.

(** The game of [demo_state] ten frames later, when the cooldown of
    the player has run out. *)
Definition rested_game : BoloGame :=
  mkBoloGame true (@GameState_frames east_platform 10 demo_state).

(** Three turns: the player fires and drives, drops a mine, pauses. *)
Definition demo_inputs : list (list Event * Pressed) :=
  [([KEYDOWN K_SPACE], forward_keys); ([KEYDOWN K_m], no_keys);
   ([KEYDOWN K_ESCAPE; OtherEvent], forward_keys)].

Lemma BoloGame_fire_key_once_witness :
  @BoloGame__handle_events east_platform (replicate 3 (KEYDOWN K_SPACE))
    rested_game
  = @BoloGame__handle_events east_platform [KEYDOWN K_SPACE] rested_game.
Proof.
  apply (@BoloGame_fire_key_once east_platform rested_game 0%nat
           (default demo_A (tank_at (game_state rested_game) 0)) 2);
    first [by_compute | by vm_compute].
Defined.

Lemma BoloGame_run_life_cycle_witness :
  ∃ game', @BoloGame_run east_platform demo_inputs demo_game = Some game' ∧
    life_run (life (game_state demo_game) 2)
      (life (game_state game') 2) ∧
    (life_rank (life (game_state demo_game) 2)
     ≤ life_rank (life (game_state game') 2))%nat ∧
    (life (game_state demo_game) 2 = Gone →
     life (game_state game') 2 = Gone).
Proof.
  apply (@BoloGame_run_life_cycle east_platform demo_inputs demo_game 2);
    by_compute.
Defined.

(** The stages of the shell the player fires in the first turn (entity
    6; it is constructed, merged, hits the tank next to the player and is
    purged within the turn) and of the mine of the second (entity 7),
    before the game and after each turn; and a restart, which discards
    the state: the enemy tank that was live is not in the store of the
    new game. *)
Example BoloGame_life_demo :
  (λ i, (λ n, life (game_state
                 (default rested_game
                    (@BoloGame_run east_platform (take n demo_inputs)
                       rested_game))) i) <$> [0; 1; 2; 3]%nat) <$> [6; 7]%nat
  = [[Unborn; Gone; Gone; Gone]; [Unborn; Unborn; Live; Live]] ∧
  (λ g, life (game_state g) 1) <$>
    @BoloGame__handle_keydown east_platform K_r demo_game = Some Unborn ∧
  life (game_state demo_game) 1 = Live.
Proof. by vm_compute. Qed.

Definition paused_game : BoloGame :=
  mkBoloGame true (set_paused demo_state true).

Lemma BoloGame_paused_turn_witness :
  ∃ game', @BoloGame_turn east_platform ([KEYDOWN K_m], forward_keys)
             paused_game = Some game' ∧
    acted (game_state paused_game) (game_state game') ∧
    paused (game_state game') = true ∧
    pending_entities (game_state game') = [2; 6]%nat ∧
    ∃ t', heap (game_state game') !! 0%nat = Some (ETank t') ∧
      mines (resources t') = mines (resources demo_A) - 1.
Proof.
  destruct (@BoloGame_paused_turn east_platform [KEYDOWN K_m] forward_keys
              paused_game) as (game' & Ht & Ha & Hp & _ & Hm);
    [reflexivity|by_compute..|].
  exists game'. split_and!; [done..| |];
    apply (Hm 0%nat demo_A); first [done | by_compute].
Defined.

Lemma BoloGame_pause_witness :
  ∃ game1, @BoloGame__handle_keydown east_platform K_ESCAPE demo_game
             = Some game1 ∧
    paused (game_state game1) = negb (paused (game_state demo_game)) ∧
    @BoloGame__handle_keydown east_platform K_ESCAPE game1 = Some demo_game ∧
    (paused (game_state demo_game) = false →
     @BoloGame__update east_platform forward_keys game1 = game1).
Proof. apply (@BoloGame_pause east_platform). Defined.

Lemma enemy_ai_only_team2_witness :
  heap (foldl (@enemy_step east_platform) demo_state (entities demo_state))
    !! 0%nat = Some (ETank demo_A).
Proof.
  apply (@enemy_ai_only_team2 east_platform); [by_compute|done|done].
Defined.

(** The player fires and the game runs two turns: the shell is first
    pending and then an entity. *)
Example BoloGame_fire_demo :
  (λ g, (pending_entities (game_state g), id_counter (game_state g))) <$>
    @BoloGame__handle_keydown east_platform K_SPACE
      (mkBoloGame true (@GameState_frames east_platform 10 demo_state))
  = Some ([6%nat], 7%nat).
Proof. by vm_compute. Qed.

(** A platform that draws 0.11 every time: every interior cell off the
    roads becomes a wall. *)
Definition wall_platform : Platform :=
  {| libm_cos := λ _, 1%float; libm_sin := λ _, 0%float;
     libm_atan2 := λ _ _, 0%float; random_random := λ _, 0.11%float |}.

(** With such terrain the first enemy is set up inside a wall, where its
    terrain speed is 0: it can never move. *)
Example BoloGame_enemy_in_wall :
  (λ g, (λ e, (get_tile (game_map (game_state g))
                 (tile_position (tank_base e)).1 (tile_position (tank_base e)).2,
               Tank__get_terrain_speed (game_map (game_state g)) e,
               e_x (tank_base e),
               e_x (tank_base
                      (@Tank_move_forward wall_platform
                         (game_map (game_state g)) e))))
          <$> tank_at (game_state g) 1) <$>
    @BoloGame_init wall_platform 0 0
  = Some (Some (WALL, 0%float, 768%float, 768%float)).
Proof. by vm_compute. Qed.
