(* ===== verification/Cache.v ===== *)
(** * Cache: the game does not see the cache of the map

    [GameMap.render] writes two fields of the map, the cached terrain
    surface and its dirty flag; everything else in
    [src/src/bolo_engine.py] reads the grid and its dimensions only, and
    [set_tile] marks the cache dirty without reading it.  This file
    shows it operation by operation: discarding the cache before a step
    of the game and after it are the same.  Two games are equivalent
    when they differ in the cache only, and every step of the game
    respects the equivalence. *)

From stdpp Require Import gmap.
From S2P Require Import Prelude PyFloat Config Draw GameMap MapRender MapGen.
From S2P Require Import Entity Tank Structures GameState Lifecycle Controller.
Set Warnings "-inexact-float".

(** ** States without their cache *)

Definition GameState_uncached (gs : GameState) : GameState :=
  set_game_map gs (GameMap_invalidate (game_map gs)).

Definition BoloGame_uncached (game : BoloGame) : BoloGame :=
  mkBoloGame (running game) (GameState_uncached (game_state game)).

(** Maps, states and games are equivalent when they are equal once the
    cache is discarded. *)
#[export] Instance GameMap_equiv : Equiv GameMap :=
  λ m m', GameMap_invalidate m = GameMap_invalidate m'.

#[export] Instance GameState_equiv : Equiv GameState :=
  λ gs gs', GameState_uncached gs = GameState_uncached gs'.

#[export] Instance BoloGame_equiv : Equiv BoloGame :=
  λ game game', BoloGame_uncached game = BoloGame_uncached game'.

#[export] Instance GameMap_equivalence : Equivalence (≡@{GameMap}).
Proof. unfold equiv, GameMap_equiv. split; red; intros; congruence. Qed.

#[export] Instance GameState_equivalence : Equivalence (≡@{GameState}).
Proof. unfold equiv, GameState_equiv. split; red; intros; congruence. Qed.

#[export] Instance BoloGame_equivalence : Equivalence (≡@{BoloGame}).
Proof. unfold equiv, BoloGame_equiv. split; red; intros; congruence. Qed.

(** ** The map *)

Section CacheLemmas.
Context `{Platform}.
Implicit Types (m : GameMap) (gs : GameState) (game : BoloGame).
Implicit Types (i j : nat) (t : Tank) (s : Shell) (mn : Mine).

(** What reads the map and returns no map reads the grid only. *)
Lemma get_tile_uncached m x y : get_tile (GameMap_invalidate m) x y = get_tile m x y.
Proof. unfold get_tile, tiles_at. reflexivity. Qed.

Lemma pixel_width_uncached m : pixel_width (GameMap_invalidate m) = pixel_width m.
Proof. reflexivity. Qed.

Lemma pixel_height_uncached m :
  pixel_height (GameMap_invalidate m) = pixel_height m.
Proof. reflexivity. Qed.

Lemma Tank_move_forward_uncached m t :
  Tank_move_forward (GameMap_invalidate m) t = Tank_move_forward m t.
Proof.
  unfold Tank_move_forward, Tank__get_terrain_speed, Tank_try_move,
    Tank__can_move_to, Tank_within_bounds.
  by rewrite !get_tile_uncached, pixel_width_uncached, pixel_height_uncached.
Qed.

Lemma Tank_move_backward_uncached m t :
  Tank_move_backward (GameMap_invalidate m) t = Tank_move_backward m t.
Proof.
  unfold Tank_move_backward, Tank__get_terrain_speed, Tank_try_move,
    Tank__can_move_to, Tank_within_bounds.
  by rewrite !get_tile_uncached, pixel_width_uncached, pixel_height_uncached.
Qed.

(** What writes the map writes the grid and marks the cache dirty. *)
Lemma set_tile_uncached m x y tile :
  set_tile (GameMap_invalidate m) x y tile
  = GameMap_invalidate (set_tile m x y tile).
Proof.
  unfold set_tile. repeat case_decide; first [done | exfalso; auto].
Qed.

Lemma damage_tile_uncached m x y :
  damage_tile (GameMap_invalidate m) x y = GameMap_invalidate (damage_tile m x y).
Proof.
  unfold damage_tile. rewrite get_tile_uncached.
  destruct (get_tile m x y); by rewrite ?set_tile_uncached.
Qed.

Lemma Shell_update_uncached m s :
  Shell_update (GameMap_invalidate m) s
  = prod_map id GameMap_invalidate (Shell_update m s).
Proof.
  unfold Shell_update, Shell_out_of_bounds. case_decide; [done|].
  destruct (tile_position _) as [tx ty].
  rewrite get_tile_uncached, pixel_width_uncached, pixel_height_uncached.
  repeat case_match; simpl; by rewrite ?damage_tile_uncached.
Qed.

Lemma Mine_detonate_uncached m mn :
  Mine_detonate (GameMap_invalidate m) mn
  = prod_map id GameMap_invalidate (Mine_detonate m mn).
Proof.
  unfold Mine_detonate. destruct (tile_position _) as [tx ty]. simpl.
  by rewrite set_tile_uncached.
Qed.

(** ** The state *)

(** [uncache] reads the fields of a state without its cache: they are
    those of the state, but for the map. *)
Ltac uncache_with gs :=
  change (heap (GameState_uncached gs)) with (heap gs) ||
  change (entities (GameState_uncached gs)) with (entities gs) ||
  change (pending_entities (GameState_uncached gs)) with (pending_entities gs) ||
  change (player (GameState_uncached gs)) with (player gs) ||
  change (camera_x (GameState_uncached gs)) with (camera_x gs) ||
  change (camera_y (GameState_uncached gs)) with (camera_y gs) ||
  change (paused (GameState_uncached gs)) with (paused gs) ||
  change (game_over (GameState_uncached gs)) with (game_over gs) ||
  change (score (GameState_uncached gs)) with (score gs) ||
  change (id_counter (GameState_uncached gs)) with (id_counter gs) ||
  change (rng_pos (GameState_uncached gs)) with (rng_pos gs) ||
  change (game_map (GameState_uncached gs))
    with (GameMap_invalidate (game_map gs)).

Ltac uncache :=
  repeat match goal with
  | |- context [game_state (BoloGame_uncached ?game)] =>
      change (game_state (BoloGame_uncached game))
        with (GameState_uncached (game_state game))
  | |- context [running (BoloGame_uncached ?game)] =>
      change (running (BoloGame_uncached game)) with (running game)
  | |- context [?f (GameState_uncached ?gs)] => progress uncache_with gs
  end.

Lemma store_uncached gs i o :
  store (GameState_uncached gs) i o = GameState_uncached (store gs i o).
Proof. reflexivity. Qed.

Lemma add_entity_uncached gs o :
  add_entity (GameState_uncached gs) o = GameState_uncached (add_entity gs o).
Proof. reflexivity. Qed.

Lemma set_counters_uncached gs n r :
  set_counters (GameState_uncached gs) n r
  = GameState_uncached (set_counters gs n r).
Proof. reflexivity. Qed.

Lemma set_entities_uncached gs l p :
  set_entities (GameState_uncached gs) l p
  = GameState_uncached (set_entities gs l p).
Proof. reflexivity. Qed.

Lemma set_game_map_uncached gs m :
  set_game_map (GameState_uncached gs) (GameMap_invalidate m)
  = GameState_uncached (set_game_map gs m).
Proof. reflexivity. Qed.

Lemma heap_tanks_uncached gs : heap_tanks (GameState_uncached gs) = heap_tanks gs.
Proof. reflexivity. Qed.

Lemma player_tank_uncached gs :
  player_tank (GameState_uncached gs) = player_tank gs.
Proof. reflexivity. Qed.

Lemma Entity_update_uncached gs i :
  Entity_update (GameState_uncached gs) i
  = GameState_uncached (Entity_update gs i).
Proof.
  unfold Entity_update. rewrite heap_tanks_uncached. uncache.
  destruct (heap gs !! i) as [[t|s|mn|p|b]|]; try reflexivity.
  - rewrite Shell_update_uncached. by destruct (Shell_update _ s).
  - destruct (Pillbox_update _ _ _ p) as [[[p' [shot|]] n'] r']; reflexivity.
Qed.

(** *** Collisions *)

Lemma shell_tank_contact_uncached i s gs j :
  shell_tank_contact i s (GameState_uncached gs) j
  = GameState_uncached <$> shell_tank_contact i s gs j.
Proof.
  unfold shell_tank_contact. uncache.
  destruct (heap gs !! j) as [[]|]; try reflexivity. by repeat case_match.
Qed.

Lemma shell_pillbox_contact_uncached i s gs j :
  shell_pillbox_contact i s (GameState_uncached gs) j
  = GameState_uncached <$> shell_pillbox_contact i s gs j.
Proof.
  unfold shell_pillbox_contact. uncache.
  destruct (heap gs !! j) as [[]|]; try reflexivity. by repeat case_match.
Qed.

Lemma mine_tank_contact_uncached i mn gs j :
  mine_tank_contact i mn (GameState_uncached gs) j
  = GameState_uncached <$> mine_tank_contact i mn gs j.
Proof.
  unfold mine_tank_contact. uncache.
  destruct (heap gs !! j) as [[]|]; try reflexivity.
  destruct (negb _); [done|]. case_decide; [done|].
  destruct (touching _ _ _); [|done].
  rewrite store_uncached. uncache. rewrite Mine_detonate_uncached.
  by destruct (Mine_detonate _ mn).
Qed.

Lemma tank_base_contact_uncached i gs j :
  tank_base_contact i (GameState_uncached gs) j
  = GameState_uncached (tank_base_contact i gs j).
Proof.
  unfold tank_base_contact. uncache.
  destruct (heap gs !! i) as [[]|], (heap gs !! j) as [[]|]; try reflexivity.
  by repeat case_match.
Qed.

Lemma collide_shell_tank_uncached gs i :
  collide_shell_tank (GameState_uncached gs) i
  = GameState_uncached (collide_shell_tank gs i).
Proof.
  unfold collide_shell_tank. uncache.
  destruct (heap gs !! i) as [[|s| | |]|]; try reflexivity.
  destruct (e_alive _); [|done].
  rewrite (scan_commute GameState_uncached)
    by (intros; apply shell_tank_contact_uncached).
  by destruct (scan _ gs _).
Qed.

Lemma collide_shell_pillbox_uncached gs i :
  collide_shell_pillbox (GameState_uncached gs) i
  = GameState_uncached (collide_shell_pillbox gs i).
Proof.
  unfold collide_shell_pillbox. uncache.
  destruct (heap gs !! i) as [[|s| | |]|]; try reflexivity.
  destruct (e_alive _); [|done].
  rewrite (scan_commute GameState_uncached)
    by (intros; apply shell_pillbox_contact_uncached).
  by destruct (scan _ gs _).
Qed.

Lemma collide_mine_tank_uncached gs i :
  collide_mine_tank (GameState_uncached gs) i
  = GameState_uncached (collide_mine_tank gs i).
Proof.
  unfold collide_mine_tank. uncache.
  destruct (heap gs !! i) as [[| |mn| |]|]; try reflexivity.
  destruct (e_alive _); [|done].
  rewrite (scan_commute GameState_uncached)
    by (intros; apply mine_tank_contact_uncached).
  by destruct (scan _ gs _).
Qed.

Lemma collide_tank_base_uncached gs i :
  collide_tank_base (GameState_uncached gs) i
  = GameState_uncached (collide_tank_base gs i).
Proof.
  unfold collide_tank_base. uncache.
  destruct (heap gs !! i) as [[t| | | |]|]; try reflexivity.
  destruct (e_alive _); [|done].
  apply foldl_commute, tank_base_contact_uncached.
Qed.

(** A loop over the entity list of the state it starts from. *)
Lemma collision_pass_uncached body gs :
  (∀ gs i, body (GameState_uncached gs) i = GameState_uncached (body gs i)) →
  collision_pass body (GameState_uncached gs)
  = GameState_uncached (collision_pass body gs).
Proof. intros Hb. unfold collision_pass. uncache. by apply foldl_commute. Qed.

Lemma GameState__process_collisions_uncached gs :
  GameState__process_collisions (GameState_uncached gs)
  = GameState_uncached (GameState__process_collisions gs).
Proof.
  unfold GameState__process_collisions.
  by rewrite !collision_pass_uncached
    by auto using collide_shell_tank_uncached, collide_shell_pillbox_uncached,
         collide_mine_tank_uncached, collide_tank_base_uncached.
Qed.

(** *** The frame *)

Lemma remove_dead_entities_uncached gs :
  remove_dead_entities (GameState_uncached gs)
  = GameState_uncached (remove_dead_entities gs).
Proof. reflexivity. Qed.

Lemma GameState__update_camera_uncached gs :
  GameState__update_camera (GameState_uncached gs)
  = GameState_uncached (GameState__update_camera gs).
Proof.
  unfold GameState__update_camera. rewrite player_tank_uncached.
  by destruct (player_tank gs).
Qed.

Lemma GameState_update_uncached gs :
  GameState_update (GameState_uncached gs)
  = GameState_uncached (GameState_update gs).
Proof.
  unfold GameState_update. uncache.
  destruct (paused gs || game_over gs); [done|].
  rewrite set_entities_uncached.
  rewrite (foldl_commute GameState_uncached) by apply Entity_update_uncached.
  rewrite GameState__process_collisions_uncached,
    remove_dead_entities_uncached, player_tank_uncached.
  destruct (player_tank _) as [t|]; [|done].
  destruct (e_alive _); [apply GameState__update_camera_uncached|done].
Qed.

Lemma GameState_frames_uncached n gs :
  GameState_frames n (GameState_uncached gs)
  = GameState_uncached (GameState_frames n gs).
Proof.
  induction n as [|n IH]; [done|].
  unfold GameState_frames in *. simpl. by rewrite IH, GameState_update_uncached.
Qed.

(** ** The controller *)

(** A game that was just set up has no cache. *)
Lemma setup_spawns_game_map gs : game_map (setup_spawns gs) = game_map gs.
Proof. reflexivity. Qed.

Lemma GameState_uncached_fixed gs :
  _terrain_surface (game_map gs) = None → _dirty (game_map gs) = true →
  GameState_uncached gs = gs.
Proof. destruct gs as [[] ]. simpl. by intros -> ->. Qed.

Lemma generate_random_cache m rng m' rng' :
  generate_random m rng = Some (m', rng') →
  _terrain_surface m' = _terrain_surface m ∧ _dirty m' = true.
Proof.
  unfold generate_random. intros Hg.
  destruct (foldlM (gen_row m) _ _) as [[g r]|]; [|done].
  cbn [mbind option_bind] in Hg.
  destruct (foldlM _ g _) as [g2|]; [|done]. cbn [mbind option_bind] in Hg.
  destruct (foldlM _ g2 _) as [g3|]; [|done]. cbn [mbind option_bind] in Hg.
  by injection Hg as <- _.
Qed.

Lemma BoloGame__setup_game_uncached n r gs' :
  BoloGame__setup_game (GameState_init n r) = Some gs' →
  GameState_uncached gs' = gs'.
Proof.
  unfold BoloGame__setup_game. intros Hs.
  destruct (generate_random _ _) as [[m r']|] eqn:Hg; [|done].
  apply generate_random_cache in Hg as [Hs' Hd].
  cbn [mbind option_bind] in Hs. injection Hs as <-.
  apply GameState_uncached_fixed; rewrite setup_spawns_game_map;
    cbn [game_map set_counters set_game_map]; [by rewrite Hs'|done].
Qed.

Lemma live_player_uncached gs :
  live_player (GameState_uncached gs) = live_player gs.
Proof. reflexivity. Qed.

Lemma tank_at_uncached gs i : tank_at (GameState_uncached gs) i = tank_at gs i.
Proof. reflexivity. Qed.

Lemma fire_and_add_uncached gs i t :
  fire_and_add (GameState_uncached gs) i t
  = GameState_uncached (fire_and_add gs i t).
Proof.
  unfold fire_and_add. uncache.
  destruct (Tank_fire _ t) as [[t' [s|]] n]; reflexivity.
Qed.

Lemma place_mine_and_add_uncached gs i t :
  place_mine_and_add (GameState_uncached gs) i t
  = GameState_uncached (place_mine_and_add gs i t).
Proof.
  unfold place_mine_and_add. uncache.
  destruct (Tank_place_mine _ t) as [[t' [mn|]] n]; reflexivity.
Qed.

Lemma BoloGame__handle_keydown_uncached key game :
  BoloGame__handle_keydown key (BoloGame_uncached game)
  = BoloGame_uncached <$> BoloGame__handle_keydown key game.
Proof.
  unfold BoloGame__handle_keydown. uncache. rewrite live_player_uncached.
  destruct key.
  - reflexivity.
  - destruct (BoloGame__setup_game _) as [gs'|] eqn:Hs; [|done].
    cbn [fmap option_fmap option_map]. unfold BoloGame_uncached.
    cbn [running game_state].
    by rewrite (BoloGame__setup_game_uncached _ _ _ Hs).
  - destruct (player (game_state game)), (live_player (game_state game));
      try reflexivity.
    by rewrite fire_and_add_uncached.
  - destruct (player (game_state game)), (live_player (game_state game));
      try reflexivity.
    by rewrite place_mine_and_add_uncached.
  - by destruct (player (game_state game)), (live_player (game_state game)).
Qed.

Lemma handle_event_uncached game ev :
  handle_event (BoloGame_uncached game) ev
  = BoloGame_uncached <$> handle_event game ev.
Proof.
  destruct ev; try reflexivity. apply BoloGame__handle_keydown_uncached.
Qed.

Lemma BoloGame__handle_events_uncached events game :
  BoloGame__handle_events events (BoloGame_uncached game)
  = BoloGame_uncached <$> BoloGame__handle_events events game.
Proof. apply foldlM_commute, handle_event_uncached. Qed.

Lemma apply_held_uncached keys m t :
  apply_held keys (GameMap_invalidate m) t = apply_held keys m t.
Proof.
  unfold apply_held.
  by rewrite Tank_move_forward_uncached, Tank_move_backward_uncached.
Qed.

Lemma BoloGame__simple_enemy_ai_uncached gs i :
  BoloGame__simple_enemy_ai (GameState_uncached gs) i
  = GameState_uncached (BoloGame__simple_enemy_ai gs i).
Proof.
  unfold BoloGame__simple_enemy_ai.
  rewrite live_player_uncached, tank_at_uncached.
  destruct (live_player gs) as [p|], (tank_at gs i) as [enemy|];
    try reflexivity.
  cbv zeta. rewrite !store_uncached. uncache.
  rewrite Tank_move_forward_uncached, !set_counters_uncached,
    !fire_and_add_uncached.
  by repeat case_match.
Qed.

Lemma enemy_step_uncached gs i :
  enemy_step (GameState_uncached gs) i = GameState_uncached (enemy_step gs i).
Proof.
  unfold enemy_step. rewrite tank_at_uncached.
  destruct (tank_at gs i); [|done].
  case_decide; [apply BoloGame__simple_enemy_ai_uncached|done].
Qed.

Lemma BoloGame__update_uncached keys game :
  BoloGame__update keys (BoloGame_uncached game)
  = BoloGame_uncached (BoloGame__update keys game).
Proof.
  unfold BoloGame__update. uncache. rewrite live_player_uncached.
  destruct (paused _); [done|].
  destruct (player (game_state game)), (live_player (game_state game));
    rewrite ?apply_held_uncached, ?store_uncached; uncache;
    by rewrite (foldl_commute GameState_uncached), GameState_update_uncached
      by apply enemy_step_uncached.
Qed.

Lemma BoloGame_turn_uncached input game :
  BoloGame_turn input (BoloGame_uncached game)
  = BoloGame_uncached <$> BoloGame_turn input game.
Proof.
  unfold BoloGame_turn. rewrite BoloGame__handle_events_uncached.
  destruct (BoloGame__handle_events _ game); simpl; [|done].
  by rewrite BoloGame__update_uncached.
Qed.

Lemma BoloGame_run_uncached inputs game :
  BoloGame_run inputs (BoloGame_uncached game)
  = BoloGame_uncached <$> BoloGame_run inputs game.
Proof.
  revert game. induction inputs as [|input inputs IH]; intros game; [done|].
  simpl. destruct (running game); [|done].
  rewrite BoloGame_turn_uncached.
  destruct (BoloGame_turn input game); simpl; [apply IH|done].
Qed.
End CacheLemmas.

(** ** The equivalence is respected *)

Section CacheProper.
Context `{Platform}.

Lemma fmap_uncached_equiv (x y : option BoloGame) :
  BoloGame_uncached <$> x = BoloGame_uncached <$> y → x ≡ y.
Proof.
  destruct x as [g|], y as [g'|]; intros Heq;
    first [discriminate Heq | constructor].
  exact (inj (R:=eq) (S:=eq) Some (BoloGame_uncached g)
           (BoloGame_uncached g') Heq).
Qed.

#[export] Instance get_tile_proper : Proper ((≡) ==> (=) ==> (=) ==> (=)) get_tile.
Proof.
  intros m m' Hm ?? -> ?? ->.
  by rewrite <- (get_tile_uncached m), <- (get_tile_uncached m'), Hm.
Qed.

#[export] Instance set_tile_proper :
  Proper ((≡) ==> (=) ==> (=) ==> (=) ==> (≡)) set_tile.
Proof.
  intros m m' Hm ?? -> ?? -> ?? ->. unfold equiv, GameMap_equiv in *.
  by rewrite <- !set_tile_uncached, Hm.
Qed.

#[export] Instance damage_tile_proper :
  Proper ((≡) ==> (=) ==> (=) ==> (≡)) damage_tile.
Proof.
  intros m m' Hm ?? -> ?? ->. unfold equiv, GameMap_equiv in *.
  by rewrite <- !damage_tile_uncached, Hm.
Qed.

#[export] Instance GameState_update_proper :
  Proper ((≡) ==> (≡)) GameState_update.
Proof.
  intros gs gs' Hgs. unfold equiv, GameState_equiv in *.
  by rewrite <- !GameState_update_uncached, Hgs.
Qed.

#[export] Instance GameState_frames_proper n :
  Proper ((≡) ==> (≡)) (GameState_frames n).
Proof.
  intros gs gs' Hgs. unfold equiv, GameState_equiv in *.
  by rewrite <- !GameState_frames_uncached, Hgs.
Qed.

#[export] Instance BoloGame__update_proper keys :
  Proper ((≡) ==> (≡)) (BoloGame__update keys).
Proof.
  intros game game' Hg. unfold equiv, BoloGame_equiv in *.
  by rewrite <- !BoloGame__update_uncached, Hg.
Qed.

#[export] Instance BoloGame__handle_events_proper events :
  Proper ((≡) ==> (≡)) (BoloGame__handle_events events).
Proof.
  intros game game' Hg. apply fmap_uncached_equiv.
  by rewrite <- !BoloGame__handle_events_uncached, Hg.
Qed.

#[export] Instance BoloGame_turn_proper input :
  Proper ((≡) ==> (≡)) (BoloGame_turn input).
Proof.
  intros game game' Hg. apply fmap_uncached_equiv.
  by rewrite <- !BoloGame_turn_uncached, Hg.
Qed.

#[export] Instance BoloGame_run_proper inputs :
  Proper ((≡) ==> (≡)) (BoloGame_run inputs).
Proof.
  intros game game' Hg. apply fmap_uncached_equiv.
  by rewrite <- !BoloGame_run_uncached, Hg.
Qed.

(** A state and the state without its cache are equivalent. *)
Lemma GameState_uncached_equiv gs : GameState_uncached gs ≡ gs.
Proof. reflexivity. Qed.

Lemma BoloGame_uncached_equiv game : BoloGame_uncached game ≡ game.
Proof. reflexivity. Qed.

(** Equivalent states have the same entities, flags and counters, and
    maps with the same tiles. *)
Lemma GameState_equiv_fields gs gs' :
  gs ≡ gs' →
  heap gs = heap gs' ∧ entities gs = entities gs' ∧
  pending_entities gs = pending_entities gs' ∧ player gs = player gs' ∧
  camera_x gs = camera_x gs' ∧ camera_y gs = camera_y gs' ∧
  paused gs = paused gs' ∧ game_over gs = game_over gs' ∧
  score gs = score gs' ∧ id_counter gs = id_counter gs' ∧
  rng_pos gs = rng_pos gs' ∧
  (∀ x y, get_tile (game_map gs) x y = get_tile (game_map gs') x y).
Proof.
  intros Hgs. unfold equiv, GameState_equiv in Hgs. split_and!;
    [exact (f_equal heap Hgs)|exact (f_equal entities Hgs)
    |exact (f_equal pending_entities Hgs)|exact (f_equal player Hgs)
    |exact (f_equal camera_x Hgs)|exact (f_equal camera_y Hgs)
    |exact (f_equal paused Hgs)|exact (f_equal game_over Hgs)
    |exact (f_equal score Hgs)|exact (f_equal id_counter Hgs)
    |exact (f_equal rng_pos Hgs)|].
  intros x y. exact (f_equal (λ gs, get_tile (game_map gs) x y) Hgs).
Qed.
End CacheProper.

(** ** Theorems *)

Section CacheTheorems.
Context `{Platform}.

(** [C5] The game does not see the cache.  Two games that differ only in the
    cached terrain surface and its dirty flag are run by [run] over the
    same inputs to games that differ only there, and one run raises
    exactly when the other does: what the rendering leaves in the cache
    has no influence on the terrain, the entities, the counters or the
    flags of any later frame. *)
Theorem BoloGame_run_cache_blind inputs game game' :
  game ≡ game' →
  BoloGame_uncached <$> BoloGame_run inputs game
    = BoloGame_uncached <$> BoloGame_run inputs game' ∧
  (BoloGame_run inputs game = None ↔ BoloGame_run inputs game' = None).
Proof.
  intros Hg. pose proof (BoloGame_run_proper inputs _ _ Hg) as Hr.
  destruct Hr as [g g' Hr|]; [|done].
  split; [exact (f_equal Some Hr)|done].
Qed.

(** A frame does not see the cache either: [GameState.update] on a
    state without its cache is [GameState.update] on the state, without
    its cache; and equivalent states have the same tile in every
    cell. *)
Theorem GameState_update_cache_blind gs gs' :
  gs ≡ gs' →
  GameState_update gs ≡ GameState_update gs' ∧
  heap (GameState_update gs) = heap (GameState_update gs') ∧
  entities (GameState_update gs) = entities (GameState_update gs') ∧
  (∀ x y, get_tile (game_map (GameState_update gs)) x y
          = get_tile (game_map (GameState_update gs')) x y).
Proof.
  intros Hgs. pose proof (GameState_update_proper _ _ Hgs) as Hu.
  destruct (GameState_equiv_fields _ _ Hu) as (?&?&?&?&?&?&?&?&?&?&?&?).
  by split_and!.
Qed.
End CacheTheorems.

(** ** Witnesses *)

(** The demonstration game with the terrain surface in its cache. *)
Definition demo_cached : BoloGame :=
  mkBoloGame true
    (set_game_map demo_state
       (default (game_map demo_state)
          (GameMap__rebuild_terrain_surface (game_map demo_state)))).

Lemma BoloGame_run_cache_blind_witness :
  BoloGame_uncached <$> @BoloGame_run east_platform demo_inputs demo_game
    = BoloGame_uncached <$> @BoloGame_run east_platform demo_inputs demo_cached ∧
  (@BoloGame_run east_platform demo_inputs demo_game = None
   ↔ @BoloGame_run east_platform demo_inputs demo_cached = None).
Proof.
  apply (@BoloGame_run_cache_blind east_platform). by vm_compute.
Defined.

Lemma GameState_update_cache_blind_witness :
  @GameState_update east_platform demo_state
    ≡ @GameState_update east_platform (game_state demo_cached) ∧
  heap (@GameState_update east_platform demo_state)
    = heap (@GameState_update east_platform (game_state demo_cached)) ∧
  entities (@GameState_update east_platform demo_state)
    = entities (@GameState_update east_platform (game_state demo_cached)) ∧
  (∀ x y,
     get_tile (game_map (@GameState_update east_platform demo_state)) x y
     = get_tile
         (game_map (@GameState_update east_platform (game_state demo_cached)))
         x y).
Proof.
  apply (@GameState_update_cache_blind east_platform). by vm_compute.
Defined.

(** The cached game is not the game: its map holds a surface. *)
Example demo_cached_differs :
  demo_cached ≠ demo_game ∧
  _dirty (game_map (game_state demo_cached)) = false ∧
  is_Some (_terrain_surface (game_map (game_state demo_cached))).
Proof. split_and!; [by intros [=]|done|by eexists]. Qed.
