(* ===== verification/Render.v ===== *)
(** * Render: what a frame draws

    [src/src/bolo_engine.py]: the [draw] methods of [Tank], [Shell],
    [Mine], [Pillbox] and [Base], and [BoloGame._render] with
    [BoloGame._render_ui].  A draw method returns the commands it issues,
    in call order, or [None] when a conversion to [int] raises; an
    exception ends the program before the frame is flipped, so what was
    drawn before it is never shown.  [BoloGame_run_screen] is the loop of
    [BoloGame.run] with the rendering of every frame. *)

From stdpp Require Import gmap strings pretty.
From S2P Require Import Prelude PyFloat Config Draw GameMap MapRender Entity.
From S2P Require Import Tank Structures GameState Lifecycle Controller Cache.
Set Warnings "-inexact-float".

(** ** The [draw] methods *)

(** [screen_x = int(self.x - camera_offset[0])] and the same for [y]. *)
Definition screen_pos (b : EntityBase) (camera_offset : float * float)
    : option Point :=
  screen_x ← py_int (e_x b - camera_offset.1);
  screen_y ← py_int (e_y b - camera_offset.2);
  Some (screen_x, screen_y).

(** [Tank.draw]: the body, its outline, and the cannon as two lines from
    the centre to the point [size + 10] ahead. *)
Definition Tank_draw `{Platform} (t : Tank) (camera_offset : float * float)
    : option (list DrawCmd) :=
  '(screen_x, screen_y) ← screen_pos (tank_base t) camera_offset;
  let color := team_color (tank_team t) in
  let cannon_length := tank_size t + 10 in
  let end_x :=
    (py_float screen_x + cos_deg (tank_angle t) * py_float cannon_length)%float in
  let end_y :=
    (py_float screen_y + sin_deg (tank_angle t) * py_float cannon_length)%float in
  end_xi ← py_int end_x;
  end_yi ← py_int end_y;
  Some [Draw (Circle color (screen_x, screen_y) (tank_size t) 0);
        Draw (Circle (40, 40, 40) (screen_x, screen_y) (tank_size t) 2);
        Draw (Line (200, 200, 200) (screen_x, screen_y) (end_xi, end_yi) 4);
        Draw (Line (60, 60, 60) (screen_x, screen_y) (end_xi, end_yi) 2)].

(** [Shell.draw] *)
Definition Shell_draw (s : Shell) (camera_offset : float * float)
    : option (list DrawCmd) :=
  '(screen_x, screen_y) ← screen_pos (shell_base s) camera_offset;
  Some [Draw (Circle (255, 200, 50) (screen_x, screen_y) (radius s) 0);
        Draw (Circle (255, 255, 200) (screen_x, screen_y) (radius s - 1) 0)].

(** [Mine.draw]: a hidden mine is not drawn. *)
Definition Mine_draw (mn : Mine) (camera_offset : float * float)
    : option (list DrawCmd) :=
  if hidden mn then Some []
  else
    '(screen_x, screen_y) ← screen_pos (mine_base mn) camera_offset;
    Some [Draw (Circle (60, 60, 60) (screen_x, screen_y) (mine_radius mn) 0);
          Draw (Circle (40, 40, 40) (screen_x, screen_y) (mine_radius mn - 2) 0)].

(** [Pillbox.draw]: a pillbox that is not active is not drawn; the inner
    square shows the health as a share of the size. *)
Definition Pillbox_draw (p : Pillbox) (camera_offset : float * float)
    : option (list DrawCmd) :=
  if negb (active p) then Some []
  else
    '(screen_x, screen_y) ← screen_pos (pill_base p) camera_offset;
    let color := team_color (pill_team p) in
    let rect :=
      mkRect (screen_x - pill_size p) (screen_y - pill_size p)
        (pill_size p * 2) (pill_size p * 2) in
    health_ratio ← py_truediv (pill_health p) PILLBOX_MAX_HEALTH;
    inner_size ← py_int (py_float (pill_size p) * health_ratio);
    Some ([Draw (RectP color rect 0); Draw (RectP (40, 40, 40) rect 2)] ++
          if decide (0 < inner_size) then
            [Draw (RectP (200, 200, 200)
                     (mkRect (screen_x - inner_size) (screen_y - inner_size)
                        (inner_size * 2) (inner_size * 2)) 0)]
          else []).

(** [Base.draw]: a diamond, and a disc that shows the stock as a share of
    the 68 units a base holds at most. *)
Definition Base_draw (b : Base) (camera_offset : float * float)
    : option (list DrawCmd) :=
  '(screen_x, screen_y) ← screen_pos (base_base b) camera_offset;
  let color := team_color (base_team b) in
  let points :=
    [(screen_x, screen_y - base_size b); (screen_x + base_size b, screen_y);
     (screen_x, screen_y + base_size b); (screen_x - base_size b, screen_y)] in
  supply_level ← py_truediv (base_shells b + base_mines b + base_armor b) 68;
  indicator_size ← py_int (py_float (base_size b) * 0.5 * supply_level);
  Some ([Draw (Polygon color points 0); Draw (Polygon (40, 40, 40) points 2)] ++
        if decide (0 < indicator_size) then
          [Draw (Circle (200, 200, 200) (screen_x, screen_y) indicator_size 0)]
        else []).

(** [entity.draw(surface, camera_offset)], by the class of the entity. *)
Definition Entity_draw `{Platform} (o : EntityObj)
    (camera_offset : float * float) : option (list DrawCmd) :=
  match o with
  | ETank t => Tank_draw t camera_offset
  | EShell s => Shell_draw s camera_offset
  | EMine mn => Mine_draw mn camera_offset
  | EPillbox p => Pillbox_draw p camera_offset
  | EBase b => Base_draw b camera_offset
  end.

(** ** [BoloGame._render] *)

(** [GameState.camera_offset] *)
Definition camera_offset (gs : GameState) : float * float :=
  (camera_x gs, camera_y gs).

(** The sort key of [_render]:
    [(isinstance(e, Tank), isinstance(e, Shell))]. *)
Definition is_tank (o : EntityObj) : bool :=
  match o with ETank _ => true | _ => false end.

Definition is_shell (o : EntityObj) : bool :=
  match o with EShell _ => true | _ => false end.

Definition render_key (o : EntityObj) : bool * bool := (is_tank o, is_shell o).

(** [a < b] on two pairs of [bool]s: the first components that differ
    decide, [False] being below [True]. *)
Definition bool_lt (a b : bool) : bool := negb a && b.

Definition key_lt (a b : bool * bool) : bool :=
  if decide (a.1 = b.1) then bool_lt a.2 b.2 else bool_lt a.1 b.1.

(** The objects [game_state.entities] refers to. *)
Definition listed_objs (gs : GameState) : list EntityObj :=
  omap (λ i, heap gs !! i) (entities gs).

(** The entities in the order [_render] draws them. *)
Definition render_order (gs : GameState) : list EntityObj :=
  py_sorted render_key key_lt (listed_objs gs).

(** The f-string of the resource line of the display. *)
Definition ui_text (r : Resources) : string :=
  "Armor: " +:+ pretty (armor r) +:+ "/" +:+ pretty TANK_MAX_ARMOR +:+ "  " +:+
  "Shells: " +:+ pretty (shells r) +:+ "/" +:+ pretty TANK_MAX_SHELLS +:+ "  " +:+
  "Mines: " +:+ pretty (mines r) +:+ "/" +:+ pretty TANK_MAX_MINES +:+ "  " +:+
  "Wood: " +:+ pretty (wood r) +:+ "/" +:+ pretty TANK_MAX_WOOD.

(** The size of [self.font] and of the font of the title. *)
Definition FONT_SIZE : Z := 24.
Definition TITLE_FONT_SIZE : Z := 72.

(** The veil over a finished game: a surface of the size of the window,
    half transparent, filled black. *)
Definition overlay : Surface :=
  mkSurface (WINDOW_WIDTH, WINDOW_HEIGHT) (Some 128) [Fill (0, 0, 0)].

(** [BoloGame._render_ui] *)
Definition BoloGame__render_ui (game : BoloGame) : list DrawCmd :=
  match player_tank (game_state game) with
  | None => []
  | Some player =>
      let alive := e_alive (tank_base player) in
      (if alive then
         [Blit (Text FONT_SIZE (ui_text (resources player)) (255, 255, 255))
            (TopLeft (10, 10)) None]
       else []) ++
      [Blit (Text FONT_SIZE
               "WASD: Move | SPACE: Fire | M: Mine | ESC: Pause | R: Restart"
               (200, 200, 200))
         (TopLeft (10, WINDOW_HEIGHT - 30)) None] ++
      (if negb alive then
         [Blit (FromSurface overlay) (TopLeft (0, 0)) None;
          Blit (Text TITLE_FONT_SIZE "GAME OVER" (255, 50, 50))
            (Center (WINDOW_WIDTH `div` 2, WINDOW_HEIGHT `div` 2 - 40)) None;
          Blit (Text FONT_SIZE "Press R to Restart" (255, 255, 255))
            (Center (WINDOW_WIDTH `div` 2, WINDOW_HEIGHT `div` 2 + 20)) None]
       else if paused (game_state game) then
         [Blit (Text FONT_SIZE "PAUSED - Press ESC to Continue" (255, 255, 0))
            (Center (WINDOW_WIDTH `div` 2, WINDOW_HEIGHT `div` 2)) None]
       else [])
  end.

(** [BoloGame._render]: the screen is cleared, then the map, the
    entities by layer, the display and the flip.  The game changes in
    the cache of its map only. *)
Definition BoloGame__render `{Platform} (game : BoloGame)
    : option (BoloGame * list DrawCmd) :=
  let gs := game_state game in
  '(m, map_cmds) ←
    GameMap_render (game_map gs) (camera_offset gs)
      (WINDOW_WIDTH, WINDOW_HEIGHT);
  let game := mkBoloGame (running game) (set_game_map gs m) in
  entity_cmds ← mapM (λ o, Entity_draw o (camera_offset gs)) (render_order gs);
  Some (game,
        [Draw (Fill (0, 0, 0))] ++ map_cmds ++ mjoin entity_cmds ++
        BoloGame__render_ui game ++ [Flip]).

(** ** [BoloGame.run] with its rendering *)

(** One turn of the loop of [run]: events, update, render. *)
Definition BoloGame_frame `{Platform} (input : list Event * Pressed)
    (game : BoloGame) : option (BoloGame * list DrawCmd) :=
  BoloGame_turn input game ≫= BoloGame__render.

(** [BoloGame.run] over the inputs of successive turns, with the frames
    it shows. *)
Fixpoint BoloGame_run_screen `{Platform} (inputs : list (list Event * Pressed))
    (game : BoloGame) : option (BoloGame * list (list DrawCmd)) :=
  match inputs with
  | [] => Some (game, [])
  | input :: inputs' =>
      if running game then
        '(game, frame) ← BoloGame_frame input game;
        '(game', frames) ← BoloGame_run_screen inputs' game;
        Some (game', frame :: frames)
      else Some (game, [])
  end.

(** ** Lemmas *)

Section RenderLemmas.
Context `{Platform}.
Implicit Types (gs : GameState) (game : BoloGame) (o : EntityObj).
Implicit Types (cam : float * float) (cmds : list DrawCmd).

Lemma team_color_ok tm : Color_ok (team_color tm).
Proof. destruct tm; by_compute. Qed.

(** The screen position exists exactly when both differences are
    numbers. *)
Lemma screen_pos_is_Some (b : EntityBase) cam :
  is_Some (screen_pos b cam) ↔
  is_number (e_x b - cam.1) = true ∧ is_number (e_y b - cam.2) = true.
Proof.
  unfold screen_pos. rewrite <- !py_int_is_Some.
  destruct (py_int (e_x b - cam.1)), (py_int (e_y b - cam.2)); simpl;
    split; try (intros [[??] [??]] || intros [??]); done || eauto.
Qed.

(** [draw_ok] closes the well-formedness of a list of commands that
    is given in full. *)
Ltac draw_ok :=
  pose proof team_color_ok;
  repeat first [apply Forall_nil_2 | apply Forall_cons_2 | apply Forall_app_2];
  simpl; split_and?; auto; lia.

Lemma Tank_draw_ok (t : Tank) cam cmds :
  0 ≤ tank_size t → Tank_draw t cam = Some cmds → Forall DrawCmd_ok cmds.
Proof. unfold Tank_draw. intros ? Hd. bind_inv Hd. subst. draw_ok. Qed.

Lemma Shell_draw_ok (s : Shell) cam cmds :
  1 ≤ radius s → Shell_draw s cam = Some cmds → Forall DrawCmd_ok cmds.
Proof. unfold Shell_draw. intros ? Hd. bind_inv Hd. subst. draw_ok. Qed.

Lemma Mine_draw_ok (mn : Mine) cam cmds :
  2 ≤ mine_radius mn → Mine_draw mn cam = Some cmds → Forall DrawCmd_ok cmds.
Proof. unfold Mine_draw. intros ? Hd. bind_inv Hd; subst; draw_ok. Qed.

Lemma Pillbox_draw_ok (p : Pillbox) cam cmds :
  0 ≤ pill_size p → Pillbox_draw p cam = Some cmds → Forall DrawCmd_ok cmds.
Proof.
  unfold Pillbox_draw. intros ? Hd. bind_inv Hd; subst; [draw_ok|].
  case_decide; draw_ok.
Qed.

Lemma Base_draw_ok (b : Base) cam cmds :
  Base_draw b cam = Some cmds → Forall DrawCmd_ok cmds.
Proof.
  unfold Base_draw. intros Hd. bind_inv Hd; subst. case_decide; draw_ok.
Qed.

(** Every [draw] method issues well-formed commands for an object that
    satisfies the invariant of its class. *)
Lemma Entity_draw_ok o cam cmds :
  obj_ok o → Entity_draw o cam = Some cmds → Forall DrawCmd_ok cmds.
Proof.
  destruct o as [t|s|mn|p|b]; simpl.
  - intros (_&_&_&_&_&?). by apply Tank_draw_ok.
  - intros (_&_&?). by apply Shell_draw_ok.
  - intros (_&?). by apply Mine_draw_ok.
  - intros (_&_&_&_&_&_&?). by apply Pillbox_draw_ok.
  - intros _. by apply Base_draw_ok.
Qed.

(** *** The order of the layers *)

(** A tank is above everything that is not a tank, and a shell above
    everything else that is not a shell; within a layer no key is below
    another. *)
Lemma render_key_tank_above o o' :
  is_tank o = false → is_tank o' = true →
  key_lt (render_key o) (render_key o') = true ∧
  key_lt (render_key o') (render_key o) = false.
Proof. by destruct o, o'. Qed.

Lemma render_key_shell_above o o' :
  is_tank o = false → is_tank o' = false →
  is_shell o = false → is_shell o' = true →
  key_lt (render_key o) (render_key o') = true ∧
  key_lt (render_key o') (render_key o) = false.
Proof. by destruct o, o'. Qed.

Lemma render_key_same_layer o o' :
  is_tank o = is_tank o' → (is_tank o = false → is_shell o = is_shell o') →
  key_lt (render_key o') (render_key o) = false.
Proof. destruct o, o'; simpl; intros ? Hs; try done; by discriminate Hs. Qed.

(** [sorted] by the render key is three filters: the entities that are
    neither tanks nor shells, then the shells, then the tanks, each in
    the order of the list. *)
Lemma py_sorted_render_key (l : list EntityObj) :
  py_sorted render_key key_lt l
  = filter (λ o, is_tank o = false ∧ is_shell o = false) l
    ++ filter (λ o, is_shell o = true) l
    ++ filter (λ o, is_tank o = true) l.
Proof.
  rewrite (py_sorted_partition _ _ is_tank)
    by (intros; by apply render_key_tank_above).
  rewrite (py_sorted_partition _ _ is_shell (filter _ l))
    by (intros ?? [??]%list_elem_of_filter [??]%list_elem_of_filter ??;
        by apply render_key_shell_above).
  rewrite !py_sorted_unordered
    by (intros ??; rewrite ?list_elem_of_filter; intros; destruct_and?;
        apply render_key_same_layer; [|intros ?]; congruence).
  rewrite !list_filter_filter, <- app_assoc.
  f_equal; [|f_equal]; apply list_filter_iff; intros o; destruct o; simpl;
    intuition congruence.
Qed.

(** *** The frame *)

Lemma BoloGame__render_ui_ok game : Forall DrawCmd_ok (BoloGame__render_ui game).
Proof.
  unfold BoloGame__render_ui. destruct (player_tank _) as [t|]; [|done].
  destruct (e_alive _), (paused _); simpl;
    repeat first [apply Forall_nil_2 | apply Forall_cons_2]; by_compute.
Qed.

(** The objects the list refers to satisfy their invariants. *)
Lemma listed_objs_ok gs : wf_state gs → Forall obj_ok (listed_objs gs).
Proof.
  intros (_&Hh&_). apply list.Forall_forall.
  intros o (i&_&Hi)%list_elem_of_omap. by destruct (Hh i o Hi) as (_&_&?).
Qed.

(** What a rendering that succeeds did, step by step. *)
Lemma BoloGame__render_inv game game' cmds :
  BoloGame__render game = Some (game', cmds) →
  ∃ m' map_cmds entity_cmds,
    GameMap_render (game_map (game_state game))
      (camera_offset (game_state game)) (WINDOW_WIDTH, WINDOW_HEIGHT)
      = Some (m', map_cmds) ∧
    mapM (λ o, Entity_draw o (camera_offset (game_state game)))
      (render_order (game_state game)) = Some entity_cmds ∧
    game' = mkBoloGame (running game) (set_game_map (game_state game) m') ∧
    cmds = [Draw (Fill (0, 0, 0))] ++ map_cmds ++ mjoin entity_cmds ++
           BoloGame__render_ui game' ++ [Flip].
Proof.
  unfold BoloGame__render. intros Hr. bind_inv Hr. simplify_eq. eauto 10.
Qed.

(** Rendering leaves a well-formed state, with the grid as it was. *)
Lemma GameMap_render_grid m cam v m' cmds :
  wf_map m → GameMap_render m cam v = Some (m', cmds) →
  wf_map m' ∧ width m' = width m ∧ height m' = height m ∧
  tiles m' = tiles m ∧ Forall DrawCmd_ok cmds.
Proof.
  intros Hwf Hr.
  destruct (GameMap_render_Some _ _ _ _ _ Hwf Hr) as (Hw&Hh&Hx&Hy).
  destruct (GameMap_render_result m cam v Hwf Hw Hh Hx Hy)
    as (m1&sx&sy&Hr'&_&_&?&?&?&_&?&Hp).
  rewrite Hr in Hr'. simplify_eq. split_and!; try done.
  apply Forall_singleton. simpl. unfold Surface_ok, pixel_width, pixel_height.
  simpl. config_unfold. split_and!; (lia || done).
Qed.

(** Rendering changes the cache of the map only. *)
Lemma BoloGame__render_equiv game game' cmds :
  BoloGame__render game = Some (game', cmds) → game' ≡ game.
Proof.
  intros (m'&?&?&Hm&_&->&_)%BoloGame__render_inv.
  apply GameMap_render_invalidate in Hm.
  unfold equiv, BoloGame_equiv, BoloGame_uncached, GameState_uncached.
  simpl. by rewrite Hm.
Qed.

Lemma BoloGame__render_wf game game' cmds :
  wf_state (game_state game) → BoloGame__render game = Some (game', cmds) →
  wf_state (game_state game') ∧ Forall DrawCmd_ok cmds.
Proof.
  intros Hwf (m'&mc&ec&Hm&He&->&->)%BoloGame__render_inv.
  destruct (GameMap_render_grid _ _ _ _ _ (proj1 Hwf) Hm) as (?&?&?&?&?).
  destruct Hwf as (?&?&?&?&?). split; [by split_and!|].
  repeat apply Forall_app_2; auto using BoloGame__render_ui_ok.
  - by apply Forall_singleton.
  - eapply mapM_Forall_join; [exact He|].
    apply py_sorted_Forall. eapply list.Forall_impl; [by apply listed_objs_ok|].
    intros o Hok cmds. by apply Entity_draw_ok.
  - by apply Forall_singleton.
Qed.

(** One turn of the loop with its rendering is the turn of the game,
    up to the cache. *)
Lemma BoloGame_frame_turn input game game' frame :
  BoloGame_frame input game = Some (game', frame) →
  ∃ game1, BoloGame_turn input game = Some game1 ∧ game' ≡ game1 ∧
           BoloGame__render game1 = Some (game', frame).
Proof.
  unfold BoloGame_frame. intros Hf.
  destruct (BoloGame_turn input game) as [game1|]; [|done].
  exists game1. split_and!; [done| |done]. by eapply BoloGame__render_equiv.
Qed.

Lemma BoloGame_run_screen_run inputs game game' frames :
  BoloGame_run_screen inputs game = Some (game', frames) →
  ∃ game'', BoloGame_run inputs game = Some game'' ∧ game' ≡ game''.
Proof.
  revert game game' frames.
  induction inputs as [|input inputs IH]; intros game game' frames; simpl.
  { intros [= <- <-]. by exists game. }
  destruct (running game); [|intros [= <- <-]; by exists game].
  intros Hr. bind_inv Hr. simplify_eq.
  match goal with
  | E : BoloGame_frame _ _ = Some _ |- _ =>
      apply BoloGame_frame_turn in E as (game1&->&Heq&_)
  end.
  match goal with
  | E : BoloGame_run_screen _ _ = Some _ |- _ =>
      apply IH in E as (game2&Hrun&Heq2)
  end.
  simpl. pose proof (BoloGame_run_proper inputs _ _ Heq) as Hp.
  rewrite Hrun in Hp. inversion Hp as [?? Heq3|]; subst.
  eexists. split; [done|]. by rewrite Heq2.
Qed.

Lemma BoloGame_turn_wf input game :
  wf_state (game_state game) →
  ∃ game', BoloGame_turn input game = Some game' ∧ wf_state (game_state game').
Proof.
  intros Hwf. unfold BoloGame_turn.
  destruct (handle_events_wf input.1 game Hwf) as (g1 & -> & Hwf1).
  eexists. split; [done|]. by apply BoloGame__update_wf.
Qed.

Lemma BoloGame_run_screen_wf inputs game game' frames :
  wf_state (game_state game) →
  BoloGame_run_screen inputs game = Some (game', frames) →
  wf_state (game_state game') ∧ Forall (Forall DrawCmd_ok) frames ∧
  (length frames ≤ length inputs)%nat.
Proof.
  revert game game' frames.
  induction inputs as [|input inputs IH]; intros game game' frames Hwf; simpl.
  { intros [= <- <-]. split_and!; [done|constructor|done]. }
  destruct (running game);
    [|intros [= <- <-]; split_and!; [done|constructor|simpl; lia]].
  intros Hr. bind_inv Hr. simplify_eq.
  match goal with
  | E : BoloGame_frame _ _ = Some _ |- _ =>
      apply BoloGame_frame_turn in E as (game1&Ht&_&Hr)
  end.
  destruct (BoloGame_turn_wf input game Hwf) as (?&Ht'&Hwf1).
  rewrite Ht in Ht'. simplify_eq.
  destruct (BoloGame__render_wf _ _ _ Hwf1 Hr) as [Hwf2 Hok].
  match goal with
  | E : BoloGame_run_screen _ _ = Some _ |- _ =>
      destruct (IH _ _ _ Hwf2 E) as (?&?&?)
  end.
  split_and!; [done|by constructor|simpl; lia].
Qed.

(** *** What is drawn of an entity *)

(** The inner square of a pillbox of size 8 has half the health as its
    half side, and the disc of a base of size 16 has a radius of 8/68 of
    the stock. *)
Lemma pillbox_inner_size h :
  0 ≤ h ≤ PILLBOX_MAX_HEALTH →
  py_truediv h PILLBOX_MAX_HEALTH ≫= (λ r, py_int (py_float 8 * r))
  = Some (h `div` 2).
Proof.
  intros Hh. assert (h ∈ seqZ 0 17) as Hin
    by (apply elem_of_seqZ; unfold PILLBOX_MAX_HEALTH in Hh; lia).
  clear Hh. revert h Hin. apply list.Forall_forall. by_compute.
Qed.

Lemma base_indicator_size n :
  0 ≤ n ≤ 76 →
  py_truediv n 68 ≫= (λ r, py_int (py_float 16 * 0.5 * r))
  = Some ((8 * n) `div` 68).
Proof.
  intros Hn. assert (n ∈ seqZ 0 77) as Hin by (apply elem_of_seqZ; lia).
  clear Hn. revert n Hin. apply list.Forall_forall. by_compute.
Qed.

(** *** When rendering raises *)

Lemma GameMap_render_None m cam v :
  wf_map m →
  GameMap_render m cam v = None ↔
  width m < 0 ∨ height m < 0 ∨
  is_number cam.1 = false ∨ is_number cam.2 = false.
Proof.
  intros Hwf. split.
  - intros Hr. destruct (decide (0 ≤ width m)); [|left; lia].
    destruct (decide (0 ≤ height m)); [|right; left; lia].
    destruct (is_number cam.1) eqn:?; [|auto].
    destruct (is_number cam.2) eqn:?; [|auto].
    destruct (GameMap_render_result m cam v) as (?&?&?&Hr'&_); try done.
    by rewrite Hr in Hr'.
  - intros Hc. destruct (GameMap_render m cam v) as [[m' cmds]|] eqn:Hr; [|done].
    apply GameMap_render_Some in Hr as (?&?&Hx&Hy); [|done].
    rewrite Hx, Hy in Hc. destruct Hc as [?|[?|[?|?]]]; (lia || done).
Qed.

Lemma BoloGame__render_None game :
  wf_state (game_state game) →
  BoloGame__render game = None ↔
  (width (game_map (game_state game)) < 0 ∨
   height (game_map (game_state game)) < 0 ∨
   is_number (camera_x (game_state game)) = false ∨
   is_number (camera_y (game_state game)) = false) ∨
  Exists (λ o, Entity_draw o (camera_offset (game_state game)) = None)
    (listed_objs (game_state game)).
Proof.
  intros Hwf.
  pose proof (GameMap_render_None _ (camera_offset (game_state game))
                (WINDOW_WIDTH, WINDOW_HEIGHT) (proj1 Hwf)) as Hm.
  cbn [camera_offset fst snd] in Hm. rewrite <- Hm.
  rewrite <- (py_sorted_Permutation render_key key_lt (listed_objs _)).
  fold (render_order (game_state game)). rewrite <- mapM_None.
  unfold BoloGame__render.
  clear Hm.
  destruct (GameMap_render _ _ _) as [[m' mc]|]; simpl;
    [|split; [by left|done]].
  destruct (mapM _ _); simpl;
    [split; [done|by intros [?|?]]|split; [by right|done]].
Qed.
End RenderLemmas.

(** ** Theorems *)

(** An entity that is not shown: a hidden mine, a pillbox that is not
    active. *)
Definition invisible (o : EntityObj) : bool :=
  match o with
  | EMine mn => hidden mn
  | EPillbox p => negb (active p)
  | _ => false
  end.

Section RenderTheorems.
Context `{Platform}.
Implicit Types (gs : GameState) (game : BoloGame) (o : EntityObj).
Implicit Types (cam : float * float) (cmds : list DrawCmd).

(** [C15] The layers of a frame.  [_render] sorts the entities by the key
    [(isinstance(e, Tank), isinstance(e, Shell))]; the order it draws
    them in is that of three passes over the entity list: first what is
    neither a tank nor a shell (mines, pillboxes, bases), then the
    shells, then the tanks, each pass in list order.  Tanks are
    therefore drawn over everything else. *)
Theorem render_order_layers gs :
  render_order gs
  = filter (λ o, is_tank o = false ∧ is_shell o = false) (listed_objs gs)
    ++ filter (λ o, is_shell o = true) (listed_objs gs)
    ++ filter (λ o, is_tank o = true) (listed_objs gs).
Proof. apply py_sorted_render_key. Qed.

(** What is drawn of an entity.  A hidden mine and a pillbox that is not
    active issue no command, wherever they are, NaN and infinite
    positions included; every other entity, when its drawing succeeds,
    issues at least two commands, and they are well formed when the
    entity satisfies the invariant of its class. *)
Theorem Entity_draw_visible o cam :
  (invisible o = true → Entity_draw o cam = Some []) ∧
  (invisible o = false → ∀ cmds, Entity_draw o cam = Some cmds →
     (2 ≤ length cmds)%nat ∧ (obj_ok o → Forall DrawCmd_ok cmds)).
Proof.
  split.
  - destruct o as [| |mn|p|]; simpl; try done; intros Hi.
    + unfold Mine_draw. by rewrite Hi.
    + unfold Pillbox_draw. by rewrite Hi.
  - intros Hi cmds Hd. split; [|intros; by eapply Entity_draw_ok].
    destruct o as [t|s|mn|p|b]; simpl in *;
      unfold Tank_draw, Shell_draw, Mine_draw, Pillbox_draw, Base_draw in Hd;
      rewrite ?Hi in Hd; bind_inv Hd; subst; rewrite ?length_app; simpl; lia.
Qed.

(** The health square of a pillbox.  An active pillbox of size 8 that
    satisfies its invariant is drawn as a square of side 16 around its
    screen position, its outline, and, when its health is 2 or more, an
    inner square whose half side is half the health, rounded down: at
    most the half side of the pillbox. *)
Theorem Pillbox_draw_health (p : Pillbox) cam x y :
  Pillbox_ok p → pill_size p = 8 → active p = true →
  screen_pos (pill_base p) cam = Some (x, y) →
  let half := pill_health p `div` 2 in
  Pillbox_draw p cam =
    Some ([Draw (RectP (team_color (pill_team p)) (mkRect (x - 8) (y - 8) 16 16) 0);
           Draw (RectP (40, 40, 40) (mkRect (x - 8) (y - 8) 16 16) 2)] ++
          if decide (2 ≤ pill_health p) then
            [Draw (RectP (200, 200, 200)
                     (mkRect (x - half) (y - half) (half * 2) (half * 2)) 0)]
          else []) ∧
  0 ≤ half ≤ 8.
Proof.
  intros (Hh&_) Hsz Ha Hpos half. unfold Pillbox_draw.
  rewrite Ha, Hpos, Hsz. cbn [negb mbind option_bind].
  pose proof (pillbox_inner_size (pill_health p) Hh) as Hin.
  destruct (py_truediv _ _) as [r|]; [|done].
  cbn [mbind option_bind] in *. rewrite Hin. cbn [mbind option_bind].
  unfold PILLBOX_MAX_HEALTH in Hh. subst half.
  split; [|Z.div_mod_to_equations; lia].
  do 2 f_equal. repeat case_decide; try done; Z.div_mod_to_equations; lia.
Qed.

(** [C34] The supply disc of a base.  A base of size 16 that satisfies its
    invariant is drawn as a diamond, its outline, and, when it holds 9
    units or more, a disc of radius [8 * n / 68], rounded down, for a
    stock of [n] units: at most 8, half the size.  The divisor 68 is
    below the 76 units a base can hold, so the disc is full from 68
    units on. *)
Theorem Base_draw_supply (b : Base) cam x y :
  Base_ok b → base_size b = 16 →
  screen_pos (base_base b) cam = Some (x, y) →
  let n := base_shells b + base_mines b + base_armor b in
  let points := [(x, y - 16); (x + 16, y); (x, y + 16); (x - 16, y)] in
  Base_draw b cam =
    Some ([Draw (Polygon (team_color (base_team b)) points 0);
           Draw (Polygon (40, 40, 40) points 2)] ++
          if decide (9 ≤ n) then
            [Draw (Circle (200, 200, 200) (x, y) ((8 * n) `div` 68) 0)]
          else []) ∧
  0 ≤ (8 * n) `div` 68 ≤ 8 ∧ (68 ≤ n → (8 * n) `div` 68 = 8).
Proof.
  intros (?&?&?&_) Hsz Hpos n points. unfold Base_draw.
  rewrite Hpos, Hsz. cbn [mbind option_bind].
  pose proof (base_indicator_size n ltac:(lia)) as Hin. fold n.
  destruct (py_truediv _ _) as [r|]; [|done].
  cbn [mbind option_bind] in *. rewrite Hin. cbn [mbind option_bind].
  split_and!; try (intros; Z.div_mod_to_equations; lia).
  do 2 f_equal. repeat case_decide; try done; Z.div_mod_to_equations; lia.
Qed.

(** [C35] The banners of the display.  The title GAME OVER is shown exactly
    when the player's tank is dead, whatever the flag [game_over] says;
    so is the veil under it; the pause banner exactly when the tank is
    alive and the game is paused, so a paused game whose player is dead
    shows no pause banner; the resource line exactly when the tank is
    alive; and a game without a player shows nothing at all. *)
Theorem BoloGame__render_ui_banners game :
  let ui := BoloGame__render_ui game in
  (player_tank (game_state game) = None → ui = []) ∧
  (∀ t, player_tank (game_state game) = Some t →
     (Blit (Text TITLE_FONT_SIZE "GAME OVER" (255, 50, 50))
        (Center (WINDOW_WIDTH `div` 2, WINDOW_HEIGHT `div` 2 - 40)) None ∈ ui
      ↔ e_alive (tank_base t) = false) ∧
     (Blit (FromSurface overlay) (TopLeft (0, 0)) None ∈ ui
      ↔ e_alive (tank_base t) = false) ∧
     (Blit (Text FONT_SIZE "PAUSED - Press ESC to Continue" (255, 255, 0))
        (Center (WINDOW_WIDTH `div` 2, WINDOW_HEIGHT `div` 2)) None ∈ ui
      ↔ e_alive (tank_base t) = true ∧ paused (game_state game) = true) ∧
     (Blit (Text FONT_SIZE (ui_text (resources t)) (255, 255, 255))
        (TopLeft (10, 10)) None ∈ ui
      ↔ e_alive (tank_base t) = true)).
Proof.
  unfold BoloGame__render_ui. split; [by intros ->|]. intros t ->.
  destruct (e_alive (tank_base t)), (paused (game_state game)); simpl;
    rewrite ?elem_of_cons, ?elem_of_nil;
    split_and!; split; intros; destruct_or?; destruct_and?; simplify_eq;
    auto 6.
Qed.

(** [C11] A frame is well typed.  In a well-formed state every command of a
    rendering that succeeds is one pygame accepts: colours have
    components within 0 .. 255, radii, widths and rectangle sizes are
    not negative, a polygon has three points or more, a font a positive
    size; the state after the rendering is well formed. *)
Theorem BoloGame__render_well_formed game game' cmds :
  wf_state (game_state game) → BoloGame__render game = Some (game', cmds) →
  Forall DrawCmd_ok cmds ∧ wf_state (game_state game') ∧
  head cmds = Some (Draw (Fill (0, 0, 0))) ∧ list.last cmds = Some Flip.
Proof.
  intros Hwf Hr. destruct (BoloGame__render_wf _ _ _ Hwf Hr) as [??].
  apply BoloGame__render_inv in Hr as (?&?&?&_&_&_&->).
  split_and!; try done. by rewrite !app_assoc, last_snoc.
Qed.

(** [C26] When rendering raises.  In a well-formed state [_render] raises
    exactly when the map has a negative width or height
    ([pygame.Surface] refuses the size), when a camera coordinate is a
    NaN or an infinity, or when the drawing of an entity of the list
    raises.  Entities that are not in the list (pending or purged) never
    make it raise. *)
Theorem BoloGame__render_raises game :
  wf_state (game_state game) →
  BoloGame__render game = None ↔
  (width (game_map (game_state game)) < 0 ∨
   height (game_map (game_state game)) < 0 ∨
   is_number (camera_x (game_state game)) = false ∨
   is_number (camera_y (game_state game)) = false) ∨
  Exists (λ o, Entity_draw o (camera_offset (game_state game)) = None)
    (listed_objs (game_state game)).
Proof. apply BoloGame__render_None. Qed.

(** [C16] The loop with its rendering refines the loop of the game.  When
    [run] with the rendering of every frame runs over the inputs without
    raising, the loop without rendering runs over them too, and ends in
    the same game but for the cache of the map: the same [running] flag,
    entities, objects, player, camera, flags and counters, and the same
    tile in every cell.  Every theorem on [BoloGame_run] that does not
    mention the cache is a theorem on the real loop. *)
Theorem BoloGame_run_screen_refines inputs game game' frames :
  BoloGame_run_screen inputs game = Some (game', frames) →
  ∃ game'', BoloGame_run inputs game = Some game'' ∧
    running game' = running game'' ∧
    heap (game_state game') = heap (game_state game'') ∧
    entities (game_state game') = entities (game_state game'') ∧
    pending_entities (game_state game') = pending_entities (game_state game'') ∧
    player (game_state game') = player (game_state game'') ∧
    camera_offset (game_state game') = camera_offset (game_state game'') ∧
    paused (game_state game') = paused (game_state game'') ∧
    id_counter (game_state game') = id_counter (game_state game'') ∧
    rng_pos (game_state game') = rng_pos (game_state game'') ∧
    (∀ x y, get_tile (game_map (game_state game')) x y
            = get_tile (game_map (game_state game'')) x y).
Proof.
  intros (game''&Hrun&Heq)%BoloGame_run_screen_run. exists game''.
  assert (game_state game' ≡ game_state game'') as Hgs
    by exact (f_equal game_state Heq).
  destruct (GameState_equiv_fields _ _ Hgs) as (?&?&?&?&?&?&?&?&?&?&?&?).
  split_and!; try done; [exact (f_equal running Heq)|].
  unfold camera_offset. congruence.
Qed.

(** Every frame of a run is well typed.  From a well-formed state, a run
    with rendering that does not raise ends in a well-formed state and
    has shown, for at most every input, a frame of well-formed
    commands. *)
Theorem BoloGame_run_screen_well_formed inputs game game' frames :
  wf_state (game_state game) →
  BoloGame_run_screen inputs game = Some (game', frames) →
  wf_state (game_state game') ∧ Forall (Forall DrawCmd_ok) frames ∧
  (length frames ≤ length inputs)%nat.
Proof. apply BoloGame_run_screen_wf. Qed.
End RenderTheorems.

(** ** Witnesses and examples *)

Definition demo_pillbox : Pillbox := (Pillbox_init 4 400 400 NEUTRAL).1.
Definition demo_base : Base := (Base_init 3 100 120 TEAM_1).1.

(** The demonstration game with a camera that is not a number. *)
Definition lost_game : BoloGame :=
  mkBoloGame true (set_camera demo_state nan 0).

Lemma Pillbox_draw_health_witness :
  Pillbox_draw demo_pillbox (0, 0)%float =
    Some ([Draw (RectP (team_color NEUTRAL) (mkRect 392 392 16 16) 0);
           Draw (RectP (40, 40, 40) (mkRect 392 392 16 16) 2)] ++
          if decide (2 ≤ pill_health demo_pillbox) then
            [Draw (RectP (200, 200, 200)
                     (mkRect (400 - pill_health demo_pillbox `div` 2)
                        (400 - pill_health demo_pillbox `div` 2)
                        (pill_health demo_pillbox `div` 2 * 2)
                        (pill_health demo_pillbox `div` 2 * 2)) 0)]
          else []) ∧
  0 ≤ pill_health demo_pillbox `div` 2 ≤ 8.
Proof.
  apply (@Pillbox_draw_health demo_pillbox (0, 0)%float 400 400);
    first [by_compute | by vm_compute].
Defined.

Lemma Base_draw_supply_witness :
  Base_draw demo_base (0, 0)%float =
    Some ([Draw (Polygon (team_color TEAM_1)
                   [(100, 104); (116, 120); (100, 136); (84, 120)] 0);
           Draw (Polygon (40, 40, 40)
                   [(100, 104); (116, 120); (100, 136); (84, 120)] 2)] ++
          if decide (9 ≤ 38) then
            [Draw (Circle (200, 200, 200) (100, 120) ((8 * 38) `div` 68) 0)]
          else []) ∧
  0 ≤ (8 * 38) `div` 68 ≤ 8 ∧ (68 ≤ 38 → (8 * 38) `div` 68 = 8).
Proof.
  apply (@Base_draw_supply demo_base (0, 0)%float 100 120);
    first [by_compute | by vm_compute].
Defined.

Lemma BoloGame__render_well_formed_witness :
  match @BoloGame__render east_platform demo_game with
  | Some (game', cmds) =>
      Forall DrawCmd_ok cmds ∧ wf_state (game_state game') ∧
      head cmds = Some (Draw (Fill (0, 0, 0))) ∧ list.last cmds = Some Flip
  | None => False
  end.
Proof.
  destruct (@BoloGame__render east_platform demo_game) as [[game' cmds]|] eqn:Hr;
    [|by vm_compute in Hr].
  apply (@BoloGame__render_well_formed east_platform demo_game);
    [by_compute|exact Hr].
Defined.

Lemma BoloGame__render_raises_witness :
  @BoloGame__render east_platform lost_game = None.
Proof.
  apply (@BoloGame__render_raises east_platform lost_game); [by_compute|].
  left. right. right. left. by vm_compute.
Defined.

Lemma BoloGame_run_screen_refines_witness :
  match @BoloGame_run_screen east_platform demo_inputs demo_game with
  | Some (game', _) =>
      ∃ game'', @BoloGame_run east_platform demo_inputs demo_game = Some game'' ∧
        running game' = running game'' ∧
        heap (game_state game') = heap (game_state game'') ∧
        entities (game_state game') = entities (game_state game'') ∧
        pending_entities (game_state game')
          = pending_entities (game_state game'') ∧
        player (game_state game') = player (game_state game'') ∧
        camera_offset (game_state game') = camera_offset (game_state game'') ∧
        paused (game_state game') = paused (game_state game'') ∧
        id_counter (game_state game') = id_counter (game_state game'') ∧
        rng_pos (game_state game') = rng_pos (game_state game'') ∧
        (∀ x y, get_tile (game_map (game_state game')) x y
                = get_tile (game_map (game_state game'')) x y)
  | None => False
  end.
Proof.
  destruct (@BoloGame_run_screen east_platform demo_inputs demo_game)
    as [[game' frames]|] eqn:Hr; [|by vm_compute in Hr].
  exact (@BoloGame_run_screen_refines east_platform _ _ _ _ Hr).
Defined.

Lemma BoloGame_run_screen_well_formed_witness :
  match @BoloGame_run_screen east_platform demo_inputs demo_game with
  | Some (game', frames) =>
      wf_state (game_state game') ∧ Forall (Forall DrawCmd_ok) frames ∧
      (length frames ≤ length demo_inputs)%nat
  | None => False
  end.
Proof.
  destruct (@BoloGame_run_screen east_platform demo_inputs demo_game)
    as [[game' frames]|] eqn:Hr; [|by vm_compute in Hr].
  apply (@BoloGame_run_screen_well_formed east_platform _ demo_game);
    [by_compute|exact Hr].
Defined.

(** The frame of the demonstration game after the blit of the map: the
    base, the pillbox and the mine, then the two tanks with their
    cannons pointing east, then the display. *)
Example render_frame_demo :
  (drop 2 <$> (snd <$> @BoloGame__render east_platform demo_game)) =
  Some
    [Draw (Polygon (34, 139, 34) [(100, 104); (116, 120); (100, 136); (84, 120)] 0);
     Draw (Polygon (40, 40, 40) [(100, 104); (116, 120); (100, 136); (84, 120)] 2);
     Draw (Circle (200, 200, 200) (100, 120) 4 0);
     Draw (RectP (128, 128, 128) (mkRect 392 392 16 16) 0);
     Draw (RectP (40, 40, 40) (mkRect 392 392 16 16) 2);
     Draw (RectP (200, 200, 200) (mkRect 392 392 16 16) 0);
     Draw (Circle (60, 60, 60) (300, 300) 6 0);
     Draw (Circle (40, 40, 40) (300, 300) 4 0);
     Draw (Circle (34, 139, 34) (100, 100) 12 0);
     Draw (Circle (40, 40, 40) (100, 100) 12 2);
     Draw (Line (200, 200, 200) (100, 100) (122, 100) 4);
     Draw (Line (60, 60, 60) (100, 100) (122, 100) 2);
     Draw (Circle (178, 34, 34) (125, 100) 12 0);
     Draw (Circle (40, 40, 40) (125, 100) 12 2);
     Draw (Line (200, 200, 200) (125, 100) (147, 100) 4);
     Draw (Line (60, 60, 60) (125, 100) (147, 100) 2);
     Blit (Text 24 "Armor: 8/8  Shells: 39/40  Mines: 40/40  Wood: 0/40"
             (255, 255, 255)) (TopLeft (10, 10)) None;
     Blit (Text 24 "WASD: Move | SPACE: Fire | M: Mine | ESC: Pause | R: Restart"
             (200, 200, 200)) (TopLeft (10, 738)) None;
     Flip].
Proof. by vm_compute. Qed.

(** The layers when a shell is in the list before the tanks and a tank
    before the base: base, then shell, then tanks. *)
Example render_order_demo :
  render_key <$> render_order (set_entities demo_state [1; 2; 3; 0]%nat [])
  = [(false, false); (false, true); (true, false); (true, false)] ∧
  (e_id ∘ obj_base) <$> render_order (set_entities demo_state [1; 2; 3; 0]%nat [])
  = [3; 2; 1; 0]%nat.
Proof. by vm_compute. Qed.

(** The frames of three turns of the demonstration game end with the
    pause banner, and the run with rendering ends in the state of the
    run without. *)
Example run_screen_demo :
  match @BoloGame_run_screen east_platform demo_inputs demo_game,
        @BoloGame_run east_platform demo_inputs demo_game with
  | Some (game', frames), Some game'' =>
      length <$> frames = [21; 23; 24]%nat ∧
      heap (game_state game') = heap (game_state game'') ∧
      game' ≠ game''
  | _, _ => False
  end.
Proof. vm_compute. split_and!; [done..|by intros [=]]. Qed.
