(* ===== verification/Launcher.v ===== *)
(** * Launcher: the entry points and the package files

    [src/main.py]: [main] prints a banner, constructs a [BoloGame], runs
    it and prints a farewell.  [src/src/bolo_engine.py], [main]: the same
    without the printing.  [src/src/__init__.py] and
    [src/src/systems/__init__.py]: the names the packages export.

    An exception of the game leaves [main] before the farewell: the
    result of [launcher_main] has the banner in every case, and the
    frames and the farewell when the game returned. *)

From stdpp Require Import strings.
From S2P Require Import Prelude PyFloat Config Draw GameMap Entity Tank.
From S2P Require Import Structures GameState Controller Cache Render.
Set Warnings "-inexact-float".

(** ** [src/main.py] *)

(** The newline of ["\n"]. *)
Definition nl : string := String (Ascii.ascii_of_nat 10) EmptyString.

(** [s * n] on a string. *)
Fixpoint str_mul (s : string) (n : nat) : string :=
  match n with
  | O => EmptyString
  | S n => s +:+ str_mul s n
  end.

(** The arguments of the calls of [print] before the game, in order. *)
Definition banner : list string :=
  [str_mul "=" 60;
   "🎮 bring-back-BOLO - Phase 2: Strategic Features";
   str_mul "=" 60;
   nl +:+ "Starting the game...";
   nl +:+ "Controls:";
   "  WASD/Arrows - Move tank";
   "  SPACE       - Fire shell";
   "  M           - Place mine";
   "  ESC         - Pause";
   "  R           - Restart";
   nl +:+ "Objective:";
   "  - Capture neutral bases (diamond shapes)";
   "  - Destroy enemy pillboxes (squares)";
   "  - Resupply at friendly bases";
   "  - Manage your resources wisely!";
   nl +:+ str_mul "=" 60].

Definition farewell : string :=
  nl +:+ "Thanks for playing bring-back-BOLO! 🎮".

(** [main] of [bolo_engine.py]: [game = BoloGame(); game.run()].  The
    identifier counter [n] and the position [r] in the random sequence
    are those of the process when it starts. *)
Definition engine_main `{Platform} (inputs : list (list Event * Pressed))
    (n r : nat) : option (BoloGame * list (list DrawCmd)) :=
  BoloGame_init n r ≫= BoloGame_run_screen inputs.

(** [main] of [main.py]: what was printed before the game, and, when the
    game returned, the frames it showed and what was printed after it. *)
Definition launcher_main `{Platform} (inputs : list (list Event * Pressed))
    (n r : nat) : list string * option (list (list DrawCmd) * list string) :=
  (banner, '(_, frames) ← engine_main inputs n r; Some (frames, [farewell])).

(** ** The package files *)

(** [src/src/__init__.py] *)
Definition package_version : string := "0.2.0".
Definition package_author : string := "Code the Dream / StrayDog Syndications".

(** The names of [from .bolo_engine import (...)]. *)
Definition package_imports : list string :=
  ["BoloGame"; "GameState"; "Tank"; "Shell"; "Mine"; "Pillbox"; "Base";
   "Config"; "Team"; "TileType"].

Definition package_all : list string :=
  ["BoloGame"; "GameState"; "Tank"; "Shell"; "Mine"; "Pillbox"; "Base";
   "Config"; "Team"; "TileType"].

(** [src/src/systems/__init__.py]: every entry of the list is a
    comment. *)
Definition systems_all : list string := [].

(** * Lemmas and theorems *)

Section LauncherTheorems.
Context `{Platform}.

Lemma string_length_app (s1 s2 : string) :
  String.length (s1 +:+ s2) = (String.length s1 + String.length s2)%nat.
Proof. induction s1 as [|c s1 IH]; simpl; [done|by rewrite IH]. Qed.

Lemma length_str_mul s n :
  String.length (str_mul s n) = (n * String.length s)%nat.
Proof.
  induction n as [|n IH]; [done|]. simpl.
  rewrite string_length_app, IH. lia.
Qed.

(** The game [main] constructs is set up and well formed. *)
Lemma BoloGame_init_wf n r :
  ∃ game, BoloGame_init n r = Some game ∧ wf_state (game_state game) ∧
    running game = true.
Proof.
  destruct (setup_game_new n r) as (gs & Hrun & Hwf & _).
  unfold BoloGame_init. rewrite Hrun. exists (mkBoloGame true gs).
  split_and!; [reflexivity|exact Hwf|reflexivity].
Qed.

(** What the launcher shows.  The banner of sixteen lines is printed in
    every case; the construction of the game never raises; the farewell
    is printed exactly when the loop returns, and then the loop has shown
    at most one frame for every turn, each of commands pygame accepts,
    and without its rendering it ends in the same game. *)
Theorem launcher_main_shows inputs n r :
  ∃ game,
    BoloGame_init n r = Some game ∧
    (launcher_main inputs n r).1 = banner ∧ length banner = 16%nat ∧
    match (launcher_main inputs n r).2 with
    | None => BoloGame_run_screen inputs game = None
    | Some (frames, lines) =>
        lines = [farewell] ∧ (length frames ≤ length inputs)%nat ∧
        Forall (Forall DrawCmd_ok) frames ∧
        ∃ game' game'',
          BoloGame_run_screen inputs game = Some (game', frames) ∧
          BoloGame_run inputs game = Some game'' ∧ game' ≡ game''
    end.
Proof.
  destruct (BoloGame_init_wf n r) as (game & Hinit & Hwf & _).
  exists game. do 3 (split; [done || reflexivity|]).
  unfold launcher_main, engine_main. rewrite Hinit.
  cbn [snd mbind option_bind].
  destruct (BoloGame_run_screen inputs game) as [[game' frames]|] eqn:Hr;
    [|reflexivity].
  cbn [snd mbind option_bind].
  destruct (BoloGame_run_screen_wf _ _ _ _ Hwf Hr) as (_ & Hok & Hlen).
  destruct (BoloGame_run_screen_run _ _ _ _ Hr) as (game'' & Hrun & Heq).
  split; [reflexivity|]. split; [exact Hlen|]. split; [exact Hok|].
  exists game', game''. split; [reflexivity|]. split; [exact Hrun|exact Heq].
Qed.

(** The package exports what it imports: [__all__] lists each imported
    name once, and the package of the systems exports nothing. *)
Theorem package_exports :
  package_all = package_imports ∧ NoDup package_all ∧ systems_all = [].
Proof. split_and!; [done|by_compute|done]. Qed.
End LauncherTheorems.

(** * Examples *)

(** The rules of the banner are sixty characters wide. *)
Example banner_rule : String.length (str_mul "=" 60) = 60%nat.
Proof. by rewrite length_str_mul. Qed.

(** A launch whose player closes the window at once: the banner, one
    frame, the farewell. *)
Example launcher_quit_demo :
  let out := @launcher_main east_platform [([QUIT], no_keys)] 0 0 in
  out.1 = banner ∧
  (λ fl, (length fl.1, fl.2)) <$> out.2 = Some (1%nat, [farewell]).
Proof. split; [done|by vm_compute]. Qed.
