(* ===== verification/Enums.v ===== *)
(** * Enums: the enumerations of the package

    [src/src/enums.py]: six [IntEnum] classes.  [TileType] and [Team]
    repeat the classes of the engine under the same names and values; the
    other four number their members with [auto()].  What the classes share
    is the interface [IntEnum]: a member is an [int], found back from its
    value, and compared as an [int] with the members of any other
    enumeration. *)

From stdpp Require Import list countable.
From S2P Require Import Prelude Config.

(** ** The interface *)

(** An [IntEnum] class: the value of a member and the members in the
    order of their definition, without aliases. *)
Class IntEnum (A : Type) `{EqDecision A} := {
  enum_value : A → Z;
  enum_members : list A;
  enum_members_complete a : a ∈ enum_members;
  enum_values_NoDup : NoDup (enum_value <$> enum_members)
}.

Arguments enum_members A {_ _}.

(** [A(n)]: the member of value [n]; [ValueError], here [None], when
    there is none. *)
Definition enum_of_value (A : Type) `{IntEnum A} (n : Z) : option A :=
  snd <$> list_find (λ a, enum_value a = n) (enum_members A).

(** [a == b] for members of two [IntEnum] classes, the same or not: the
    comparison of [int]. *)
Definition int_enum_eq {A B} `{IntEnum A, IntEnum B} (a : A) (b : B) : bool :=
  bool_decide (enum_value a = enum_value b).

(** The values [auto()] gives: 1, 2, ... in the order of definition. *)
Definition auto_numbered (A : Type) `{IntEnum A} : Prop :=
  enum_value <$> enum_members A = seqZ 1 (Z.of_nat (length (enum_members A))).

(** ** [class TileType(IntEnum)] and [class Team(IntEnum)] *)

Inductive Enums_TileType :=
  | Enums_DEEP_WATER | Enums_RIVER | Enums_SWAMP | Enums_CRATER | Enums_ROAD
  | Enums_FOREST | Enums_RUBBLE | Enums_GRASS | Enums_WALL
  | Enums_DAMAGED_WALL | Enums_BOAT.

#[export] Instance Enums_TileType_eq_dec : EqDecision Enums_TileType.
Proof. solve_decision. Defined.

#[export, refine] Instance Enums_TileType_enum : IntEnum Enums_TileType := {
  enum_value t :=
    match t with
    | Enums_DEEP_WATER => 0 | Enums_RIVER => 1 | Enums_SWAMP => 2
    | Enums_CRATER => 3 | Enums_ROAD => 4 | Enums_FOREST => 5
    | Enums_RUBBLE => 6 | Enums_GRASS => 7 | Enums_WALL => 8
    | Enums_DAMAGED_WALL => 9 | Enums_BOAT => 10
    end;
  enum_members :=
    [Enums_DEEP_WATER; Enums_RIVER; Enums_SWAMP; Enums_CRATER; Enums_ROAD;
     Enums_FOREST; Enums_RUBBLE; Enums_GRASS; Enums_WALL; Enums_DAMAGED_WALL;
     Enums_BOAT]
}.
Proof.
  - intros []; by_compute.
  - by_compute.
Defined.

Inductive Enums_Team :=
  | Enums_NEUTRAL | Enums_TEAM_1 | Enums_TEAM_2 | Enums_TEAM_3 | Enums_TEAM_4.

#[export] Instance Enums_Team_eq_dec : EqDecision Enums_Team.
Proof. solve_decision. Defined.

#[export, refine] Instance Enums_Team_enum : IntEnum Enums_Team := {
  enum_value t :=
    match t with
    | Enums_NEUTRAL => 0 | Enums_TEAM_1 => 1 | Enums_TEAM_2 => 2
    | Enums_TEAM_3 => 3 | Enums_TEAM_4 => 4
    end;
  enum_members :=
    [Enums_NEUTRAL; Enums_TEAM_1; Enums_TEAM_2; Enums_TEAM_3; Enums_TEAM_4]
}.
Proof.
  - intros []; by_compute.
  - by_compute.
Defined.

(** ** The enumerations numbered by [auto()] *)

Inductive GamePhase :=
  | GamePhase_MENU | GamePhase_PLAYING | GamePhase_PAUSED | GamePhase_GAME_OVER.

#[export] Instance GamePhase_eq_dec : EqDecision GamePhase.
Proof. solve_decision. Defined.

#[export, refine] Instance GamePhase_enum : IntEnum GamePhase := {
  enum_value p :=
    match p with
    | GamePhase_MENU => 1 | GamePhase_PLAYING => 2 | GamePhase_PAUSED => 3
    | GamePhase_GAME_OVER => 4
    end;
  enum_members :=
    [GamePhase_MENU; GamePhase_PLAYING; GamePhase_PAUSED; GamePhase_GAME_OVER]
}.
Proof.
  - intros []; by_compute.
  - by_compute.
Defined.

Inductive EntityType :=
  | EntityType_TANK | EntityType_SHELL | EntityType_MINE | EntityType_PILLBOX
  | EntityType_BASE | EntityType_LGM.

#[export] Instance EntityType_eq_dec : EqDecision EntityType.
Proof. solve_decision. Defined.

#[export, refine] Instance EntityType_enum : IntEnum EntityType := {
  enum_value t :=
    match t with
    | EntityType_TANK => 1 | EntityType_SHELL => 2 | EntityType_MINE => 3
    | EntityType_PILLBOX => 4 | EntityType_BASE => 5 | EntityType_LGM => 6
    end;
  enum_members :=
    [EntityType_TANK; EntityType_SHELL; EntityType_MINE; EntityType_PILLBOX;
     EntityType_BASE; EntityType_LGM]
}.
Proof.
  - intros []; by_compute.
  - by_compute.
Defined.

Inductive AIState :=
  | AIState_IDLE | AIState_PATROL | AIState_CHASE | AIState_ATTACK
  | AIState_FLEE | AIState_CAPTURE.

#[export] Instance AIState_eq_dec : EqDecision AIState.
Proof. solve_decision. Defined.

#[export, refine] Instance AIState_enum : IntEnum AIState := {
  enum_value s :=
    match s with
    | AIState_IDLE => 1 | AIState_PATROL => 2 | AIState_CHASE => 3
    | AIState_ATTACK => 4 | AIState_FLEE => 5 | AIState_CAPTURE => 6
    end;
  enum_members :=
    [AIState_IDLE; AIState_PATROL; AIState_CHASE; AIState_ATTACK;
     AIState_FLEE; AIState_CAPTURE]
}.
Proof.
  - intros []; by_compute.
  - by_compute.
Defined.

Inductive LGMTask :=
  | LGMTask_IDLE | LGMTask_HARVEST | LGMTask_BUILD_ROAD | LGMTask_BUILD_WALL
  | LGMTask_BUILD_BOAT | LGMTask_PLACE_MINE | LGMTask_DRILL_MINE
  | LGMTask_CAPTURE_PILL | LGMTask_PLACE_PILL.

#[export] Instance LGMTask_eq_dec : EqDecision LGMTask.
Proof. solve_decision. Defined.

#[export, refine] Instance LGMTask_enum : IntEnum LGMTask := {
  enum_value t :=
    match t with
    | LGMTask_IDLE => 1 | LGMTask_HARVEST => 2 | LGMTask_BUILD_ROAD => 3
    | LGMTask_BUILD_WALL => 4 | LGMTask_BUILD_BOAT => 5
    | LGMTask_PLACE_MINE => 6 | LGMTask_DRILL_MINE => 7
    | LGMTask_CAPTURE_PILL => 8 | LGMTask_PLACE_PILL => 9
    end;
  enum_members :=
    [LGMTask_IDLE; LGMTask_HARVEST; LGMTask_BUILD_ROAD; LGMTask_BUILD_WALL;
     LGMTask_BUILD_BOAT; LGMTask_PLACE_MINE; LGMTask_DRILL_MINE;
     LGMTask_CAPTURE_PILL; LGMTask_PLACE_PILL]
}.
Proof.
  - intros []; by_compute.
  - by_compute.
Defined.

(** ** The classes of the engine as instances *)

#[export, refine] Instance TileType_enum : IntEnum TileType := {
  enum_value := TileType_value;
  enum_members := all_tile_types
}.
Proof.
  - intros []; by_compute.
  - by_compute.
Defined.

#[export, refine] Instance Team_enum : IntEnum Team := {
  enum_value := Team_value;
  enum_members := [NEUTRAL; TEAM_1; TEAM_2; TEAM_3; TEAM_4]
}.
Proof.
  - intros []; by_compute.
  - by_compute.
Defined.

(** The member of the engine's class with the same name. *)
Definition TileType_of_enums (t : Enums_TileType) : TileType :=
  match t with
  | Enums_DEEP_WATER => DEEP_WATER | Enums_RIVER => RIVER
  | Enums_SWAMP => SWAMP | Enums_CRATER => CRATER | Enums_ROAD => ROAD
  | Enums_FOREST => FOREST | Enums_RUBBLE => RUBBLE | Enums_GRASS => GRASS
  | Enums_WALL => WALL | Enums_DAMAGED_WALL => DAMAGED_WALL
  | Enums_BOAT => BOAT
  end.

Definition Team_of_enums (t : Enums_Team) : Team :=
  match t with
  | Enums_NEUTRAL => NEUTRAL | Enums_TEAM_1 => TEAM_1
  | Enums_TEAM_2 => TEAM_2 | Enums_TEAM_3 => TEAM_3 | Enums_TEAM_4 => TEAM_4
  end.

(** * Lemmas *)

Section IntEnumLaws.
Context {A : Type} `{IntEnum A}.

Lemma enum_value_inj (a b : A) : enum_value a = enum_value b → a = b.
Proof.
  intros Heq.
  destruct (list_elem_of_lookup_1 _ _ (enum_members_complete a)) as [i Hi].
  destruct (list_elem_of_lookup_1 _ _ (enum_members_complete b)) as [j Hj].
  assert (i = j) as ->; [|congruence].
  eapply NoDup_lookup; [apply enum_values_NoDup|..];
    rewrite list_lookup_fmap; [by rewrite Hi|by rewrite Hj, Heq].
Qed.

(** A member is found back from its value. *)
Lemma enum_of_value_value (a : A) : enum_of_value A (enum_value a) = Some a.
Proof.
  unfold enum_of_value.
  destruct (list_find_elem_of (λ b, enum_value b = enum_value a)
              (enum_members A) a) as [[i b] Hfind];
    [apply enum_members_complete|done|].
  rewrite Hfind. simpl. f_equal.
  apply list_find_Some in Hfind as (_ & ? & _). by apply enum_value_inj.
Qed.

Lemma enum_of_value_Some n (a : A) :
  enum_of_value A n = Some a ↔ enum_value a = n.
Proof.
  split; [|intros <-; apply enum_of_value_value].
  unfold enum_of_value. intros Hfind.
  destruct (list_find _ _) as [[i b]|] eqn:Hf; simplify_eq/=.
  by apply list_find_Some in Hf as (_ & ? & _).
Qed.

Lemma enum_of_value_None n :
  enum_of_value A n = None ↔ n ∉ enum_value <$> enum_members A.
Proof.
  unfold enum_of_value. rewrite fmap_None, list_find_None.
  rewrite list.Forall_forall, list_elem_of_fmap. split.
  - intros Hall (a & -> & Ha). by apply (Hall a).
  - intros Hno a Ha Heq. apply Hno. by exists a.
Qed.

Lemma int_enum_eq_same (a b : A) : int_enum_eq a b = true ↔ a = b.
Proof.
  unfold int_enum_eq. rewrite bool_decide_eq_true.
  split; [apply enum_value_inj|by intros ->].
Qed.
End IntEnumLaws.

(** * Theorems *)

(** Every enumeration is read back from its values: for each of the
    six classes [A(a.value)] is [a], and [A(n)] raises exactly when [n]
    is outside the values of the class, which are [0 .. 10] for
    [TileType], [0 .. 4] for [Team], and [1 ..] in the order of
    definition for the four classes numbered by [auto()]. *)
Theorem IntEnum_roundtrip :
  (∀ t : Enums_TileType, enum_of_value _ (enum_value t) = Some t) ∧
  (∀ t : Enums_Team, enum_of_value _ (enum_value t) = Some t) ∧
  (∀ n, enum_of_value Enums_TileType n = None ↔ ¬ 0 ≤ n ≤ 10) ∧
  (∀ n, enum_of_value Enums_Team n = None ↔ ¬ 0 ≤ n ≤ 4) ∧
  auto_numbered GamePhase ∧ auto_numbered EntityType ∧
  auto_numbered AIState ∧ auto_numbered LGMTask ∧
  (∀ n, enum_of_value LGMTask n = None ↔ ¬ 1 ≤ n ≤ 9).
Proof.
  split_and!; try done; try apply enum_of_value_value;
    intros n; rewrite enum_of_value_None;
    (change (enum_value <$> enum_members _) with (seqZ 0 11)
     || change (enum_value <$> enum_members _) with (seqZ 0 5)
     || change (enum_value <$> enum_members _) with (seqZ 1 9));
    rewrite elem_of_seqZ; lia.
Qed.

(** The two declarations of [TileType] and of [Team] agree: the
    member of the package's enumeration and the engine's member of the
    same name have the same value, so they are equal as Python compares
    them and either reads a table keyed by the other; the map between
    them is a bijection. *)
Theorem Enums_agree_with_engine :
  (∀ t : Enums_TileType, int_enum_eq t (TileType_of_enums t) = true) ∧
  (∀ t : Enums_Team, int_enum_eq t (Team_of_enums t) = true) ∧
  (∀ t : TileType, ∃ t', TileType_of_enums t' = t) ∧
  (∀ t : Team, ∃ t', Team_of_enums t' = t) ∧
  Inj (=) (=) TileType_of_enums ∧ Inj (=) (=) Team_of_enums.
Proof.
  split_and!.
  - by intros [].
  - by intros [].
  - intros t. by exists (default Enums_GRASS
                           (enum_of_value Enums_TileType (TileType_value t)));
      destruct t.
  - intros t. by exists (default Enums_NEUTRAL
                           (enum_of_value Enums_Team (Team_value t)));
      destruct t.
  - by intros [] [].
  - by intros [] [].
Qed.

(** Members of unrelated enumerations are equal when their values are:
    Python finds the idle state of the AI, the idle task, the menu phase,
    the tank entity type, river terrain and team 1 all equal to 1. *)
Example IntEnum_cross_equal :
  int_enum_eq AIState_IDLE LGMTask_IDLE = true ∧
  int_enum_eq GamePhase_MENU EntityType_TANK = true ∧
  int_enum_eq Enums_RIVER Enums_TEAM_1 = true ∧
  int_enum_eq AIState_IDLE Enums_TEAM_1 = true.
Proof. done. Qed.
