(* ===== verification/ConfigModule.v ===== *)
(** * ConfigModule: the configuration module of the package

    [src/src/config.py]: seven frozen dataclasses of tuning constants with
    their singleton instances, the colours of the teams and of the
    terrain, and a second terrain table, [TERRAIN], keyed by the
    [TileType] of [src/src/enums.py].  The engine does not import the
    module: it has its own [Config] and [TERRAIN_DATA].  The theorems say
    where the two agree and where the engine does something else than the
    module states. *)

From stdpp Require Import strings gmap.
Set Warnings "-inexact-float".
From S2P Require Import Prelude PyFloat Config Draw Entity Tank Structures Enums.

(** ** The dataclasses and their instances

    A field of a record is the attribute of the same name, after the name
    of its class; the instance is the class called without arguments, so
    every field has its default. *)

Record DisplayConfig := mkDisplayConfig {
  DisplayConfig_WINDOW_WIDTH : Z;
  DisplayConfig_WINDOW_HEIGHT : Z;
  DisplayConfig_FPS : Z;
  DisplayConfig_TILE_SIZE : Z;
  DisplayConfig_TITLE : string;
  DisplayConfig_HUD_HEIGHT : Z;
  DisplayConfig_MINIMAP_SIZE : Z
}.

Record MapConfig := mkMapConfig {
  MapConfig_DEFAULT_WIDTH : Z;
  MapConfig_DEFAULT_HEIGHT : Z;
  MapConfig_MAX_WIDTH : Z;
  MapConfig_MAX_HEIGHT : Z;
  MapConfig_BORDER_WALL_THICKNESS : Z;
  MapConfig_FOREST_CLUSTER_SIZE : Z;
  MapConfig_WATER_FEATURE_SIZE : Z
}.

Record TankConfig := mkTankConfig {
  TankConfig_MAX_ARMOR : Z;
  TankConfig_MAX_SHELLS : Z;
  TankConfig_MAX_MINES : Z;
  TankConfig_MAX_WOOD : Z;
  TankConfig_BASE_SPEED : float;
  TankConfig_ROTATION_SPEED : float;
  TankConfig_SIZE : Z;
  TankConfig_FIRE_COOLDOWN : Z;
  TankConfig_MINE_PLACE_COOLDOWN : Z;
  TankConfig_START_ARMOR : Z;
  TankConfig_START_SHELLS : Z;
  TankConfig_START_MINES : Z;
  TankConfig_START_WOOD : Z
}.

Record CombatConfig := mkCombatConfig {
  CombatConfig_SHELL_DAMAGE : Z;
  CombatConfig_SHELL_SPEED : float;
  CombatConfig_SHELL_LIFETIME : Z;
  CombatConfig_SHELL_SIZE : Z;
  CombatConfig_MINE_DAMAGE : Z;
  CombatConfig_MINE_BLAST_RADIUS : float;
  CombatConfig_MINE_SIZE : Z;
  CombatConfig_PILLBOX_DAMAGE : Z
}.

Record StructureConfig := mkStructureConfig {
  StructureConfig_PILLBOX_MAX_HEALTH : Z;
  StructureConfig_PILLBOX_BASE_FIRE_RATE : Z;
  StructureConfig_PILLBOX_MIN_FIRE_RATE : Z;
  StructureConfig_PILLBOX_RANGE : float;
  StructureConfig_PILLBOX_SIZE : Z;
  StructureConfig_PILLBOX_ANGER_DECAY : Z;
  StructureConfig_BASE_RESUPPLY_INTERVAL : Z;
  StructureConfig_BASE_SIZE : Z;
  StructureConfig_BASE_CAPTURE_RANGE : float;
  StructureConfig_RESUPPLY_ARMOR : Z;
  StructureConfig_RESUPPLY_SHELLS : Z;
  StructureConfig_RESUPPLY_MINES : Z;
  StructureConfig_RESUPPLY_WOOD : Z
}.

Record LGMConfig := mkLGMConfig {
  LGMConfig_SPEED : float;
  LGMConfig_SIZE : Z;
  LGMConfig_HEALTH : Z;
  LGMConfig_RESPAWN_TIME : Z;
  LGMConfig_ROAD_COST : Z;
  LGMConfig_WALL_COST : Z;
  LGMConfig_BOAT_COST : Z;
  LGMConfig_HARVEST_TIME : Z;
  LGMConfig_BUILD_TIME : Z;
  LGMConfig_MINE_DRILL_TIME : Z;
  LGMConfig_WOOD_PER_TREE : Z
}.

Record AIConfig := mkAIConfig {
  AIConfig_PATROL_CHANGE_INTERVAL : Z;
  AIConfig_CHASE_RANGE : float;
  AIConfig_ATTACK_RANGE : float;
  AIConfig_FLEE_HEALTH_THRESHOLD : Z;
  AIConfig_FLEE_DURATION : Z;
  AIConfig_AIM_ERROR : float;
  AIConfig_PRIORITY_PLAYER : float;
  AIConfig_PRIORITY_DAMAGED : float;
  AIConfig_PRIORITY_NEARBY : float
}.

Definition DISPLAY : DisplayConfig :=
  mkDisplayConfig 1024 768 60 16 "bring-back-BOLO" 40 200.

Definition MAP : MapConfig := mkMapConfig 64 48 256 256 2 8 12.

Definition TANK : TankConfig :=
  mkTankConfig 8 40 40 40 2.0 4.0 12 10 30 8 40 10 0.

Definition COMBAT : CombatConfig := mkCombatConfig 1 6.0 90 3 4 30.0 4 1.

Definition STRUCTURE : StructureConfig :=
  mkStructureConfig 16 30 5 150.0 10 60 1200 15 30.0 1 5 2 0.

Definition LGM : LGMConfig := mkLGMConfig 1.5 6 1 3600 2 2 5 120 180 240 8.

Definition AI : AIConfig := mkAIConfig 120 200.0 150.0 2 300 0.1 2.0 1.5 1.2.

(** ** [class Colors]: the palette *)

(** The basic colours. *)
Definition Colors_BLACK : Color := (0, 0, 0).
Definition Colors_WHITE : Color := (255, 255, 255).
Definition Colors_GRAY : Color := (128, 128, 128).
Definition Colors_DARK_GRAY : Color := (64, 64, 64).

(** The colours of the teams and of the terrain, by the member of the
    enumeration the attribute is named after. *)

Definition Colors_team (t : Enums_Team) : Color :=
  match t with
  | Enums_NEUTRAL => (128, 128, 128)
  | Enums_TEAM_1 => (34, 139, 34)
  | Enums_TEAM_2 => (178, 34, 34)
  | Enums_TEAM_3 => (65, 105, 225)
  | Enums_TEAM_4 => (218, 165, 32)
  end.

Definition Colors_terrain (t : Enums_TileType) : Color :=
  match t with
  | Enums_DEEP_WATER => (20, 60, 120)
  | Enums_RIVER => (40, 100, 160)
  | Enums_SWAMP => (60, 80, 40)
  | Enums_CRATER => (80, 70, 50)
  | Enums_ROAD => (60, 60, 60)
  | Enums_FOREST => (20, 80, 20)
  | Enums_RUBBLE => (90, 85, 75)
  | Enums_GRASS => (50, 120, 50)
  | Enums_WALL => (100, 100, 100)
  | Enums_DAMAGED_WALL => (120, 110, 100)
  | Enums_BOAT => (120, 80, 40)
  end.

(** The colours of the user interface and of the effects. *)
Definition Colors_UI_BACKGROUND : Color := (30, 30, 30).
Definition Colors_UI_TEXT : Color := (255, 255, 255).
Definition Colors_UI_TEXT_DIM : Color := (180, 180, 180).
Definition Colors_UI_HEALTH_GOOD : Color := (34, 139, 34).
Definition Colors_UI_HEALTH_LOW : Color := (255, 165, 0).
Definition Colors_UI_HEALTH_CRITICAL : Color := (255, 0, 0).
Definition Colors_EXPLOSION : Color := (255, 128, 0).
Definition Colors_MUZZLE_FLASH : Color := (255, 255, 0).
Definition Colors_DAMAGE_INDICATOR : Color := (255, 50, 50).

(** The attributes of the class that are not named after a member of an
    enumeration, in the order of the class body. *)
Definition Colors_named : list (string * Color) :=
  [("BLACK", Colors_BLACK); ("WHITE", Colors_WHITE); ("GRAY", Colors_GRAY);
   ("DARK_GRAY", Colors_DARK_GRAY);
   ("UI_BACKGROUND", Colors_UI_BACKGROUND); ("UI_TEXT", Colors_UI_TEXT);
   ("UI_TEXT_DIM", Colors_UI_TEXT_DIM);
   ("UI_HEALTH_GOOD", Colors_UI_HEALTH_GOOD);
   ("UI_HEALTH_LOW", Colors_UI_HEALTH_LOW);
   ("UI_HEALTH_CRITICAL", Colors_UI_HEALTH_CRITICAL);
   ("EXPLOSION", Colors_EXPLOSION); ("MUZZLE_FLASH", Colors_MUZZLE_FLASH);
   ("DAMAGE_INDICATOR", Colors_DAMAGE_INDICATOR)].

(** ** [class TerrainInfo] and [TERRAIN] *)

Record ConfigTerrainInfo := mkConfigTerrainInfo {
  cti_name : string;
  cti_speed_multiplier : float;
  cti_passable : bool;
  cti_blocks_shots : bool;
  cti_destructible : bool;
  cti_color : Color;
  cti_regrows : bool;
  cti_regrow_time : Z;
  cti_provides_wood : bool;
  cti_wood_amount : Z
}.

(** A [TerrainInfo] built with the six required fields: the last four
    take their defaults. *)
Definition plain_terrain (name : string) (speed : float)
    (passable blocks_shots destructible : bool) (color : Color)
    : ConfigTerrainInfo :=
  mkConfigTerrainInfo name speed passable blocks_shots destructible color
    false 0 false 0.

#[export] Instance Enums_TileType_countable : Countable Enums_TileType.
Proof.
  apply (inj_countable enum_value (enum_of_value Enums_TileType)).
  apply enum_of_value_value.
Defined.

Definition TERRAIN : gmap Enums_TileType ConfigTerrainInfo :=
  list_to_map [
    (Enums_DEEP_WATER,
      plain_terrain "Deep Water" 0.0 false false false
        (Colors_terrain Enums_DEEP_WATER));
    (Enums_RIVER,
      plain_terrain "River" 0.3 true false false (Colors_terrain Enums_RIVER));
    (Enums_SWAMP,
      plain_terrain "Swamp" 0.25 true false true (Colors_terrain Enums_SWAMP));
    (Enums_CRATER,
      plain_terrain "Crater" 0.5 true false false
        (Colors_terrain Enums_CRATER));
    (Enums_ROAD,
      plain_terrain "Road" 1.2 true false false (Colors_terrain Enums_ROAD));
    (Enums_FOREST,
      mkConfigTerrainInfo "Forest" 0.4 true false true
        (Colors_terrain Enums_FOREST) true 18000 true
        (LGMConfig_WOOD_PER_TREE LGM));
    (Enums_RUBBLE,
      plain_terrain "Rubble" 0.6 true false false
        (Colors_terrain Enums_RUBBLE));
    (Enums_GRASS,
      plain_terrain "Grass" 0.8 true false false (Colors_terrain Enums_GRASS));
    (Enums_WALL,
      plain_terrain "Wall" 0.0 false true true (Colors_terrain Enums_WALL));
    (Enums_DAMAGED_WALL,
      plain_terrain "Damaged Wall" 0.0 false true true
        (Colors_terrain Enums_DAMAGED_WALL));
    (Enums_BOAT,
      plain_terrain "Boat" 0.8 true false true (Colors_terrain Enums_BOAT))
  ].

(** The part of a record of [TERRAIN] that the record of the engine's
    table has too. *)
Definition engine_view (info : ConfigTerrainInfo) : TerrainInfo :=
  mkTerrainInfo (cti_name info) (cti_speed_multiplier info)
    (cti_passable info) (cti_blocks_shots info) (cti_destructible info)
    (cti_color info).

(** * Theorems *)

(** The terrain table of the module is the engine's table with four
    more fields: every kind of tile has a record in [TERRAIN], whose
    name, speed multiplier, passability, shot blocking, destructibility
    and colour are those of the engine's record for the kind of the same
    name; of the new fields, forest alone regrows, after 18000 frames,
    and provides wood, 8 units. *)
Theorem TERRAIN_agrees_with_engine t :
  ∃ info, TERRAIN !! t = Some info ∧
    TERRAIN_DATA !! TileType_of_enums t = Some (engine_view info) ∧
    (cti_regrows info = true ↔ t = Enums_FOREST) ∧
    (cti_provides_wood info = true ↔ t = Enums_FOREST) ∧
    cti_regrow_time info = (if cti_regrows info then 18000 else 0) ∧
    cti_wood_amount info = (if cti_provides_wood info then 8 else 0).
Proof.
  destruct t; (eexists; split; [by vm_compute|]); by vm_compute.
Qed.

(** The palette of the module holds colours pygame accepts; its team
    colours are those the engine draws the teams in; every terrain colour
    can be darkened by 10, as the engine does for the grid lines; and the
    colours the engine writes as literals in [_render_ui] are the
    palette's: white for the resource line, the damage indicator for the
    title of a finished game. *)
Theorem Colors_agree_with_engine :
  Forall (λ nc, Color_ok nc.2) Colors_named ∧
  (∀ t, Color_ok (Colors_team t) ∧
        TEAM_COLORS !! Team_of_enums t = Some (Colors_team t)) ∧
  (∀ t, Color_ok (Colors_terrain t) ∧
        let '(r, g, b) := Colors_terrain t in
        Color_ok (r - 10, g - 10, b - 10)) ∧
  Colors_UI_TEXT = (255, 255, 255) ∧ Colors_DAMAGE_INDICATOR = (255, 50, 50).
Proof.
  split_and!; [by_compute|intros []; split; by vm_compute
              |intros []; by_compute|done..].
Qed.

(** The constants the module and the engine both define are equal:
    the window, the frame rate and the tile size, the default map size,
    the tank's maxima, speed, rotation speed, size and fire rate, the
    shell's damage, speed, lifetime and radius, the mine's damage, the
    pillbox's health, fire rates and range, the base's resupply interval
    and amounts, and the costs and times of the engineer. *)
Theorem config_agrees_with_engine n x y angle team owner :
  let tank := (Tank_init n x y team).1 in
  let shell := (Shell_init n x y angle team owner).1 in
  let pill := (Pillbox_init n x y team).1 in
  (DisplayConfig_WINDOW_WIDTH DISPLAY, DisplayConfig_WINDOW_HEIGHT DISPLAY,
   DisplayConfig_FPS DISPLAY, DisplayConfig_TILE_SIZE DISPLAY)
  = (WINDOW_WIDTH, WINDOW_HEIGHT, FPS, TILE_SIZE) ∧
  (MapConfig_DEFAULT_WIDTH MAP, MapConfig_DEFAULT_HEIGHT MAP)
  = (MAP_WIDTH, MAP_HEIGHT) ∧
  (TankConfig_MAX_ARMOR TANK, TankConfig_MAX_SHELLS TANK,
   TankConfig_MAX_MINES TANK, TankConfig_MAX_WOOD TANK)
  = (TANK_MAX_ARMOR, TANK_MAX_SHELLS, TANK_MAX_MINES, TANK_MAX_WOOD) ∧
  (TankConfig_BASE_SPEED TANK, TankConfig_ROTATION_SPEED TANK,
   TankConfig_SIZE TANK, TankConfig_FIRE_COOLDOWN TANK)
  = (tank_speed tank, TANK_ROTATION_SPEED, tank_size tank,
     tank_fire_rate tank) ∧
  (TankConfig_START_ARMOR TANK, TankConfig_START_SHELLS TANK,
   TankConfig_START_WOOD TANK)
  = (armor (resources tank), shells (resources tank),
     wood (resources tank)) ∧
  (CombatConfig_SHELL_DAMAGE COMBAT, CombatConfig_SHELL_SPEED COMBAT,
   CombatConfig_SHELL_LIFETIME COMBAT, CombatConfig_SHELL_SIZE COMBAT,
   CombatConfig_MINE_DAMAGE COMBAT)
  = (shell_damage shell, shell_speed shell, lifetime shell, radius shell,
     MINE_DAMAGE) ∧
  (StructureConfig_PILLBOX_MAX_HEALTH STRUCTURE,
   StructureConfig_PILLBOX_BASE_FIRE_RATE STRUCTURE,
   StructureConfig_PILLBOX_RANGE STRUCTURE,
   StructureConfig_BASE_RESUPPLY_INTERVAL STRUCTURE)
  = (pill_health pill, pill_fire_rate pill, pill_range pill,
     BASE_RESUPPLY_RATE) ∧
  (∀ a, 0 ≤ a →
     StructureConfig_PILLBOX_MIN_FIRE_RATE STRUCTURE
     ≤ Pillbox_adjusted_rate (Pillbox_set_aggression pill a)) ∧
  (LGMConfig_SPEED LGM, LGMConfig_RESPAWN_TIME LGM, LGMConfig_ROAD_COST LGM,
   LGMConfig_WALL_COST LGM, LGMConfig_BOAT_COST LGM)
  = (LGM_SPEED, LGM_RESPAWN_TIME, ROAD_COST, WALL_COST, BOAT_COST).
Proof.
  split_and!; try done.
  intros a ?. unfold Pillbox_adjusted_rate. simpl. lia.
Qed.

(** Where the engine does not follow the module: a tank starts with
    40 mines, not the 10 of [START_MINES]; a mine has radius 6, not the
    4 of [MINE_SIZE]; a pillbox has size 8, not the 10 of
    [PILLBOX_SIZE]; a base has size 16, not the 15 of [BASE_SIZE]; and a
    tank touching a base is within [base.size + tank.size] = 28 pixels,
    not within the 30 of [BASE_CAPTURE_RANGE]. *)
Theorem config_engine_divergences n x y team hidden :
  let tank := (Tank_init n x y team).1 in
  let mine := (Mine_init n x y team hidden).1 in
  let pill := (Pillbox_init n x y team).1 in
  let base := (Base_init n x y team).1 in
  (mines (resources tank), TankConfig_START_MINES TANK) = (40, 10) ∧
  (mine_radius mine, CombatConfig_MINE_SIZE COMBAT) = (6, 4) ∧
  (pill_size pill, StructureConfig_PILLBOX_SIZE STRUCTURE) = (8, 10) ∧
  (base_size base, StructureConfig_BASE_SIZE STRUCTURE) = (16, 15) ∧
  (Z2F (base_size base + tank_size tank),
   StructureConfig_BASE_CAPTURE_RANGE STRUCTURE) = (28%float, 30%float).
Proof. by split_and!. Qed.
