(* ===== verification/BaseEntity.v ===== *)
(** * BaseEntity: the abstract entity class of the package

    [src/src/entities/base_entity.py]: the dataclass [Entity] from which
    the entities of the package are to inherit.  Its identifiers come from
    a counter of the class, threaded here as [next_id]; equality and hash
    go by the identifier alone, an equivalence coarser than equality of
    records, for which the accessors that respect it are registered as
    [Proper].  [update] and [draw] are abstract and [__repr__] formats a
    string: they are left out. *)

From stdpp Require Import list.
Set Warnings "-inexact-float".
From S2P Require Import Prelude PyFloat Config Entity ConfigModule.

(** ** The dataclass

    The fields in the order of the class body.  [_next_id] is annotated,
    so the dataclass makes it a field of the instances too, with default
    0; the counter itself is the attribute of the class. *)
Record BaseEntity := mkBaseEntity {
  be_x : float;
  be_y : float;
  be__id : nat;
  be_alive : bool;
  be__next_id : Z
}.

(** [Entity._generate_id]: the counter before, and the counter after. *)
Definition BaseEntity__generate_id (next_id : nat) : nat * nat :=
  (next_id, S next_id).

(** [Entity.reset_id_counter] *)
Definition BaseEntity_reset_id_counter (next_id : nat) : nat := 0%nat.

(** The generated [__init__] of a concrete subclass without fields of its
    own. *)
Definition BaseEntity_init (next_id : nat) (x y : float) : BaseEntity * nat :=
  let '(i, next_id') := BaseEntity__generate_id next_id in
  ({| be_x := x; be_y := y; be__id := i; be_alive := true;
      be__next_id := 0 |}, next_id').

(** The properties [id], [position] and [tile_position]. *)
Definition BaseEntity_id (e : BaseEntity) : nat := be__id e.

Definition BaseEntity_position (e : BaseEntity) : float * float :=
  (be_x e, be_y e).

Definition BaseEntity_tile_position (e : BaseEntity) : Z * Z :=
  (floordiv (be_x e) (DisplayConfig_TILE_SIZE DISPLAY),
   floordiv (be_y e) (DisplayConfig_TILE_SIZE DISPLAY)).

(** [Entity.destroy] *)
Definition BaseEntity_destroy (e : BaseEntity) : BaseEntity :=
  mkBaseEntity (be_x e) (be_y e) (be__id e) false (be__next_id e).

(** The argument [other: Entity | Position] of the geometric methods. *)
Inductive Target := TEntity (e : BaseEntity) | TPosition (x y : float).

(** [other_x, other_y], by the [isinstance] test. *)
Definition Target_xy (other : Target) : float * float :=
  match other with
  | TEntity e => (be_x e, be_y e)
  | TPosition x y => (x, y)
  end.

(** [Entity.distance_to] *)
Definition BaseEntity_distance_to (e : BaseEntity) (other : Target) : float :=
  let '(other_x, other_y) := Target_xy other in
  distance (be_x e) (be_y e) other_x other_y.

(** [Entity.angle_to] *)
Definition BaseEntity_angle_to `{Platform} (e : BaseEntity) (other : Target)
    : float :=
  let '(other_x, other_y) := Target_xy other in
  let dx := (other_x - be_x e)%float in
  let dy := (other_y - be_y e)%float in
  float_mod (math_degrees (libm_atan2 dy dx)) 360.

(** [Entity.move_towards] *)
Definition BaseEntity_move_towards `{Platform} (e : BaseEntity)
    (target : float * float) (speed : float) : BaseEntity :=
  let angle := BaseEntity_angle_to e (TPosition target.1 target.2) in
  let angle_rad := math_radians angle in
  mkBaseEntity (be_x e + libm_cos angle_rad * speed)%float
    (be_y e + libm_sin angle_rad * speed)%float
    (be__id e) (be_alive e) (be__next_id e).

(** [Entity.is_on_screen]; [margin] is 50 when it is not given. *)
Definition BaseEntity_is_on_screen (e : BaseEntity) (camera_offset : float * float)
    (screen_size : Z * Z) (margin : Z) : bool :=
  let '(cam_x, cam_y) := camera_offset in
  let '(screen_w, screen_h) := screen_size in
  let screen_x := (be_x e - cam_x)%float in
  let screen_y := (be_y e - cam_y)%float in
  (Z2F (- margin) <=? screen_x)%float
  && (screen_x <=? Z2F (screen_w + margin))%float
  && (Z2F (- margin) <=? screen_y)%float
  && (screen_y <=? Z2F (screen_h + margin))%float.

(** [Entity.__eq__] between two entities, and [Entity.__hash__]: the
    hash of a non-negative [int] is its residue modulo [2^61 - 1]. *)
Definition BaseEntity_eq (a b : BaseEntity) : bool :=
  bool_decide (BaseEntity_id a = BaseEntity_id b).

Definition BaseEntity_hash (e : BaseEntity) : Z :=
  Z.of_nat (BaseEntity_id e) `mod` (2 ^ 61 - 1).

(** The entities constructed one after the other at the positions of a
    list. *)
Definition BaseEntity_spawn (st : list BaseEntity * nat) (p : float * float)
    : list BaseEntity * nat :=
  let '(e, next_id) := BaseEntity_init st.2 p.1 p.2 in (st.1 ++ [e], next_id).

Definition BaseEntity_spawn_all (next_id : nat) (ps : list (float * float))
    : list BaseEntity * nat :=
  foldl BaseEntity_spawn ([], next_id) ps.

(** * Equality by identifier *)

#[export] Instance BaseEntity_equiv : Equiv BaseEntity :=
  λ a b, BaseEntity_id a = BaseEntity_id b.

#[export] Instance BaseEntity_equivalence : Equivalence (≡@{BaseEntity}).
Proof.
  unfold equiv, BaseEntity_equiv. split.
  - by intros ?.
  - by intros ???.
  - intros ???. apply eq_trans.
Qed.

#[export] Instance BaseEntity_id_proper : Proper ((≡) ==> (=)) BaseEntity_id.
Proof. by intros ???. Qed.

#[export] Instance BaseEntity_hash_proper :
  Proper ((≡) ==> (=)) BaseEntity_hash.
Proof. intros a b Hab. unfold BaseEntity_hash. by rewrite Hab. Qed.

#[export] Instance BaseEntity_eq_proper :
  Proper ((≡) ==> (≡) ==> (=)) BaseEntity_eq.
Proof. intros a a' Ha b b' Hb. unfold BaseEntity_eq. by rewrite Ha, Hb. Qed.

#[export] Instance BaseEntity_destroy_proper :
  Proper ((≡) ==> (≡)) BaseEntity_destroy.
Proof. by intros ???. Qed.

Lemma BaseEntity_eq_equiv a b : BaseEntity_eq a b = true ↔ a ≡ b.
Proof. unfold BaseEntity_eq. by rewrite bool_decide_eq_true. Qed.

(** * The identifiers of a run of constructions *)

Lemma BaseEntity_spawn_fold ps acc n :
  ∃ new, foldl BaseEntity_spawn (acc, n) ps = (acc ++ new, (n + length ps)%nat) ∧
    BaseEntity_id <$> new = seq n (length ps) ∧
    Forall (λ e, be_alive e = true) new ∧
    BaseEntity_position <$> new = ps.
Proof.
  revert acc n. induction ps as [|[x y] ps IH]; intros acc n.
  { exists []. by rewrite app_nil_r, Nat.add_0_r. }
  cbn [foldl]. unfold BaseEntity_spawn at 2. simpl.
  destruct (IH (acc ++ [mkBaseEntity x y n true 0]) (S n))
    as (new & -> & Hids & Halive & Hpos).
  exists (mkBaseEntity x y n true 0 :: new).
  rewrite <-app_assoc. simpl.
  split_and!; [do 2 f_equal; lia|by f_equal|by constructor|by f_equal].
Qed.

(** * Theorems *)

(** Entities constructed one after the other get the consecutive
    identifiers from the counter on, so they are pairwise different under
    [__eq__], alive, and at the positions given, and the counter has
    advanced by their number. *)
Theorem BaseEntity_ids_fresh next_id ps :
  ∃ es, BaseEntity_spawn_all next_id ps = (es, (next_id + length ps)%nat) ∧
    BaseEntity_id <$> es = seq next_id (length ps) ∧
    BaseEntity_position <$> es = ps ∧
    Forall (λ e, be_alive e = true) es ∧
    ∀ i j a b, es !! i = Some a → es !! j = Some b →
      (BaseEntity_eq a b = true ↔ i = j).
Proof.
  destruct (BaseEntity_spawn_fold ps [] next_id) as (es & Hrun & Hids & ? & ?).
  exists es. split_and!; try done.
  intros i j a b Hi Hj. rewrite BaseEntity_eq_equiv.
  unfold equiv, BaseEntity_equiv.
  assert (∀ k e, es !! k = Some e → BaseEntity_id e = (next_id + k)%nat) as Hk.
  { intros k e He.
    assert ((BaseEntity_id <$> es) !! k = Some (BaseEntity_id e)) as Hl
      by by rewrite list_lookup_fmap, He.
    rewrite Hids in Hl. apply lookup_seq in Hl. lia. }
  rewrite (Hk _ _ Hi), (Hk _ _ Hj). lia.
Qed.

(** Equal entities hash alike, and equality is by identifier only:
    [__eq__] is reflexive, symmetric and transitive, entities it finds
    equal have the same [__hash__], and an entity stays equal to itself
    when it is destroyed or moved. *)
Theorem BaseEntity_eq_hash `{Platform} a b c target speed :
  BaseEntity_eq a a = true ∧
  BaseEntity_eq a b = BaseEntity_eq b a ∧
  (BaseEntity_eq a b = true → BaseEntity_eq b c = true →
   BaseEntity_eq a c = true) ∧
  (BaseEntity_eq a b = true → BaseEntity_hash a = BaseEntity_hash b) ∧
  BaseEntity_eq (BaseEntity_destroy a) a = true ∧
  BaseEntity_eq (BaseEntity_move_towards a target speed) a = true.
Proof.
  split_and!.
  - by apply BaseEntity_eq_equiv.
  - apply bool_decide_ext. split; by intros ->.
  - rewrite !BaseEntity_eq_equiv. by intros -> ->.
  - rewrite BaseEntity_eq_equiv. by intros ->.
  - by apply BaseEntity_eq_equiv.
  - by apply BaseEntity_eq_equiv.
Qed.

(** The two entity classes place an entity on the same tile: the
    tile of the package's entity is the tile the engine's entity has at
    the same position. *)
Theorem BaseEntity_tile_position_agrees (e : BaseEntity) (b : EntityBase) :
  e_x b = be_x e → e_y b = be_y e →
  BaseEntity_tile_position e = tile_position b.
Proof.
  intros Hx Hy. unfold BaseEntity_tile_position, tile_position.
  by rewrite Hx, Hy.
Qed.

(** * Witnesses and examples *)

Definition demo_entities : list BaseEntity :=
  (BaseEntity_spawn_all 0 [(10%float, 20%float); (100%float, 40%float)]).1.

Lemma BaseEntity_tile_position_agrees_witness :
  BaseEntity_tile_position (mkBaseEntity 100 40 1 true 0)
  = tile_position (mkEntityBase 7 100 40 true).
Proof. by apply BaseEntity_tile_position_agrees. Defined.

(** After [reset_id_counter] the identifiers start again: an entity made
    after the reset is equal, for [__eq__] and in a set or a dict, to the
    first one made before it, although it is another object elsewhere. *)
Example reset_id_counter_collides :
  let '(old, n) := BaseEntity_spawn_all 0 [(10%float, 20%float)] in
  let '(new, _) :=
    BaseEntity_spawn_all (BaseEntity_reset_id_counter n) [(300%float, 5%float)] in
  (a ← old !! 0%nat; b ← new !! 0%nat;
   Some (BaseEntity_eq a b, bool_decide (BaseEntity_hash a = BaseEntity_hash b),
         BaseEntity_position a, BaseEntity_position b))
  = Some (true, true, (10%float, 20%float), (300%float, 5%float)).
Proof. by vm_compute. Qed.

(** Distances, angles and the screen test on the platform whose [atan2]
    is that of a target due east. *)
Example BaseEntity_geometry_demo :
  let e := mkBaseEntity 100 40 1 true 0 in
  BaseEntity_distance_to e (TPosition 103 44) = 5%float ∧
  BaseEntity_distance_to e (TEntity (mkBaseEntity 103 44 2 true 0)) = 5%float ∧
  @BaseEntity_angle_to east_platform e (TPosition 200 40) = 0%float ∧
  be_x (@BaseEntity_move_towards east_platform e (200%float, 40%float) 3)
  = 103%float ∧
  BaseEntity_is_on_screen e (0%float, 0%float) (1024, 768) 50 = true ∧
  BaseEntity_is_on_screen e (151%float, 0%float) (1024, 768) 50 = false ∧
  BaseEntity_is_on_screen e (150%float, 0%float) (1024, 768) 50 = true ∧
  BaseEntity_tile_position e = (6, 2).
Proof. by vm_compute. Qed.
