(* ===== verification/Lesson.v ===== *)
(** * Lesson: the teaching game [Tank Battle]

    [src/lesson/tank_game.py]: a program of its own, with a player tank
    that is clamped to the window, bullets, rectangular obstacles, enemies
    that patrol and bounce, the two overlap tests, and the body of the
    game loop of [main] with its restart by a recursive call.

    Objects of Python have an identity, which [in] and [list.remove] use:
    bullets and enemies are listed with the tag they got when they were
    constructed.  [random.randint] and [random.choice] read a sequence of
    draws, the class [Dice].  The [draw] methods and the rendering part
    of the loop are in [LessonRender]. *)

From stdpp Require Import list.
From S2P Require Import Prelude PyFloat.
Set Warnings "-inexact-float".

(** ** Constants *)

Definition LESSON_WINDOW_WIDTH : Z := 800.
Definition LESSON_WINDOW_HEIGHT : Z := 600.
Definition LESSON_FPS : Z := 60.
Definition BLACK : Z * Z * Z := (0, 0, 0).
Definition WHITE : Z * Z * Z := (255, 255, 255).
Definition GREEN : Z * Z * Z := (34, 139, 34).
Definition RED : Z * Z * Z := (178, 34, 34).
Definition GRAY : Z * Z * Z := (128, 128, 128).
Definition YELLOW : Z * Z * Z := (255, 215, 0).
Definition PLAYER_SPEED : Z := 4.
Definition PLAYER_ROTATION_SPEED : Z := 5.
Definition BULLET_SPEED : Z := 8.
Definition ENEMY_SPEED : Z := 2.

(** ** The generator

    [random.randint(a, b)] is [a + _randbelow(b - a + 1)] and
    [random.choice(seq)] is [seq[_randbelow(len(seq))]]; [_randbelow(n)]
    is any number below [n], here the [k]-th draw reduced modulo [n]. *)
Class Dice := { dice : nat → nat }.

Definition randbelow `{Dice} (n : Z) (k : nat) : Z := Z.of_nat (dice k) `mod` n.

Definition randint `{Dice} (a b : Z) (k : nat) : Z :=
  a + randbelow (b - a + 1) k.

Definition choice `{Dice} (l : list Z) (k : nat) : Z :=
  default 0 (l !! Z.to_nat (randbelow (Z.of_nat (length l)) k)).

(** [max(lo, min(hi, v))] with [int] bounds, as [_keep_on_screen] and the
    bounce of the enemies write it. *)
Definition clamp (lo hi : Z) (v : float) : float :=
  py_max (Z2F lo) (py_min (Z2F hi) v).

(** [v + math.cos(math.radians(angle)) * length], and the same with
    [math.sin]: one coordinate of a step of [length] at [angle]. *)
Definition step_x `{Platform} (v : float) (angle length : Z) : float :=
  (v + cos_deg (Z2F angle) * Z2F length)%float.

Definition step_y `{Platform} (v : float) (angle length : Z) : float :=
  (v + sin_deg (Z2F angle) * Z2F length)%float.

(** ** [class Tank] *)

Record LessonTank := mkLessonTank {
  lt_x : float;
  lt_y : float;
  lt_angle : Z;
  lt_speed : Z;
  lt_rotation_speed : Z;
  lt_size : Z;
  lt_color : Z * Z * Z
}.

Definition LessonTank_init (x y : Z) (color : Z * Z * Z) : LessonTank :=
  {| lt_x := Z2F x; lt_y := Z2F y; lt_angle := 0; lt_speed := PLAYER_SPEED;
     lt_rotation_speed := PLAYER_ROTATION_SPEED; lt_size := 20;
     lt_color := color |}.

Definition LessonTank_set_pos (t : LessonTank) (x y : float) : LessonTank :=
  mkLessonTank x y (lt_angle t) (lt_speed t) (lt_rotation_speed t) (lt_size t)
    (lt_color t).

Definition LessonTank_set_angle (t : LessonTank) (a : Z) : LessonTank :=
  mkLessonTank (lt_x t) (lt_y t) a (lt_speed t) (lt_rotation_speed t)
    (lt_size t) (lt_color t).

(** [Tank._keep_on_screen] *)
Definition LessonTank__keep_on_screen (t : LessonTank) : LessonTank :=
  LessonTank_set_pos t
    (clamp (lt_size t) (LESSON_WINDOW_WIDTH - lt_size t) (lt_x t))
    (clamp (lt_size t) (LESSON_WINDOW_HEIGHT - lt_size t) (lt_y t)).

(** [Tank.move_forward] *)
Definition LessonTank_move_forward `{Platform} (t : LessonTank) : LessonTank :=
  LessonTank__keep_on_screen
    (LessonTank_set_pos t (step_x (lt_x t) (lt_angle t) (lt_speed t))
       (step_y (lt_y t) (lt_angle t) (lt_speed t))).

(** [Tank.move_backward] *)
Definition LessonTank_move_backward `{Platform} (t : LessonTank)
    : LessonTank :=
  LessonTank__keep_on_screen
    (LessonTank_set_pos t
       (lt_x t - cos_deg (Z2F (lt_angle t)) * Z2F (lt_speed t))%float
       (lt_y t - sin_deg (Z2F (lt_angle t)) * Z2F (lt_speed t))%float).

(** [Tank.rotate_left] and [Tank.rotate_right]: the angle is an [int]
    and is not reduced. *)
Definition LessonTank_rotate_left (t : LessonTank) : LessonTank :=
  LessonTank_set_angle t (lt_angle t - lt_rotation_speed t).

Definition LessonTank_rotate_right (t : LessonTank) : LessonTank :=
  LessonTank_set_angle t (lt_angle t + lt_rotation_speed t).

(** ** [class Bullet] *)

Record Bullet := mkBullet {
  bu_x : float;
  bu_y : float;
  bu_angle : Z;
  bu_speed : Z;
  bu_radius : Z;
  bu_color : Z * Z * Z
}.

Definition Bullet_init (x y : float) (angle : Z) : Bullet :=
  {| bu_x := x; bu_y := y; bu_angle := angle; bu_speed := BULLET_SPEED;
     bu_radius := 5; bu_color := YELLOW |}.

(** [Tank.shoot] *)
Definition LessonTank_shoot `{Platform} (t : LessonTank) : Bullet :=
  let cannon_length := lt_size t + 15 in
  Bullet_init (step_x (lt_x t) (lt_angle t) cannon_length)
    (step_y (lt_y t) (lt_angle t) cannon_length) (lt_angle t).

(** [Bullet.update] *)
Definition Bullet_update `{Platform} (b : Bullet) : Bullet :=
  mkBullet (step_x (bu_x b) (bu_angle b) (bu_speed b))
    (step_y (bu_y b) (bu_angle b) (bu_speed b))
    (bu_angle b) (bu_speed b) (bu_radius b) (bu_color b).

(** [Bullet.is_off_screen] *)
Definition Bullet_is_off_screen (b : Bullet) : bool :=
  (bu_x b <? 0)%float || (Z2F LESSON_WINDOW_WIDTH <? bu_x b)%float ||
  (bu_y b <? 0)%float || (Z2F LESSON_WINDOW_HEIGHT <? bu_y b)%float.

(** ** [class Obstacle]: a [pygame.Rect] *)

Record Obstacle := mkObstacle {
  rect_left : Z;
  rect_top : Z;
  rect_width : Z;
  rect_height : Z;
  ob_color : Z * Z * Z
}.

(** [Obstacle.__init__] *)
Definition Obstacle_init (x y width height : Z) : Obstacle :=
  mkObstacle x y width height GRAY.

Definition rect_right (o : Obstacle) : Z := rect_left o + rect_width o.
Definition rect_bottom (o : Obstacle) : Z := rect_top o + rect_height o.

(** ** [class Enemy] *)

Record Enemy := mkEnemy {
  en_x : float;
  en_y : float;
  en_size : Z;
  en_speed : Z;
  en_direction : Z;
  en_move_timer : Z;
  en_color : Z * Z * Z
}.

Definition directions : list Z := [0; 90; 180; 270].

(** [Enemy.__init__]: one draw for the direction. *)
Definition Enemy_init `{Dice} (x y : Z) (k : nat) : Enemy * nat :=
  ({| en_x := Z2F x; en_y := Z2F y; en_size := 18; en_speed := ENEMY_SPEED;
      en_direction := choice directions k; en_move_timer := 0;
      en_color := RED |}, S k).

(** The first part of [Enemy.update]: the timer and the change of
    direction. *)
Definition Enemy_turn `{Dice} (e : Enemy) (k : nat) : Enemy * nat :=
  let timer := en_move_timer e + 1 in
  if decide (randint 60 120 k < timer)
  then (mkEnemy (en_x e) (en_y e) (en_size e) (en_speed e)
          (choice directions (S k)) 0 (en_color e), S (S k))
  else (mkEnemy (en_x e) (en_y e) (en_size e) (en_speed e)
          (en_direction e) timer (en_color e), S k).

(** [v < size or v > extent - size] *)
Definition beyond (size extent : Z) (v : float) : bool :=
  (v <? Z2F size)%float || (Z2F (extent - size) <? v)%float.

(** The last part of [Enemy.update]: the bounce off the walls. *)
Definition Enemy_bounce (e : Enemy) : Enemy :=
  let e :=
    if beyond (en_size e) LESSON_WINDOW_WIDTH (en_x e)
    then mkEnemy (clamp (en_size e) (LESSON_WINDOW_WIDTH - en_size e) (en_x e))
           (en_y e) (en_size e) (en_speed e) (180 - en_direction e)
           (en_move_timer e) (en_color e)
    else e in
  if beyond (en_size e) LESSON_WINDOW_HEIGHT (en_y e)
  then mkEnemy (en_x e)
         (clamp (en_size e) (LESSON_WINDOW_HEIGHT - en_size e) (en_y e))
         (en_size e) (en_speed e) (- en_direction e) (en_move_timer e)
         (en_color e)
  else e.

(** [Enemy.update] *)
Definition Enemy_update `{Platform, Dice} (e : Enemy) (k : nat) : Enemy * nat :=
  let '(e, k) := Enemy_turn e k in
  (Enemy_bounce
     (mkEnemy (step_x (en_x e) (en_direction e) (en_speed e))
        (step_y (en_y e) (en_direction e) (en_speed e))
        (en_size e) (en_speed e) (en_direction e) (en_move_timer e)
        (en_color e)), k).

(** ** The overlap tests *)

(** [check_circle_collision] *)
Definition check_circle_collision (x1 y1 : float) (r1 : Z) (x2 y2 : float)
    (r2 : Z) : bool :=
  (distance x2 y2 x1 y1 <? Z2F (r1 + r2))%float.

(** [check_circle_rect_collision] *)
Definition check_circle_rect_collision (cx cy : float) (radius : Z)
    (rect : Obstacle) : bool :=
  let closest_x := py_max (Z2F (rect_left rect)) (py_min cx (Z2F (rect_right rect))) in
  let closest_y := py_max (Z2F (rect_top rect)) (py_min cy (Z2F (rect_bottom rect))) in
  (distance cx cy closest_x closest_y <? Z2F radius)%float.

(** ** The state of [main]

    The local variables of [main], the allocation tag of the next object,
    the position in the sequence of draws, and the number of calls of
    [main] that are on the stack. *)

Inductive LessonKey := LK_SPACE | LK_r | LK_other.

#[export] Instance LessonKey_eq_dec : EqDecision LessonKey.
Proof. solve_decision. Defined.

Inductive LessonEvent := LQUIT | LKEYDOWN (key : LessonKey) | LOtherEvent.

(** The held keys [_update] reads: [K_w], [K_UP], [K_s], [K_DOWN], [K_a],
    [K_LEFT], [K_d], [K_RIGHT]. *)
Record HeldKeys := mkHeldKeys {
  hk_w : bool; hk_up : bool; hk_s : bool; hk_down : bool;
  hk_a : bool; hk_left : bool; hk_d : bool; hk_right : bool
}.

Record LessonGame := mkLessonGame {
  lg_running : bool;
  lg_game_over : bool;
  lg_score : Z;
  lg_player : LessonTank;
  lg_bullets : list (nat * Bullet);
  lg_enemies : list (nat * Enemy);
  lg_obstacles : list Obstacle;
  lg_next_tag : nat;
  lg_rng : nat;
  lg_depth : nat
}.

(** [enemies.append(Enemy(random.randint(50, WINDOW_WIDTH - 50),
    random.randint(50, 150)))]: the arguments are drawn first, then the
    constructor draws the direction. *)
Definition spawn_lesson_enemy `{Dice}
    (st : list (nat * Enemy) * nat * nat) (_ : Z)
    : list (nat * Enemy) * nat * nat :=
  let '(enemies, tag, k) := st in
  let x := randint 50 (LESSON_WINDOW_WIDTH - 50) k in
  let y := randint 50 150 (S k) in
  let '(e, k) := Enemy_init x y (S (S k)) in
  (enemies ++ [(tag, e)], S tag, k).

Definition spawn_wave `{Dice} (enemies : list (nat * Enemy)) (tag k : nat)
    : list (nat * Enemy) * nat * nat :=
  foldl spawn_lesson_enemy (enemies, tag, k) (py_range 0 3).

Definition lesson_obstacles : list Obstacle :=
  [Obstacle_init 150 200 100 20; Obstacle_init 550 200 100 20;
   Obstacle_init 300 350 20 150; Obstacle_init 480 350 20 150].

(** The set-up of [main], before its loop: a call of [main] at stack
    depth [depth]. *)
Definition main_init `{Dice} (tag k depth : nat) : LessonGame :=
  let player := LessonTank_init (LESSON_WINDOW_WIDTH `div` 2)
                  (LESSON_WINDOW_HEIGHT `div` 2) GREEN in
  let '(enemies, tag', k') := spawn_wave [] (S tag) k in
  {| lg_running := true; lg_game_over := false; lg_score := 0;
     lg_player := player; lg_bullets := []; lg_enemies := enemies;
     lg_obstacles := lesson_obstacles; lg_next_tag := tag' + 4;
     lg_rng := k'; lg_depth := depth |}.

(** ** One turn of the loop *)

Definition lg_set_running (g : LessonGame) (b : bool) : LessonGame :=
  mkLessonGame b (lg_game_over g) (lg_score g) (lg_player g) (lg_bullets g)
    (lg_enemies g) (lg_obstacles g) (lg_next_tag g) (lg_rng g) (lg_depth g).

(** [bullets.append(player.shoot())] *)
Definition lg_shoot `{Platform} (g : LessonGame) : LessonGame :=
  mkLessonGame (lg_running g) (lg_game_over g) (lg_score g) (lg_player g)
    (lg_bullets g ++ [(lg_next_tag g, LessonTank_shoot (lg_player g))])
    (lg_enemies g) (lg_obstacles g) (S (lg_next_tag g)) (lg_rng g)
    (lg_depth g).

(** The event loop.  [inr tt] stands for [return main()]: the events
    left are dropped with the state. *)
Definition lesson_event `{Platform} (g : LessonGame) (ev : LessonEvent)
    : LessonGame + unit :=
  match ev with
  | LQUIT => inl (lg_set_running g false)
  | LKEYDOWN key =>
      let g :=
        if bool_decide (key = LK_SPACE) && negb (lg_game_over g)
        then lg_shoot g else g in
      if bool_decide (key = LK_r) && lg_game_over g then inr tt else inl g
  | LOtherEvent => inl g
  end.

Fixpoint lesson_events `{Platform} (g : LessonGame) (evs : list LessonEvent)
    : LessonGame + unit :=
  match evs with
  | [] => inl g
  | ev :: evs =>
      match lesson_event g ev with
      | inl g => lesson_events g evs
      | inr tt => inr tt
      end
  end.

(** The held keys, in the order of the four tests. *)
Definition lesson_held `{Platform} (keys : HeldKeys) (t : LessonTank)
    : LessonTank :=
  let t := if hk_w keys || hk_up keys then LessonTank_move_forward t else t in
  let t := if hk_s keys || hk_down keys then LessonTank_move_backward t else t in
  let t := if hk_a keys || hk_left keys then LessonTank_rotate_left t else t in
  if hk_d keys || hk_right keys then LessonTank_rotate_right t else t.

(** [for enemy in enemies: enemy.update()] *)
Definition update_enemy `{Platform, Dice} (st : list (nat * Enemy) * nat)
    (te : nat * Enemy) : list (nat * Enemy) * nat :=
  let '(e, k) := Enemy_update te.2 st.2 in (st.1 ++ [(te.1, e)], k).

Definition update_enemies `{Platform, Dice} (enemies : list (nat * Enemy))
    (k : nat) : list (nat * Enemy) * nat :=
  foldl update_enemy ([], k) enemies.

Definition bullet_hits (b : Bullet) (e : Enemy) : bool :=
  check_circle_collision (bu_x b) (bu_y b) (bu_radius b)
    (en_x e) (en_y e) (en_size e).

(** The two nested loops of the collision test: the pairs of a bullet
    and an enemy that overlap, in the order in which they are met. *)
Definition colliding_pairs (bullets : list (nat * Bullet))
    (enemies : list (nat * Enemy)) : list (nat * nat) :=
  b ← bullets; e ← enemies;
  if bullet_hits b.2 e.2 then [(b.1, e.1)] else [].

(** [if o in l: l.remove(o)] for the object of tag [i]: the first
    element that is that object goes. *)
Fixpoint list_remove_tag {A} (i : nat) (l : list (nat * A)) : list (nat * A) :=
  match l with
  | [] => []
  | x :: l => if decide (x.1 = i) then l else x :: list_remove_tag i l
  end.

Definition remove_tags {A} (tags : list nat) (l : list (nat * A))
    : list (nat * A) :=
  foldl (λ l i, list_remove_tag i l) l tags.

(** The test of the list comprehension that keeps a bullet. *)
Definition bullet_stays (obstacles : list Obstacle) (b : Bullet) : bool :=
  negb (existsb (check_circle_rect_collision (bu_x b) (bu_y b) (bu_radius b))
          obstacles)
  && negb (Bullet_is_off_screen b).

Definition player_hit (p : LessonTank) (e : Enemy) : bool :=
  check_circle_collision (lt_x p) (lt_y p) (lt_size p)
    (en_x e) (en_y e) (en_size e).

(** The body of [if not game_over:]. *)
Definition lesson_play `{Platform, Dice} (keys : HeldKeys) (g : LessonGame)
    : LessonGame :=
  let player := lesson_held keys (lg_player g) in
  let bullets := prod_map id Bullet_update <$> lg_bullets g in
  let '(enemies, k) := update_enemies (lg_enemies g) (lg_rng g) in
  let pairs := colliding_pairs bullets enemies in
  let score := lg_score g + 100 * Z.of_nat (length pairs) in
  let bullets := remove_tags pairs.*1 bullets in
  let enemies := remove_tags pairs.*2 enemies in
  let bullets := filter (λ b, bullet_stays (lg_obstacles g) b.2) bullets in
  let game_over := existsb (λ e, player_hit player e.2) enemies in
  let '(enemies, tag, k) :=
    if decide (length enemies = 0%nat)
    then spawn_wave enemies (lg_next_tag g) k
    else (enemies, lg_next_tag g, k) in
  mkLessonGame (lg_running g) game_over score player bullets enemies
    (lg_obstacles g) tag k (lg_depth g).

(** One turn of [while running:].  [limit] is the number of calls of
    [main] the interpreter's recursion limit leaves room for: a restart
    beyond it raises [RecursionError], the [None] of the result. *)
Definition lesson_turn `{Platform, Dice} (limit : nat)
    (input : list LessonEvent * HeldKeys) (g : LessonGame)
    : option LessonGame :=
  match lesson_events g input.1 with
  | inr tt =>
      if decide (lg_depth g < limit)%nat
      then Some (main_init (lg_next_tag g) (lg_rng g) (S (lg_depth g)))
      else None
  | inl g => Some (if lg_game_over g then g else lesson_play input.2 g)
  end.

(** The turns of the loop for the inputs of successive frames; the loop
    ends when [running] is cleared. *)
Fixpoint lesson_run `{Platform, Dice} (limit : nat)
    (inputs : list (list LessonEvent * HeldKeys)) (g : LessonGame)
    : option LessonGame :=
  match inputs with
  | [] => Some g
  | input :: inputs =>
      if lg_running g
      then g ← lesson_turn limit input g; lesson_run limit inputs g
      else Some g
  end.

(** * Lemmas *)

(** ** The generator and the clamp *)

Section Draws.
Context `{Dice}.

Lemma randbelow_range n k : 0 < n → 0 ≤ randbelow n k < n.
Proof. intros. unfold randbelow. by apply Z.mod_pos_bound. Qed.

Lemma randint_range a b k : a ≤ b → a ≤ randint a b k ≤ b.
Proof.
  intros. unfold randint. pose proof (randbelow_range (b - a + 1) k). lia.
Qed.

Lemma choice_elem_of l k : l ≠ [] → choice l k ∈ l.
Proof.
  intros Hl. unfold choice.
  assert (0 < Z.of_nat (length l)) by (destruct l; simpl; [done|lia]).
  pose proof (randbelow_range (Z.of_nat (length l)) k).
  destruct (lookup_lt_is_Some_2 l (Z.to_nat (randbelow (Z.of_nat (length l)) k)))
    as [x Hx]; [lia|].
  rewrite Hx. simpl. by eapply list_elem_of_lookup_2.
Qed.

Lemma choice_directions k : (90 | choice directions k).
Proof.
  assert (Hin : choice directions k ∈ [0; 90; 180; 270])
    by by apply choice_elem_of.
  rewrite !elem_of_cons, elem_of_nil in Hin.
  destruct Hin as [->| [->| [->| [->|[]]]]];
    [by exists 0|by exists 1|by exists 2|by exists 3].
Qed.
End Draws.

(** [within lo hi v]: [lo <= v <= hi] as Python tests it. *)
Definition within (lo hi : Z) (v : float) : bool :=
  (Z2F lo <=? v)%float && (v <=? Z2F hi)%float.

Lemma clamp_within lo hi v :
  (Z2F lo <=? Z2F hi)%float = true → within lo hi (clamp lo hi v) = true.
Proof.
  intros Hle. unfold within, clamp.
  destruct (clamp_between _ _ v Hle) as [-> ->]. done.
Qed.

Lemma within_not_beyond size extent v :
  within size (extent - size) v = true → beyond size extent v = false.
Proof.
  unfold within, beyond. intros [??]%andb_true_iff.
  by rewrite !leb_not_ltb.
Qed.

(** The floats of the integers between the walls lie between the walls. *)
Lemma Z2F_not_beyond size extent x :
  (size, extent) ∈ [(18, LESSON_WINDOW_WIDTH); (18, LESSON_WINDOW_HEIGHT)] →
  50 ≤ x ≤ extent - 50 → beyond size extent (Z2F x) = false.
Proof.
  intros Hse Hx.
  assert (Hall : ∀ se, se ∈ [(18, 800); (18, 600)] →
            forallb (λ x, negb (beyond se.1 se.2 (Z2F x)))
              (seqZ 50 (se.2 - 99)) = true).
  { intros se. rewrite !elem_of_cons, elem_of_nil.
    intros [->|[->|[]]]; by vm_compute. }
  specialize (Hall _ Hse). rewrite forallb_forall in Hall.
  apply negb_true_iff, Hall, list_elem_of_In, elem_of_seqZ.
  simpl. lia.
Qed.

(** ** The player *)

Definition LessonTank_ok (t : LessonTank) : Prop :=
  lt_size t = 20 ∧ lt_speed t = PLAYER_SPEED ∧
  lt_rotation_speed t = PLAYER_ROTATION_SPEED ∧ (5 | lt_angle t) ∧
  within 20 (LESSON_WINDOW_WIDTH - 20) (lt_x t) = true ∧
  within 20 (LESSON_WINDOW_HEIGHT - 20) (lt_y t) = true ∧
  lt_color t = GREEN.

Lemma keep_on_screen_ok t :
  lt_size t = 20 → lt_speed t = PLAYER_SPEED →
  lt_rotation_speed t = PLAYER_ROTATION_SPEED → (5 | lt_angle t) →
  lt_color t = GREEN →
  LessonTank_ok (LessonTank__keep_on_screen t).
Proof.
  intros Hs ????. unfold LessonTank_ok, LessonTank__keep_on_screen. simpl.
  rewrite Hs. split_and!; try done; by apply clamp_within.
Qed.

Section Player.
Context `{Platform}.

Lemma LessonTank_init_ok :
  LessonTank_ok (LessonTank_init (LESSON_WINDOW_WIDTH `div` 2)
                   (LESSON_WINDOW_HEIGHT `div` 2) GREEN).
Proof. unfold LessonTank_ok. simpl. split_and!; try done. by exists 0. Qed.

Lemma move_forward_ok t : LessonTank_ok t → LessonTank_ok (LessonTank_move_forward t).
Proof. intros (?&?&?&?&_&_&?). by apply keep_on_screen_ok. Qed.

Lemma move_backward_ok t : LessonTank_ok t → LessonTank_ok (LessonTank_move_backward t).
Proof. intros (?&?&?&?&_&_&?). by apply keep_on_screen_ok. Qed.

Lemma rotate_left_ok t : LessonTank_ok t → LessonTank_ok (LessonTank_rotate_left t).
Proof.
  intros (?&?&Hr&?&?&?&?). unfold LessonTank_ok. simpl. rewrite Hr.
  split_and!; try done. by apply Z.divide_sub_r; [|exists 1].
Qed.

Lemma rotate_right_ok t : LessonTank_ok t → LessonTank_ok (LessonTank_rotate_right t).
Proof.
  intros (?&?&Hr&?&?&?&?). unfold LessonTank_ok. simpl. rewrite Hr.
  split_and!; try done. by apply Z.divide_add_r; [|exists 1].
Qed.

Lemma lesson_held_ok keys t : LessonTank_ok t → LessonTank_ok (lesson_held keys t).
Proof.
  intros Ht. unfold lesson_held.
  repeat match goal with
  | |- context [if ?c then _ else _] => destruct c
  end;
    auto using move_forward_ok, move_backward_ok, rotate_left_ok,
      rotate_right_ok.
Qed.

(** The only fields a shot takes from the tank. *)
Lemma LessonTank_shoot_fields t :
  bu_angle (LessonTank_shoot t) = lt_angle t ∧
  bu_speed (LessonTank_shoot t) = BULLET_SPEED ∧
  bu_radius (LessonTank_shoot t) = 5.
Proof. done. Qed.
End Player.

(** ** The enemies *)

Definition Enemy_ok (e : Enemy) : Prop :=
  en_size e = 18 ∧ en_speed e = ENEMY_SPEED ∧ (90 | en_direction e) ∧
  0 ≤ en_move_timer e ≤ 120 ∧
  beyond 18 LESSON_WINDOW_WIDTH (en_x e) = false ∧
  beyond 18 LESSON_WINDOW_HEIGHT (en_y e) = false ∧
  en_color e = RED.

Lemma clamp_not_beyond extent v :
  extent ∈ [LESSON_WINDOW_WIDTH; LESSON_WINDOW_HEIGHT] →
  beyond 18 extent (clamp 18 (extent - 18) v) = false.
Proof.
  rewrite !elem_of_cons, elem_of_nil.
  intros [->|[->|[]]]; by apply within_not_beyond, clamp_within.
Qed.

Lemma Enemy_bounce_ok e :
  en_size e = 18 → en_speed e = ENEMY_SPEED → (90 | en_direction e) →
  0 ≤ en_move_timer e ≤ 120 → en_color e = RED → Enemy_ok (Enemy_bounce e).
Proof.
  intros Hs ? Hd ? ?. unfold Enemy_bounce, Enemy_ok. rewrite Hs.
  assert (90 | 180 - en_direction e) by by apply Z.divide_sub_r; [exists 2|].
  assert (∀ d, (90 | d) → (90 | - d)) as Hopp by by intros; apply Z.divide_opp_r.
  destruct (beyond 18 _ (en_x e)) eqn:Hx; simpl; rewrite ?Hs;
    destruct (beyond 18 _ (en_y e)) eqn:Hy; simpl;
    split_and!; auto; try lia;
    apply clamp_not_beyond; by repeat constructor.
Qed.

Section Enemies.
Context `{Platform, Dice}.

Lemma Enemy_init_ok x y k :
  50 ≤ x ≤ LESSON_WINDOW_WIDTH - 50 → 50 ≤ y ≤ 150 →
  Enemy_ok (Enemy_init x y k).1.
Proof.
  intros ??. unfold Enemy_ok. simpl.
  split_and!; try done; [apply choice_directions|..];
    apply Z2F_not_beyond; try (by repeat constructor); unfold LESSON_WINDOW_HEIGHT; lia.
Qed.

Lemma Enemy_turn_ok e k :
  Enemy_ok e →
  let e' := (Enemy_turn e k).1 in
  en_size e' = 18 ∧ en_speed e' = ENEMY_SPEED ∧ (90 | en_direction e') ∧
  0 ≤ en_move_timer e' ≤ 120 ∧ en_color e' = RED ∧
  en_x e' = en_x e ∧ en_y e' = en_y e.
Proof.
  intros (?&?&?&?&_&_&?). unfold Enemy_turn.
  pose proof (randint_range 60 120 k). case_decide; simpl;
    split_and!; try done; try lia. apply choice_directions.
Qed.

Lemma Enemy_update_ok e k : Enemy_ok e → Enemy_ok (Enemy_update e k).1.
Proof.
  intros He. unfold Enemy_update.
  pose proof (Enemy_turn_ok e k He) as Ht.
  destruct (Enemy_turn e k) as [e' k']. simpl in *.
  destruct Ht as (?&?&?&?&?&_). by apply Enemy_bounce_ok.
Qed.

Lemma Enemy_update_draws e k :
  (Enemy_update e k).2 = S k ∨ (Enemy_update e k).2 = S (S k).
Proof.
  unfold Enemy_update, Enemy_turn. case_decide; simpl; auto.
Qed.
End Enemies.

(** ** Removal by identity *)

Section Tags.
Context {A : Type}.
Implicit Types l : list (nat * A).

Lemma list_remove_tag_sublist i l : list_remove_tag i l `sublist_of` l.
Proof.
  induction l as [|x l IH]; simpl; [done|].
  case_decide; by constructor.
Qed.

Lemma remove_tags_sublist tags l : remove_tags tags l `sublist_of` l.
Proof.
  unfold remove_tags. revert l.
  induction tags as [|i tags IH]; intros l; simpl; [done|].
  etrans; [apply IH|apply list_remove_tag_sublist].
Qed.

(** On a list without repeated objects the first occurrence is the only
    one. *)
Lemma list_remove_tag_absent i l : i ∉ l.*1 → list_remove_tag i l = l.
Proof.
  induction l as [|x l IH]; simpl; [done|].
  rewrite not_elem_of_cons. intros [??].
  rewrite decide_False by done. f_equal. auto.
Qed.

Lemma list_remove_tag_filter i l :
  NoDup l.*1 → list_remove_tag i l = filter (λ x, x.1 ≠ i) l.
Proof.
  induction l as [|x l IH]; simpl; [done|].
  rewrite list.NoDup_cons. intros [Hx Hl]. rewrite filter_cons.
  case_decide as Hi; simplify_eq.
  - rewrite decide_False by naive_solver.
    rewrite <-IH by done. by rewrite list_remove_tag_absent.
  - rewrite decide_True by done. f_equal. auto.
Qed.

Lemma remove_tags_filter tags l :
  NoDup l.*1 → remove_tags tags l = filter (λ x, x.1 ∉ tags) l.
Proof.
  unfold remove_tags. revert l.
  induction tags as [|i tags IH]; intros l Hl; cbn [foldl].
  - clear Hl. induction l as [|x l IHl]; [done|].
    rewrite filter_cons_True by apply not_elem_of_nil. by f_equal.
  - rewrite IH.
    2: { eapply sublist_NoDup; [done|].
         apply fmap_sublist, list_remove_tag_sublist. }
    rewrite list_remove_tag_filter, list_filter_filter by done.
    apply list_filter_iff. intros x. rewrite not_elem_of_cons. tauto.
Qed.

Lemma Forall_sublist (P : nat * A → Prop) l1 l2 :
  l1 `sublist_of` l2 → Forall P l2 → Forall P l1.
Proof.
  rewrite !list.Forall_forall. eauto using elem_of_sublist.
Qed.
End Tags.

(** ** The invariant of the loop *)

(** The objects of a list are distinct and were constructed before the
    tag [n]. *)
Definition tags_below {A} (n : nat) (l : list (nat * A)) : Prop :=
  NoDup l.*1 ∧ Forall (λ x, (x.1 < n)%nat) l.

Definition Bullet_ok (b : Bullet) : Prop :=
  bu_speed b = BULLET_SPEED ∧ bu_radius b = 5 ∧ (5 | bu_angle b) ∧
  bu_color b = YELLOW.

(** What holds of the state of [main] at any point of a turn. *)
Definition lesson_ok (g : LessonGame) : Prop :=
  LessonTank_ok (lg_player g) ∧
  tags_below (lg_next_tag g) (lg_bullets g) ∧
  tags_below (lg_next_tag g) (lg_enemies g) ∧
  Forall (λ b, Bullet_ok b.2) (lg_bullets g) ∧
  Forall (λ e, Enemy_ok e.2) (lg_enemies g) ∧
  lg_enemies g ≠ [] ∧ 0 ≤ lg_score g ∧ (100 | lg_score g) ∧
  lg_obstacles g = lesson_obstacles ∧ (1 ≤ lg_depth g)%nat.

(** What holds between two turns: moreover every bullet is on the screen
    and clear of the obstacles. *)
Definition lesson_wf (g : LessonGame) : Prop :=
  lesson_ok g ∧
  Forall (λ b, bullet_stays (lg_obstacles g) b.2 = true) (lg_bullets g).

Section TagLemmas.
Context {A : Type}.
Implicit Types l : list (nat * A).

Lemma tags_below_nil n : tags_below n ([] : list (nat * A)).
Proof. split; [constructor|done]. Qed.

Lemma tags_below_sublist n l1 l2 :
  l1 `sublist_of` l2 → tags_below n l2 → tags_below n l1.
Proof.
  intros Hs [??]. split; [|by eapply Forall_sublist].
  eapply sublist_NoDup; [done|]. by apply fmap_sublist.
Qed.

Lemma tags_below_mono n n' l : (n ≤ n')%nat → tags_below n l → tags_below n' l.
Proof.
  intros ? [??]. split; [done|].
  eapply list.Forall_impl; [done|]. simpl. lia.
Qed.

Lemma tags_below_snoc n l a : tags_below n l → tags_below (S n) (l ++ [(n, a)]).
Proof.
  intros [Hnd Hlt]. split.
  - rewrite fmap_app. apply list.NoDup_app. split_and!; [done| |by apply NoDup_singleton].
    intros i Hi ->%list_elem_of_singleton.
    apply list_elem_of_fmap in Hi as [x [Hn Hx]].
    rewrite list.Forall_forall in Hlt. specialize (Hlt _ Hx). simpl in *. lia.
  - apply list.Forall_app. split; [|by repeat constructor; simpl; lia].
    eapply list.Forall_impl; [done|]. simpl. lia.
Qed.

(** A list whose objects were updated in place. *)
Lemma tags_below_same n l l' : l'.*1 = l.*1 → tags_below n l → tags_below n l'.
Proof.
  intros Heq [Hnd Hlt]. split; [by rewrite Heq|].
  apply (Forall_fmap fst (λ i, (i < n)%nat)).
  rewrite Heq. by apply Forall_fmap.
Qed.
End TagLemmas.

(** ** The steps of a turn keep the invariant *)

Section Loop.
Context `{Platform, Dice}.

Lemma spawn_lesson_enemy_ok enemies tag k i :
  ∃ e, spawn_lesson_enemy (enemies, tag, k) i
       = (enemies ++ [(tag, e)], S tag, S (S (S k))) ∧ Enemy_ok e.
Proof.
  eexists. split; [reflexivity|].
  apply Enemy_init_ok; by apply randint_range.
Qed.

Lemma spawn_wave_ok enemies tag k :
  tags_below tag enemies → Forall (λ e, Enemy_ok e.2) enemies →
  ∃ new, spawn_wave enemies tag k
         = (enemies ++ new, (tag + 3)%nat, (k + 9)%nat) ∧
    length new = 3%nat ∧ tags_below (tag + 3) (enemies ++ new) ∧
    Forall (λ e, Enemy_ok e.2) (enemies ++ new).
Proof.
  intros Ht Hok. unfold spawn_wave.
  change (py_range 0 3) with [0; 1; 2]. cbn [foldl].
  destruct (spawn_lesson_enemy_ok enemies tag k 0) as (e1 & -> & ?).
  destruct (spawn_lesson_enemy_ok (enemies ++ [(tag, e1)]) (S tag)
              (S (S (S k))) 1) as (e2 & -> & ?).
  destruct (spawn_lesson_enemy_ok
              ((enemies ++ [(tag, e1)]) ++ [(S tag, e2)]) (S (S tag))
              (S (S (S (S (S (S k)))))) 2) as (e3 & -> & ?).
  exists [(tag, e1); (S tag, e2); (S (S tag), e3)].
  assert (tags_below (S (S (S tag)))
            (((enemies ++ [(tag, e1)]) ++ [(S tag, e2)]) ++ [(S (S tag), e3)]))
    as Htags by by do 3 apply tags_below_snoc.
  revert Htags. rewrite <-!app_assoc. simpl. intros Htags.
  replace (tag + 3)%nat with (S (S (S tag))) by lia.
  replace (k + 9)%nat with (S (S (S (S (S (S (S (S (S k))))))))) by lia.
  split_and!; [done..|].
  apply list.Forall_app. split; [done|].
  by repeat first [apply Forall_nil_2 | apply Forall_cons_2].
Qed.

Lemma update_enemies_fold enemies acc k :
  Forall (λ e, Enemy_ok e.2) enemies →
  ∃ new k', foldl update_enemy (acc, k) enemies = (acc ++ new, k') ∧
    new.*1 = enemies.*1 ∧ Forall (λ e, Enemy_ok e.2) new ∧ (k ≤ k')%nat.
Proof.
  revert acc k. induction enemies as [|[i e] l IH]; intros acc k Hok.
  { exists [], k. by rewrite app_nil_r. }
  apply list.Forall_cons in Hok as [He Hl]. cbn [foldl].
  unfold update_enemy at 2. simpl in *.
  pose proof (Enemy_update_ok e k He) as He'.
  pose proof (Enemy_update_draws e k) as Hk.
  destruct (Enemy_update e k) as [e' k1]. simpl in *.
  destruct (IH (acc ++ [(i, e')]) k1 Hl) as (new & k' & -> & Hi & ? & ?).
  exists ((i, e') :: new), k'. rewrite <-app_assoc. simpl.
  split_and!; [done|by f_equal|by constructor|lia].
Qed.

Lemma update_enemies_ok enemies k :
  Forall (λ e, Enemy_ok e.2) enemies →
  ∃ new k', update_enemies enemies k = (new, k') ∧
    new.*1 = enemies.*1 ∧ Forall (λ e, Enemy_ok e.2) new ∧ (k ≤ k')%nat.
Proof.
  intros Hok. destruct (update_enemies_fold enemies [] k Hok)
    as (new & k' & ? & ?). by exists new, k'.
Qed.

Lemma main_init_wf tag k depth :
  (1 ≤ depth)%nat → lesson_wf (main_init tag k depth).
Proof.
  intros ?. unfold main_init.
  destruct (spawn_wave_ok [] (S tag) k) as (new & -> & Hlen & ? & ?);
    [apply tags_below_nil|done|].
  split; [|by constructor].
  split_and!; simpl; try done.
  - apply LessonTank_init_ok.
  - apply tags_below_nil.
  - eapply tags_below_mono; [|done]. lia.
  - by destruct new.
  - by exists 0.
Qed.

Lemma lg_shoot_ok g : lesson_ok g → lesson_ok (lg_shoot g).
Proof.
  intros (Hp&?&?&?&?&?&?&?&?&?).
  split_and!; simpl; try done.
  - by apply tags_below_snoc.
  - eapply tags_below_mono; [|done]. lia.
  - apply list.Forall_app. split; [done|]. repeat constructor; simpl.
    by destruct Hp as (_&_&_&?&_).
Qed.

(** An event changes [running], or adds a bullet while the game is on. *)
Lemma lesson_event_ok g ev g' :
  lesson_ok g → lesson_event g ev = inl g' →
  lesson_ok g' ∧ lg_game_over g' = lg_game_over g ∧
  lg_depth g' = lg_depth g ∧
  (lg_game_over g = true → g' = lg_set_running g (lg_running g')).
Proof.
  intros Hok Hev. destruct ev as [|key|]; simpl in Hev.
  - simplify_eq. done.
  - destruct (lg_game_over g) eqn:Hgo.
    + simpl in Hev. rewrite andb_false_r, Hgo, andb_true_r in Hev.
      case_bool_decide; simplify_eq. split_and!; try done.
      intros _. match goal with |- ?x = _ => by destruct x end.
    + assert (lg_game_over (lg_shoot g) = false) as Hgo' by done.
      simpl in Hev. rewrite andb_true_r in Hev.
      destruct (bool_decide (key = LK_SPACE));
        rewrite ?Hgo', ?Hgo, andb_false_r in Hev; simplify_eq;
        split_and!; auto using lg_shoot_ok; done.
  - simplify_eq. split_and!; try done. by destruct g'.
Qed.

Lemma lg_set_running_twice g b b' :
  lg_set_running (lg_set_running g b) b' = lg_set_running g b'.
Proof. done. Qed.

Lemma lesson_events_ok evs g g' :
  lesson_ok g → lesson_events g evs = inl g' →
  lesson_ok g' ∧ lg_game_over g' = lg_game_over g ∧
  lg_depth g' = lg_depth g ∧
  (lg_game_over g = true → g' = lg_set_running g (lg_running g')).
Proof.
  revert g. induction evs as [|ev evs IH]; intros g Hok Hev; simpl in Hev.
  { simplify_eq. split_and!; try done. by destruct g'. }
  destruct (lesson_event g ev) as [g1|[]] eqn:Hev1; [|done].
  destruct (lesson_event_ok g ev g1 Hok Hev1) as (Hok1 & Hgo1 & Hd1 & Hsame1).
  destruct (IH g1 Hok1 Hev) as (? & Hgo & Hd & Hsame).
  split_and!; [done|congruence|congruence|].
  intros Hg. rewrite Hsame by congruence.
  rewrite (Hsame1 Hg). by rewrite lg_set_running_twice.
Qed.

Lemma Bullet_update_ok b : Bullet_ok b → Bullet_ok (Bullet_update b).
Proof. done. Qed.

Lemma bullets_update_ok n (bullets : list (nat * Bullet)) :
  tags_below n bullets → Forall (λ b, Bullet_ok b.2) bullets →
  tags_below n (prod_map id Bullet_update <$> bullets) ∧
  Forall (λ b, Bullet_ok b.2) (prod_map id Bullet_update <$> bullets).
Proof.
  intros Ht Hok. split.
  - eapply tags_below_same; [|done].
    rewrite <-list_fmap_compose. by apply list_fmap_ext.
  - apply Forall_fmap. eapply list.Forall_impl; [done|].
    intros [i b]. apply Bullet_update_ok.
Qed.

(** The part of a turn that plays establishes the invariant between the
    turns. *)
Lemma lesson_play_wf keys g : lesson_ok g → lesson_wf (lesson_play keys g).
Proof.
  intros (Hp&Hb&He&Hbok&Heok&Hne&Hs&Hd&Hobs&Hdep). unfold lesson_play.
  destruct (update_enemies_ok (lg_enemies g) (lg_rng g) Heok)
    as (en1 & k1 & -> & Htags & Hok1 & ?).
  destruct (bullets_update_ok _ _ Hb Hbok) as [Hb1 Hbok1].
  set (bullets1 := prod_map id Bullet_update <$> lg_bullets g) in *.
  set (pairs := colliding_pairs bullets1 en1).
  assert (tags_below (lg_next_tag g) (remove_tags pairs.*2 en1)) as He2
    by eauto using tags_below_sublist, remove_tags_sublist, tags_below_same.
  assert (Forall (λ e, Enemy_ok e.2) (remove_tags pairs.*2 en1)) as Hok2
    by eauto using Forall_sublist, remove_tags_sublist.
  set (en2 := remove_tags pairs.*2 en1) in *.
  set (bullets2 := filter (λ b, bullet_stays (lg_obstacles g) b.2)
                     (remove_tags pairs.*1 bullets1)).
  assert (bullets2 `sublist_of` bullets1) as Hsub
    by (etrans; [apply sublist_filter|apply remove_tags_sublist]).
  assert (Forall (λ b, bullet_stays (lg_obstacles g) b.2 = true) bullets2)
    as Hstay.
  { apply list.Forall_forall. intros b [Hb2 _]%list_elem_of_filter.
    by destruct (bullet_stays _ _). }
  assert (0 ≤ lg_score g + 100 * Z.of_nat (length pairs)
          ∧ (100 | lg_score g + 100 * Z.of_nat (length pairs))) as [??].
  { split; [lia|]. apply Z.divide_add_r; [done|]. by apply Z.divide_factor_l. }
  case_decide as Hlen.
  - destruct (spawn_wave_ok en2 (lg_next_tag g) k1 He2 Hok2)
      as (new & -> & Hnew & ? & ?).
    split; [|done]. split_and!; simpl; try done.
    + by apply lesson_held_ok.
    + eapply tags_below_mono, tags_below_sublist; [|done..]. lia.
    + by eapply Forall_sublist.
    + destruct new; [done|]. by destruct en2.
  - split; [|done]. split_and!; simpl; try done.
    + by apply lesson_held_ok.
    + by eapply tags_below_sublist.
    + by eapply Forall_sublist.
    + by destruct en2.
Qed.

(** [lesson_turn] fails only at a restart that the stack has no room
    for, and keeps the invariant otherwise. *)
Lemma lesson_turn_wf limit input g :
  lesson_wf g →
  match lesson_turn limit input g with
  | Some g' => lesson_wf g'
  | None => lesson_events g input.1 = inr () ∧ (limit ≤ lg_depth g)%nat
  end.
Proof.
  intros [Hok Hstay]. unfold lesson_turn.
  destruct (lesson_events g input.1) as [g1|[]] eqn:Hev.
  - destruct (lesson_events_ok _ _ _ Hok Hev) as (Hok1 & Hgo & _ & Hsame).
    destruct (lg_game_over g1) eqn:Hgo1; [|by apply lesson_play_wf].
    split; [done|]. rewrite Hsame by done. done.
  - case_decide; [|split; [done|lia]].
    apply main_init_wf. lia.
Qed.

Lemma lesson_run_wf limit inputs g g' :
  lesson_wf g → lesson_run limit inputs g = Some g' → lesson_wf g'.
Proof.
  revert g. induction inputs as [|input inputs IH]; intros g Hwf Hrun;
    simpl in Hrun; [by simplify_eq|].
  destruct (lg_running g); [|by simplify_eq].
  pose proof (lesson_turn_wf limit input g Hwf) as Ht.
  destruct (lesson_turn limit input g) as [g1|]; [|done].
  by apply (IH g1).
Qed.
End Loop.

(** ** The depth of the stack and the restart *)

Section Restart.
Context `{Platform, Dice}.

Lemma lesson_play_depth keys g : lg_depth (lesson_play keys g) = lg_depth g.
Proof.
  unfold lesson_play. destruct (update_enemies _ _) as [en1 k1].
  case_decide; [|done]. by destruct (spawn_wave _ _ _) as [[??]?].
Qed.

Lemma lesson_play_running keys g :
  lg_running (lesson_play keys g) = lg_running g.
Proof.
  unfold lesson_play. destruct (update_enemies _ _) as [en1 k1].
  case_decide; [|done]. by destruct (spawn_wave _ _ _) as [[??]?].
Qed.

Lemma main_init_depth tag k depth : lg_depth (main_init tag k depth) = depth.
Proof. unfold main_init. by destruct (spawn_wave _ _ _) as [[??]?]. Qed.

(** A turn leaves the depth, or adds one call at a restart. *)
Lemma lesson_turn_depth limit input g :
  lesson_wf g →
  (lg_depth g < limit)%nat →
  ∃ g', lesson_turn limit input g = Some g' ∧ lesson_wf g' ∧
    (lg_depth g' ≤ S (lg_depth g))%nat.
Proof.
  intros Hwf Hd. pose proof (lesson_turn_wf limit input g Hwf) as Ht.
  revert Ht. unfold lesson_turn.
  destruct (lesson_events g input.1) as [g1|[]] eqn:Hev.
  - destruct (lesson_events_ok _ _ _ (proj1 Hwf) Hev) as (_ & _ & Hdep & _).
    intros ?. eexists. split_and!; [done..|].
    destruct (lg_game_over g1); rewrite ?lesson_play_depth; lia.
  - rewrite decide_True by done. intros ?. eexists.
    split_and!; [done..|]. by rewrite main_init_depth.
Qed.

(** The loop runs as long as the stack has room for one restart a
    turn. *)
Lemma lesson_run_total limit inputs g :
  lesson_wf g → (lg_depth g + length inputs ≤ limit)%nat →
  ∃ g', lesson_run limit inputs g = Some g' ∧ lesson_wf g'.
Proof.
  revert g. induction inputs as [|input inputs IH]; intros g Hwf Hd;
    simpl in *; [by eauto|].
  destruct (lg_running g); [|by eauto].
  destruct (lesson_turn_depth limit input g Hwf) as (g1 & -> & ? & ?); [lia|].
  simpl. apply IH; [done|lia].
Qed.

Lemma lesson_events_restart g evs :
  lg_game_over g = true → lesson_events g (LKEYDOWN LK_r :: evs) = inr ().
Proof. intros Hgo. simpl. by rewrite Hgo. Qed.
End Restart.

#[export] Instance LessonEvent_eq_dec : EqDecision LessonEvent.
Proof. solve_decision. Defined.

(** The events of a turn on a finished game, when none is the restart
    key: only a [QUIT] has an effect. *)
Lemma lesson_events_game_over `{Platform} g evs :
  lg_game_over g = true → LKEYDOWN LK_r ∉ evs →
  lesson_events g evs
  = inl (lg_set_running g (if decide (LQUIT ∈ evs) then false else lg_running g)).
Proof.
  revert g. induction evs as [|ev evs IH]; intros g Hgo Hr.
  { cbn [lesson_events]. rewrite decide_False by apply not_elem_of_nil.
    by destruct g. }
  apply not_elem_of_cons in Hr as [Hev Hr].
  assert (lesson_event g ev = inl (if decide (ev = LQUIT)
                                   then lg_set_running g false else g)) as Hstep.
  { destruct ev as [|[]|]; simpl; rewrite ?Hgo; try done. }
  cbn [lesson_events]. rewrite Hstep.
  destruct (decide (ev = LQUIT)) as [->|Hq].
  - rewrite IH by done.
    rewrite (decide_True (P := LQUIT ∈ LQUIT :: evs)) by left.
    rewrite lg_set_running_twice. by case_decide.
  - rewrite IH by done. f_equal. f_equal.
    destruct (decide (LQUIT ∈ evs)).
    + by rewrite (decide_True (P := LQUIT ∈ ev :: evs)) by by right.
    + rewrite (decide_False (P := LQUIT ∈ ev :: evs)); [done|].
      rewrite not_elem_of_cons. naive_solver.
Qed.

(** ** The collision test *)

Section Collisions.
Implicit Types (bs : list (nat * Bullet)) (es : list (nat * Enemy)).

Lemma filter_ext_in {A} (P1 P2 : A → Prop) `{!∀ x, Decision (P1 x)}
    `{!∀ x, Decision (P2 x)} (l : list A) :
  (∀ x, x ∈ l → P1 x ↔ P2 x) → filter P1 l = filter P2 l.
Proof.
  induction l as [|x l IH]; intros Hl; [done|].
  rewrite !filter_cons, IH by (intros; apply Hl; by right).
  destruct (decide (P1 x)) as [?|Hn], (decide (P2 x)) as [?|Hn'];
    try done; [destruct Hn'|destruct Hn]; apply (Hl x); (left || done).
Qed.

Lemma NoDup_fst_inj {A} (l : list (nat * A)) x y :
  NoDup l.*1 → x ∈ l → y ∈ l → x.1 = y.1 → x = y.
Proof.
  induction l as [|z l IH]; [by intros _ ?%elem_of_nil|].
  rewrite fmap_cons, list.NoDup_cons, !elem_of_cons.
  intros [Hz Hl] [->|Hx] [->|Hy] Heq; auto.
  - destruct Hz. rewrite Heq. by apply list_elem_of_fmap_2.
  - destruct Hz. rewrite <-Heq. by apply list_elem_of_fmap_2.
Qed.

Lemma elem_of_colliding_pairs i j bs es :
  (i, j) ∈ colliding_pairs bs es ↔
  ∃ b e, b ∈ bs ∧ e ∈ es ∧ b.1 = i ∧ e.1 = j ∧ bullet_hits b.2 e.2 = true.
Proof.
  unfold colliding_pairs. rewrite list_elem_of_bind. split.
  - intros (b & (e & Hin & He)%list_elem_of_bind & Hb).
    destruct (bullet_hits b.2 e.2) eqn:Hhit; [|by apply elem_of_nil in Hin].
    apply list_elem_of_singleton in Hin. simplify_eq. by exists b, e.
  - intros (b & e & ? & ? & <- & <- & Hhit). exists b. split; [|done].
    apply list_elem_of_bind. exists e. rewrite Hhit. split; [left|done].
Qed.

(** The bullets the first removal leaves are those that overlap no
    enemy, and the enemies the second leaves are those no bullet
    overlaps. *)
Lemma remove_hit_bullets bs es :
  NoDup bs.*1 →
  remove_tags (colliding_pairs bs es).*1 bs
  = filter (λ b, Forall (λ e, bullet_hits b.2 e.2 = false) es) bs.
Proof.
  intros Hnd. rewrite remove_tags_filter by done.
  apply filter_ext_in. intros b Hb. rewrite list.Forall_forall. split.
  - intros Hno e He. apply not_true_is_false. intros Hhit. apply Hno.
    apply list_elem_of_fmap. exists (b.1, e.1). split; [done|].
    apply elem_of_colliding_pairs. by exists b, e.
  - intros Hno ([i j] & Heq & Hin)%list_elem_of_fmap.
    apply elem_of_colliding_pairs in Hin as (b' & e & ? & ? & ? & ? & Hhit).
    simpl in *. assert (b' = b) as -> by (apply (NoDup_fst_inj bs); congruence).
    by rewrite (Hno e) in Hhit.
Qed.

Lemma remove_hit_enemies bs es :
  NoDup es.*1 →
  remove_tags (colliding_pairs bs es).*2 es
  = filter (λ e, Forall (λ b, bullet_hits b.2 e.2 = false) bs) es.
Proof.
  intros Hnd. rewrite remove_tags_filter by done.
  apply filter_ext_in. intros e He. rewrite list.Forall_forall. split.
  - intros Hno b Hb. apply not_true_is_false. intros Hhit. apply Hno.
    apply list_elem_of_fmap. exists (b.1, e.1). split; [done|].
    apply elem_of_colliding_pairs. by exists b, e.
  - intros Hno ([i j] & Heq & Hin)%list_elem_of_fmap.
    apply elem_of_colliding_pairs in Hin as (b & e' & ? & ? & ? & ? & Hhit).
    simpl in *. assert (e' = e) as -> by (apply (NoDup_fst_inj es); congruence).
    by rewrite (Hno b) in Hhit.
Qed.
End Collisions.

(** * Theorems *)

Section LessonTheorems.
Context `{Platform, Dice}.

(** The player cannot leave the window: after [move_forward] or
    [move_backward] the tank of radius 20 is at least 20 pixels inside
    every edge, wherever it was before and whatever the trigonometric
    functions returned, a NaN included (which [min] and [max] replace by
    a bound); the angle is left as it was. *)
Theorem LessonTank_move_on_screen t :
  lt_size t = 20 →
  ∀ t', t' ∈ [LessonTank_move_forward t; LessonTank_move_backward t] →
    within 20 (LESSON_WINDOW_WIDTH - 20) (lt_x t') = true ∧
    within 20 (LESSON_WINDOW_HEIGHT - 20) (lt_y t') = true ∧
    lt_angle t' = lt_angle t ∧ lt_size t' = 20.
Proof.
  intros Hs t'. rewrite !elem_of_cons, elem_of_nil.
  intros [->|[->|[]]]; simpl; rewrite Hs;
    split_and!; try done; by apply clamp_within.
Qed.

(** An enemy patrols inside the window: [Enemy.update] keeps the
    radius and the speed, leaves a direction that is a multiple of 90
    degrees and a timer between 0 and 120, takes one or two draws, and
    leaves the enemy within its radius of no edge. *)
Theorem Enemy_update_patrol e k :
  Enemy_ok e →
  let '(e', k') := Enemy_update e k in
  Enemy_ok e' ∧ (k' = S k ∨ k' = S (S k)) ∧
  (en_move_timer e' = 0 ∨ en_move_timer e' = en_move_timer e + 1).
Proof.
  intros He. pose proof (Enemy_update_ok e k He) as Hok.
  pose proof (Enemy_update_draws e k) as Hk.
  assert (en_move_timer (Enemy_update e k).1 = 0 ∨
          en_move_timer (Enemy_update e k).1 = en_move_timer e + 1) as Ht.
  { unfold Enemy_update, Enemy_turn, Enemy_bounce.
    case_decide; simpl; repeat case_match; simpl; auto. }
  by destruct (Enemy_update e k).
Qed.

(** [C24] What a playing turn does to the score, the bullets and the
    enemies.  With the bullets and the enemies moved, the score grows by
    100 for each pair of a bullet and an enemy that overlap, so a bullet
    over two enemies scores twice; the bullets kept are those that
    overlap no enemy, touch no obstacle and are on the screen; the
    enemies kept are those no bullet overlaps, and when none is left
    three new ones are spawned. *)
Theorem lesson_play_collisions keys g :
  lesson_ok g →
  let bullets := prod_map id Bullet_update <$> lg_bullets g in
  let enemies := (update_enemies (lg_enemies g) (lg_rng g)).1 in
  let g' := lesson_play keys g in
  let left := filter (λ e, Forall (λ b, bullet_hits b.2 e.2 = false) bullets)
                enemies in
  lg_score g' = lg_score g
                + 100 * Z.of_nat (length (colliding_pairs bullets enemies)) ∧
  lg_bullets g' =
    filter (λ b, bullet_stays (lg_obstacles g) b.2)
      (filter (λ b, Forall (λ e, bullet_hits b.2 e.2 = false) enemies)
         bullets) ∧
  (left ≠ [] → lg_enemies g' = left) ∧
  (left = [] → length (lg_enemies g') = 3%nat).
Proof.
  intros (Hp&Hb&He&Hbok&Heok&_). simpl.
  destruct (update_enemies_ok (lg_enemies g) (lg_rng g) Heok)
    as (en1 & k1 & Hup & Htags & Hok1 & ?).
  destruct (bullets_update_ok _ _ Hb Hbok) as [[Hnd _] _].
  assert (NoDup en1.*1) as Hnd1 by (rewrite Htags; apply He).
  unfold lesson_play. rewrite Hup. simpl.
  rewrite remove_hit_bullets, remove_hit_enemies by done.
  case_decide as Hlen.
  - apply nil_length_inv in Hlen. rewrite Hlen.
    destruct (spawn_wave_ok [] (lg_next_tag g) k1) as (new & -> & ? & _);
      [apply tags_below_nil|done|].
    by split_and!.
  - split_and!; [done..|]. intros Hnil. by rewrite Hnil in Hlen.
Qed.

(** A finished game stands still: once [game_over] is set, a turn
    whose events do not include the restart key changes nothing but
    [running], which a [QUIT] clears; the fire key and the held keys are
    ignored. *)
Theorem lesson_game_over_frozen limit evs keys g :
  lg_game_over g = true → LKEYDOWN LK_r ∉ evs →
  lesson_turn limit (evs, keys) g
  = Some (lg_set_running g
            (if decide (LQUIT ∈ evs) then false else lg_running g)).
Proof.
  intros Hgo Hr. unfold lesson_turn. simpl.
  rewrite lesson_events_game_over by done. simpl. by rewrite Hgo.
Qed.


(** [C19] The invariant of the loop holds from the start of [main] on:
    whatever the events and the held keys of the turns, as long as the
    stack has room for a restart a turn the loop does not raise, and
    after it the objects are distinct, the player and every enemy are
    inside the window with their fields in range, there is at least one
    enemy, the score is a non-negative multiple of 100, and every bullet
    is on the screen and clear of the obstacles. *)
Theorem lesson_run_invariant limit inputs tag k :
  (length inputs < limit)%nat →
  ∃ g, lesson_run limit inputs (main_init tag k 1) = Some g ∧ lesson_wf g.
Proof.
  intros Hlen. apply lesson_run_total; [by apply main_init_wf|].
  rewrite main_init_depth. lia.
Qed.
End LessonTheorems.

(** * Witnesses and examples *)

(** Draws that run through the residues. *)
Definition demo_dice : Dice := {| dice := λ k, (k * 37 + 11)%nat |}.

Definition demo_lesson : LessonGame := @main_init demo_dice 0 0 1.

(** A finished game: the player was caught with 300 points. *)
Definition demo_finished : LessonGame :=
  mkLessonGame true true 300 (lg_player demo_lesson) (lg_bullets demo_lesson)
    (lg_enemies demo_lesson) lesson_obstacles (lg_next_tag demo_lesson)
    (lg_rng demo_lesson) 1.

Definition all_released : HeldKeys :=
  mkHeldKeys false false false false false false false false.

Definition forward_held : HeldKeys :=
  mkHeldKeys true false false false false false false false.

Lemma LessonTank_move_on_screen_witness :
  let t' := @LessonTank_move_forward east_platform (lg_player demo_lesson) in
  within 20 (LESSON_WINDOW_WIDTH - 20) (lt_x t') = true ∧
  within 20 (LESSON_WINDOW_HEIGHT - 20) (lt_y t') = true ∧
  lt_angle t' = lt_angle (lg_player demo_lesson) ∧ lt_size t' = 20.
Proof.
  apply (@LessonTank_move_on_screen east_platform (lg_player demo_lesson));
    [reflexivity|left].
Defined.

Lemma Enemy_update_patrol_witness :
  let e := (@Enemy_init demo_dice 100 100 0).1 in
  let '(e', k') := @Enemy_update east_platform demo_dice e 1 in
  Enemy_ok e' ∧ (k' = 2%nat ∨ k' = 3%nat) ∧
  (en_move_timer e' = 0 ∨ en_move_timer e' = en_move_timer e + 1).
Proof.
  apply (@Enemy_update_patrol east_platform demo_dice
           (@Enemy_init demo_dice 100 100 0).1 1).
  apply (@Enemy_init_ok demo_dice); unfold LESSON_WINDOW_WIDTH; lia.
Defined.

Lemma lesson_play_collisions_witness :
  let g := @lg_shoot east_platform demo_lesson in
  lg_score (@lesson_play east_platform demo_dice forward_held g)
  = lg_score g
    + 100 * Z.of_nat
        (length (colliding_pairs
                   (prod_map id (@Bullet_update east_platform) <$> lg_bullets g)
                   (@update_enemies east_platform demo_dice (lg_enemies g)
                      (lg_rng g)).1)).
Proof.
  intros g.
  assert (lesson_ok g) as Hok.
  { apply (@lg_shoot_ok east_platform), (@main_init_wf demo_dice). lia. }
  exact (proj1 (@lesson_play_collisions east_platform demo_dice forward_held
                  g Hok)).
Defined.

Lemma lesson_game_over_frozen_witness :
  @lesson_turn east_platform demo_dice 5
    ([LKEYDOWN LK_SPACE; LKEYDOWN LK_other], forward_held) demo_finished
  = Some demo_finished.
Proof.
  rewrite (@lesson_game_over_frozen east_platform demo_dice);
    [reflexivity|reflexivity|by_compute].
Defined.


Lemma lesson_run_invariant_witness :
  ∃ g, @lesson_run east_platform demo_dice 3
         [([LKEYDOWN LK_SPACE], forward_held); ([], all_released)]
         (@main_init demo_dice 0 0 1) = Some g ∧ lesson_wf g.
Proof.
  apply (@lesson_run_invariant east_platform demo_dice 3
           [([LKEYDOWN LK_SPACE], forward_held); ([], all_released)] 0 0).
  simpl. lia.
Defined.

(** The start of a game: three enemies in the top of the window, the
    player in the middle, nine draws taken. *)
Example main_init_demo :
  (λ e, (e.1, en_x e.2, en_y e.2, en_direction e.2)) <$> lg_enemies demo_lesson
  = [(1%nat, 61%float, 98%float, 90); (2%nat, 172%float, 108%float, 0);
     (3%nat, 283%float, 118%float, 270)] ∧
  lg_rng demo_lesson = 9%nat ∧ lg_next_tag demo_lesson = 8%nat ∧
  (lt_x (lg_player demo_lesson), lt_y (lg_player demo_lesson))
  = (400%float, 300%float).
Proof. by vm_compute. Qed.

(** One bullet over two enemies scores 200 and destroys both; with no
    enemy left three new ones arrive in the same turn. *)
Example double_hit_demo :
  let e := mkEnemy 300 100 18 2 0 0 RED in
  let g := mkLessonGame true false 0 (lg_player demo_lesson)
             [(7%nat, Bullet_init 290 100 0)] [(1%nat, e); (2%nat, e)]
             lesson_obstacles 8 0 1 in
  let g' := @lesson_play east_platform demo_dice all_released g in
  (lg_score g', lg_bullets g', (fst <$> lg_enemies g'), lg_game_over g')
  = (200, [], [8%nat; 9%nat; 10%nat], false).
Proof. by vm_compute. Qed.

(** A bullet whose position is not a number is never off the screen and
    overlaps nothing: no test of the loop removes it.  (No bullet of a
    run is in that position while cosine and sine are numbers; [draw]
    raises on it at [int(self.x)], see [LessonRender].) *)
Example nan_bullet_stays :
  let b := Bullet_init nan nan 0 in
  Bullet_is_off_screen b = false ∧
  bullet_stays lesson_obstacles (@Bullet_update east_platform b) = true.
Proof. by vm_compute. Qed.
