(* ===== verification/LessonRender.v ===== *)
(** * LessonRender: what the lesson game draws

    [src/lesson/tank_game.py]: the [draw] methods of [Tank], [Bullet],
    [Obstacle] and [Enemy], [draw_text], and the rendering part of the
    loop of [main].  The drawing changes nothing of the game; it raises
    when a coordinate it converts to [int] is not a number.
    [lesson_run_screen] is the loop of [main] with the frames it
    shows: a turn that restarts returns into a new call of [main] before
    it has drawn anything. *)

From stdpp Require Import strings pretty.
From S2P Require Import Prelude PyFloat Draw Lesson.
Set Warnings "-inexact-float".

(** ** The [draw] methods *)

(** [(int(self.x), int(self.y))] *)
Definition int_pos (x y : float) : option Point :=
  xi ← py_int x; yi ← py_int y; Some (xi, yi).

(** The points [int_pos] converts: both coordinates are numbers. *)
Definition numbers (x y : float) : bool := is_number x && is_number y.

(** The tip of a cannon of [length] at [angle] from [(x, y)] is a
    point. *)
Definition tip_numbers `{Platform} (x y : float) (angle length : Z) : bool :=
  numbers (step_x x angle length) (step_y y angle length).

(** [Tank.draw]: the body and the cannon, a line of length [size + 15]
    from the centre. *)
Definition LessonTank_draw `{Platform} (t : LessonTank)
    : option (list DrawCmd) :=
  center ← int_pos (lt_x t) (lt_y t);
  let cannon_length := lt_size t + 15 in
  let end_x := step_x (lt_x t) (lt_angle t) cannon_length in
  let end_y := step_y (lt_y t) (lt_angle t) cannon_length in
  tip ← int_pos end_x end_y;
  Some [Draw (Circle (lt_color t) center (lt_size t) 0);
        Draw (Line WHITE center tip 4)].

(** [Bullet.draw] *)
Definition Bullet_draw (b : Bullet) : option (list DrawCmd) :=
  center ← int_pos (bu_x b) (bu_y b);
  Some [Draw (Circle (bu_color b) center (bu_radius b) 0)].

(** [Obstacle.draw] *)
Definition Obstacle_draw (o : Obstacle) : list DrawCmd :=
  [Draw (RectP (ob_color o)
           (mkRect (rect_left o) (rect_top o) (rect_width o) (rect_height o))
           0)].

(** [Enemy.draw]: the body and a cannon of length [size + 8]. *)
Definition Enemy_draw `{Platform} (e : Enemy) : option (list DrawCmd) :=
  center ← int_pos (en_x e) (en_y e);
  let end_x := step_x (en_x e) (en_direction e) (en_size e + 8) in
  let end_y := step_y (en_y e) (en_direction e) (en_size e + 8) in
  tip ← int_pos end_x end_y;
  Some [Draw (Circle (en_color e) center (en_size e) 0);
        Draw (Line WHITE center tip 3)].

(** [draw_text(surface, text, x, y, color, size)] *)
Definition draw_text (text : string) (x y : Z) (color : Z * Z * Z) (size : Z)
    : list DrawCmd :=
  [Blit (Text size text color) (TopLeft (x, y)) None].

(** ** The rendering part of the loop *)

(** Step 3 of the loop of [main]: the background, the obstacles, the
    bullets, the enemies, the player, the score and the controls, the
    three lines of a finished game, and the flip. *)
Definition lesson_render `{Platform} (g : LessonGame)
    : option (list DrawCmd) :=
  bullets ← mapM (λ tb, Bullet_draw tb.2) (lg_bullets g);
  enemies ← mapM (λ te, Enemy_draw te.2) (lg_enemies g);
  player ← LessonTank_draw (lg_player g);
  Some ([Draw (Fill BLACK)] ++
        mjoin (Obstacle_draw <$> lg_obstacles g) ++
        mjoin bullets ++ mjoin enemies ++ player ++
        draw_text ("Score: " +:+ pretty (lg_score g)) 10 10 WHITE 24 ++
        draw_text "WASD/Arrows: Move | SPACE: Shoot" 10
          (LESSON_WINDOW_HEIGHT - 30) WHITE 24 ++
        (if lg_game_over g then
           draw_text "GAME OVER" (LESSON_WINDOW_WIDTH `div` 2 - 80)
             (LESSON_WINDOW_HEIGHT `div` 2 - 20) RED 48 ++
           draw_text ("Final Score: " +:+ pretty (lg_score g))
             (LESSON_WINDOW_WIDTH `div` 2 - 70)
             (LESSON_WINDOW_HEIGHT `div` 2 + 30) WHITE 24 ++
           draw_text "Press R to Restart" (LESSON_WINDOW_WIDTH `div` 2 - 80)
             (LESSON_WINDOW_HEIGHT `div` 2 + 60) WHITE 24
         else []) ++
        [Flip]).

(** One turn of [while running:] with what it shows.  A restart returns
    into a new call of [main] from inside the event loop: the turn shows
    no frame. *)
Definition lesson_turn_screen `{Platform, Dice} (limit : nat)
    (input : list LessonEvent * HeldKeys) (g : LessonGame)
    : option (LessonGame * option (list DrawCmd)) :=
  match lesson_events g input.1 with
  | inr tt =>
      if decide (lg_depth g < limit)%nat
      then Some (main_init (lg_next_tag g) (lg_rng g) (S (lg_depth g)), None)
      else None
  | inl g =>
      let g := if lg_game_over g then g else lesson_play input.2 g in
      frame ← lesson_render g; Some (g, Some frame)
  end.

(** The loop of [main] with the frames it shows. *)
Fixpoint lesson_run_screen `{Platform, Dice} (limit : nat)
    (inputs : list (list LessonEvent * HeldKeys)) (g : LessonGame)
    : option (LessonGame * list (list DrawCmd)) :=
  match inputs with
  | [] => Some (g, [])
  | input :: inputs =>
      if lg_running g then
        '(g, frame) ← lesson_turn_screen limit input g;
        '(g', frames) ← lesson_run_screen limit inputs g;
        Some (g', option_list frame ++ frames)
      else Some (g, [])
  end.

(** ** Lemmas *)

Section LessonRenderLemmas.
Context `{Platform, Dice}.
Implicit Types (g : LessonGame) (t : LessonTank) (b : Bullet) (e : Enemy).
Implicit Types (cmds : list DrawCmd).

Lemma int_pos_is_Some x y : is_Some (int_pos x y) ↔ numbers x y = true.
Proof.
  unfold int_pos, numbers. rewrite andb_true_iff, <- !py_int_is_Some.
  destruct (py_int x), (py_int y); simpl; split;
    try (intros [[??] [??]] || intros [??]); done || eauto.
Qed.

Lemma within_numbers lo hi lo' hi' x y :
  within lo hi x = true → within lo' hi' y = true →
  forallb (λ z, is_number (Z2F z)) [lo; hi; lo'; hi'] = true →
  numbers x y = true.
Proof.
  unfold within, numbers. simpl. rewrite !andb_true_iff.
  intros [??] [??] (?&?&?&?&_). split; by eapply between_is_number.
Qed.

(** When the [draw] methods return. *)
Lemma LessonTank_draw_is_Some t :
  is_Some (LessonTank_draw t) ↔
  numbers (lt_x t) (lt_y t) = true ∧
  tip_numbers (lt_x t) (lt_y t) (lt_angle t) (lt_size t + 15) = true.
Proof.
  unfold LessonTank_draw, tip_numbers. rewrite <- !int_pos_is_Some.
  destruct (int_pos (lt_x t) _), (int_pos (step_x _ _ _) _); simpl;
    split; try (intros [[??] [??]] || intros [??]); done || eauto.
Qed.

Lemma Enemy_draw_is_Some e :
  is_Some (Enemy_draw e) ↔
  numbers (en_x e) (en_y e) = true ∧
  tip_numbers (en_x e) (en_y e) (en_direction e) (en_size e + 8) = true.
Proof.
  unfold Enemy_draw, tip_numbers. rewrite <- !int_pos_is_Some.
  destruct (int_pos (en_x e) _), (int_pos (step_x _ _ _) _); simpl;
    split; try (intros [[??] [??]] || intros [??]); done || eauto.
Qed.

Lemma Enemy_draw_is_Some_ok e :
  Enemy_ok e →
  is_Some (Enemy_draw e) ↔
  numbers (en_x e) (en_y e) = true ∧
  tip_numbers (en_x e) (en_y e) (en_direction e) 26 = true.
Proof. intros (Hs&_). by rewrite Enemy_draw_is_Some, Hs. Qed.

Lemma Bullet_draw_is_Some b :
  is_Some (Bullet_draw b) ↔ numbers (bu_x b) (bu_y b) = true.
Proof.
  unfold Bullet_draw. rewrite <- int_pos_is_Some.
  destruct (int_pos _ _); simpl; split; try intros [??]; done || eauto.
Qed.

Lemma lesson_render_is_Some g :
  is_Some (lesson_render g) ↔
  Forall (λ tb, is_Some (Bullet_draw tb.2)) (lg_bullets g) ∧
  Forall (λ te, is_Some (Enemy_draw te.2)) (lg_enemies g) ∧
  is_Some (LessonTank_draw (lg_player g)).
Proof.
  pose proof (mapM_is_Some (λ tb, Bullet_draw tb.2) (lg_bullets g)) as Hb.
  pose proof (mapM_is_Some (λ te, Enemy_draw te.2) (lg_enemies g)) as He.
  unfold compose in Hb, He. rewrite <- Hb, <- He. unfold lesson_render.
  destruct (mapM _ (lg_bullets g)), (mapM _ (lg_enemies g)),
    (LessonTank_draw _); cbn [mbind option_bind]; split;
    try (intros ([??]&[??]&[??]) || intros [??]); done || eauto.
Qed.

(** [lesson_draw_ok] closes the well-formedness of a list of commands
    that is given in full. *)
Ltac lesson_draw_ok :=
  repeat first [apply Forall_nil_2 | apply Forall_cons_2 | apply Forall_app_2];
  simpl; split_and?; auto; lia.

Lemma LessonTank_draw_ok t cmds :
  LessonTank_ok t → LessonTank_draw t = Some cmds → Forall DrawCmd_ok cmds.
Proof.
  intros (Hs&_&_&_&_&_&Hc). unfold LessonTank_draw. intros Hd. bind_inv Hd.
  subst. rewrite Hs, Hc. lesson_draw_ok.
Qed.

Lemma Bullet_draw_ok b cmds :
  Bullet_ok b → Bullet_draw b = Some cmds → Forall DrawCmd_ok cmds.
Proof.
  intros (_&Hr&_&Hc). unfold Bullet_draw. intros Hd. bind_inv Hd.
  subst. rewrite Hr, Hc. lesson_draw_ok.
Qed.

Lemma Enemy_draw_ok e cmds :
  Enemy_ok e → Enemy_draw e = Some cmds → Forall DrawCmd_ok cmds.
Proof.
  intros (Hs&_&_&_&_&_&Hc). unfold Enemy_draw. intros Hd. bind_inv Hd.
  subst. rewrite Hs, Hc. lesson_draw_ok.
Qed.

Lemma lesson_obstacles_draw_ok :
  Forall DrawCmd_ok (mjoin (Obstacle_draw <$> lesson_obstacles)).
Proof. by_compute. Qed.

Lemma draw_text_ok text x y color size :
  0 < size → Color_ok color → Forall DrawCmd_ok (draw_text text x y color size).
Proof. intros. by apply Forall_singleton. Qed.

(** What a rendering that succeeds did. *)
Lemma lesson_render_inv g cmds :
  lesson_render g = Some cmds →
  ∃ bullets enemies player,
    mapM (λ tb, Bullet_draw tb.2) (lg_bullets g) = Some bullets ∧
    mapM (λ te, Enemy_draw te.2) (lg_enemies g) = Some enemies ∧
    LessonTank_draw (lg_player g) = Some player ∧
    ∃ ui, cmds = [Draw (Fill BLACK)] ++
                 mjoin (Obstacle_draw <$> lg_obstacles g) ++
                 mjoin bullets ++ mjoin enemies ++ player ++ ui ∧
          Forall DrawCmd_ok ui ∧ list.last ui = Some Flip.
Proof.
  unfold lesson_render. intros Hr.
  destruct (mapM _ (lg_bullets g)) as [bs|]; [|done].
  destruct (mapM _ (lg_enemies g)) as [es|]; [|done].
  destruct (LessonTank_draw _) as [pl|]; [|done].
  cbn [mbind option_bind] in Hr. injection Hr as <-.
  exists bs, es, pl. split_and!; try done. eexists.
  split; [reflexivity|].
  destruct (lg_game_over g); (split; [|reflexivity]); unfold draw_text;
    repeat first [apply Forall_nil_2 | apply Forall_cons_2 | apply Forall_app_2];
    cbn [DrawCmd_ok Color_ok WHITE RED]; lia.
Qed.

Lemma lesson_render_ok g cmds :
  lesson_ok g → lesson_render g = Some cmds → Forall DrawCmd_ok cmds.
Proof.
  intros (Hp&_&_&Hb&He&_&_&_&Ho&_).
  intros (bs&es&pl&Hbs&Hes&Hpl&ui&->&Hui&_)%lesson_render_inv.
  rewrite Ho. apply Forall_app_2; [by apply Forall_singleton|].
  apply Forall_app_2; [apply lesson_obstacles_draw_ok|].
  apply Forall_app_2.
  { eapply mapM_Forall_join; [exact Hbs|].
    eapply list.Forall_impl; [exact Hb|]. intros x Hx y Hy. exact (Bullet_draw_ok _ _ Hx Hy). }
  apply Forall_app_2.
  { eapply mapM_Forall_join; [exact Hes|].
    eapply list.Forall_impl; [exact He|]. intros x Hx y Hy. exact (Enemy_draw_ok _ _ Hx Hy). }
  apply Forall_app_2; [by eapply LessonTank_draw_ok|done].
Qed.

(** The loop with its frames runs as the loop without. *)
Lemma lesson_turn_screen_turn limit input g g' frame :
  lesson_turn_screen limit input g = Some (g', frame) →
  lesson_turn limit input g = Some g' ∧
  match frame with
  | Some cmds => lesson_render g' = Some cmds
  | None => lesson_events g input.1 = inr tt
  end.
Proof.
  unfold lesson_turn_screen, lesson_turn.
  destruct (lesson_events g input.1) as [g1|[]].
  - intros Hf. bind_inv Hf. by simplify_eq.
  - case_decide; [|done]. by intros [= <- <-].
Qed.

Lemma lesson_run_screen_run limit inputs g g' frames :
  lesson_run_screen limit inputs g = Some (g', frames) →
  lesson_run limit inputs g = Some g'.
Proof.
  revert g g' frames.
  induction inputs as [|input inputs IH]; intros g g' frames; simpl.
  { by intros [= <- <-]. }
  destruct (lg_running g); [|by intros [= <- <-]].
  intros Hr. bind_inv Hr. simplify_eq.
  match goal with
  | E : lesson_turn_screen _ _ _ = Some _ |- _ =>
      apply lesson_turn_screen_turn in E as [-> _]
  end.
  simpl. by eapply IH.
Qed.

Lemma lesson_run_screen_ok limit inputs g g' frames :
  lesson_wf g → lesson_run_screen limit inputs g = Some (g', frames) →
  lesson_wf g' ∧ Forall (Forall DrawCmd_ok) frames ∧
  (length frames ≤ length inputs)%nat.
Proof.
  revert g g' frames.
  induction inputs as [|input inputs IH]; intros g g' frames Hwf; simpl.
  { intros [= <- <-]. by split_and!. }
  destruct (lg_running g); [|intros [= <- <-]; split_and!; [done..|simpl; lia]].
  intros Hr. bind_inv Hr. simplify_eq.
  match goal with
  | E : lesson_turn_screen _ _ _ = Some _ |- _ =>
      apply lesson_turn_screen_turn in E as [Ht Hf]
  end.
  pose proof (lesson_turn_wf limit input g Hwf) as Hwf1. rewrite Ht in Hwf1.
  match goal with
  | E : lesson_run_screen _ _ _ = Some _ |- _ =>
      destruct (IH _ _ _ Hwf1 E) as (?&?&?)
  end.
  split_and!; [done| |rewrite length_app; destruct o; simpl; lia].
  apply Forall_app_2; [|done]. destruct o as [cmds|]; [|constructor].
  apply Forall_singleton. eapply lesson_render_ok; [apply Hwf1|done].
Qed.
End LessonRenderLemmas.

(** * The theorems on the frames of the lesson *)

Section LessonRenderTheorems.
Context `{Platform, Dice}.

(** A frame of the lesson is a list of calls pygame accepts: it starts
    with the black background and ends with the flip, and every circle,
    line, rectangle and text between them has a valid colour and a size
    that is not negative. *)
Theorem lesson_render_well_formed g cmds :
  lesson_ok g → lesson_render g = Some cmds →
  Forall DrawCmd_ok cmds ∧ head cmds = Some (Draw (Fill BLACK)) ∧
  list.last cmds = Some Flip.
Proof.
  intros Hok Hr. split; [by eapply lesson_render_ok|].
  apply lesson_render_inv in Hr as (bs&es&pl&_&_&_&ui&->&_&Hlast).
  split; [done|]. by rewrite !last_app, Hlast.
Qed.

(** [C28] The rendering of a turn raises only on a bullet, on an enemy or on the
    tip of the player's cannon: it returns exactly when every bullet and
    every enemy is at a point whose coordinates are numbers and the tips of
    the cannons are.  The body of the player is always drawn, because the
    player is kept inside the window. *)
Theorem lesson_render_defined g :
  lesson_ok g →
  is_Some (lesson_render g) ↔
  Forall (λ tb, numbers (bu_x tb.2) (bu_y tb.2) = true) (lg_bullets g) ∧
  Forall (λ te, numbers (en_x te.2) (en_y te.2) = true ∧
                tip_numbers (en_x te.2) (en_y te.2) (en_direction te.2) 26
                = true) (lg_enemies g) ∧
  tip_numbers (lt_x (lg_player g)) (lt_y (lg_player g))
    (lt_angle (lg_player g)) 35 = true.
Proof.
  intros ((Hs&_&_&_&Hx&Hy&_)&_&_&_&He&_).
  rewrite lesson_render_is_Some, LessonTank_draw_is_Some, Hs.
  rewrite (within_numbers _ _ _ _ _ _ Hx Hy) by by_compute.
  change (20 + 15) with 35.
  rewrite (Forall_iff _ _ _ (λ tb, Bullet_draw_is_Some tb.2)).
  rewrite (Forall_iff_in _ _ _ _ He (λ te, Enemy_draw_is_Some_ok te.2)).
  tauto.
Qed.

End LessonRenderTheorems.

(** * Witnesses and examples *)

Definition demo_turns : list (list LessonEvent * HeldKeys) :=
  [([LKEYDOWN LK_SPACE], forward_held); ([], all_released)].

(** The finished game with a bullet that is not a number. *)
Definition demo_nan_bullet : LessonGame :=
  mkLessonGame true true 300 (lg_player demo_lesson)
    [(7%nat, Bullet_init nan 100 0)]
    (lg_enemies demo_lesson) lesson_obstacles (lg_next_tag demo_lesson)
    (lg_rng demo_lesson) 1.

Lemma lesson_render_well_formed_witness :
  match @lesson_render east_platform demo_lesson with
  | Some cmds =>
      Forall DrawCmd_ok cmds ∧ head cmds = Some (Draw (Fill BLACK)) ∧
      list.last cmds = Some Flip
  | None => False
  end.
Proof.
  destruct (@lesson_render east_platform demo_lesson) as [cmds|] eqn:Hr;
    [|by vm_compute in Hr].
  apply (@lesson_render_well_formed east_platform demo_lesson cmds);
    [|exact Hr].
  apply (@main_init_wf demo_dice). lia.
Defined.

Lemma lesson_render_defined_witness :
  is_Some (@lesson_render east_platform demo_lesson) ↔
  Forall (λ tb, numbers (bu_x tb.2) (bu_y tb.2) = true)
    (lg_bullets demo_lesson) ∧
  Forall (λ te, numbers (en_x te.2) (en_y te.2) = true ∧
                @tip_numbers east_platform (en_x te.2) (en_y te.2)
                  (en_direction te.2) 26 = true) (lg_enemies demo_lesson) ∧
  @tip_numbers east_platform (lt_x (lg_player demo_lesson))
    (lt_y (lg_player demo_lesson)) (lt_angle (lg_player demo_lesson)) 35
  = true.
Proof.
  apply (@lesson_render_defined east_platform demo_lesson).
  apply (@main_init_wf demo_dice). lia.
Defined.


(** The first frame of a game has sixteen calls: the background, four
    obstacles, three enemies of two calls, the two of the player, two
    texts and the flip.  A finished game shows three texts more, and a
    restart shows no frame of the game that ends. *)
Example lesson_frame_demo :
  length <$> @lesson_render east_platform demo_lesson = Some 16%nat ∧
  length <$> @lesson_render east_platform demo_finished = Some 19%nat ∧
  snd <$> @lesson_turn_screen east_platform demo_dice 2
            ([LKEYDOWN LK_r], all_released) demo_finished = Some None.
Proof. split_and!; by vm_compute. Qed.

(** The score is shown in decimal. *)
Example lesson_score_demo :
  draw_text ("Score: " +:+ pretty (lg_score demo_finished)) 10 10 WHITE 24
  = [Blit (Text 24 "Score: 300" WHITE) (TopLeft (10, 10)) None].
Proof. by vm_compute. Qed.

(** A bullet whose position is not a number stays in the game, since
    every comparison with it fails, and the frame that draws it raises. *)
Example lesson_nan_bullet_raises :
  Forall (λ b, bullet_stays lesson_obstacles b.2 = true)
    (lg_bullets demo_nan_bullet) ∧
  @lesson_render east_platform demo_nan_bullet = None.
Proof. split; [by_compute|by vm_compute]. Qed.

